(** * Virtual Career Counselor: the flat-file data-access layer (aws_client.py)

    A shallow embedding of the [AwsClient] methods that read the JSON store,
    change it in memory and write it back, together with the properties the
    design specification states about them.

    Conventions of the embedding.
    - A JSON value is a [json]; Python's [None] is [JNull].  Stored numbers
      are integers (xp, level, streak, counts, scores and variants all are).
    - A Python dict is an association list in insertion order with unique
      keys; [dict_set] replaces in place or appends, as [d[k] = v] does.
    - A Python exception (TypeError, AttributeError, KeyError, ValueError)
      is [None] of the error monad: the request fails.
    - Every [_read_store] parses the file afresh, so two reads never share
      objects; a method that keeps the document of an earlier read and
      writes it back after a nested call has written overwrites that call's
      work.  The model keeps this by threading the file, not the objects.
    - uuid4, the clocks and the two library parsers ([int] on text,
      [datetime.fromisoformat]) are read from an [oracle]. *)

From Stdlib Require Import ZArith List String Ascii Bool Lia.
From Stdlib Require Import DecimalString SpecFloat.
From Stdlib Require Import Sorting.Sorted Sorting.Permutation.
Import ListNotations.

Local Open Scope string_scope.
Local Open Scope Z_scope.
Local Open Scope list_scope.

(* ===================================================================== *)
(** ** JSON values and the Python operations the code applies to them    *)
(* ===================================================================== *)

#[warnings="-register-all"]
Inductive json : Type :=
| JNull
| JBool (b : bool)
| JInt (n : Z)
| JStr (s : string)
| JList (xs : list json)
| JDict (kvs : list (string * json)).

Definition dict := list (string * json).

(** [bool(x)] *)
Definition truthy (x : json) : bool :=
  match x with
  | JNull => false
  | JBool b => b
  | JInt n => negb (n =? 0)
  | JStr s => negb (String.eqb s "")
  | JList xs => match xs with [] => false | _ => true end
  | JDict kvs => match kvs with [] => false | _ => true end
  end.

Fixpoint dict_get (d : dict) (k : string) : option json :=
  match d with
  | [] => None
  | (k', v) :: d' => if String.eqb k' k then Some v else dict_get d' k
  end.

(** [d[k] = v]: an existing key keeps its place, a new one goes last. *)
Fixpoint dict_set (d : dict) (k : string) (v : json) : dict :=
  match d with
  | [] => [(k, v)]
  | (k', v') :: d' =>
      if String.eqb k' k then (k', v) :: d' else (k', v') :: dict_set d' k v
  end.

(** [d.update(e)] *)
Definition dict_update (d e : dict) : dict :=
  fold_left (fun acc kv => dict_set acc (fst kv) (snd kv)) e d.

Definition dict_has (d : dict) (k : string) : bool :=
  match dict_get d k with Some _ => true | None => false end.

(** [isinstance(x, dict)] *)
Definition is_dict (x : json) : bool :=
  match x with JDict _ => true | _ => false end.

(** [x == s] for a Python [str] s: only an equal string compares equal. *)
Definition eq_str (x : json) (s : string) : bool :=
  match x with JStr t => String.eqb t s | _ => false end.

(** A number as Python arithmetic sees it ([bool] is a subclass of [int]). *)
Definition as_int (x : json) : option Z :=
  match x with
  | JInt n => Some n
  | JBool b => Some (if b then 1 else 0)
  | _ => None
  end.

(** ** Errors: the [option] monad *)

Definition obind {A B} (o : option A) (f : A -> option B) : option B :=
  match o with Some a => f a | None => None end.

(** [x.get(k)] and [x.get(k, dflt)]: AttributeError unless x is a dict. *)
Definition py_get_or (x : json) (k : string) (dflt : json) : option json :=
  match x with
  | JDict d => Some (match dict_get d k with Some v => v | None => dflt end)
  | _ => None
  end.

Definition py_get (x : json) (k : string) : option json := py_get_or x k JNull.

(** [x[k]] for a string key: KeyError when absent, TypeError off a dict. *)
Definition py_item (x : json) (k : string) : option json :=
  match x with
  | JDict d => dict_get d k
  | _ => None
  end.

(** [x[k] = v] *)
Definition py_setitem (x : json) (k : string) (v : json) : option json :=
  match x with
  | JDict d => Some (JDict (dict_set d k v))
  | _ => None
  end.

Fixpoint chars (s : string) : list json :=
  match s with
  | EmptyString => []
  | String c s' => JStr (String c EmptyString) :: chars s'
  end.

(** [for u in x]: a list gives its items, a dict its keys, a string its
    characters; anything else is not iterable. *)
Definition py_iter (x : json) : option (list json) :=
  match x with
  | JList xs => Some xs
  | JDict d => Some (map (fun kv => JStr (fst kv)) d)
  | JStr s => Some (chars s)
  | _ => None
  end.

(** [[u for u in xs if p(u)]] where the test may raise. *)
Fixpoint filterM (p : json -> option bool) (xs : list json) : option (list json) :=
  match xs with
  | [] => Some []
  | x :: xs' =>
      obind (p x) (fun b =>
      obind (filterM p xs') (fun r =>
      Some (if b then x :: r else r)))
  end.

(** [k in x] for a string key k and a dict x (the only use in the code);
    a list or string operand is outside the model and counted as an error. *)
Definition py_in (k : string) (x : json) : option bool :=
  match x with
  | JDict d => Some (dict_has d k)
  | _ => None
  end.

(** [x.append(v)] *)
Definition py_append (x v : json) : option json :=
  match x with
  | JList xs => Some (JList (xs ++ [v]))
  | _ => None
  end.

(** [str(n)] for an integer *)
Definition str_of_Z (n : Z) : string := NilZero.string_of_int (Z.to_int n).


(** [a == b] on JSON values: numbers by value (True == 1), lists item by
    item, dicts key by key whatever the order. *)
Fixpoint py_eq (a b : json) {struct a} : bool :=
  match a, b with
  | JNull, JNull => true
  | JStr s, JStr t => String.eqb s t
  | JList xs, JList ys =>
      (fix items (xs ys : list json) {struct xs} : bool :=
         match xs, ys with
         | [], [] => true
         | x :: xs', y :: ys' => py_eq x y && items xs' ys'
         | _, _ => false
         end) xs ys
  | JDict d, JDict e =>
      Nat.eqb (List.length d) (List.length e) &&
      (fix keys (d : dict) {struct d} : bool :=
         match d with
         | [] => true
         | (k, v) :: d' =>
             match dict_get e k with
             | Some v' => py_eq v v'
             | None => false
             end && keys d'
         end) d
  | JBool x, JBool y => Bool.eqb x y
  | JBool x, JInt n => (if x then 1 else 0) =? n
  | JInt n, JBool y => n =? (if y then 1 else 0)
  | JInt m, JInt n => m =? n
  | _, _ => false
  end.

(** *** Text *)

Definition lower_ascii (c : ascii) : ascii :=
  let n := nat_of_ascii c in
  if (Nat.leb 65 n && Nat.leb n 90)%bool then ascii_of_nat (n + 32) else c.

(** [s.lower()], on ASCII letters: the letters A to Z are lowered, every
    other byte is kept, which is [str.lower] on ASCII text.  The functions
    that lower text of any script, [list_jobs] and [find_mentors], take
    [str.lower] itself, as [str_lower]. *)
Fixpoint lower (s : string) : string :=
  match s with
  | EmptyString => EmptyString
  | String c s' => String (lower_ascii c) (lower s')
  end.

(** [needle in hay] for two strings. *)
Fixpoint contains (needle hay : string) : bool :=
  if String.prefix needle hay then true
  else match hay with
       | EmptyString => false
       | String _ hay' => contains needle hay'
       end.

(** *** Floating point, as [int((correct / total) * 100)] needs it *)

Definition float_of_Z (n : Z) : spec_float := binary_normalize 53 1024 n 0 false.

(** [int(x)]: truncation toward zero; infinities and NaN raise. *)
Definition int_of_float (x : spec_float) : option Z :=
  match x with
  | S754_zero _ => Some 0
  | S754_finite s m e =>
      let a := if 0 <=? e then Zpos m * 2 ^ e else Zpos m / 2 ^ (- e) in
      Some (if s then - a else a)
  | S754_infinity _ | S754_nan => None
  end.

(** [int((correct / max(1, total)) * 100)] *)
Definition py_score (correct : Z) (total : nat) : option Z :=
  int_of_float
    (SFmul 53 1024
       (SFdiv 53 1024 (float_of_Z correct) (float_of_Z (Z.max 1 (Z.of_nat total))))
       (float_of_Z 100)).

(** [x or y] *)
Definition py_or (x y : json) : json := if truthy x then x else y.

(** A value that must be a [str] (for [.lower()], [.upper()]). *)
Definition as_str (x : json) : option string :=
  match x with JStr s => Some s | _ => None end.

(* ===================================================================== *)
(** ** The quiz table of [_sample_quiz]                                  *)
(* ===================================================================== *)

(** Grading reads the id and the answer index of a question; title, text
    and choices are display text and are left out. *)
Record question : Type := mkQ { qid : string; answer : Z }.

Definition quiz : Type := list question.

(** Every quiz of the source numbers its questions q1, q2, ... in order. *)
Fixpoint numbered (i : nat) (answers : list Z) : quiz :=
  match answers with
  | [] => []
  | a :: rest => mkQ ("q" ++ NilZero.string_of_uint (Nat.to_uint i))%string a :: numbered (S i) rest
  end.

Definition Q (answers : list Z) : quiz := numbered 1 answers.

Definition quizzes : list (string * list (string * list quiz)) :=
  [ ("teacher",
      [ ("basic", [Q [1;1;1;1;1]; Q [1;1;1;1;1]; Q [1;1;1;1;1]; Q [1;1;1;1;1]; Q [1;1;1;1;1]]);
        ("intermediate", [Q [1;1;1;1]; Q [1;1;1;1]; Q [1;1;1;1]; Q [1;1;1;1]; Q [1;1;1;1]]);
        ("advanced", [Q [1;1;1;1]; Q [1;1;1;1]; Q [1;1;1;1]]) ]);
    ("software engineer",
      [ ("basic", [Q [0;1;0;1;1;1]; Q [1;1;1;1;1;1]; Q [1;1;0;1;0;1]; Q [1;1;1;1;1;1]; Q [0;1;1;1;1;1]]);
        ("intermediate", [Q [1;1;1;1;1]; Q [1;1;1;1;1]; Q [1;1;1;1;1]; Q [1;1;1;1;1]; Q [1;1;1;1;1]]);
        ("advanced", [Q [1;1;1;1]; Q [1;1;1;1]; Q [1;1;1;1]]) ]);
    ("data analyst",
      [ ("basic", [Q [1;1;1;1;1;1]; Q [1;1;1;1;1;1]; Q [1;1;1;1;1;1]; Q [1;1;1;1;1;1]; Q [1;1;1;1;1;1]]);
        ("intermediate", [Q [1;1;1;1;1]; Q [1;1;1;1;1]; Q [1;1;1;1;1]; Q [1;1;1;1;1]; Q [1;1;1;1;1]]);
        ("advanced", [Q [1;1;1;1]; Q [1;1;1;1]; Q [1;1;1;1]]) ]);
    ("ux designer",
      [ ("basic", [Q [0;1;1;1;1;1]; Q [1;1;1;1;1;1]; Q [1;1;1;1;1;1]; Q [1;1;1;1;1;1]; Q [1;1;1;1;1;1]]);
        ("intermediate", [Q [1;1;1;1;1]; Q [1;1;1;1;1]; Q [1;1;1;1;1]; Q [1;1;1;1;1]; Q [1;1;1;1;1]]);
        ("advanced", [Q [1;1;1;1]; Q [1;1;1;1]; Q [1;1;1;1]]) ]);
    ("product manager",
      [ ("basic", [Q [1;1;1;1;1;1]; Q [1;1;1;1;1;1]; Q [1;1;1;1;1;1]; Q [1;1;1;1;1;1]; Q [1;1;1;1;1;1]]);
        ("intermediate", [Q [1;1;1;1;1]; Q [1;1;1;1;1]; Q [1;1;1;1;1]; Q [1;1;1;1;1]; Q [1;1;1;1;1]]);
        ("advanced", [Q [1;1;1;1]; Q [1;1;1;1]; Q [1;1;1;1]]) ]) ].

(** The default/generic fallback quiz. *)
Definition generic_quiz : quiz := Q [0;0;1;1;1].

Fixpoint assoc {A} (k : string) (l : list (string * A)) : option A :=
  match l with
  | [] => None
  | (k', v) :: l' => if String.eqb k' k then Some v else assoc k l'
  end.

(** [quiz_list[(variant - 1) % len(quiz_list)]] *)
Definition pick (quiz_list : list quiz) (variant : json) : option quiz :=
  obind (as_int variant) (fun v =>
  nth_error quiz_list (Z.to_nat ((v - 1) mod Z.of_nat (List.length quiz_list)))).

(** [_sample_quiz] *)
Definition _sample_quiz (role level variant : json) : option quiz :=
  obind (as_str (py_or role (JStr "default"))) (fun role =>
  let role := lower role in
  obind (as_str (py_or level (JStr "basic"))) (fun level =>
  let level := lower level in
  let variant := py_or variant (JInt 1) in
  let role_key :=
    match find (fun kv => contains (fst kv) role || contains role (fst kv)) quizzes with
    | Some (key, _) => key
    | None => role
    end in
  match assoc role_key quizzes with
  | Some levels =>
      match assoc level levels with
      | Some quiz_list => pick quiz_list variant
      | None =>
          match levels with
          | (_, quiz_list) :: _ => pick quiz_list variant
          | [] => Some generic_quiz
          end
      end
  | None => Some generic_quiz
  end)).

(** [qid in answers_map] *)
Definition answered (qid : string) (answers_map : json) : option bool :=
  match answers_map with
  | JDict d => Some (dict_has d qid)
  | JList xs => Some (existsb (py_eq (JStr qid)) xs)
  | JStr s => Some (contains qid s)
  | _ => None
  end.

(* ===================================================================== *)
(** ** The activity templates of [create_activities_for_role]            *)
(* ===================================================================== *)

(** [s.split()] on blanks. *)
Fixpoint split_from (cur : string) (s : string) : list string :=
  match s with
  | EmptyString => if String.eqb cur "" then [] else [cur]
  | String c s' =>
      if Ascii.eqb c " "%char
      then (if String.eqb cur "" then split_from "" s' else cur :: split_from "" s')
      else split_from (cur ++ String c EmptyString)%string s'
  end.

Definition split (s : string) : list string := split_from "" s.

Definition quiz_roles : list string :=
  ["teacher"; "software engineer"; "data analyst"; "ux designer";
   "product manager"; "marketing"; "graphic designer"].

(** The loop that normalises the role to a quiz role. *)
Definition normalize_role (role : string) : string :=
  match find (fun quiz_role =>
                contains (hd "" (split quiz_role)) role
                || existsb (fun word => contains word role) (split quiz_role))
             quiz_roles with
  | Some quiz_role => quiz_role
  | None => role
  end.

(** The three tasks of a role, each a title and a detail. *)
Definition tasks_for (role : string) : list (string * string) :=
  let has w := contains w role in
  if has "teacher" then
    [("Read curriculum guides", "Study current curriculum standards for your grade");
     ("Prepare 3 lesson plans", "Create scaffolded lesson plans with assessments");
     ("Join teacher forum", "Participate in a local teacher community forum")]
  else if has "data" || has "analyst" then
    [("Learn SQL", "Complete SQL exercises on filtering and aggregation");
     ("Project: Data analysis", "Analyze a dataset and publish findings");
     ("Build portfolio", "Create a GitHub repo with notebooks and visuals")]
  else if has "ux" || has "designer" || has "graphic" then
    [("User research", "Run a small user interview study");
     ("Design case study", "Document a design process and outcomes");
     ("Prototype", "Build a clickable prototype in Figma")]
  else if has "software" || has "engineer" || has "developer" || has "programmer" then
    [("Build a project", "Create a full-stack application");
     ("Contribute to open source", "Submit PRs to an open source project");
     ("System design", "Practice architecture and scalability design")]
  else if has "product" || has "manager" || has "pm" then
    [("Define product strategy", "Create a product strategy document");
     ("Build roadmap", "Develop a prioritized product roadmap");
     ("User research", "Conduct interviews and user surveys")]
  else if has "market" || has "seo" then
    [("Content strategy", "Plan a content marketing calendar");
     ("Campaign analysis", "Analyze metrics and ROI of campaigns");
     ("Build audience", "Grow social media presence or email list")]
  else if has "doctor" || has "nurse" || has "medical" || has "healthcare" then
    [("Study medical protocols", "Learn current treatment guidelines");
     ("Case study analysis", "Analyze and present clinical case studies");
     ("Patient care simulation", "Participate in training scenarios")]
  else if has "account" || has "finance" || has "cfo" || has "analyst" then
    [("Financial modeling", "Build spreadsheet models for forecasting");
     ("Audit preparation", "Learn audit and compliance procedures");
     ("Tax planning", "Study tax strategies and regulations")]
  else if (has "engineer" && has "civil") || has "mechanical" || has "electrical" then
    [("CAD design", "Create engineering drawings and models");
     ("Project analysis", "Analyze structural and systems requirements");
     ("Technical documentation", "Write specifications and technical reports")]
  else
    [("Foundational reading",
      ("Read key resources about " ++ (if String.eqb role "" then "target" else role))%string);
     ("Mini project", "Complete a small project relevant to your goal");
     ("Join community", "Find an online community for mentorship")].

(** [tasks[level_idx] if level_idx < len(tasks) else tasks[-1] if tasks else {...}] *)
Definition task_at (tasks : list (string * string)) (level_idx : nat) : string * string :=
  nth level_idx tasks (last tasks ("Practice", "Continue learning")).

Definition levels : list string := ["basic"; "intermediate"; "advanced"].

(* ===================================================================== *)
(** ** The world: the store file, the clock and the effects performed    *)
(* ===================================================================== *)

(** What [open] + [json.load] find at DATA_FILE. *)
Inductive file : Type :=
| Missing                 (* open() raises *)
| Unparseable             (* json.load raises *)
| Stored (doc : json).    (* json.load returns doc *)

Inductive effect : Type :=
| Wrote (doc : json)                       (* _write_store *)
| Published (email subject body : json).   (* sns.publish *)

Record world : Type := mkWorld {
  disk : file;
  tick : nat;                 (* reads of uuid4 and of the clocks so far *)
  trace : list effect         (* most recent first *)
}.

(** The environment the code reads but does not control. *)
Record oracle : Type := mkOracle {
  uuid4 : nat -> string;          (* str(uuid.uuid4()) *)
  utcnow : nat -> string;         (* datetime.utcnow().isoformat() *)
  utc_today : nat -> string;      (* datetime.utcnow().date().isoformat() *)
  local_today : nat -> Z;         (* date.today().toordinal() *)
  fromisoformat : string -> option Z;
                                  (* datetime.fromisoformat(s).date().toordinal() *)
  int_of_text : string -> option Z;  (* int(s) for a str s *)
  sns_on : bool;                  (* self.sns and self.sns_topic *)
  ddb_put : json -> bool          (* self.table is set and put_item(Item) succeeded *)
}.

Definition M (A : Type) : Type := world -> option (A * world).

Definition ret {A} (a : A) : M A := fun w => Some (a, w).

Definition bind {A B} (m : M A) (f : A -> M B) : M B :=
  fun w => match m w with
           | Some (a, w') => f a w'
           | None => None
           end.

Definition lift {A} (o : option A) : M A :=
  fun w => match o with Some a => Some (a, w) | None => None end.

(** [try: m  except Exception: h]; what [m] wrote before raising is not
    rolled back in Python, but every guarded block of the model raises
    before its first write or not at all. *)
Definition try_except {A} (m : M A) (h : M A) : M A :=
  fun w => match m w with
           | Some r => Some r
           | None => h w
           end.

Declare Scope monad_scope.
Delimit Scope monad_scope with monad.
Notation "x <- m ;; k" := (bind m (fun x => k))
  (at level 61, m at next level, right associativity) : monad_scope.
Notation "m ;;; k" := (bind m (fun _ => k))
  (at level 61, right associativity) : monad_scope.
Local Open Scope monad_scope.

Definition empty_store : json := JDict [("users", JList []); ("roadmaps", JList [])].

Section Client.

Variable E : oracle.

Definition fresh {A} (f : oracle -> nat -> A) : M A :=
  fun w => Some (f E (tick w), mkWorld (disk w) (S (tick w)) (trace w)).

Definition emit (e : effect) : M unit :=
  fun w => Some (tt, mkWorld (disk w) (tick w) (e :: trace w)).

Fixpoint mapM {A B} (f : A -> M B) (xs : list A) : M (list B) :=
  match xs with
  | [] => ret []
  | x :: xs' => y <- f x ;; ys <- mapM f xs' ;; ret (y :: ys)
  end.

(** [_read_store] *)
Definition _read_store : M json :=
  fun w => match disk w with
           | Stored doc => Some (doc, w)
           | Missing | Unparseable => Some (empty_store, w)
           end.

(** [_write_store] *)
Definition _write_store (data : json) : M unit :=
  fun w => Some (tt, mkWorld (Stored data) (tick w) (Wrote data :: trace w)).

(** [store.get(key, [])], iterated. *)
Definition store_list (store : json) (key : string) : option (list json) :=
  obind (py_get_or store key (JList [])) py_iter.

(** The first record [r] with [r.get(key) == val], or None. *)
Fixpoint first_with (key : string) (val : json) (xs : list json) : option json :=
  match xs with
  | [] => Some JNull
  | u :: xs' =>
      obind (py_get u key) (fun v =>
      if py_eq v val then Some u else first_with key val xs')
  end.

(** [[u for u in xs if u.get(key) != val]] *)
Definition without (key : string) (val : json) (xs : list json) : option (list json) :=
  filterM (fun u => option_map (fun v => negb (py_eq v val)) (py_get u key)) xs.

(** [get_user] *)
Definition get_user (user_id : json) : M json :=
  store <- _read_store ;;
  users <- lift (store_list store "users") ;;
  lift (first_with "userId" user_id users).

(** The closing lines shared by the methods that change one user:
    [users = [u for u in store.get('users', []) if u.get('userId') != user_id];
     users.append(user); store['users'] = users; self._write_store(store)]. *)
Definition put_user (store user_id user : json) : M unit :=
  users <- lift (obind (store_list store "users") (without "userId" user_id)) ;;
  store <- lift (py_setitem store "users" (JList (users ++ [user]))) ;;
  _write_store store.

(** [create_user] *)
Definition create_user (email password : string) (profile : json) : M json :=
  user_id <- fresh uuid4 ;;
  now <- fresh utcnow ;;
  let user := JDict [("userId", JStr user_id); ("email", JStr email);
                     ("passwordHash", JStr password);
                     ("profile", py_or profile (JDict []));
                     ("createdAt", JStr now)] in
  store <- _read_store ;;
  users <- lift (py_get_or store "users" (JList [])) ;;
  users <- lift (obind (py_iter users)
                   (filterM (fun u => option_map (fun v => negb (eq_str v email))
                                                 (py_get u "email")))) ;;
  store <- lift (py_setitem store "users" (JList (users ++ [user]))) ;;
  _write_store store ;;;
  ret user.

(** The loop of [save_user_profile]: the last record with the item's
    userId is [existing], the others are kept in order. *)
Fixpoint scan_users (item : json) (users : list json) (existing : json)
    (kept : list json) : option (json * list json) :=
  match users with
  | [] => Some (existing, kept)
  | u :: rest =>
      obind (py_get u "userId") (fun a =>
      obind (py_get item "userId") (fun b =>
      if py_eq a b then scan_users item rest u kept
      else scan_users item rest existing (kept ++ [u])))
  end.

Definition merge_records (existing item : json) : dict :=
  let merged := match existing with JDict e => dict_update [] e | _ => [] end in
  match item with
  | JDict i =>
      let merged := dict_update merged i in
      match existing with
      | JDict e =>
          match dict_get e "profile", dict_get i "profile" with
          | Some (JDict ep), Some (JDict ip) =>
              dict_set merged "profile" (JDict (dict_update (dict_update [] ep) ip))
          | _, _ => merged
          end
      | _ => merged
      end
  | _ => merged
  end.

(** [save_user_profile] *)
Definition save_user_profile (item : json) : M bool :=
  if ddb_put E item then ret true else
  store <- _read_store ;;
  users <- lift (store_list store "users") ;;
  found <- lift (scan_users item users JNull []) ;;
  let merged := merge_records (fst found) item in
  store <- lift (py_setitem store "users" (JList (snd found ++ [JDict merged]))) ;;
  _write_store store ;;;
  ret true.

(** One turn of the loop of [complete_activity]. *)
Definition complete_one (user_id activity_id a : json) : M (json * bool) :=
  uid <- lift (py_get a "userId") ;;
  hit <- (if py_eq uid user_id
          then aid <- lift (py_get a "activityId") ;; ret (py_eq aid activity_id)
          else ret false) ;;
  if (hit : bool) then
    a <- lift (py_setitem a "status" (JStr "completed")) ;;
    now <- fresh utcnow ;;
    a <- lift (py_setitem a "completedAt" (JStr now)) ;;
    ret (a, true)
  else ret (a, false).

(** [complete_activity].  The records are changed in place, so the list
    written back is the list read with the matching records updated; a
    match is only possible inside a list (the items of a dict or of a
    string are strings, on which [.get] raises). *)
Definition complete_activity (user_id activity_id : json) : M bool :=
  store <- _read_store ;;
  activities <- lift (store_list store "activities") ;;
  marked <- mapM (complete_one user_id activity_id) activities ;;
  if existsb snd marked then
    store <- lift (py_setitem store "activities" (JList (map fst marked))) ;;
    _write_store store ;;;
    ret true
  else ret false.

(** The loop of [get_quiz_for_activity]. *)
Fixpoint find_quiz (activity_id : json) (acts : list json)
    : option (option (json * quiz)) :=
  match acts with
  | [] => Some None
  | a :: rest =>
      obind (py_get a "activityId") (fun aid =>
      if py_eq aid activity_id then
        obind (py_get a "role") (fun role =>
        obind (py_get a "level") (fun level =>
        obind (py_get_or a "quizVariant" (JInt 1)) (fun variant =>
        obind (_sample_quiz (py_or role (JStr "default"))
                            (py_or level (JStr "basic")) variant) (fun q =>
        Some (Some (a, q))))))
      else find_quiz activity_id rest)
  end.

(** [get_quiz_for_activity] *)
Definition get_quiz_for_activity (activity_id : json) : M (option (json * quiz)) :=
  store <- _read_store ;;
  acts <- lift (store_list store "activities") ;;
  lift (find_quiz activity_id acts).

(** [int(x)] *)
Definition py_int (x : json) : option Z :=
  match x with
  | JInt n => Some n
  | JBool b => Some (if b then 1 else 0)
  | JStr s => int_of_text E s
  | _ => None
  end.

(** [qid in answers_map and int(answers_map[qid]) == int(q.get('answer', -1))] *)
Definition answer_hits (answers_map : json) (q : question) : option bool :=
  obind (answered (qid q) answers_map) (fun present =>
  if (present : bool)
  then obind (obind (py_item answers_map (qid q)) py_int)
             (fun v => Some (v =? answer q))
  else Some false).

(** The counting loop of [grade_quiz]. *)
Fixpoint count_correct (answers_map : json) (questions : quiz) : option Z :=
  match questions with
  | [] => Some 0
  | q :: rest =>
      obind (answer_hits answers_map q) (fun hit =>
      obind (count_correct answers_map rest) (fun c =>
      Some (if (hit : bool) then c + 1 else c)))
  end.

(** One turn of the persisting loop of [grade_quiz]. *)
Definition grade_one (activity_id : json) (score : Z) (a : json) : M json :=
  aid <- lift (py_get a "activityId") ;;
  if py_eq aid activity_id then
    a <- lift (py_setitem a "lastScore" (JInt score)) ;;
    a <- lift (py_setitem a "status"
                 (JStr (if 70 <=? score then "completed" else "pending"))) ;;
    now <- fresh utcnow ;;
    lift (py_setitem a "completedAt" (JStr now))
  else ret a.

(** [grade_quiz].  The loop changes the records of [store['activities']]
    in place; when the key is absent it runs over a fresh empty list and
    the document is written back as read. *)
Definition grade_quiz (activity_id answers_map : json) : M json :=
  qa <- get_quiz_for_activity activity_id ;;
  match qa with
  | None => ret JNull
  | Some (_, questions) =>
      correct <- lift (count_correct answers_map questions) ;;
      score <- lift (py_score correct (List.length questions)) ;;
      store <- _read_store ;;
      activities <- lift (py_get_or store "activities" (JList [])) ;;
      items <- lift (py_iter activities) ;;
      graded <- mapM (grade_one activity_id score) items ;;
      store <- lift (match activities with
                     | JList (_ :: _) => py_setitem store "activities" (JList graded)
                     | _ => Some store
                     end) ;;
      _write_store store ;;;
      ret (JDict [("score", JInt score);
                  ("total", JInt (Z.of_nat (List.length questions)))])
  end.

(** One new activity of [create_activities_for_role].  Every task of
    [tasks_for] has a non-empty detail, so
    [task.get('detail') or task.get('description')] is the detail. *)
Definition new_activity (user_id : json) (role_normalized : string)
    (tasks : list (string * string)) (slot : nat * string * Z) : M json :=
  let '(level_idx, level, quiz_num) := slot in
  let task := task_at tasks level_idx in
  id <- fresh uuid4 ;;
  now <- fresh utcnow ;;
  ret (JDict [("activityId", JStr id);
              ("userId", user_id);
              ("title", JStr (fst task ++ " - Quiz " ++ str_of_Z quiz_num)%string);
              ("detail", JStr (snd task));
              ("level", JStr level);
              ("role", JStr role_normalized);
              ("quizVariant", JInt quiz_num);
              ("status", JStr "pending");
              ("createdAt", JStr now)]).

(** [enumerate(['basic', 'intermediate', 'advanced'])] x [range(1, 6)] *)
Definition slots : list (nat * string * Z) :=
  flat_map (fun il => map (fun quiz_num => (fst il, snd il, quiz_num)) [1; 2; 3; 4; 5])
           (combine (seq 0 3) levels).

(** [not (a.get('userId') == user_id and a.get('status') == 'pending')] *)
Definition not_pending_of (user_id a : json) : option bool :=
  obind (py_get a "userId") (fun uid =>
  if py_eq uid user_id
  then option_map (fun st => negb (eq_str st "pending")) (py_get a "status")
  else Some true).

(** [a.get('userId') == user_id] *)
Definition owned_by (user_id a : json) : option bool :=
  option_map (fun uid => py_eq uid user_id) (py_get a "userId").

(** [create_activities_for_role] *)
Definition create_activities_for_role (user_id role : json) : M (list json) :=
  role <- lift (as_str (py_or role (JStr ""))) ;;
  let role := lower role in
  let role_normalized := normalize_role role in
  let tasks := tasks_for role in
  store <- _read_store ;;
  activities <- lift (store_list store "activities") ;;
  activities <- lift (filterM (not_pending_of user_id) activities) ;;
  created <- mapM (new_activity user_id role_normalized tasks) slots ;;
  let activities := activities ++ created in
  store <- lift (py_setitem store "activities" (JList activities)) ;;
  _write_store store ;;;
  lift (filterM (owned_by user_id) activities).

(** *** Notifications and gamification *)

Definition nl : string := String (ascii_of_nat 10) EmptyString.
Definition dquote : string := String (ascii_of_nat 34) EmptyString.

(** The block "Send via SNS if configured" of [create_notification]; a
    failure inside it is swallowed. *)
Definition send_sns (user_id : json) (title message link : string) : M unit :=
  if sns_on E then
    try_except
      (user <- get_user user_id ;;
       email <- lift (py_get_or user "email" (JStr "")) ;;
       if truthy email then
         let body := (title ++ nl ++ nl ++ message ++
                      (if String.eqb link "" then "" else nl ++ nl ++ "View: " ++ link))%string in
         emit (Published email (JStr ("VCC: " ++ title)%string) (JStr body))
       else ret tt)
      (ret tt)
  else ret tt.

(** [create_notification], called with a link and without metadata as the
    gamification methods do. *)
Definition create_notification (user_id : json) (notification_type title message link : string)
    : M unit :=
  store <- _read_store ;;
  has <- lift (py_in "notifications" store) ;;
  store <- (if (has : bool) then ret store
            else lift (py_setitem store "notifications" (JList []))) ;;
  id <- fresh uuid4 ;;
  now <- fresh utcnow ;;
  let notification :=
    JDict [("notificationId", JStr id); ("userId", user_id);
           ("type", JStr notification_type); ("title", JStr title);
           ("message", JStr message); ("link", JStr link);
           ("metadata", JDict []); ("read", JBool false);
           ("createdAt", JStr now)] in
  notifications <- lift (obind (py_item store "notifications")
                               (fun l => py_append l notification)) ;;
  store <- lift (py_setitem store "notifications" notifications) ;;
  _write_store store ;;;
  send_sns user_id title message link.

Definition new_gamification_xp : json :=
  JDict [("xp", JInt 0); ("level", JInt 1); ("badges", JList []);
         ("streak", JInt 0); ("lastLoginDate", JNull); ("achievements", JList [])].

Definition new_gamification_badge : json :=
  JDict [("badges", JList []); ("xp", JInt 0); ("level", JInt 1); ("streak", JInt 0)].

Definition new_gamification_streak : json :=
  JDict [("streak", JInt 0); ("lastLoginDate", JNull); ("xp", JInt 0); ("level", JInt 1)].

(** [if 'gamification' not in user: user['gamification'] = fresh] *)
Definition ensure_gamification (user fresh_record : json) : option json :=
  obind (py_in "gamification" user) (fun has =>
  if (has : bool) then Some user else py_setitem user "gamification" fresh_record).

(** [award_xp] *)
Definition award_xp (user_id : json) (amount : Z) : M json :=
  store <- _read_store ;;
  user <- get_user user_id ;;
  if negb (truthy user) then ret JNull else
  user <- lift (ensure_gamification user new_gamification_xp) ;;
  g <- lift (py_item user "gamification") ;;
  xp <- lift (obind (py_get_or g "xp" (JInt 0)) as_int) ;;
  let xp := xp + amount in
  g <- lift (py_setitem g "xp" (JInt xp)) ;;
  let new_level := xp / 100 + 1 in
  old_level <- lift (py_get_or g "level" (JInt 1)) ;;
  g <- lift (py_setitem g "level" (JInt new_level)) ;;
  old_level <- lift (as_int old_level) ;;
  (if old_level <? new_level then
     create_notification user_id "achievement" "Level Up! "
       ("You reached level " ++ str_of_Z new_level ++ "! Keep up the great work!")%string
       "/dashboard"
   else ret tt) ;;;
  user <- lift (py_setitem user "gamification" g) ;;
  now <- fresh utcnow ;;
  user <- lift (py_setitem user "updatedAt" (JStr now)) ;;
  put_user store user_id user ;;;
  ret g.

(** [any(b.get('name') == badge_name for b in badges)] *)
Fixpoint any_named (badge_name : string) (badges : list json) : option bool :=
  match badges with
  | [] => Some false
  | b :: rest =>
      obind (py_get b "name") (fun n =>
      if eq_str n badge_name then Some true else any_named badge_name rest)
  end.

(** [award_badge]; [description] is [None] or the text given. *)
Definition award_badge (user_id : json) (badge_name badge_icon : string)
    (description : option string) : M bool :=
  store <- _read_store ;;
  user <- get_user user_id ;;
  if negb (truthy user) then ret false else
  user <- lift (ensure_gamification user new_gamification_badge) ;;
  g <- lift (py_item user "gamification") ;;
  badges <- lift (py_get_or g "badges" (JList [])) ;;
  badge_exists <- lift (obind (py_iter badges) (any_named badge_name)) ;;
  if (badge_exists : bool) then ret false else
  now <- fresh utcnow ;;
  let badge :=
    JDict [("name", JStr badge_name); ("icon", JStr badge_icon);
           ("description",
            JStr (match description with
                  | Some d => if String.eqb d "" then ("Achievement: " ++ badge_name)%string else d
                  | None => ("Achievement: " ++ badge_name)%string
                  end));
           ("earnedAt", JStr now)] in
  badges <- lift (py_append badges badge) ;;
  g <- lift (py_setitem g "badges" badges) ;;
  user <- lift (py_setitem user "gamification" g) ;;
  now <- fresh utcnow ;;
  user <- lift (py_setitem user "updatedAt" (JStr now)) ;;
  award_xp user_id 50 ;;;
  create_notification user_id "achievement"
    ("New Badge Earned! " ++ badge_icon)%string
    ("You earned the " ++ dquote ++ badge_name ++ dquote ++ " badge!")%string
    "/dashboard" ;;;
  put_user store user_id user ;;;
  ret true.

(** What [update_streak] decides from the stored date. *)
Inductive streak_step : Type :=
| Unchanged            (* return the record as read *)
| SetStreak (n : Z).   (* store the new streak and go on *)

(** The lines of [update_streak] after the streak is decided: store the
    streak and today's date in the record read at the start, award the
    daily xp and a milestone badge, write the record. *)
Definition store_streak (store user g : json) (today : string) (user_id : json)
    (streak : Z) : M json :=
  g <- lift (py_setitem g "streak" (JInt streak)) ;;
  g <- lift (py_setitem g "lastLoginDate" (JStr today)) ;;
  user <- lift (py_setitem user "gamification" g) ;;
  now <- fresh utcnow ;;
  user <- lift (py_setitem user "updatedAt" (JStr now)) ;;
  award_xp user_id 10 ;;;
  (if (streak =? 7) || (streak =? 30) || (streak =? 100) then
     award_badge user_id (str_of_Z streak ++ " Day Streak")%string ""
       (Some ("Logged in for " ++ str_of_Z streak ++ " consecutive days!")%string) ;;;
     ret tt
   else ret tt) ;;;
  put_user store user_id user ;;;
  ret g.

(** [update_streak] *)
Definition update_streak (user_id : json) : M json :=
  store <- _read_store ;;
  user <- get_user user_id ;;
  if negb (truthy user) then ret JNull else
  user <- lift (ensure_gamification user new_gamification_streak) ;;
  g <- lift (py_item user "gamification") ;;
  today <- fresh utc_today ;;
  last_login <- lift (py_get g "lastLoginDate") ;;
  if eq_str last_login today then ret g else
  step <- (if truthy last_login then
             last_date <- lift (obind (as_str last_login) (fromisoformat E)) ;;
             today_date <- fresh local_today ;;
             let days := today_date - last_date in
             if days =? 1 then
               streak <- lift (obind (py_get_or g "streak" (JInt 0)) as_int) ;;
               ret (SetStreak (streak + 1))
             else if 1 <? days then ret (SetStreak 1)
             else ret Unchanged
           else ret (SetStreak 1)) ;;
  match step with
  | Unchanged => ret g
  | SetStreak streak => store_streak store user g today user_id streak
  end.

Definition default_stats : json :=
  JDict [("xp", JInt 0); ("level", JInt 1); ("badges", JList []);
         ("streak", JInt 0); ("achievements", JList [])].

(** [get_gamification_stats] *)
Definition get_gamification_stats (user_id : json) : M json :=
  user <- get_user user_id ;;
  if truthy user then
    g <- lift (py_get user "gamification") ;;
    if truthy g then lift (py_item user "gamification") else ret default_stats
  else ret default_stats.

(** [s.upper()], on ASCII letters. *)
Definition upper_ascii (c : ascii) : ascii :=
  let n := nat_of_ascii c in
  if (Nat.leb 97 n && Nat.leb n 122)%bool then ascii_of_nat (n - 32) else c.

Fixpoint upper (s : string) : string :=
  match s with
  | EmptyString => EmptyString
  | String c s' => String (upper_ascii c) (upper s')
  end.

(** The body of [use_referral_code] once [user] holds the code; [before]
    and [rest] are the records around it in [store['users']], which holds
    the changed record in place when it is filtered. *)
Definition reward_referrer (store new_user_id : json) (before : list json)
    (user : json) (rest : list json) : M bool :=
  referrals <- lift (py_item user "referrals") ;;
  count <- lift (obind (py_get_or referrals "count" (JInt 0)) as_int) ;;
  let count := count + 1 in
  referrals <- lift (py_setitem referrals "count" (JInt count)) ;;
  now <- fresh utcnow ;;
  rewards <- lift (obind (py_item referrals "rewards") (fun l =>
                   py_append l (JDict [("referredUserId", new_user_id);
                                       ("rewardedAt", JStr now)]))) ;;
  referrals <- lift (py_setitem referrals "rewards" rewards) ;;
  user <- lift (py_setitem user "referrals" referrals) ;;
  referrer_id <- lift (py_get user "userId") ;;
  award_xp referrer_id 100 ;;;
  award_xp new_user_id 50 ;;;
  (if 5 <=? count then
     award_badge referrer_id "Super Connector" "" (Some "Referred 5+ friends!") ;;; ret tt
   else ret tt) ;;;
  store <- lift (py_setitem store "users" (JList (before ++ user :: rest))) ;;
  put_user store referrer_id user ;;;
  ret true.

(** The loop of [use_referral_code]. *)
Fixpoint find_referrer (store new_user_id : json) (code : string)
    (before rest : list json) : M bool :=
  match rest with
  | [] => ret false
  | user :: rest' =>
      referrals <- lift (py_get_or user "referrals" (JDict [])) ;;
      c <- lift (py_get referrals "code") ;;
      if eq_str c code then reward_referrer store new_user_id before user rest'
      else find_referrer store new_user_id code (before ++ [user]) rest'
  end.

(** [use_referral_code] *)
Definition use_referral_code (new_user_id : json) (referral_code : string) : M bool :=
  store <- _read_store ;;
  users <- lift (store_list store "users") ;;
  find_referrer store new_user_id (upper referral_code) [] users.

End Client.

(* ===================================================================== *)
(** ** More of the client: lookups, events, admins, jobs, applications   *)
(* ===================================================================== *)

(** [a < b] as [sorted] applies it to keys: numbers with numbers, text with
    text (code points, which on UTF-8 text is the byte order); None or a
    mixed pair raises TypeError.  Keys that are lists or dicts are outside
    the model and counted as an error. *)
Definition py_lt (a b : json) : option bool :=
  match a, b with
  | JStr s, JStr t => Some (String.ltb s t)
  | _, _ =>
      match as_int a, as_int b with
      | Some m, Some n => Some (m <? n)
      | _, _ => None
      end
  end.

(** One step of a stable sort into descending order: [x] goes before the
    first item whose key is not above its own. *)
Fixpoint insert_desc (kx x : json) (l : list (json * json)) : option (list (json * json)) :=
  match l with
  | [] => Some [(kx, x)]
  | (ky, y) :: l' =>
      obind (py_lt kx ky) (fun below =>
      if (below : bool) then option_map (cons (ky, y)) (insert_desc kx x l')
      else Some ((kx, x) :: (ky, y) :: l'))
  end.

Fixpoint sort_desc (l : list (json * json)) : option (list (json * json)) :=
  match l with
  | [] => Some []
  | (k, x) :: l' => obind (sort_desc l') (insert_desc k x)
  end.

Fixpoint keyed (key : json -> option json) (xs : list json) : option (list (json * json)) :=
  match xs with
  | [] => Some []
  | x :: xs' =>
      obind (key x) (fun k =>
      obind (keyed key xs') (fun r => Some ((k, x) :: r)))
  end.

(** [sorted(xs, key=key, reverse=True)]: the keys are computed first, items
    with equal keys keep their order. *)
Definition py_sorted_desc (key : json -> option json) (xs : list json) : option (list json) :=
  obind (keyed key xs) (fun l => option_map (map snd) (sort_desc l)).

(** [lambda x: x.get('createdAt', '')] *)
Definition created_at (x : json) : option json := py_get_or x "createdAt" (JStr "").

(** [x in xs] for a list *)
Definition py_in_list (x : json) (xs : list json) : bool := existsb (py_eq x) xs.

(** [xs.remove(x)]: the first equal item goes; ValueError without one. *)
Fixpoint py_remove (x : json) (xs : list json) : option (list json) :=
  match xs with
  | [] => None
  | y :: xs' => if py_eq y x then Some xs' else option_map (cons y) (py_remove x xs')
  end.

(** A value that must be a list (for [.append], [.remove], [len]). *)
Definition as_list (x : json) : option (list json) :=
  match x with JList xs => Some xs | _ => None end.

Section Catalogue.

Variable E : oracle.

(** [for r in store.get(coll, []): if r.get(key) == val: return r] and
    [return None] after the loop. *)
Definition lookup (coll key : string) (val : json) : M json :=
  store <- _read_store ;;
  xs <- lift (store_list store coll) ;;
  lift (first_with key val xs).

(** [[r for r in store.get(coll, []) if r.get(key) == val]] *)
Definition records_with (coll key : string) (val : json) : M (list json) :=
  store <- _read_store ;;
  lift (obind (store_list store coll)
          (filterM (fun r => option_map (fun v => py_eq v val) (py_get r key)))).

(** [get_user_by_email] *)
Definition get_user_by_email (email : string) : M json :=
  lookup "users" "email" (JStr email).

(** [record_activity] *)
Definition record_activity (user_id : json) (event_type : string) (metadata : json)
    : M bool :=
  store <- _read_store ;;
  events <- lift (py_get_or store "events" (JList [])) ;;
  now <- fresh E utcnow ;;
  let ev := JDict [("userId", user_id); ("eventType", JStr event_type);
                   ("metadata", py_or metadata (JDict []));
                   ("timestamp", JStr now)] in
  events <- lift (py_append events ev) ;;
  store <- lift (py_setitem store "events" events) ;;
  _write_store store ;;;
  ret true.

(** [list_activities] *)
Definition list_activities (user_id : json) : M (list json) :=
  records_with "events" "userId" user_id.

(** [list_user_activities] *)
Definition list_user_activities (user_id : json) : M (list json) :=
  records_with "activities" "userId" user_id.

(** [list_roadmaps_for_user] *)
Definition list_roadmaps_for_user (user_id : json) : M (list json) :=
  records_with "roadmaps" "userId" user_id.

(** [create_admin]; [name] is None or the text given. *)
Definition create_admin (email password : string) (name : json) : M json :=
  admin_id <- fresh E uuid4 ;;
  now <- fresh E utcnow ;;
  let admin := JDict [("adminId", JStr admin_id); ("email", JStr email);
                      ("passwordHash", JStr password);
                      ("name", py_or name (JStr "Admin"));
                      ("role", JStr "admin");
                      ("createdAt", JStr now)] in
  store <- _read_store ;;
  admins <- lift (py_get_or store "admins" (JList [])) ;;
  admins <- lift (obind (py_iter admins)
                    (filterM (fun a => option_map (fun v => negb (eq_str v email))
                                                  (py_get a "email")))) ;;
  store <- lift (py_setitem store "admins" (JList (admins ++ [admin]))) ;;
  _write_store store ;;;
  ret admin.

(** [get_admin_by_email] *)
Definition get_admin_by_email (email : string) : M json :=
  lookup "admins" "email" (JStr email).

(** [get_admin] *)
Definition get_admin (admin_id : json) : M json :=
  lookup "admins" "adminId" admin_id.

(** [ensure_default_admin] of app.py; [password_hash] is what
    [generate_password_hash("admin123")] returns in this run.  The prints
    are left out. *)
Definition ensure_default_admin (password_hash : string) : M unit :=
  try_except
    (store <- _read_store ;;
     existing_admins <- lift (py_get_or store "admins" (JList [])) ;;
     if negb (truthy existing_admins) then
       create_admin "admin@virtualcareercounselor.com" password_hash
         (JStr "System Administrator") ;;;
       ret tt
     else ret tt)
    (ret tt).

(** [create_job_posting] *)
Definition create_job_posting (admin_id job_data : json) : M json :=
  job_id <- fresh E uuid4 ;;
  title <- lift (py_get_or job_data "title" (JStr "")) ;;
  company <- lift (py_get_or job_data "company" (JStr "")) ;;
  description <- lift (py_get_or job_data "description" (JStr "")) ;;
  requirements <- lift (py_get_or job_data "requirements" (JList [])) ;;
  experience_required <- lift (py_get_or job_data "experience_required" (JStr "")) ;;
  salary_range <- lift (py_get_or job_data "salary_range" (JStr "")) ;;
  location <- lift (py_get_or job_data "location" (JStr "")) ;;
  job_type <- lift (py_get_or job_data "job_type" (JStr "Full-time")) ;;
  career_field <- lift (py_get_or job_data "career_field" (JStr "")) ;;
  now <- fresh E utcnow ;;
  let job := JDict [("jobId", JStr job_id); ("adminId", admin_id);
                    ("title", title); ("company", company);
                    ("description", description); ("requirements", requirements);
                    ("experience_required", experience_required);
                    ("salary_range", salary_range); ("location", location);
                    ("job_type", job_type); ("career_field", career_field);
                    ("status", JStr "active"); ("createdAt", JStr now)] in
  store <- _read_store ;;
  jobs <- lift (py_get_or store "jobs" (JList [])) ;;
  jobs <- lift (py_append jobs job) ;;
  store <- lift (py_setitem store "jobs" jobs) ;;
  _write_store store ;;;
  ret job.

(** [str.lower], the lower-casing of Python's Unicode text, as the
    interpreter gives it. *)
Variable str_lower : string -> string.

(** The test of [list_jobs] with a career field:
    [j.get('career_field', '').lower() == career_field.lower()
     and j.get('status') == status] *)
Definition job_in_field (career_field : json) (status : string) (j : json) : option bool :=
  obind (obind (py_get_or j "career_field" (JStr "")) as_str) (fun f =>
  obind (as_str career_field) (fun c =>
  if String.eqb (str_lower f) (str_lower c)
  then option_map (fun s => eq_str s status) (py_get j "status")
  else Some false)).

(** [list_jobs]; [career_field] is None or the text given. *)
Definition list_jobs (career_field : json) (status : string) : M (list json) :=
  store <- _read_store ;;
  jobs <- lift (store_list store "jobs") ;;
  jobs <- lift (if truthy career_field
                then filterM (job_in_field career_field status) jobs
                else filterM (fun j => option_map (fun s => eq_str s status)
                                                  (py_get j "status")) jobs) ;;
  lift (py_sorted_desc created_at jobs).

(** [get_job] *)
Definition get_job (job_id : json) : M json := lookup "jobs" "jobId" job_id.

(** The loop shared by [update_job_status] and [update_application_status]:
    the first record with the id is changed in place, the document is
    written and True returned at once; False without a match. *)
Fixpoint update_first (store : json) (coll key : string) (val : json)
    (change : json -> M json) (before rest : list json) : M bool :=
  match rest with
  | [] => ret false
  | r :: rest' =>
      v <- lift (py_get r key) ;;
      if py_eq v val then
        r <- change r ;;
        store <- lift (py_setitem store coll (JList (before ++ r :: rest'))) ;;
        _write_store store ;;;
        ret true
      else update_first store coll key val change (before ++ [r]) rest'
  end.

(** [update_job_status] *)
Definition update_job_status (job_id : json) (status : json) : M bool :=
  store <- _read_store ;;
  jobs <- lift (store_list store "jobs") ;;
  update_first store "jobs" "jobId" job_id
    (fun j =>
       j <- lift (py_setitem j "status" status) ;;
       now <- fresh E utcnow ;;
       lift (py_setitem j "updatedAt" (JStr now)))
    [] jobs.

(** [delete_job] *)
Definition delete_job (job_id : json) : M bool :=
  store <- _read_store ;;
  jobs <- lift (obind (store_list store "jobs") (without "jobId" job_id)) ;;
  store <- lift (py_setitem store "jobs" (JList jobs)) ;;
  _write_store store ;;;
  ret true.

(** [create_job_application] *)
Definition create_job_application (user_id job_id application_data : json) : M json :=
  application_id <- fresh E uuid4 ;;
  full_name <- lift (py_get_or application_data "fullName" (JStr "")) ;;
  email <- lift (py_get_or application_data "email" (JStr "")) ;;
  phone <- lift (py_get_or application_data "phone" (JStr "")) ;;
  experience <- lift (py_get_or application_data "experience" (JStr "")) ;;
  skills <- lift (py_get_or application_data "skills" (JList [])) ;;
  education <- lift (py_get_or application_data "education" (JStr "")) ;;
  cover_letter <- lift (py_get_or application_data "coverLetter" (JStr "")) ;;
  now <- fresh E utcnow ;;
  let application :=
    JDict [("applicationId", JStr application_id); ("userId", user_id);
           ("jobId", job_id); ("fullName", full_name); ("email", email);
           ("phone", phone); ("experience", experience); ("skills", skills);
           ("education", education); ("coverLetter", cover_letter);
           ("status", JStr "pending"); ("createdAt", JStr now)] in
  store <- _read_store ;;
  applications <- lift (py_get_or store "applications" (JList [])) ;;
  applications <- lift (py_append applications application) ;;
  store <- lift (py_setitem store "applications" applications) ;;
  _write_store store ;;;
  record_activity user_id "job_application"
    (JDict [("jobId", job_id); ("applicationId", JStr application_id)]) ;;;
  ret application.

(** [list_user_applications] *)
Definition list_user_applications (user_id : json) : M (list json) :=
  apps <- records_with "applications" "userId" user_id ;;
  lift (py_sorted_desc created_at apps).

(** [list_applications_for_job] *)
Definition list_applications_for_job (job_id : json) : M (list json) :=
  apps <- records_with "applications" "jobId" job_id ;;
  lift (py_sorted_desc created_at apps).

(** [update_application_status]; [admin_notes] is None or the text given. *)
Definition update_application_status (application_id status admin_notes : json) : M bool :=
  store <- _read_store ;;
  applications <- lift (store_list store "applications") ;;
  update_first store "applications" "applicationId" application_id
    (fun a =>
       a <- lift (py_setitem a "status" status) ;;
       now <- fresh E utcnow ;;
       a <- lift (py_setitem a "updatedAt" (JStr now)) ;;
       if truthy admin_notes then lift (py_setitem a "adminNotes" admin_notes)
       else ret a)
    [] applications.

End Catalogue.

(* ===================================================================== *)
(** ** More of the client: favourites, notifications, resumes            *)
(* ===================================================================== *)

(** [x in c]: an item of a list, a key of a dict, a piece of a string
    (TypeError unless x is text); anything else is no container.  A dict
    or list is no key of a dict (unhashable, TypeError). *)
Definition py_member (x c : json) : option bool :=
  match c with
  | JList xs => Some (existsb (py_eq x) xs)
  | JDict d =>
      match x with
      | JStr k => Some (dict_has d k)
      | JList _ | JDict _ => None
      | _ => Some false
      end
  | JStr s =>
      match x with
      | JStr t => Some (contains t s)
      | _ => None
      end
  | _ => None
  end.

Section Favourites.

Variable E : oracle.

(** [if key not in user: user[key] = []] *)
Definition ensure_list (user : json) (key : string) : option json :=
  obind (py_in key user) (fun has =>
  if (has : bool) then Some user else py_setitem user key (JList [])).

(** The body shared, but for the key, by [save_job] ('savedJobs') and by
    the second [save_roadmap] of the class ('savedRoadmaps'). *)
Definition add_favourite (key : string) (user_id item_id : json) : M bool :=
  store <- _read_store ;;
  user <- get_user user_id ;;
  if negb (truthy user) then ret false else
  user <- lift (ensure_list user key) ;;
  saved <- lift (py_item user key) ;;
  present <- lift (py_member item_id saved) ;;
  if (present : bool) then ret false else
  saved <- lift (py_append saved item_id) ;;
  user <- lift (py_setitem user key saved) ;;
  now <- fresh E utcnow ;;
  user <- lift (py_setitem user "updatedAt" (JStr now)) ;;
  put_user store user_id user ;;;
  ret true.

(** [save_job] *)
Definition save_job (user_id job_id : json) : M bool :=
  add_favourite "savedJobs" user_id job_id.

(** [save_roadmap(self, user_id, roadmap_id)], the definition the class
    ends up with (it replaces the earlier [save_roadmap(self, roadmap)]). *)
Definition save_roadmap (user_id roadmap_id : json) : M bool :=
  add_favourite "savedRoadmaps" user_id roadmap_id.

(** [unsave_job] *)
Definition unsave_job (user_id job_id : json) : M bool :=
  store <- _read_store ;;
  user <- get_user user_id ;;
  if negb (truthy user) then ret false else
  has <- lift (py_in "savedJobs" user) ;;
  present <- (if (has : bool)
              then saved <- lift (py_item user "savedJobs") ;;
                   lift (py_member job_id saved)
              else ret false) ;;
  if (present : bool) then
    saved <- lift (obind (py_item user "savedJobs") as_list) ;;
    saved <- lift (py_remove job_id saved) ;;
    user <- lift (py_setitem user "savedJobs" (JList saved)) ;;
    now <- fresh E utcnow ;;
    user <- lift (py_setitem user "updatedAt" (JStr now)) ;;
    put_user store user_id user ;;;
    ret true
  else ret false.

(** [if user and user.get(key): return user[key]] and [return []] *)
Definition user_list (key : string) (user_id : json) : M json :=
  user <- get_user user_id ;;
  if truthy user then
    v <- lift (py_get user key) ;;
    if truthy v then lift (py_item user key) else ret (JList [])
  else ret (JList []).

(** [get_saved_jobs] *)
Definition get_saved_jobs (user_id : json) : M json := user_list "savedJobs" user_id.

(** [get_saved_roadmaps] *)
Definition get_saved_roadmaps (user_id : json) : M json :=
  user_list "savedRoadmaps" user_id.

(** *** Notifications *)

(** [not n.get('read', False)] *)
Definition unread (n : json) : option bool :=
  option_map (fun r => negb (truthy r)) (py_get_or n "read" (JBool false)).

(** [get_notifications] *)
Definition get_notifications (user_id : json) (unread_only : bool) : M (list json) :=
  notifications <- records_with "notifications" "userId" user_id ;;
  notifications <- lift (if unread_only then filterM unread notifications
                         else Some notifications) ;;
  lift (py_sorted_desc created_at notifications).

(** One turn of the marking loops: [n['read'] = True;
    n['readAt'] = datetime.utcnow().isoformat(); changed = True] when the
    test holds. *)
Definition mark_read_if (test : json -> option bool) (n : json) : M (json * bool) :=
  hit <- lift (test n) ;;
  if (hit : bool) then
    n <- lift (py_setitem n "read" (JBool true)) ;;
    now <- fresh E utcnow ;;
    n <- lift (py_setitem n "readAt" (JStr now)) ;;
    ret (n, true)
  else ret (n, false).

(** The frame shared by the two marking methods. *)
Definition mark_notifications (test : json -> option bool) : M bool :=
  store <- _read_store ;;
  notifications <- lift (store_list store "notifications") ;;
  marked <- mapM (mark_read_if test) notifications ;;
  if existsb snd marked then
    store <- lift (py_setitem store "notifications" (JList (map fst marked))) ;;
    _write_store store ;;;
    ret true
  else ret false.

(** [n.get('notificationId') == notification_id and n.get('userId') == user_id] *)
Definition is_notification (notification_id user_id n : json) : option bool :=
  obind (py_get n "notificationId") (fun i =>
  if py_eq i notification_id
  then option_map (fun u => py_eq u user_id) (py_get n "userId")
  else Some false).

(** [n.get('userId') == user_id and not n.get('read', False)] *)
Definition is_unread_of (user_id n : json) : option bool :=
  obind (py_get n "userId") (fun u =>
  if py_eq u user_id then unread n else Some false).

(** [mark_notification_read] *)
Definition mark_notification_read (notification_id user_id : json) : M bool :=
  mark_notifications (is_notification notification_id user_id).

(** [mark_all_notifications_read] *)
Definition mark_all_notifications_read (user_id : json) : M bool :=
  mark_notifications (is_unread_of user_id).

(** *** Resumes *)

(** [save_resume] *)
Definition save_resume (user_id resume_data : json) : M json :=
  store <- _read_store ;;
  user <- get_user user_id ;;
  if negb (truthy user) then ret JNull else
  user <- lift (ensure_list user "resumes") ;;
  resume_id <- fresh E uuid4 ;;
  name <- lift (py_get_or resume_data "name" (JStr "My Resume")) ;;
  template <- lift (py_get_or resume_data "template" (JStr "modern")) ;;
  sections <- lift (py_get_or resume_data "sections" (JDict [])) ;;
  created <- fresh E utcnow ;;
  updated <- fresh E utcnow ;;
  let resume := JDict [("resumeId", JStr resume_id); ("name", name);
                       ("template", template); ("sections", sections);
                       ("createdAt", JStr created); ("updatedAt", JStr updated)] in
  resumes <- lift (obind (py_item user "resumes") (fun l => py_append l resume)) ;;
  user <- lift (py_setitem user "resumes" resumes) ;;
  now <- fresh E utcnow ;;
  user <- lift (py_setitem user "updatedAt" (JStr now)) ;;
  put_user store user_id user ;;;
  ret resume.

(** [get_resumes] *)
Definition get_resumes (user_id : json) : M json := user_list "resumes" user_id.

(** [get_resume] *)
Definition get_resume (user_id resume_id : json) : M json :=
  resumes <- get_resumes user_id ;;
  lift (obind (py_iter resumes) (first_with "resumeId" resume_id)).

(** [delete_resume] *)
Definition delete_resume (user_id resume_id : json) : M bool :=
  store <- _read_store ;;
  user <- get_user user_id ;;
  if negb (truthy user) then ret false else
  v <- lift (py_get user "resumes") ;;
  if negb (truthy v) then ret false else
  resumes <- lift (obind (obind (py_item user "resumes") py_iter)
                         (without "resumeId" resume_id)) ;;
  user <- lift (py_setitem user "resumes" (JList resumes)) ;;
  now <- fresh E utcnow ;;
  user <- lift (py_setitem user "updatedAt" (JStr now)) ;;
  put_user store user_id user ;;;
  ret true.

(** *** Connections *)

(** The test of [send_connection_request] for an existing link, in either
    direction. *)
Definition links (from_user_id to_user_id c : json) : option bool :=
  obind (py_get c "fromUserId") (fun f =>
  obind (if py_eq f from_user_id
         then option_map (fun t => py_eq t to_user_id) (py_get c "toUserId")
         else Some false) (fun forward =>
  if (forward : bool) then Some true else
  obind (py_get c "fromUserId") (fun f =>
  if py_eq f to_user_id
  then option_map (fun t => py_eq t from_user_id) (py_get c "toUserId")
  else Some false))).

(** [send_connection_request]; [message] is None or the text given. *)
Definition send_connection_request (from_user_id to_user_id message : json) : M json :=
  store <- _read_store ;;
  has <- lift (py_in "connections" store) ;;
  store <- (if (has : bool) then ret store
            else lift (py_setitem store "connections" (JList []))) ;;
  connections <- lift (py_item store "connections") ;;
  existing <- lift (obind (py_iter connections) (filterM (links from_user_id to_user_id))) ;;
  match existing with
  | _ :: _ => ret JNull
  | [] =>
      id <- fresh E uuid4 ;;
      now <- fresh E utcnow ;;
      let connection :=
        JDict [("connectionId", JStr id); ("fromUserId", from_user_id);
               ("toUserId", to_user_id); ("message", message);
               ("status", JStr "pending"); ("createdAt", JStr now)] in
      connections <- lift (py_append connections connection) ;;
      store <- lift (py_setitem store "connections" connections) ;;
      _write_store store ;;;
      create_notification E to_user_id "connection_request" "New Connection Request"
        "You have a new connection request" "/connections" ;;;
      ret connection
  end.

(** The loop of [accept_connection]. *)
Fixpoint accept_first (store connection_id user_id : json) (before rest : list json)
    : M bool :=
  match rest with
  | [] => ret false
  | conn :: rest' =>
      i <- lift (py_get conn "connectionId") ;;
      hit <- (if py_eq i connection_id
              then t <- lift (py_get conn "toUserId") ;; ret (py_eq t user_id)
              else ret false) ;;
      if (hit : bool) then
        conn <- lift (py_setitem conn "status" (JStr "accepted")) ;;
        now <- fresh E utcnow ;;
        conn <- lift (py_setitem conn "acceptedAt" (JStr now)) ;;
        store <- lift (py_setitem store "connections" (JList (before ++ conn :: rest'))) ;;
        _write_store store ;;;
        requester <- lift (py_get conn "fromUserId") ;;
        create_notification E requester "connection_accepted" "Connection Accepted"
          "Your connection request was accepted!" "/connections" ;;;
        ret true
      else accept_first store connection_id user_id (before ++ [conn]) rest'
  end.

(** [accept_connection] *)
Definition accept_connection (connection_id user_id : json) : M bool :=
  store <- _read_store ;;
  connections <- lift (store_list store "connections") ;;
  accept_first store connection_id user_id [] connections.

End Favourites.

(* ===================================================================== *)
(** ** Learning paths, and the request handlers of app.py                *)
(* ===================================================================== *)

(** [len(x)]; text is counted in bytes, which is its length when ASCII. *)
Definition py_len (x : json) : option Z :=
  match x with
  | JList xs => Some (Z.of_nat (List.length xs))
  | JDict d => Some (Z.of_nat (List.length d))
  | JStr s => Some (Z.of_nat (String.length s))
  | _ => None
  end.

(** The position [xs[i]] reads in a list of [n] items: a negative index
    counts from the end; IndexError outside. *)
Definition py_position (n : nat) (i : Z) : option nat :=
  let len := Z.of_nat n in
  if (0 <=? i) && (i <? len) then Some (Z.to_nat i)
  else if (- len <=? i) && (i <? 0) then Some (Z.to_nat (i + len))
  else None.

(** [xs[k] = v] at a position inside the list. *)
Fixpoint set_nth (xs : list json) (k : nat) (v : json) : list json :=
  match xs, k with
  | [], _ => []
  | _ :: xs', O => v :: xs'
  | x :: xs', S k' => x :: set_nth xs' k' v
  end.

(** [sum(1 for m in milestones if m.get('completed'))] *)
Fixpoint count_completed (milestones : list json) : option Z :=
  match milestones with
  | [] => Some 0
  | m :: rest =>
      obind (py_get m "completed") (fun c =>
      option_map (fun k => if truthy c then k + 1 else k) (count_completed rest))
  end.

(** [int((completed / n) * 100)]; ZeroDivisionError on n = 0. *)
Definition py_percent (completed n : Z) : option Z :=
  if n =? 0 then None
  else int_of_float
         (SFmul 53 1024 (SFdiv 53 1024 (float_of_Z completed) (float_of_Z n))
                (float_of_Z 100)).

(** [max(10, int(score / 10))], the amount [api_submit_quiz] awards. *)
Definition quiz_xp (score : Z) : option Z :=
  option_map (Z.max 10)
    (int_of_float (SFdiv 53 1024 (float_of_Z score) (float_of_Z 10))).

(** What a handler returns: [jsonify(body), status]. *)
Inductive response : Type :=
| Response (status : Z) (body : json).

(** The icons [api_submit_quiz] passes to [award_badge], byte for byte. *)
Definition bytes (l : list nat) : string :=
  fold_right (fun n s => String (ascii_of_nat n) s) EmptyString l.

Definition perfect_score_icon : string :=
  bytes [239; 163; 191; 195; 188; 195; 173; 195; 152]%nat.

Definition excellent_icon : string :=
  bytes [226; 128; 154; 226; 137; 160; 195; 170]%nat.

Section Handlers.

Variable E : oracle.

(** [str(x)] as an f-string formats a JSON value. *)
Variable py_str : json -> string.

(** [create_learning_path] *)
Definition create_learning_path (user_id career_field milestones : json) : M json :=
  store <- _read_store ;;
  has <- lift (py_in "learning_paths" store) ;;
  store <- (if (has : bool) then ret store
            else lift (py_setitem store "learning_paths" (JList []))) ;;
  id <- fresh E uuid4 ;;
  now <- fresh E utcnow ;;
  let path := JDict [("pathId", JStr id); ("userId", user_id);
                     ("careerField", career_field); ("milestones", milestones);
                     ("progress", JInt 0); ("currentMilestone", JInt 0);
                     ("createdAt", JStr now)] in
  paths <- lift (obind (py_item store "learning_paths") (fun l => py_append l path)) ;;
  store <- lift (py_setitem store "learning_paths" paths) ;;
  _write_store store ;;;
  ret path.

(** The body of [complete_milestone] for a path that has both ids and an
    index below the number of its milestones.  The milestone is changed in
    the list the path holds; [award_xp] ignores its reason. *)
Definition complete_in_path (store user_id path : json) (index : Z)
    (before rest : list json) : M bool :=
  milestones <- lift (obind (py_get_or path "milestones" (JList [])) as_list) ;;
  k <- lift (py_position (List.length milestones) index) ;;
  m <- lift (nth_error milestones k) ;;
  m <- lift (py_setitem m "completed" (JBool true)) ;;
  now <- fresh E utcnow ;;
  m <- lift (py_setitem m "completedAt" (JStr now)) ;;
  let milestones := set_nth milestones k m in
  completed <- lift (count_completed milestones) ;;
  progress <- lift (py_percent completed (Z.of_nat (List.length milestones))) ;;
  path <- lift (py_setitem path "milestones" (JList milestones)) ;;
  path <- lift (py_setitem path "progress" (JInt progress)) ;;
  path <- lift (py_setitem path "currentMilestone"
                  (JInt (Z.min (index + 1) (Z.of_nat (List.length milestones) - 1)))) ;;
  award_xp E user_id 50 ;;;
  (if progress =? 100 then
     career <- lift (py_get path "careerField") ;;
     award_badge E user_id "Path Master" ""
       (Some ("Completed learning path for " ++ py_str career)%string) ;;;
     ret tt
   else ret tt) ;;;
  store <- lift (py_setitem store "learning_paths" (JList (before ++ path :: rest))) ;;
  _write_store store ;;;
  ret true.

(** The loop of [complete_milestone]: a path with both ids whose
    milestones the index is not below is passed over. *)
Fixpoint complete_milestone_loop (store user_id path_id milestone_index : json)
    (before rest : list json) : M bool :=
  match rest with
  | [] => ret false
  | path :: rest' =>
      pid <- lift (py_get path "pathId") ;;
      hit <- (if py_eq pid path_id
              then u <- lift (py_get path "userId") ;; ret (py_eq u user_id)
              else ret false) ;;
      below <- (if (hit : bool) then
                  milestones <- lift (py_get_or path "milestones" (JList [])) ;;
                  n <- lift (py_len milestones) ;;
                  index <- lift (as_int milestone_index) ;;
                  ret (if index <? n then Some index else None)
                else ret None) ;;
      match below with
      | Some index => complete_in_path store user_id path index before rest'
      | None =>
          complete_milestone_loop store user_id path_id milestone_index
            (before ++ [path]) rest'
      end
  end.

(** [complete_milestone] *)
Definition complete_milestone (user_id path_id milestone_index : json) : M bool :=
  store <- _read_store ;;
  paths <- lift (store_list store "learning_paths") ;;
  complete_milestone_loop store user_id path_id milestone_index [] paths.

(** [get_learning_paths] *)
Definition get_learning_paths (user_id : json) : M (list json) :=
  records_with "learning_paths" "userId" user_id.

(** *** app.py: the handlers, for the user id of the session *)

(** [verify_activity_ownership] *)
Definition verify_activity_ownership (activity_id user_id : json) : M json :=
  activities <- list_user_activities user_id ;;
  lift (first_with "activityId" activity_id activities).



(** [api_complete_activity] *)
Definition api_complete_activity (user_id payload : json) : M response :=
  let payload := py_or payload (JDict []) in
  activity_id <- lift (py_get payload "activityId") ;;
  if negb (truthy activity_id) then
    ret (Response 400 (JDict [("error", JStr "missing activityId")]))
  else
    ok <- complete_activity E user_id activity_id ;;
    if (ok : bool) then
      record_activity E user_id "complete_activity"
        (JDict [("activityId", activity_id)]) ;;;
      ret (Response 200 (JDict [("status", JStr "completed")]))
    else ret (Response 404 (JDict [("error", JStr "not found")])).

(** [api_submit_quiz] *)
Definition api_submit_quiz (user_id payload : json) : M response :=
  let payload := py_or payload (JDict []) in
  activity_id <- lift (py_get payload "activityId") ;;
  answers <- lift (py_get_or payload "answers" (JDict [])) ;;
  if negb (truthy activity_id) then
    ret (Response 400 (JDict [("error", JStr "missing activityId")]))
  else
    activity <- verify_activity_ownership activity_id user_id ;;
    if negb (truthy activity) then
      ret (Response 403 (JDict [("error", JStr "access denied")]))
    else
      result <- grade_quiz E activity_id answers ;;
      match result with
      | JNull => ret (Response 404 (JDict [("error", JStr "not found")]))
      | _ =>
          score <- lift (py_get_or result "score" (JInt 0)) ;;
          record_activity E user_id "quiz_completed"
            (JDict [("activityId", activity_id); ("score", score)]) ;;;
          score <- lift (as_int score) ;;
          xp_amount <- lift (quiz_xp score) ;;
          award_xp E user_id xp_amount ;;;
          (if score =? 100 then
             award_badge E user_id "Perfect Score" perfect_score_icon
               (Some "Scored 100% on a quiz!") ;;; ret tt
           else if 90 <=? score then
             award_badge E user_id "Excellent" excellent_icon
               (Some "Scored 90% or above!") ;;; ret tt
           else ret tt) ;;;
          ret (Response 200 (JDict [("result", result)]))
      end.

End Handlers.

(* ===================================================================== *)
(** ** Portfolio, mentors, the leaderboard, and the script create_admin.py *)
(* ===================================================================== *)

(** [target_role and target_role in user_role or user_role in target_role],
    as Python groups it: (a and b) or c. *)
Definition role_matches (target_role user_role : string) : bool :=
  (negb (String.eqb target_role "") && contains target_role user_role)
  || contains user_role target_role.

(** [(profile.get('targetRole') or profile.get('currentRole') or '').lower()]
    for [profile = u.get('profile', {})]; [str_lower] is [str.lower]. *)
Definition mentor_role (str_lower : string -> string) (u : json) : option string :=
  obind (py_get_or u "profile" (JDict [])) (fun profile =>
  obind (py_get profile "targetRole") (fun t =>
  obind (py_get profile "currentRole") (fun c =>
  option_map str_lower (as_str (py_or (py_or t c) (JStr "")))))).

(** The completed activities of [u], as the loop of [find_mentors]
    collects them. *)
Definition completed_by (store u : json) : option (list json) :=
  obind (store_list store "activities") (fun acts =>
  obind (py_get u "userId") (fun uid =>
  obind (filterM (fun a => option_map (fun v => py_eq v uid) (py_get a "userId")) acts)
        (filterM (fun a => option_map (fun s => eq_str s "completed") (py_get a "status"))))).

(** The loop of [find_mentors]. *)
Fixpoint mentor_rows (str_lower : string -> string) (store user_id : json)
    (target_role : string) (all_users : list json) : option (list json) :=
  match all_users with
  | [] => Some []
  | u :: rest =>
      obind (py_get u "userId") (fun uid =>
      if py_eq uid user_id then mentor_rows str_lower store user_id target_role rest else
      obind (mentor_role str_lower u) (fun user_role =>
      if role_matches target_role user_role then
        obind (completed_by store u) (fun completed =>
        let n := Z.of_nat (List.length completed) in
        option_map (fun rows =>
                      if 5 <? n
                      then JDict [("user", u); ("matchScore", JInt n);
                                  ("completedActivities", JInt n)] :: rows
                      else rows)
                   (mentor_rows str_lower store user_id target_role rest))
      else mentor_rows str_lower store user_id target_role rest))
  end.

(** A key a dict accepts: lists and dicts are unhashable. *)
Definition hashable (x : json) : bool :=
  match x with JList _ | JDict _ => false | _ => true end.

(** [agg.setdefault(uid, {'total': 0, 'count': 0})] followed by the two
    increments; [agg] keeps its keys in insertion order, equal keys (True
    and 1) being one key. *)
Fixpoint agg_add (uid : json) (score : Z) (agg : list (json * (Z * Z)))
    : list (json * (Z * Z)) :=
  match agg with
  | [] => [(uid, (score, 1))]
  | (k, (total, count)) :: rest =>
      if py_eq k uid then (k, (total + score, count + 1)) :: rest
      else (k, (total, count)) :: agg_add uid score rest
  end.

(** [a.get('status') == 'completed' and a.get('lastScore') is not None] *)
Definition scored (a : json) : option bool :=
  obind (py_get a "status") (fun s =>
  if eq_str s "completed"
  then option_map (fun v => match v with JNull => false | _ => true end)
                  (py_get a "lastScore")
  else Some false).

(** [int(v['total'] / v['count']) if v['count'] else 0]; the quotient is
    the float quotient of the two numbers as floats, which is Python's for
    totals below 2^53. *)
Definition py_avg (total count : Z) : option Z :=
  if count =? 0 then Some 0
  else int_of_float (SFdiv 53 1024 (float_of_Z total) (float_of_Z count)).

(** [(user.get('profile', {}).get('fullName') or
      user.get('profile', {}).get('name') if user else None)
     or (user.get('email') if user else uid)] *)
Definition display_of (user uid : json) : option json :=
  if truthy user then
    obind (py_get_or user "profile" (JDict [])) (fun profile =>
    obind (py_get profile "fullName") (fun full_name =>
    obind (if truthy full_name then Some full_name else py_get profile "name") (fun name =>
    if truthy name then Some name else py_get user "email")))
  else Some uid.

(** [rows[:n]]: a negative [n] leaves out the last [-n] rows. *)
Definition py_take (n : Z) (xs : list json) : list json :=
  if 0 <=? n then firstn (Z.to_nat n) xs
  else firstn (List.length xs - Z.to_nat (- n)) xs.

(** [admins[i] = existing] at the first [a] with [a.get(key) == val]. *)
Fixpoint replace_first (key : string) (val new : json) (xs : list json)
    : option (list json) :=
  match xs with
  | [] => Some []
  | a :: rest =>
      obind (py_get a key) (fun v =>
      if py_eq v val then Some (new :: rest)
      else option_map (cons a) (replace_first key val new rest))
  end.

(** [input(...).strip()]: the answers typed are read in order, each
    already stripped; EOFError when none is left. *)
Definition ask (answers : list string) : option (string * list string) :=
  match answers with
  | a :: rest => Some (a, rest)
  | [] => None
  end.

(** The questions of create_admin.py up to "Check if admin already
    exists": the email, password and name to use, or nothing when the
    script stops for an empty email or password; and the answers left. *)
Definition credentials (answers : list string)
    : option (option (string * string * string) * list string) :=
  obind (ask answers) (fun a =>
  if String.eqb (lower (fst a)) "y" then
    Some (Some ("admin@virtualcareercounselor.com", "admin123", "System Administrator"),
          snd a)
  else
    obind (ask (snd a)) (fun e =>
    if String.eqb (fst e) "" then Some (None, snd e) else
    obind (ask (snd e)) (fun p =>
    if String.eqb (fst p) "" then Some (None, snd p) else
    obind (ask (snd p)) (fun n =>
    Some (Some (fst e, fst p, fst n), snd n))))).

Section Community.

Variable E : oracle.

(** [update_portfolio], for a [portfolio_data] that is a mapping. *)
Definition update_portfolio (user_id : json) (portfolio_data : dict) : M json :=
  store <- _read_store ;;
  user <- get_user user_id ;;
  if negb (truthy user) then ret JNull else
  has <- lift (py_in "profile" user) ;;
  user <- (if (has : bool) then ret user
           else lift (py_setitem user "profile" (JDict []))) ;;
  profile <- lift (py_item user "profile") ;;
  has <- lift (py_member (JStr "portfolio") profile) ;;
  profile <- (if (has : bool) then ret profile
              else lift (py_setitem profile "portfolio" (JDict []))) ;;
  portfolio <- lift (py_item profile "portfolio") ;;
  merged <- lift (match portfolio with
                  | JDict d => Some (JDict (dict_update d portfolio_data))
                  | _ => None
                  end) ;;
  profile <- lift (py_setitem profile "portfolio" merged) ;;
  user <- lift (py_setitem user "profile" profile) ;;
  now <- fresh E utcnow ;;
  user <- lift (py_setitem user "updatedAt" (JStr now)) ;;
  put_user store user_id user ;;;
  lift (obind (py_item user "profile") (fun p => py_item p "portfolio")).

(** [get_portfolio] *)
Definition get_portfolio (user_id : json) : M json :=
  user <- get_user user_id ;;
  if truthy user then
    profile <- lift (py_get user "profile") ;;
    if truthy profile then
      portfolio <- lift (py_get profile "portfolio") ;;
      if truthy portfolio
      then lift (obind (py_item user "profile") (fun p => py_item p "portfolio"))
      else ret (JDict [])
    else ret (JDict [])
  else ret (JDict []).

(** [str.lower], the lower-casing of Python's Unicode text, as the
    interpreter gives it. *)
Variable str_lower : string -> string.

(** [find_mentors]; [career_field] is None or the text given. *)
Definition find_mentors (user_id career_field : json) : M (list json) :=
  user <- get_user user_id ;;
  if negb (truthy user) then ret [] else
  profile <- lift (py_get_or user "profile" (JDict [])) ;;
  target <- lift (py_get profile "targetRole") ;;
  target_role <- lift (option_map str_lower
                         (as_str (py_or (py_or target career_field) (JStr "")))) ;;
  store <- _read_store ;;
  all_users <- lift (store_list store "users") ;;
  mentors <- lift (mentor_rows str_lower store user_id target_role all_users) ;;
  mentors <- lift (py_sorted_desc (fun x => py_item x "matchScore") mentors) ;;
  ret (firstn 10 mentors).

(** The aggregating loop of [get_leaderboard]. *)
Fixpoint aggregate (activities : list json) (agg : list (json * (Z * Z)))
    : option (list (json * (Z * Z))) :=
  match activities with
  | [] => Some agg
  | a :: rest =>
      obind (py_get a "userId") (fun uid =>
      if hashable uid then
        obind (obind (py_get_or a "lastScore" (JInt 0)) (py_int E)) (fun score =>
        aggregate rest (agg_add uid score agg))
      else None)
  end.

(** The loop over [agg.items()]. *)
Fixpoint leaderboard_rows (store : json) (agg : list (json * (Z * Z)))
    : option (list json) :=
  match agg with
  | [] => Some []
  | (uid, (total, count)) :: rest =>
      obind (py_avg total count) (fun avg =>
      obind (obind (store_list store "users") (first_with "userId" uid)) (fun user =>
      obind (display_of user uid) (fun display =>
      option_map (cons (JDict [("userId", uid); ("display", display);
                               ("avgScore", JInt avg); ("completed", JInt count)]))
                 (leaderboard_rows store rest))))
  end.

(** [get_leaderboard] *)
Definition get_leaderboard (top_n : Z) : M (list json) :=
  store <- _read_store ;;
  activities <- lift (obind (store_list store "activities") (filterM scored)) ;;
  agg <- lift (aggregate activities []) ;;
  rows <- lift (leaderboard_rows store agg) ;;
  rows <- lift (py_sorted_desc (fun r => py_item r "avgScore") rows) ;;
  ret (py_take top_n rows).

(** [generate_password_hash] of werkzeug, which salts at random: what it
    returns for a password in this run. *)
Variable generate_password_hash : string -> string.

(** [create_admin] of create_admin.py, with the answers typed at its
    prompts; the prints are left out. *)
Definition create_admin_script (answers : list string) : M unit :=
  asked <- lift (credentials answers) ;;
  match fst asked with
  | None => ret tt
  | Some (email, password, name) =>
      existing <- get_admin_by_email email ;;
      if truthy existing then
        overwrite <- lift (ask (snd asked)) ;;
        if String.eqb (lower (fst overwrite)) "y" then
          existing <- lift (py_setitem existing "passwordHash"
                              (JStr (generate_password_hash password))) ;;
          existing <- (if String.eqb name "" then ret existing
                       else lift (py_setitem existing "name" (JStr name))) ;;
          store <- _read_store ;;
          admins <- lift (obind (py_get_or store "admins" (JList [])) as_list) ;;
          admins <- lift (replace_first "email" (JStr email) existing admins) ;;
          store <- lift (py_setitem store "admins" (JList admins)) ;;
          _write_store store
        else ret tt
      else
        create_admin E email (generate_password_hash password)
          (py_or (JStr name) (JStr "Admin")) ;;;
        ret tt
  end.

End Community.

(* ===================================================================== *)
(** ** Observers used to state the properties                            *)
(* ===================================================================== *)

(** [x.get(k)] as a total function: None off a dict or off the key. *)
Definition field (x : json) (k : string) : json :=
  match x with
  | JDict d => match dict_get d k with Some v => v | None => JNull end
  | _ => JNull
  end.

(** The document [_read_store] returns in a world. *)
Definition current_doc (w : world) : json :=
  match disk w with
  | Stored doc => doc
  | Missing | Unparseable => empty_store
  end.

(** The records of a collection of the current document. *)
Definition collection (w : world) (key : string) : option (list json) :=
  store_list (current_doc w) key.

Definition all_dicts (xs : list json) : bool := forallb is_dict xs.

Definition has_email (email : string) (u : json) : bool :=
  eq_str (field u "email") email.

Definition has_id (key : string) (val : json) (u : json) : bool :=
  py_eq (field u key) val.

(** The activity [complete_activity] looks for. *)
Definition is_target (user_id activity_id a : json) : bool :=
  has_id "userId" user_id a && has_id "activityId" activity_id a.

(** [a'] is [a] marked completed: status set, every key other than status
    and completedAt as before. *)
Definition marked_completed (a a' : json) : Prop :=
  field a' "status" = JStr "completed" /\
  forall k, k <> "status" -> k <> "completedAt" -> field a' k = field a k.


(** Records of the user with id [uid], and pending records. *)
Definition owned (uid : string) (a : json) : bool := eq_str (field a "userId") uid.

Definition pending (a : json) : bool := eq_str (field a "status") "pending".

Definition completed (a : json) : bool := eq_str (field a "status") "completed".


(** The last record [r] with [r.get(key) == val], else [dflt]. *)
Definition last_with (key : string) (val : json) (xs : list json) (dflt : json) : json :=
  fold_left (fun acc u => if has_id key val u then u else acc) xs dflt.

(** A deep merge as the specification words it: a mapping in the update is
    merged into the stored mapping under the same key, level by level; any
    other value overwrites. *)
Fixpoint spec_deep_merge (old new : json) {struct new} : json :=
  match new with
  | JDict e =>
      match old with
      | JDict d =>
          JDict ((fix merge (e acc : dict) {struct e} : dict :=
                    match e with
                    | [] => acc
                    | (k, v) :: e' =>
                        merge e' (dict_set acc k
                                    (match dict_get acc k with
                                     | Some o => spec_deep_merge o v
                                     | None => v
                                     end))
                    end) e d)
      | _ => new
      end
  | _ => new
  end.


(** [a'] is [a] with the grade persisted: lastScore and status set, every
    key other than these and completedAt as before. *)
Definition graded (score : Z) (a a' : json) : Prop :=
  field a' "lastScore" = JInt score /\
  field a' "status" = JStr (if 70 <=? score then "completed" else "pending") /\
  forall k, k <> "lastScore" -> k <> "status" -> k <> "completedAt" ->
            field a' k = field a k.


(** Every quiz [_sample_quiz] can return. *)
Definition all_quizzes : list quiz :=
  generic_quiz :: flat_map (fun r => flat_map snd (snd r)) quizzes.


(** The user record once [ensure_gamification] has run. *)
Definition with_gamification (user fresh_record : json) : json :=
  match user with
  | JDict ud =>
      if dict_has ud "gamification" then user
      else JDict (dict_set ud "gamification" fresh_record)
  | _ => user
  end.

(** [g.get(k, dflt)] read as a number. *)
Definition num_field (g : dict) (k : string) (dflt : Z) : option Z :=
  as_int (match dict_get g k with Some v => v | None => JInt dflt end).

(** The stored record [get_user] returns for an id, None when absent. *)
Definition user_of (users : list json) (user_id : json) : json :=
  match find (has_id "userId" user_id) users with
  | Some u => u
  | None => JNull
  end.

(** The users [put_user] writes: the others in order, then the record. *)
Definition users_with (users : list json) (user_id user : json) : list json :=
  filter (fun u => negb (has_id "userId" user_id u)) users ++ [user].

(** The notifications list a document holds, empty when the key is absent. *)
Definition notifications_ok (store : dict) (l : list json) : Prop :=
  match dict_get store "notifications" with
  | None => l = []
  | Some v => v = JList l
  end.


(** Badges carrying a name. *)
Definition named (badge_name : string) (b : json) : bool :=
  eq_str (field b "name") badge_name.

(** The list [g.get('badges', [])] of a gamification record. *)
Definition badges_ok (g : dict) (bl : list json) : Prop :=
  match dict_get g "badges" with
  | None => bl = []
  | Some v => v = JList bl
  end.


(** The state [update_streak] leaves when it stores streak [n]: it returns
    the gamification record it read with the streak and today's date set,
    and the document on disk is the one read at the start with the user's
    record replaced by the record read at the start carrying that
    gamification record (and a new updatedAt). *)
Definition streak_stored (w' : world) (r : json) (store : dict) (users : list json)
    (user_id : json) (ud g : dict) (today : string) (n : Z) : Prop :=
  let g' := dict_set (dict_set g "streak" (JInt n)) "lastLoginDate" (JStr today) in
  r = JDict g' /\
  exists user',
    disk w' = Stored (JDict (dict_set store "users"
                               (JList (users_with users user_id user')))) /\
    field user' "gamification" = JDict g' /\
    forall k, k <> "gamification" -> k <> "updatedAt" ->
              field user' k = field (JDict ud) k.


(** [user.get('referrals', {}).get('code') == code] *)
Definition holds_code (code : string) (u : json) : option bool :=
  obind (py_get_or u "referrals" (JDict [])) (fun r =>
  option_map (fun c => eq_str c code) (py_get r "code")).



(** The record a lookup by [key] returns on a list of dicts, None when no
    record matches. *)
Definition found (xs : list json) (key : string) (val : json) : json :=
  match find (has_id key val) xs with
  | Some u => u
  | None => JNull
  end.


(** The list a dict holds under a key, empty when the key is absent:
    [d.get(key, [])] for a value that is a list. *)
Definition holds_list (d : dict) (key : string) (xs : list json) : Prop :=
  match dict_get d key with
  | None => xs = []
  | Some v => v = JList xs
  end.


(** [x.get('createdAt', '')] as a total function. *)
Definition created_key (x : json) : json :=
  match x with
  | JDict d => match dict_get d "createdAt" with Some v => v | None => JStr "" end
  | _ => JStr ""
  end.

(** [x] may stand before [y] in a list sorted newest first: the creation
    key of [x] is not below that of [y]. *)
Definition not_older (x y : json) : Prop :=
  py_lt (created_key x) (created_key y) = Some false.

(** A record whose creation key is text (or absent). *)
Definition dated (x : json) : bool :=
  match created_key x with JStr _ => true | _ => false end.

(** The jobs [list_jobs] selects: those of the status and, when a career
    field is given, of that field once [str_lower], which is [str.lower],
    has lowered both. *)
Definition job_listed (str_lower : string -> string) (career_field : json)
    (status : string) (j : json) : bool :=
  if truthy career_field then
    match career_field, py_get_or j "career_field" (JStr "") with
    | JStr c, Some (JStr f) =>
        String.eqb (str_lower f) (str_lower c) && eq_str (field j "status") status
    | _, _ => false
    end
  else eq_str (field j "status") status.

(** A job whose career field is text (or absent). *)
Definition field_is_text (j : json) : bool :=
  match py_get_or j "career_field" (JStr "") with
  | Some (JStr _) => true
  | _ => false
  end.

(** [r'] is [r] with a new status: the status set, every key other than
    status and updatedAt as before. *)
Definition status_set (status : json) (r r' : json) : Prop :=
  field r' "status" = status /\
  forall k, k <> "status" -> k <> "updatedAt" -> field r' k = field r k.


(** [n'] is [n] marked read: read set to True, every key other than read
    and readAt as before. *)
Definition marked_read (n n' : json) : Prop :=
  field n' "read" = JBool true /\
  forall k, k <> "read" -> k <> "readAt" -> field n' k = field n k.

(** The notifications [mark_all_notifications_read] marks for a user. *)
Definition unread_of (user_id n : json) : bool :=
  has_id "userId" user_id n && negb (truthy (field n "read")).

(** The notifications [mark_notification_read] marks. *)
Definition notification_of (notification_id user_id n : json) : bool :=
  has_id "notificationId" notification_id n && has_id "userId" user_id n.


(** A connection between two users, in either direction. *)
Definition linked (a b c : json) : bool :=
  (has_id "fromUserId" a c && has_id "toUserId" b c) ||
  (has_id "fromUserId" b c && has_id "toUserId" a c).

(** The connection [accept_connection] acts on: the id, addressed to the
    user. *)
Definition addressed (connection_id user_id c : json) : bool :=
  has_id "connectionId" connection_id c && has_id "toUserId" user_id c.

(** [c'] is [c] accepted: the status set, every key other than status and
    acceptedAt as before. *)
Definition accepted (c c' : json) : Prop :=
  field c' "status" = JStr "accepted" /\
  forall k, k <> "status" -> k <> "acceptedAt" -> field c' k = field c k.





(** Keyed items as [sorted] orders them, newest first: the key of the first
    is not below the key of the second. *)
Definition key_not_below (p q : json * json) : Prop :=
  py_lt (fst p) (fst q) = Some false.

(** A keyed item whose key is text. *)
Definition text_key (p : json * json) : Prop := exists s, fst p = JStr s.


(** The mapping a dict holds under a key, empty when the key is absent. *)
Definition holds_dict (d : dict) (key : string) (v : dict) : Prop :=
  match dict_get d key with
  | None => v = []
  | Some x => x = JDict v
  end.


(** The completed activities of the user of a record. *)
Definition completed_of (acts : list json) (u : json) : list json :=
  filter completed (filter (has_id "userId" (field u "userId")) acts).

(** The row [find_mentors] builds for a user. *)
Definition mentor_row (acts : list json) (u : json) : json :=
  JDict [("user", u);
         ("matchScore", JInt (Z.of_nat (List.length (completed_of acts u))));
         ("completedActivities", JInt (Z.of_nat (List.length (completed_of acts u))))].

(** The users [find_mentors] ranks for a seeker with a target role: another
    user whose role matches and who has completed more than five
    activities. *)
Definition mentor_candidate (str_lower : string -> string) (user_id : json)
    (target_role : string) (acts : list json) (u : json) : bool :=
  negb (has_id "userId" user_id u)
  && match mentor_role str_lower u with
     | Some user_role => role_matches target_role user_role
     | None => false
     end
  && (5 <? Z.of_nat (List.length (completed_of acts u))).

(** [x] may stand before [y] in a list sorted on a key, highest first. *)
Definition ranks_before (key : string) (x y : json) : Prop :=
  py_lt (field x key) (field y key) = Some false.

(** A keyed item whose key is a number. *)
Definition int_key (p : json * json) : Prop := exists n, fst p = JInt n.


(** The keys of the aggregate of [get_leaderboard] are hashable and
    pairwise unequal, and every count is at least one. *)
Definition agg_ok (agg : list (json * (Z * Z))) : Prop :=
  Forall (fun p => hashable (fst p) = true /\ 1 <= snd (snd p)) agg /\
  ForallOrdPairs (fun p q => py_eq (fst p) (fst q) = false) agg.


(** A demonstration environment: ids and times derived from the tick, the
    server on UTC on 2024-06-08, [int] on decimal text, no SNS topic and no
    DynamoDB table. *)
Definition demo_dates : list (string * Z) :=
  [("2024-06-01", 739038); ("2024-06-05", 739042);
   ("2024-06-07", 739044); ("2024-06-08", 739045)].

Definition demo_oracle : oracle :=
  {| uuid4 := fun n => ("id-" ++ NilZero.string_of_uint (Nat.to_uint n))%string;
     utcnow := fun n => ("t" ++ NilZero.string_of_uint (Nat.to_uint n))%string;
     utc_today := fun _ => "2024-06-08";
     local_today := fun _ => 739045;
     fromisoformat := fun s => assoc s demo_dates;
     int_of_text := fun s => option_map Z.of_int (NilZero.int_of_string s);
     sns_on := false;
     ddb_put := fun _ => false |}.

Definition world0 (doc : json) : world := mkWorld (Stored doc) 0 [].

(** A user record with a gamification record. *)
Definition demo_user (uid : string) (xp level streak : Z) (last_login : json)
    (badges : list json) : json :=
  JDict [("userId", JStr uid); ("email", JStr (uid ++ "@example.org")%string);
         ("gamification",
          JDict [("xp", JInt xp); ("level", JInt level); ("badges", JList badges);
                 ("streak", JInt streak); ("lastLoginDate", last_login);
                 ("achievements", JList [])])].

Definition demo_store (users : list json) : json :=
  JDict [("users", JList users); ("roadmaps", JList [])].

(** A pending activity of user u1 on the first basic software quiz, whose
    six answers are 0, 1, 0, 1, 1, 1. *)
Definition demo_activity : json :=
  JDict [("activityId", JStr "a1"); ("userId", JStr "u1");
         ("title", JStr "Build a project - Quiz 1");
         ("level", JStr "basic"); ("role", JStr "software engineer");
         ("quizVariant", JInt 1); ("status", JStr "pending")].

Definition demo_quiz_store : json :=
  JDict [("users", JList []); ("roadmaps", JList []);
         ("activities", JList [demo_activity])].

(** A referrer u1 holding code ABCD1234 and a new user u2. *)
Definition demo_referral_store : json :=
  JDict [("users",
          JList [JDict [("userId", JStr "u1"); ("email", JStr "u1@example.org");
                        ("gamification",
                         JDict [("xp", JInt 20); ("level", JInt 1); ("badges", JList []);
                                ("streak", JInt 0); ("lastLoginDate", JNull);
                                ("achievements", JList [])]);
                        ("referrals",
                         JDict [("code", JStr "ABCD1234"); ("count", JInt 0);
                                ("rewards", JList [])])];
                 demo_user "u2" 0 1 0 JNull []]);
         ("roadmaps", JList [])].

(** A stored user with a nested mapping in the profile, and a partial
    update of that nested mapping. *)
Definition demo_profile : dict :=
  [("name", JStr "Ann"); ("prefs", JDict [("theme", JStr "dark"); ("lang", JStr "en")])].

Definition demo_profile_user : dict :=
  [("userId", JStr "u1"); ("email", JStr "ann@example.org");
   ("profile", JDict demo_profile)].

Definition demo_profile_update : dict := [("prefs", JDict [("lang", JStr "fr")])].

Definition demo_profile_item : dict :=
  [("userId", JStr "u1"); ("profile", JDict demo_profile_update)].


(** A store with every collection the further properties read: two users
    (u1 with a profile, a saved job and a resume), three jobs, an event,
    three notifications, a connection request from u1 to u2, a learning
    path of u1 with two milestones, and the pending activity of u1. *)
Definition demo_job (id career_field status created : string) : json :=
  JDict [("jobId", JStr id); ("career_field", JStr career_field);
         ("status", JStr status); ("createdAt", JStr created)].

Definition demo_jobs : list json :=
  [demo_job "j1" "Data" "active" "2024-06-01";
   demo_job "j2" "data" "active" "2024-06-05";
   demo_job "j3" "Design" "closed" "2024-06-07"].

Definition demo_resume : json :=
  JDict [("resumeId", JStr "r1"); ("name", JStr "My Resume");
         ("template", JStr "modern"); ("sections", JDict [])].

Definition demo_member_record : dict :=
  [("userId", JStr "u1"); ("email", JStr "u1@example.org");
   ("profile", JDict [("targetRole", JStr "Math Teacher")]);
   ("savedJobs", JList [JStr "j1"]);
   ("resumes", JList [demo_resume]);
   ("gamification",
    JDict [("xp", JInt 0); ("level", JInt 1); ("badges", JList []);
           ("streak", JInt 0); ("lastLoginDate", JNull); ("achievements", JList [])])].

Definition demo_members : list json :=
  [JDict demo_member_record; demo_user "u2" 0 1 0 JNull []].

Definition demo_notification (id uid : string) (read : bool) (created : string) : json :=
  JDict [("notificationId", JStr id); ("userId", JStr uid); ("read", JBool read);
         ("createdAt", JStr created)].

Definition demo_notifications : list json :=
  [demo_notification "n1" "u1" false "2024-06-01";
   demo_notification "n2" "u2" false "2024-06-05";
   demo_notification "n3" "u1" true "2024-06-07"].

Definition demo_connection : json :=
  JDict [("connectionId", JStr "c1"); ("fromUserId", JStr "u1");
         ("toUserId", JStr "u2"); ("message", JNull); ("status", JStr "pending")].

Definition demo_path : json :=
  JDict [("pathId", JStr "p1"); ("userId", JStr "u1"); ("careerField", JStr "Teaching");
         ("milestones", JList [JDict [("title", JStr "Read")];
                               JDict [("title", JStr "Teach")]]);
         ("progress", JInt 0); ("currentMilestone", JInt 0)].

Definition demo_event : json :=
  JDict [("userId", JStr "u1"); ("eventType", JStr "login"); ("metadata", JDict [])].

Definition demo_site_record : dict :=
  [("users", JList demo_members); ("roadmaps", JList []);
   ("jobs", JList demo_jobs); ("events", JList [demo_event]);
   ("notifications", JList demo_notifications);
   ("connections", JList [demo_connection]);
   ("learning_paths", JList [demo_path]);
   ("activities", JList [demo_activity])].

Definition demo_site : json := JDict demo_site_record.

(** [str] of a JSON value for the demonstration runs: text as it is. *)
Definition demo_str (x : json) : string :=
  match x with JStr s => s | _ => "None" end.


(** A store with two admins, and with completed and scored activities: six
    of u2 (who has no profile) and one of u1. *)
Definition demo_admin (id email : string) : json :=
  JDict [("adminId", JStr id); ("email", JStr email); ("passwordHash", JStr "old");
         ("name", JStr "Admin"); ("role", JStr "admin")].

Definition demo_done (aid uid : string) (score : Z) : json :=
  JDict [("activityId", JStr aid); ("userId", JStr uid); ("status", JStr "completed");
         ("lastScore", JInt score)].

Definition demo_done_activities : list json :=
  [demo_done "b1" "u2" 100; demo_done "b2" "u1" 80; demo_done "b3" "u2" 66;
   demo_done "b4" "u2" 75; demo_done "b5" "u2" 50; demo_done "b6" "u2" 100;
   demo_done "b7" "u2" 83; demo_activity].

Definition demo_admins : list json :=
  [demo_admin "ad1" "root@example.org"; demo_admin "ad2" "ops@example.org"].

Definition demo_board_record : dict :=
  [("users", JList demo_members); ("roadmaps", JList []);
   ("activities", JList demo_done_activities);
   ("admins", JList demo_admins)].

Definition demo_board : json := JDict demo_board_record.

(** A password hash for the demonstration runs. *)
Definition demo_hash (password : string) : string := ("hashed:" ++ password)%string.


(** The xp a document holds for a user, read as [get_gamification_stats]
    then [.get('xp')] does. *)
Definition persisted_xp (w : world) (uid : string) : option json :=
  match get_gamification_stats (JStr uid) w with
  | Some (g, _) => Some (field g "xp")
  | None => None
  end.

Definition persisted_badges (w : world) (uid : string) : option json :=
  match get_gamification_stats (JStr uid) w with
  | Some (g, _) => Some (field g "badges")
  | None => None
  end.

Definition persisted_streak (w : world) (uid : string) : option json :=
  match get_gamification_stats (JStr uid) w with
  | Some (g, _) => Some (field g "streak")
  | None => None
  end.

(** The documents written during a run, oldest first. *)
Definition written (w : world) : list json :=
  flat_map (fun e => match e with Wrote doc => [doc] | Published _ _ _ => [] end)
           (rev (trace w)).

(** Whether a document holds, for the user, a badge of that name. *)
Definition doc_has_badge (uid badge_name : string) (doc : json) : bool :=
  match store_list doc "users" with
  | Some users =>
      match py_iter (field (field (user_of users (JStr uid)) "gamification") "badges") with
      | Some bl => existsb (named badge_name) bl
      | None => false
      end
  | None => false
  end.

(** The xp a document holds for the user. *)
Definition doc_xp (uid : string) (doc : json) : json :=
  match store_list doc "users" with
  | Some users => field (field (user_of users (JStr uid)) "gamification") "xp"
  | None => JNull
  end.

(* ===================================================================== *)
(** ** Basic facts about the embedding                                   *)
(* ===================================================================== *)

Section Basics.

Variable E : oracle.

Lemma read_store_current (w : world) :
  _read_store w = Some (current_doc w, w).
Proof. unfold _read_store, current_doc. destruct (disk w); reflexivity. Qed.

Lemma bind_some {A B} (m : M A) (f : A -> M B) (w w1 : world) (a : A) :
  m w = Some (a, w1) -> bind m f w = f a w1.
Proof. intros H. unfold bind. rewrite H. reflexivity. Qed.

Lemma lift_some {A} (o : option A) (a : A) (w : world) :
  o = Some a -> lift o w = Some (a, w).
Proof. intros ->. reflexivity. Qed.

Lemma py_get_dict (u : json) (k : string) :
  is_dict u = true -> py_get u k = Some (field u k).
Proof. destruct u; simpl; try discriminate. reflexivity. Qed.

Lemma py_eq_str (s : string) (x : json) : py_eq x (JStr s) = eq_str x s.
Proof. destruct x; simpl; try reflexivity; destruct b; reflexivity. Qed.

Lemma filterM_dicts (p : json -> option bool) (q : json -> bool) (xs : list json) :
  all_dicts xs = true ->
  (forall u, is_dict u = true -> p u = Some (q u)) ->
  filterM p xs = Some (filter q xs).
Proof.
  intros Hd Hp. induction xs as [|x xs IH]; simpl; [reflexivity|].
  simpl in Hd. apply andb_prop in Hd as [Hx Hxs].
  rewrite (Hp x Hx), (IH Hxs). simpl. destruct (q x); reflexivity.
Qed.

Lemma without_dicts (key : string) (val : json) (xs : list json) :
  all_dicts xs = true ->
  without key val xs = Some (filter (fun u => negb (has_id key val u)) xs).
Proof.
  intros Hd. apply filterM_dicts; [exact Hd|].
  intros u Hu. rewrite (py_get_dict u key Hu). reflexivity.
Qed.

Lemma all_dicts_filter (q : json -> bool) (xs : list json) :
  all_dicts xs = true -> all_dicts (filter q xs) = true.
Proof.
  induction xs as [|x xs IH]; simpl; [reflexivity|].
  intros H. apply andb_prop in H as [Hx Hxs].
  destruct (q x); simpl; [rewrite Hx|]; auto.
Qed.

Lemma all_dicts_app (xs ys : list json) :
  all_dicts (xs ++ ys) = all_dicts xs && all_dicts ys.
Proof. apply forallb_app. Qed.

Lemma dict_get_set_same (d : dict) (k : string) (v : json) :
  dict_get (dict_set d k v) k = Some v.
Proof.
  induction d as [|[k' v'] d IH]; simpl.
  - rewrite String.eqb_refl. reflexivity.
  - destruct (String.eqb k' k) eqn:Hk; simpl; rewrite Hk; auto.
Qed.

Lemma dict_get_set_other (d : dict) (k k0 : string) (v : json) :
  String.eqb k k0 = false -> dict_get (dict_set d k v) k0 = dict_get d k0.
Proof.
  intros Hne. induction d as [|[k' v'] d IH]; simpl.
  - rewrite Hne. reflexivity.
  - destruct (String.eqb k' k) eqn:Hk; simpl.
    + apply String.eqb_eq in Hk. subst k'. rewrite Hne. reflexivity.
    + destruct (String.eqb k' k0); auto.
Qed.

Lemma store_list_set (store : dict) (key : string) (xs : list json) :
  store_list (JDict (dict_set store key (JList xs))) key = Some xs.
Proof. unfold store_list. simpl. rewrite dict_get_set_same. reflexivity. Qed.

Lemma store_list_is_dict (store : json) (key : string) (xs : list json) :
  store_list store key = Some xs -> exists d, store = JDict d.
Proof. destruct store; simpl; try discriminate. eauto. Qed.

Lemma field_set_same (d : dict) (k : string) (v : json) :
  field (JDict (dict_set d k v)) k = v.
Proof. simpl. rewrite dict_get_set_same. reflexivity. Qed.

Lemma field_set_other (d : dict) (k k0 : string) (v : json) :
  k <> k0 -> field (JDict (dict_set d k v)) k0 = field (JDict d) k0.
Proof.
  intros Hne. simpl. rewrite dict_get_set_other; [reflexivity|].
  apply String.eqb_neq. exact Hne.
Qed.


Lemma filter_filter_implied {A} (p q : A -> bool) (xs : list A) :
  (forall x, p x = true -> q x = true) ->
  filter p (filter q xs) = filter p xs.
Proof.
  intros Himp. induction xs as [|x xs IH]; simpl; [reflexivity|].
  destruct (q x) eqn:Hq; simpl.
  - rewrite IH. reflexivity.
  - destruct (p x) eqn:Hp; [|exact IH].
    rewrite (Himp x Hp) in Hq. discriminate.
Qed.

Lemma filter_all {A} (p : A -> bool) (xs : list A) :
  Forall (fun x => p x = true) xs -> filter p xs = xs.
Proof.
  induction 1 as [|x xs Hx _ IH]; simpl; [reflexivity|].
  rewrite Hx, IH. reflexivity.
Qed.

Lemma filter_nothing {A} (p : A -> bool) (xs : list A) :
  Forall (fun x => p x = false) xs -> filter p xs = [].
Proof.
  induction 1 as [|x xs Hx _ IH]; simpl; [reflexivity|].
  rewrite Hx. exact IH.
Qed.


Lemma dict_get_app (d e : dict) (k : string) :
  dict_get (d ++ e) k
  = match dict_get d k with Some v => Some v | None => dict_get e k end.
Proof.
  induction d as [|[k' v'] d IH]; simpl; [reflexivity|].
  destruct (String.eqb k' k); auto.
Qed.

Lemma dict_get_absent (d : dict) (k : string) :
  ~ In k (map fst d) -> dict_get d k = None.
Proof.
  induction d as [|[k' v'] d IH]; simpl; [reflexivity|].
  intros Hn. destruct (String.eqb k' k) eqn:Hk.
  - apply String.eqb_eq in Hk. tauto.
  - apply IH. tauto.
Qed.

(** With unique keys the first and the last binding of a key agree. *)
Lemma dict_get_rev (d : dict) (k : string) :
  NoDup (map fst d) -> dict_get (rev d) k = dict_get d k.
Proof.
  induction d as [|[k' v'] d IH]; simpl; [reflexivity|].
  intros Hnd. inversion Hnd as [|? ? Hnotin Hnd']; subst.
  rewrite dict_get_app, (IH Hnd'). simpl.
  destruct (String.eqb k' k) eqn:Hk.
  - apply String.eqb_eq in Hk. subst k'.
    rewrite (dict_get_absent d k Hnotin). reflexivity.
  - destruct (dict_get d k); reflexivity.
Qed.

(** [d.update(e)]: the update's binding wins, any other key is as in d. *)
Lemma dict_get_update (d e : dict) (k : string) :
  dict_get (dict_update d e) k
  = match dict_get (rev e) k with Some v => Some v | None => dict_get d k end.
Proof.
  unfold dict_update. revert d.
  induction e as [|[k1 v1] e IH]; intros d; simpl; [reflexivity|].
  rewrite IH, dict_get_app. simpl.
  destruct (dict_get (rev e) k); [reflexivity|].
  destruct (String.eqb k1 k) eqn:Hk.
  - apply String.eqb_eq in Hk. subst k1. apply dict_get_set_same.
  - apply dict_get_set_other. exact Hk.
Qed.

Lemma dict_get_update_nodup (d e : dict) (k : string) :
  NoDup (map fst e) ->
  dict_get (dict_update d e) k
  = match dict_get e k with Some v => Some v | None => dict_get d k end.
Proof. intros He. rewrite dict_get_update, (dict_get_rev e k He). reflexivity. Qed.

Lemma scan_users_dicts (item : json) (users : list json) (existing : json)
    (kept : list json) :
  is_dict item = true ->
  all_dicts users = true ->
  scan_users item users existing kept
  = Some (last_with "userId" (field item "userId") users existing,
          kept ++ filter (fun u => negb (has_id "userId" (field item "userId") u)) users).
Proof.
  intros Hi. revert existing kept.
  induction users as [|u users IH]; intros existing kept Hd; simpl.
  - rewrite app_nil_r. reflexivity.
  - simpl in Hd. apply andb_prop in Hd as [Hu Hd].
    rewrite (py_get_dict u "userId" Hu), (py_get_dict item "userId" Hi).
    cbn [obind].
    change (py_eq (field u "userId") (field item "userId"))
      with (has_id "userId" (field item "userId") u).
    unfold last_with. cbn [fold_left].
    destruct (has_id "userId" (field item "userId") u); cbn [negb].
    + apply IH. exact Hd.
    + rewrite IH by exact Hd. rewrite <- app_assoc. reflexivity.
Qed.


Lemma chars_not_dicts (s : string) : s <> "" -> all_dicts (chars s) = false.
Proof. destruct s; [congruence | reflexivity]. Qed.



End Basics.

(* ===================================================================== *)
(** ** Properties                                                        *)
(* ===================================================================== *)

Section Properties.

Variable E : oracle.

(** C8.  Reading the store never fails, and when the backing file is
    missing or holds text json.load rejects, [_read_store] returns the
    document [{'users': [], 'roadmaps': []}], whose two collections are
    defined and empty, and leaves the world as it was.  The first run
    initializes itself: a first [create_user] on such a file succeeds and
    writes a document with both collections, the new user in it. *)
Theorem read_store_self_initializes (w : world) :
  (exists doc, _read_store w = Some (doc, w)) /\
  (forall t tr, _read_store (mkWorld Missing t tr)
                = Some (JDict [("users", JList []); ("roadmaps", JList [])],
                        mkWorld Missing t tr)) /\
  (forall t tr, _read_store (mkWorld Unparseable t tr)
                = Some (JDict [("users", JList []); ("roadmaps", JList [])],
                        mkWorld Unparseable t tr)) /\
  store_list empty_store "users" = Some [] /\
  store_list empty_store "roadmaps" = Some [] /\
  (forall email password profile t tr,
     exists user w',
       create_user E email password profile (mkWorld Missing t tr) = Some (user, w') /\
       disk w' = Stored (JDict [("users", JList [user]); ("roadmaps", JList [])])) /\
  (forall email password profile t tr,
     exists user w',
       create_user E email password profile (mkWorld Unparseable t tr) = Some (user, w') /\
       disk w' = Stored (JDict [("users", JList [user]); ("roadmaps", JList [])])).
Proof.
  split; [exists (current_doc w); apply read_store_current|].
  do 4 (split; [reflexivity|]).
  split; intros; eexists _, _;
    unfold create_user, bind, fresh, lift, ret, _read_store, _write_store; simpl;
    split; reflexivity.
Qed.

Lemma filter_none_after_remove {A} (q : A -> bool) (xs : list A) :
  filter q (filter (fun u => negb (q u)) xs) = [].
Proof.
  induction xs as [|x xs IH]; simpl; [reflexivity|].
  destruct (q x) eqn:Hq; simpl; [|rewrite Hq]; exact IH.
Qed.

(** C6.  [create_user] never rejects a duplicate email: on a store whose
    user records are dicts it returns the new record, and the users written
    are the old ones without every record carrying that email, followed by
    the new record; exactly one record then carries the email. *)
Theorem create_user_replaces_same_email
    (email password : string) (profile : json) (w : world) (users : list json) :
  collection w "users" = Some users ->
  all_dicts users = true ->
  exists user w' users',
    create_user E email password profile w = Some (user, w') /\
    field user "email" = JStr email /\
    collection w' "users" = Some users' /\
    users' = filter (fun u => negb (has_email email u)) users ++ [user] /\
    List.length (filter (has_email email) users') = 1%nat.
Proof.
  intros Hc Hd.
  destruct (store_list_is_dict _ _ _ Hc) as [store Hs].
  unfold collection in Hc. rewrite Hs in Hc.
  unfold store_list in Hc. simpl in Hc.
  set (old := match dict_get store "users" with Some v => v | None => JList [] end) in *.
  unfold create_user, bind, fresh, ret. simpl.
  rewrite read_store_current. unfold current_doc in *. simpl. rewrite Hs.
  simpl. fold old. simpl in Hc. rewrite Hc. simpl.
  rewrite (filterM_dicts _ (fun u => negb (has_email email u)) users Hd).
  2:{ intros u Hu. rewrite (py_get_dict u "email" Hu). reflexivity. }
  simpl. unfold _write_store. simpl.
  eexists _, _, _. split; [reflexivity|]. split; [reflexivity|].
  split; [unfold collection, current_doc; simpl; apply store_list_set|].
  split; [reflexivity|].
  rewrite filter_app, filter_none_after_remove. simpl.
  unfold has_email at 1. simpl. rewrite String.eqb_refl. reflexivity.
Qed.

Lemma complete_one_skip (user_id activity_id a : json) (w : world) :
  is_dict a = true ->
  is_target user_id activity_id a = false ->
  complete_one E user_id activity_id a w = Some ((a, false), w).
Proof.
  intros Ha Ht. unfold complete_one, bind, lift, ret.
  rewrite (py_get_dict a "userId" Ha).
  unfold is_target, has_id in Ht.
  destruct (py_eq (field a "userId") user_id); simpl in *.
  - rewrite (py_get_dict a "activityId" Ha). rewrite Ht. reflexivity.
  - reflexivity.
Qed.

Lemma complete_one_hit (user_id activity_id a : json) (w : world) :
  is_dict a = true ->
  is_target user_id activity_id a = true ->
  exists a',
    complete_one E user_id activity_id a w
    = Some ((a', true), mkWorld (disk w) (S (tick w)) (trace w)) /\
    is_dict a' = true /\ marked_completed a a'.
Proof.
  intros Ha Ht. unfold complete_one, bind, lift, ret, fresh.
  rewrite (py_get_dict a "userId" Ha).
  unfold is_target, has_id in Ht. apply andb_prop in Ht as [H1 H2].
  rewrite H1. rewrite (py_get_dict a "activityId" Ha). rewrite H2.
  destruct a as [| | | | |d]; try discriminate. simpl.
  eexists. split; [reflexivity|]. split; [reflexivity|]. split.
  - rewrite field_set_other by discriminate. apply field_set_same.
  - intros k Hk1 Hk2.
    rewrite field_set_other by congruence.
    rewrite field_set_other by congruence. reflexivity.
Qed.

(** The loop of [complete_activity] on a list of dicts: it never writes,
    marks exactly the targets, and without a target leaves the world and
    the records as they are. *)
Lemma complete_loop (user_id activity_id : json) (acts : list json) (w : world) :
  all_dicts acts = true ->
  exists marked w',
    mapM (complete_one E user_id activity_id) acts w = Some (marked, w') /\
    disk w' = disk w /\ trace w' = trace w /\
    existsb snd marked = existsb (is_target user_id activity_id) acts /\
    Forall2 (fun a a' => if is_target user_id activity_id a
                         then marked_completed a a' else a' = a)
            acts (map fst marked) /\
    (existsb (is_target user_id activity_id) acts = false -> w' = w).
Proof.
  revert w. induction acts as [|a acts IH]; intros w Hd.
  - exists [], w. simpl. repeat split; auto.
  - simpl in Hd. apply andb_prop in Hd as [Ha Hd].
    destruct (is_target user_id activity_id a) eqn:Ht.
    + destruct (complete_one_hit user_id activity_id a w Ha Ht) as (a' & Hrun & _ & Hm).
      destruct (IH (mkWorld (disk w) (S (tick w)) (trace w)) Hd)
        as (marked & w' & Hloop & Hdk & Htr & Hex & Hall & _).
      exists ((a', true) :: marked), w'. simpl.
      unfold bind at 1. rewrite Hrun. unfold bind at 1. rewrite Hloop.
      rewrite Ht. simpl. repeat split; auto; try discriminate.
      constructor; [rewrite Ht; exact Hm | exact Hall].
    + destruct (IH w Hd) as (marked & w' & Hloop & Hdk & Htr & Hex & Hall & Hsame).
      exists ((a, false) :: marked), w'. simpl.
      unfold bind at 1. rewrite (complete_one_skip user_id activity_id a w Ha Ht).
      unfold bind at 1. rewrite Hloop. rewrite Ht. simpl.
      repeat split; auto.
      constructor; [rewrite Ht; reflexivity | exact Hall].
Qed.

(** C10.  On a store whose activity records are dicts: when no record has
    both the user id and the activity id, [complete_activity] returns False
    and leaves the world untouched (nothing is written); when some record
    has both, it returns True and writes the document with every such
    record marked completed, every other record as it was, and every other
    collection as it was. *)
Theorem complete_activity_atomic_on_not_found
    (user_id activity_id : json) (w : world) (acts : list json) :
  collection w "activities" = Some acts ->
  all_dicts acts = true ->
  (existsb (is_target user_id activity_id) acts = false ->
     complete_activity E user_id activity_id w = Some (false, w)) /\
  (existsb (is_target user_id activity_id) acts = true ->
     exists w' acts',
       complete_activity E user_id activity_id w = Some (true, w') /\
       collection w' "activities" = Some acts' /\
       Forall2 (fun a a' => if is_target user_id activity_id a
                            then marked_completed a a' else a' = a) acts acts' /\
       forall key, key <> "activities" ->
                   field (current_doc w') key = field (current_doc w) key).
Proof.
  intros Hc Hd.
  destruct (store_list_is_dict _ _ _ Hc) as [store Hs].
  destruct (complete_loop user_id activity_id acts w Hd)
    as (marked & w1 & Hloop & Hdk & Htr & Hex & Hall & Hsame).
  unfold collection in Hc.
  assert (Hrun :
    complete_activity E user_id activity_id w
    = (if existsb snd marked
       then bind (lift (py_setitem (current_doc w) "activities" (JList (map fst marked))))
              (fun store => bind (_write_store store) (fun _ => ret true))
       else ret false) w1).
  { unfold complete_activity. unfold bind at 1.
    rewrite read_store_current. unfold bind at 1, lift at 1. rewrite Hc.
    unfold bind at 1. rewrite Hloop. reflexivity. }
  split; intros Hany; rewrite Hrun, Hex, Hany.
  - rewrite (Hsame Hany). reflexivity.
  - rewrite Hs. unfold bind, lift, ret, _write_store. simpl.
    eexists _, _. split; [reflexivity|].
    split; [unfold collection, current_doc; simpl; apply store_list_set|].
    split; [exact Hall|].
    intros key Hk.
    change (field (JDict (dict_set store "activities" (JList (map fst marked)))) key
            = field (JDict store) key).
    apply field_set_other. congruence.
Qed.

Lemma new_activity_run (user_id : json) (role_normalized : string)
    (tasks : list (string * string)) (level_idx : nat) (level : string) (quiz_num : Z)
    (w : world) :
  exists title detail,
    new_activity E user_id role_normalized tasks (level_idx, level, quiz_num) w
    = Some (JDict [("activityId", JStr (uuid4 E (tick w)));
                   ("userId", user_id); ("title", title); ("detail", detail);
                   ("level", JStr level); ("role", JStr role_normalized);
                   ("quizVariant", JInt quiz_num); ("status", JStr "pending");
                   ("createdAt", JStr (utcnow E (S (tick w))))],
            mkWorld (disk w) (S (S (tick w))) (trace w)).
Proof. eexists _, _. reflexivity. Qed.

(** The creating loop of [create_activities_for_role]: one pending record
    of the user per slot, with the slot's level and variant; nothing is
    written. *)
Lemma new_activities (uid role_normalized : string) (tasks : list (string * string))
    (ss : list (nat * string * Z)) (w : world) :
  exists created w',
    mapM (new_activity E (JStr uid) role_normalized tasks) ss w = Some (created, w') /\
    disk w' = disk w /\ trace w' = trace w /\
    all_dicts created = true /\
    Forall (fun a => owned uid a = true /\ pending a = true) created /\
    map (fun a => (field a "level", field a "quizVariant")) created
    = map (fun s => (JStr (snd (fst s)), JInt (snd s))) ss.
Proof.
  revert w. induction ss as [|[[level_idx level] quiz_num] ss IH]; intros w.
  - exists [], w. simpl. repeat split; auto.
  - destruct (new_activity_run (JStr uid) role_normalized tasks level_idx level quiz_num w)
      as (title & detail & Hone).
    destruct (IH (mkWorld (disk w) (S (S (tick w))) (trace w)))
      as (created & w' & Hrun & Hdk & Htr & Hd & Hall & Hmap).
    cbn [mapM]. unfold bind at 1. rewrite Hone.
    unfold bind at 1. rewrite Hrun. unfold ret.
    eexists _, _. split; [reflexivity|].
    split; [exact Hdk|]. split; [exact Htr|].
    split; [simpl; exact Hd|].
    split.
    + constructor; [|exact Hall].
      unfold owned, pending. simpl. rewrite String.eqb_refl. split; reflexivity.
    + cbn [map]. rewrite Hmap. reflexivity.
Qed.

(** C9.  For a user id [uid] and a role that is text or empty, on a store
    whose activity records are dicts, [create_activities_for_role] writes
    the old activities without the user's pending ones, followed by 15 new
    records: all owned by the user and pending, one per level (basic,
    intermediate, advanced) and quiz variant 1..5.  The user's records that
    were not pending, the completed ones among them, are all retained and
    every other user's records are unchanged; the call returns the user's
    records. *)
Theorem create_activities_for_role_regenerates
    (uid : string) (role : json) (r : string) (w : world) (acts : list json) :
  as_str (py_or role (JStr "")) = Some r ->
  collection w "activities" = Some acts ->
  all_dicts acts = true ->
  exists mine w' acts' created,
    create_activities_for_role E (JStr uid) role w = Some (mine, w') /\
    collection w' "activities" = Some acts' /\
    acts' = filter (fun a => negb (owned uid a && pending a)) acts ++ created /\
    List.length created = 15%nat /\
    Forall (fun a => owned uid a = true /\ pending a = true) created /\
    map (fun a => (field a "level", field a "quizVariant")) created
    = map (fun lv => (JStr (fst lv), JInt (snd lv)))
          (list_prod levels [1; 2; 3; 4; 5]) /\
    filter (fun a => owned uid a && pending a) acts' = created /\
    filter (fun a => owned uid a && completed a) acts'
    = filter (fun a => owned uid a && completed a) acts /\
    filter (fun a => owned uid a && negb (pending a)) acts'
    = filter (fun a => owned uid a && negb (pending a)) acts /\
    filter (fun a => negb (owned uid a)) acts'
    = filter (fun a => negb (owned uid a)) acts /\
    mine = filter (owned uid) acts'.
Proof.
  intros Hr Hc Hd.
  destruct (store_list_is_dict _ _ _ Hc) as [store Hs].
  unfold collection in Hc.
  set (keep := fun a => negb (owned uid a && pending a)).
  assert (Hkeep : filterM (not_pending_of (JStr uid)) acts = Some (filter keep acts)).
  { apply filterM_dicts; [exact Hd|]. intros u Hu.
    unfold not_pending_of, keep, owned, pending.
    rewrite (py_get_dict u "userId" Hu). simpl. rewrite py_eq_str.
    destruct (eq_str (field u "userId") uid); simpl; [|reflexivity].
    rewrite (py_get_dict u "status" Hu). reflexivity. }
  destruct (new_activities uid (normalize_role (lower r)) (tasks_for (lower r)) slots w)
    as (created & w1 & Hnew & Hdk & Htr & Hcd & Hall & Hmap).
  assert (Hown : filterM (owned_by (JStr uid)) (filter keep acts ++ created)
                 = Some (filter (owned uid) (filter keep acts ++ created))).
  { apply filterM_dicts.
    - rewrite all_dicts_app, (all_dicts_filter keep acts Hd), Hcd. reflexivity.
    - intros u Hu. unfold owned_by, owned.
      rewrite (py_get_dict u "userId" Hu). simpl. rewrite py_eq_str. reflexivity. }
  exists (filter (owned uid) (filter keep acts ++ created)),
         (mkWorld (Stored (JDict (dict_set store "activities"
                                    (JList (filter keep acts ++ created)))))
                  (tick w1)
                  (Wrote (JDict (dict_set store "activities"
                                   (JList (filter keep acts ++ created)))) :: trace w1)),
         (filter keep acts ++ created), created.
  split.
  { unfold create_activities_for_role. unfold bind at 1, lift at 1. rewrite Hr.
    unfold bind at 1. rewrite read_store_current.
    unfold bind at 1, lift at 1. rewrite Hc.
    unfold bind at 1, lift at 1. rewrite Hkeep.
    unfold bind at 1. rewrite Hnew.
    unfold bind at 1, lift at 1. rewrite Hs. simpl.
    unfold bind at 1. simpl. unfold lift. rewrite Hown. reflexivity. }
  split; [unfold collection, current_doc; simpl; apply store_list_set|].
  split; [reflexivity|].
  split; [apply (f_equal (@List.length _)) in Hmap; rewrite !length_map in Hmap; exact Hmap|].
  split; [exact Hall|].
  split; [exact Hmap|].
  assert (Hcp : Forall (fun a => (owned uid a && pending a) = true) created).
  { eapply Forall_impl; [|exact Hall]. intros a [-> ->]. reflexivity. }
  split.
  { rewrite filter_app. unfold keep. rewrite filter_none_after_remove.
    simpl. apply filter_all. exact Hcp. }
  split.
  { rewrite filter_app. rewrite filter_filter_implied.
    - rewrite (filter_nothing _ created); [apply app_nil_r|].
      eapply Forall_impl; [|exact Hall]. intros a [-> Hp].
      unfold completed. unfold pending in Hp. simpl.
      destruct (field a "status"); simpl in *; try reflexivity.
      apply String.eqb_eq in Hp. subst s. reflexivity.
    - intros a Ha. unfold keep. apply andb_prop in Ha as [-> Hcm]. simpl.
      unfold completed in Hcm. unfold pending.
      destruct (field a "status"); simpl in *; try reflexivity.
      apply String.eqb_eq in Hcm. subst s. reflexivity. }
  split.
  { rewrite filter_app. rewrite filter_filter_implied.
    - rewrite (filter_nothing _ created); [apply app_nil_r|].
      eapply Forall_impl; [|exact Hall]. intros a [-> ->]. reflexivity.
    - intros a Ha. unfold keep. apply andb_prop in Ha as [-> Hnp]. simpl.
      exact Hnp. }
  split.
  { rewrite filter_app. rewrite filter_filter_implied.
    - rewrite (filter_nothing _ created); [apply app_nil_r|].
      eapply Forall_impl; [|exact Hall]. intros a [-> _]. reflexivity.
    - intros a Ha. unfold keep. apply negb_true_iff in Ha. rewrite Ha. reflexivity. }
  reflexivity.
Qed.

(** C5 (as the code has it).  Saving an item with a profile mapping for a
    user whose stored record has a profile mapping, through the local store,
    rewrites the user's record last in the list with the profile merged key
    by key at the top level of the profile: a key of the update takes the
    update's value whole (a nested mapping replaces the stored one), a key
    the update omits keeps the stored value; the other users are kept. *)
Theorem save_user_profile_merges_profile_keys
    (item existing stored_profile update : dict) (users : list json) (w : world) :
  ddb_put E (JDict item) = false ->
  collection w "users" = Some users ->
  all_dicts users = true ->
  last_with "userId" (field (JDict item) "userId") users JNull = JDict existing ->
  dict_get existing "profile" = Some (JDict stored_profile) ->
  dict_get item "profile" = Some (JDict update) ->
  NoDup (map fst stored_profile) ->
  NoDup (map fst update) ->
  exists w' merged profile',
    save_user_profile E (JDict item) w = Some (true, w') /\
    collection w' "users"
    = Some (filter (fun u => negb (has_id "userId" (field (JDict item) "userId") u)) users
            ++ [JDict merged]) /\
    dict_get merged "profile" = Some (JDict profile') /\
    (forall k v, dict_get update k = Some v -> dict_get profile' k = Some v) /\
    (forall k, dict_get update k = None -> dict_get profile' k = dict_get stored_profile k).
Proof.
  intros Hput Hc Hd Hex Hep Hip Hn1 Hn2.
  destruct (store_list_is_dict _ _ _ Hc) as [store Hs].
  unfold collection in Hc.
  exists (mkWorld (Stored (JDict (dict_set store "users"
            (JList (filter (fun u => negb (has_id "userId" (field (JDict item) "userId") u)) users
                    ++ [JDict (merge_records (JDict existing) (JDict item))])))))
          (tick w)
          (Wrote (JDict (dict_set store "users"
            (JList (filter (fun u => negb (has_id "userId" (field (JDict item) "userId") u)) users
                    ++ [JDict (merge_records (JDict existing) (JDict item))])))) :: trace w)),
         (merge_records (JDict existing) (JDict item)),
         (dict_update (dict_update [] stored_profile) update).
  split.
  { unfold save_user_profile. rewrite Hput.
    unfold bind at 1. rewrite read_store_current.
    unfold bind at 1, lift at 1. rewrite Hc.
    unfold bind at 1, lift at 1.
    rewrite (scan_users_dicts (JDict item) users JNull [] eq_refl Hd), Hex.
    rewrite Hs. reflexivity. }
  split; [unfold collection, current_doc; simpl; apply store_list_set|].
  split.
  { unfold merge_records. rewrite Hep, Hip. apply dict_get_set_same. }
  split.
  - intros k v Hk. rewrite (dict_get_update_nodup _ update k Hn2), Hk. reflexivity.
  - intros k Hk. rewrite (dict_get_update_nodup _ update k Hn2), Hk.
    rewrite (dict_get_update_nodup [] stored_profile k Hn1).
    destruct (dict_get stored_profile k); reflexivity.
Qed.

(** Saving profile {a: 1} and then profile {b: 2} for the same user leaves
    the stored profile {a: 1, b: 2}. *)
Lemma save_profile_a_then_b (uid : string) (t : nat) (tr : list effect) :
  (forall item, ddb_put E item = false) ->
  exists w1 w2,
    save_user_profile E
      (JDict [("userId", JStr uid); ("profile", JDict [("a", JInt 1)])])
      (mkWorld Missing t tr) = Some (true, w1) /\
    save_user_profile E
      (JDict [("userId", JStr uid); ("profile", JDict [("b", JInt 2)])])
      w1 = Some (true, w2) /\
    collection w2 "users"
    = Some [JDict [("userId", JStr uid);
                   ("profile", JDict [("a", JInt 1); ("b", JInt 2)])]].
Proof.
  intros Hput. eexists _, _.
  split; [unfold save_user_profile; rewrite Hput; reflexivity|].
  split.
  - unfold save_user_profile. rewrite Hput.
    unfold bind, lift, ret, _read_store, _write_store, store_list. simpl.
    rewrite String.eqb_refl. simpl. reflexivity.
  - unfold collection, current_doc, store_list. simpl. reflexivity.
Qed.

Lemma assoc_in {A} (k : string) (l : list (string * A)) (v : A) :
  assoc k l = Some v -> In v (map snd l).
Proof.
  induction l as [|[k' v'] l IH]; simpl; [discriminate|].
  destruct (String.eqb k' k); [intros [= ->]; auto | auto].
Qed.

Lemma pick_in (quiz_list : list quiz) (variant : json) (q : quiz) :
  pick quiz_list variant = Some q -> In q quiz_list.
Proof.
  unfold pick. destruct (as_int variant); simpl; [|discriminate].
  apply nth_error_In.
Qed.

Lemma sample_quiz_from_table (role level variant : json) (q : quiz) :
  _sample_quiz role level variant = Some q -> In q all_quizzes.
Proof.
  unfold _sample_quiz.
  destruct (as_str (py_or role (JStr "default"))) as [r|]; [|discriminate].
  destruct (as_str (py_or level (JStr "basic"))) as [l|]; [|discriminate].
  cbn [obind].
  set (role_key := match find _ quizzes with Some (key, _) => key | None => lower r end).
  clearbody role_key.
  destruct (assoc role_key quizzes) as [lv|] eqn:Hlv.
  2:{ intros [= <-]. left. reflexivity. }
  apply assoc_in in Hlv.
  assert (Hql : forall ql, In ql (map snd lv) -> In q ql -> In q all_quizzes).
  { intros ql Hin Hq. right. apply in_flat_map.
    apply in_map_iff in Hlv as ([k lv'] & Heq & Hr). simpl in Heq. subst lv'.
    exists (k, lv). split; [exact Hr|]. simpl.
    apply in_flat_map. apply in_map_iff in Hin as ([k2 ql'] & Heq & Hl).
    simpl in Heq. subst ql'. exists (k2, ql). split; [exact Hl | exact Hq]. }
  destruct (assoc (lower l) lv) as [ql|] eqn:Hl.
  - intros Hp. apply (Hql ql); [eapply assoc_in; exact Hl | eapply pick_in; exact Hp].
  - destruct lv as [|[k0 ql] lv'].
    + intros [= <-]. left. reflexivity.
    + intros Hp. apply (Hql ql); [left; reflexivity | eapply pick_in; exact Hp].
Qed.


(** On these lengths the floating-point computation of the score is the
    integer quotient, rounded down. *)
Lemma py_score_floor (correct : Z) (total : nat) :
  total = 4%nat \/ total = 5%nat \/ total = 6%nat ->
  0 <= correct <= Z.of_nat total ->
  py_score correct total = Some (100 * correct / Z.of_nat total).
Proof.
  intros Ht Hc.
  assert (Hcases : correct = 0 \/ correct = 1 \/ correct = 2 \/ correct = 3 \/
                   correct = 4 \/ correct = 5 \/ correct = 6) by lia.
  destruct Ht as [-> | [-> | ->]];
    repeat (destruct Hcases as [-> | Hcases]); try subst correct;
    try (vm_compute; reflexivity); simpl in Hc; lia.
Qed.

Lemma count_correct_bounds (answers_map : json) (questions : quiz) (c : Z) :
  count_correct E answers_map questions = Some c ->
  0 <= c <= Z.of_nat (List.length questions).
Proof.
  revert c. induction questions as [|q qs IH]; intros c; simpl.
  - intros [= <-]. lia.
  - destruct (answer_hits E answers_map q) as [hit|]; simpl; [|discriminate].
    destruct (count_correct E answers_map qs) as [c'|]; simpl; [|discriminate].
    intros [= <-]. specialize (IH c' eq_refl). destruct hit; lia.
Qed.




(** A role and a level that are text or empty and a variant that is a
    number or empty always get a quiz. *)
Lemma sample_quiz_total (role level variant : json) (r l : string) (v : Z) :
  as_str (py_or role (JStr "default")) = Some r ->
  as_str (py_or level (JStr "basic")) = Some l ->
  as_int (py_or variant (JInt 1)) = Some v ->
  exists q, _sample_quiz role level variant = Some q.
Proof.
  intros Hr Hl Hv. unfold _sample_quiz. rewrite Hr, Hl. cbn [obind].
  set (role_key := match find _ quizzes with Some (key, _) => key | None => lower r end).
  clearbody role_key.
  assert (Hpick : forall ql, In ql (flat_map (fun rl => map snd (snd rl)) quizzes) ->
                             exists q, pick ql (py_or variant (JInt 1)) = Some q).
  { intros ql Hin. unfold pick. rewrite Hv. cbn [obind].
    assert (Hpos : (0 < List.length ql)%nat).
    { assert (Hall : forallb (fun ql => Nat.ltb 0 (List.length ql))
                       (flat_map (fun rl => map snd (snd rl)) quizzes) = true)
        by (vm_compute; reflexivity).
      rewrite forallb_forall in Hall. apply Nat.ltb_lt. exact (Hall ql Hin). }
    destruct (nth_error ql (Z.to_nat ((v - 1) mod Z.of_nat (List.length ql)))) eqn:Hn;
      [eauto|].
    apply nth_error_None in Hn.
    pose proof (Z.mod_pos_bound (v - 1) (Z.of_nat (List.length ql))). lia. }
  destruct (assoc role_key quizzes) as [lv|] eqn:Hlv; [|eauto].
  apply assoc_in in Hlv.
  assert (Hlvl : forall ql, In ql (map snd lv) ->
                            In ql (flat_map (fun rl => map snd (snd rl)) quizzes)).
  { intros ql Hin. apply in_flat_map.
    apply in_map_iff in Hlv as ([k lv'] & Heq & Hin'). simpl in Heq. subst lv'.
    exists (k, lv). split; [exact Hin' | exact Hin]. }
  destruct (assoc (lower l) lv) as [ql|] eqn:Hql.
  - apply Hpick, Hlvl. eapply assoc_in. exact Hql.
  - destruct lv as [|[k0 ql] lv']; [eauto|].
    apply Hpick, Hlvl. left. reflexivity.
Qed.

(** Answers given as numbers always count. *)
Lemma count_correct_total (d : dict) (questions : quiz) :
  (forall q v, In q questions -> dict_get d (qid q) = Some v ->
               exists n, py_int E v = Some n) ->
  exists c, count_correct E (JDict d) questions = Some c.
Proof.
  induction questions as [|q qs IH]; intros Hconv; [exists 0; reflexivity|].
  destruct IH as [c Hc]; [intros q' v Hin; apply Hconv; right; exact Hin|].
  cbn [count_correct]. rewrite Hc.
  unfold answer_hits. cbn [answered obind py_item]. unfold dict_has.
  destruct (dict_get d (qid q)) as [v|] eqn:Hv.
  - destruct (Hconv q v (or_introl eq_refl) Hv) as [n Hn].
    cbn [obind]. rewrite Hn. cbn [obind]. eauto.
  - cbn [obind]. eauto.
Qed.





(** *** Gamification: the shared steps *)

Lemma dict_set_not_empty (d : dict) (k : string) (v : json) : dict_set d k v <> [].
Proof.
  destruct d as [|[k' v'] d]; simpl; [|destruct (String.eqb k' k)]; discriminate.
Qed.

Lemma dict_set_set (d : dict) (k : string) (v v' : json) :
  dict_set (dict_set d k v) k v' = dict_set d k v'.
Proof.
  induction d as [|[k0 v0] d IH]; simpl.
  - rewrite String.eqb_refl. reflexivity.
  - destruct (String.eqb k0 k) eqn:Hk; simpl; rewrite Hk; [reflexivity|].
    rewrite IH. reflexivity.
Qed.

Lemma first_with_find (key : string) (val : json) (xs : list json) :
  all_dicts xs = true ->
  first_with key val xs
  = Some (match find (has_id key val) xs with Some u => u | None => JNull end).
Proof.
  induction xs as [|x xs IH]; simpl; [reflexivity|].
  intros Hd. apply andb_prop in Hd as [Hx Hd].
  rewrite (py_get_dict x key Hx). simpl. unfold has_id at 1.
  destruct (py_eq (field x key) val); [reflexivity | exact (IH Hd)].
Qed.

Lemma get_user_run (user_id : json) (users : list json) (w : world) :
  collection w "users" = Some users ->
  all_dicts users = true ->
  get_user user_id w = Some (user_of users user_id, w).
Proof.
  intros Hc Hd. unfold get_user, bind, lift. rewrite read_store_current.
  unfold collection in Hc. rewrite Hc, (first_with_find _ _ _ Hd). reflexivity.
Qed.

Lemma get_user_world (user_id u : json) (w w' : world) :
  get_user user_id w = Some (u, w') -> w' = w.
Proof.
  unfold get_user, bind, lift. rewrite read_store_current.
  destruct (store_list (current_doc w) "users"); [|discriminate].
  destruct (first_with "userId" user_id l); [|discriminate].
  intros [= _ <-]. reflexivity.
Qed.

Lemma user_of_found (users : list json) (user_id u : json) :
  find (has_id "userId" user_id) users = Some u ->
  user_of users user_id = u /\ has_id "userId" user_id u = true /\ In u users.
Proof.
  intros Hf. unfold user_of. rewrite Hf.
  apply find_some in Hf as [Hin Hid]. auto.
Qed.

Lemma user_of_users_with (users : list json) (user_id user : json) :
  has_id "userId" user_id user = true ->
  user_of (users_with users user_id user) user_id = user.
Proof.
  intros Hid. unfold user_of, users_with.
  induction users as [|x xs IH]; simpl.
  - rewrite Hid. reflexivity.
  - destruct (has_id "userId" user_id x) eqn:Hx; simpl; [exact IH|].
    rewrite Hx. exact IH.
Qed.

Lemma put_user_run (store : dict) (users : list json) (user_id user : json) (w : world) :
  store_list (JDict store) "users" = Some users ->
  all_dicts users = true ->
  put_user (JDict store) user_id user w
  = Some (tt, mkWorld (Stored (JDict (dict_set store "users"
                                        (JList (users_with users user_id user)))))
                      (tick w)
                      (Wrote (JDict (dict_set store "users"
                                       (JList (users_with users user_id user))))
                       :: trace w)).
Proof.
  intros Hc Hd. unfold put_user, bind, lift. rewrite Hc. cbn [obind].
  rewrite (without_dicts "userId" user_id users Hd). reflexivity.
Qed.

Lemma send_sns_run (user_id : json) (title message link : string) (w : world) :
  exists w', send_sns E user_id title message link w = Some (tt, w') /\
             disk w' = disk w /\ tick w' = tick w /\
             (forall e, In e (trace w) -> In e (trace w')).
Proof.
  unfold send_sns. destruct (sns_on E); [|exists w; auto].
  unfold try_except, bind.
  destruct (get_user user_id w) as [[u w1]|] eqn:Hu; [|exists w; auto].
  apply get_user_world in Hu. subst w1.
  unfold lift. destruct (py_get_or u "email" (JStr "")) as [email|]; [|exists w; auto].
  destruct (truthy email); [|exists w; auto].
  eexists. split; [reflexivity|]. simpl. auto.
Qed.

Lemma create_notification_run
    (user_id : json) (ty title message link : string)
    (store : dict) (l : list json) (w : world) :
  current_doc w = JDict store ->
  notifications_ok store l ->
  exists w' n,
    create_notification E user_id ty title message link w = Some (tt, w') /\
    tick w' = S (S (tick w)) /\
    disk w' = Stored (JDict (dict_set store "notifications" (JList (l ++ [n])))) /\
    field n "userId" = user_id /\ field n "type" = JStr ty /\
    field n "title" = JStr title /\ field n "message" = JStr message /\
    (forall e, In e (Wrote (JDict (dict_set store "notifications" (JList (l ++ [n]))))
                     :: trace w) -> In e (trace w')).
Proof.
  intros Hs Hn.
  set (n := JDict [("notificationId", JStr (uuid4 E (tick w))); ("userId", user_id);
                   ("type", JStr ty); ("title", JStr title);
                   ("message", JStr message); ("link", JStr link);
                   ("metadata", JDict []); ("read", JBool false);
                   ("createdAt", JStr (utcnow E (S (tick w))))]).
  set (doc := JDict (dict_set store "notifications" (JList (l ++ [n])))).
  destruct (send_sns_run user_id title message link
              (mkWorld (Stored doc) (S (S (tick w))) (Wrote doc :: trace w)))
    as (w' & Hsns & Hdk & Htk & Htr).
  exists w', n.
  split.
  { unfold create_notification. unfold bind at 1. rewrite read_store_current, Hs.
    unfold bind at 1, lift at 1. cbn [py_in].
    unfold notifications_ok in Hn. unfold dict_has.
    destruct (dict_get store "notifications") as [v|] eqn:Hv.
    - subst v. unfold bind at 1, ret at 1. unfold bind at 1, fresh at 1.
      unfold bind at 1, fresh at 1. cbn [tick disk trace].
      unfold bind at 1, lift at 1. cbn [py_item]. rewrite Hv. cbn [obind py_append].
      unfold bind at 1, lift at 1. cbn [py_setitem].
      unfold bind at 1, _write_store. cbn [tick disk trace].
      exact Hsns.
    - subst l. unfold bind at 1, lift at 1. cbn [py_setitem].
      unfold bind at 1, fresh at 1. unfold bind at 1, fresh at 1.
      cbn [tick disk trace].
      unfold bind at 1, lift at 1. cbn [py_item]. rewrite dict_get_set_same.
      cbn [obind py_append].
      unfold bind at 1, lift at 1. cbn [py_setitem]. rewrite dict_set_set.
      unfold bind at 1, _write_store. cbn [tick disk trace].
      exact Hsns. }
  split; [exact Htk|]. split; [exact Hdk|].
  repeat (split; [reflexivity|]). exact Htr.
Qed.

Lemma ensure_gamification_run (ud : dict) (fresh_record : json) :
  ensure_gamification (JDict ud) fresh_record
  = Some (with_gamification (JDict ud) fresh_record).
Proof.
  unfold ensure_gamification, with_gamification. simpl.
  destruct (dict_has ud "gamification"); reflexivity.
Qed.

Lemma with_gamification_dict (ud : dict) (fresh_record : json) :
  exists ud1, with_gamification (JDict ud) fresh_record = JDict ud1 /\
              field (JDict ud1) "userId" = field (JDict ud) "userId".
Proof.
  unfold with_gamification. destruct (dict_has ud "gamification").
  - exists ud. auto.
  - eexists. split; [reflexivity|]. apply field_set_other. discriminate.
Qed.

(** What one [award_xp] does on a well-formed store: the result, the
    document left on disk, and the notification written on the way. *)
Lemma award_xp_run (user_id : json) (amount : Z) (w : world)
    (store : dict) (users : list json) (ud g : dict) (xp old_level : Z)
    (l : list json) :
  current_doc w = JDict store ->
  store_list (JDict store) "users" = Some users ->
  all_dicts users = true ->
  find (has_id "userId" user_id) users = Some (JDict ud) ->
  ud <> [] ->
  field (with_gamification (JDict ud) new_gamification_xp) "gamification" = JDict g ->
  num_field g "xp" 0 = Some xp ->
  num_field g "level" 1 = Some old_level ->
  notifications_ok store l ->
  exists w' user',
    award_xp E user_id amount w
    = Some (JDict (dict_set (dict_set g "xp" (JInt (xp + amount)))
                            "level" (JInt ((xp + amount) / 100 + 1))), w') /\
    disk w' = Stored (JDict (dict_set store "users"
                               (JList (users_with users user_id user')))) /\
    field user' "gamification"
    = JDict (dict_set (dict_set g "xp" (JInt (xp + amount)))
                      "level" (JInt ((xp + amount) / 100 + 1))) /\
    has_id "userId" user_id user' = true /\
    is_dict user' = true /\
    (old_level < (xp + amount) / 100 + 1 ->
       exists n,
         In (Wrote (JDict (dict_set store "notifications" (JList (l ++ [n])))))
            (trace w') /\
         field n "userId" = user_id /\ field n "type" = JStr "achievement" /\
         field n "title" = JStr "Level Up! ") /\
    (forall e, In e (trace w) -> In e (trace w')).
Proof.
  intros Hs Hc Hd Hf Hne Hg Hxp Hlv Hn.
  destruct (user_of_found users user_id (JDict ud) Hf) as (Hu & Hid & _).
  destruct (with_gamification_dict ud new_gamification_xp) as (ud1 & Hud1 & Hsame).
  assert (Hcol : collection w "users" = Some users).
  { unfold collection. rewrite Hs. exact Hc. }
  set (xp' := xp + amount). set (lvl := xp' / 100 + 1).
  set (g' := dict_set (dict_set g "xp" (JInt xp')) "level" (JInt lvl)).
  assert (Hgi : dict_get ud1 "gamification" = Some (JDict g)).
  { rewrite Hud1 in Hg. simpl in Hg.
    destruct (dict_get ud1 "gamification") as [v|]; [|discriminate].
    rewrite Hg. reflexivity. }
  (* the notification step, whatever it does, ends in some world w1 *)
  assert (Hnote : exists w1,
    (if old_level <? lvl
     then create_notification E user_id "achievement" "Level Up! "
            ("You reached level " ++ str_of_Z lvl ++ "! Keep up the great work!")%string
            "/dashboard"
     else ret tt) w = Some (tt, w1) /\
    (old_level < lvl ->
       exists n,
         In (Wrote (JDict (dict_set store "notifications" (JList (l ++ [n])))))
            (trace w1) /\
         field n "userId" = user_id /\ field n "type" = JStr "achievement" /\
         field n "title" = JStr "Level Up! ") /\
    (forall e, In e (trace w) -> In e (trace w1))).
  { destruct (old_level <? lvl) eqn:Hlt.
    - destruct (create_notification_run user_id "achievement" "Level Up! "
                  ("You reached level " ++ str_of_Z lvl ++ "! Keep up the great work!")%string
                  "/dashboard" store l w Hs Hn)
        as (w1 & n & Hrun & _ & _ & Hn1 & Hn2 & Hn3 & _ & Htr).
      exists w1. split; [exact Hrun|]. split.
      + intros _. exists n. split; [apply Htr; left; reflexivity|]. auto.
      + intros e He. apply Htr. right. exact He.
    - exists w. split; [reflexivity|]. split; [|auto].
      intros Hlt'. apply Z.ltb_ge in Hlt. lia. }
  destruct Hnote as (w1 & Hnote & Hnotif & Htrace).
  set (user' := JDict (dict_set (dict_set ud1 "gamification" (JDict g'))
                                "updatedAt" (JStr (utcnow E (tick w1))))).
  exists (mkWorld (Stored (JDict (dict_set store "users"
                                    (JList (users_with users user_id user')))))
                  (S (tick w1))
                  (Wrote (JDict (dict_set store "users"
                                   (JList (users_with users user_id user'))))
                   :: trace w1)),
         user'.
  split.
  { unfold award_xp. unfold bind at 1. rewrite read_store_current, Hs.
    unfold bind at 1.
    rewrite (get_user_run user_id users w Hcol Hd), Hu.
    replace (truthy (JDict ud)) with true by (destruct ud; [congruence | reflexivity]).
    cbn [negb].
    unfold bind at 1, lift at 1. rewrite ensure_gamification_run, Hud1.
    unfold bind at 1, lift at 1. cbn [py_item]. rewrite Hgi.
    unfold bind at 1, lift at 1. cbn [py_get_or obind].
    unfold num_field in Hxp. rewrite Hxp.
    unfold bind at 1, lift at 1. cbn [py_setitem].
    unfold bind at 1, lift at 1. cbn [py_get_or].
    rewrite dict_get_set_other by reflexivity.
    unfold bind at 1, lift at 1. cbn [py_setitem].
    unfold bind at 1, lift at 1. unfold num_field in Hlv. rewrite Hlv.
    unfold bind at 1. fold xp' lvl. rewrite Hnote.
    unfold bind at 1, lift at 1. cbn [py_setitem].
    unfold bind at 1, fresh at 1.
    unfold bind at 1, lift at 1. cbn [py_setitem tick disk trace].
    unfold bind at 1. fold g' user'.
    rewrite (put_user_run store users user_id user' _ Hc Hd).
    reflexivity. }
  split; [reflexivity|].
  split.
  { unfold user'. rewrite field_set_other by discriminate. apply field_set_same. }
  split.
  { unfold has_id in *. unfold user'.
    rewrite !field_set_other by discriminate. rewrite Hsame. exact Hid. }
  split; [reflexivity|].
  split; [|intros e He; right; apply Htrace; exact He].
  intros Hlt. destruct (Hnotif Hlt) as (n & Hin & Hrest).
  exists n. split; [right; exact Hin | exact Hrest].
Qed.

Lemma str_id_not_empty (uid : string) (ud : dict) :
  has_id "userId" (JStr uid) (JDict ud) = true -> ud <> [].
Proof. intros H ->. discriminate H. Qed.

Lemma get_gamification_stats_run (user_id : json) (users : list json)
    (user : json) (g : dict) (w : world) :
  collection w "users" = Some users ->
  all_dicts users = true ->
  user_of users user_id = user ->
  truthy user = true ->
  is_dict user = true ->
  field user "gamification" = JDict g ->
  g <> [] ->
  get_gamification_stats user_id w = Some (JDict g, w).
Proof.
  intros Hc Hd Hu Ht Hi Hg Hne. unfold get_gamification_stats.
  unfold bind at 1. rewrite (get_user_run user_id users w Hc Hd), Hu, Ht.
  unfold bind at 1, lift at 1. rewrite (py_get_dict user "gamification" Hi), Hg.
  replace (truthy (JDict g)) with true by (destruct g; [congruence | reflexivity]).
  unfold lift. destruct user as [| | | | |ud]; try discriminate.
  simpl in *. destruct (dict_get ud "gamification"); [|discriminate].
  rewrite Hg. reflexivity.
Qed.

(** The level formula of [award_xp].  For an existing user whose
    gamification record (a fresh one when the user has none) holds numbers,
    on a store of dict records, [award_xp] returns the record it persists:
    [get_gamification_stats] reads it back with xp = old xp + amount and
    level = floor(xp / 100) + 1.  The persisted xp is at least the old xp
    whenever the amount is not negative.  When the new level exceeds the
    stored level, [create_notification] runs and writes a document holding
    a "Level Up! " achievement notification for the user; that document
    does not stay on disk, see [award_xp_overwrites_notification]. *)
Theorem award_xp_level_formula
    (uid : string) (amount : Z) (w : world)
    (store : dict) (users : list json) (ud g : dict) (xp old_level : Z)
    (l : list json) :
  current_doc w = JDict store ->
  store_list (JDict store) "users" = Some users ->
  all_dicts users = true ->
  find (has_id "userId" (JStr uid)) users = Some (JDict ud) ->
  field (with_gamification (JDict ud) new_gamification_xp) "gamification" = JDict g ->
  num_field g "xp" 0 = Some xp ->
  num_field g "level" 1 = Some old_level ->
  notifications_ok store l ->
  exists g' w',
    award_xp E (JStr uid) amount w = Some (JDict g', w') /\
    get_gamification_stats (JStr uid) w' = Some (JDict g', w') /\
    num_field g' "xp" 0 = Some (xp + amount) /\
    num_field g' "level" 1 = Some ((xp + amount) / 100 + 1) /\
    (0 <= amount -> xp <= xp + amount) /\
    (old_level < (xp + amount) / 100 + 1 ->
       exists n,
         In (Wrote (JDict (dict_set store "notifications" (JList (l ++ [n])))))
            (trace w') /\
         field n "userId" = JStr uid /\ field n "type" = JStr "achievement" /\
         field n "title" = JStr "Level Up! ").
Proof.
  intros Hs Hc Hd Hf Hg Hxp Hlv Hn.
  pose proof (find_some _ _ Hf) as [_ Hid].
  destruct (award_xp_run (JStr uid) amount w store users ud g xp old_level l
              Hs Hc Hd Hf (str_id_not_empty uid ud Hid) Hg Hxp Hlv Hn)
    as (w' & user' & Hrun & Hdisk & Hgam & Hid' & Hdict & Hnote & _).
  eexists _, w'. split; [exact Hrun|].
  assert (Hc' : collection w' "users" = Some (users_with users (JStr uid) user')).
  { unfold collection, current_doc. rewrite Hdisk. apply store_list_set. }
  assert (Hd' : all_dicts (users_with users (JStr uid) user') = true).
  { unfold users_with. rewrite all_dicts_app, (all_dicts_filter _ users Hd).
    simpl. rewrite Hdict. reflexivity. }
  split.
  { apply (get_gamification_stats_run (JStr uid) _ user' _ w' Hc' Hd').
    - apply user_of_users_with. exact Hid'.
    - destruct user' as [| | | | |ud']; try discriminate.
      destruct ud'; [apply str_id_not_empty in Hid'; congruence | reflexivity].
    - exact Hdict.
    - exact Hgam.
    - apply dict_set_not_empty. }
  split.
  { unfold num_field. rewrite dict_get_set_other by reflexivity.
    rewrite dict_get_set_same. reflexivity. }
  split.
  { unfold num_field. rewrite dict_get_set_same. reflexivity. }
  split; [lia | exact Hnote].
Qed.

(** The notification written on a level-up does not survive the call:
    [award_xp] ends by writing the document it read at its start, so the
    notifications on disk afterwards are those from before the call. *)
Remark award_xp_overwrites_notification
    (uid : string) (amount : Z) (w w' : world)
    (store : dict) (users : list json) (ud g : dict) (xp old_level : Z)
    (l : list json) (r : json) :
  current_doc w = JDict store ->
  store_list (JDict store) "users" = Some users ->
  all_dicts users = true ->
  find (has_id "userId" (JStr uid)) users = Some (JDict ud) ->
  field (with_gamification (JDict ud) new_gamification_xp) "gamification" = JDict g ->
  num_field g "xp" 0 = Some xp ->
  num_field g "level" 1 = Some old_level ->
  notifications_ok store l ->
  award_xp E (JStr uid) amount w = Some (r, w') ->
  field (current_doc w') "notifications" = field (current_doc w) "notifications".
Proof.
  intros Hs Hc Hd Hf Hg Hxp Hlv Hn Hrun.
  pose proof (find_some _ _ Hf) as [_ Hid].
  destruct (award_xp_run (JStr uid) amount w store users ud g xp old_level l
              Hs Hc Hd Hf (str_id_not_empty uid ud Hid) Hg Hxp Hlv Hn)
    as (w2 & user' & Hrun' & Hdisk & _).
  rewrite Hrun in Hrun'. injection Hrun' as _ <-.
  unfold current_doc at 1. rewrite Hdisk, Hs.
  apply field_set_other. discriminate.
Qed.

Lemma any_named_dicts (badge_name : string) (bl : list json) :
  all_dicts bl = true ->
  any_named badge_name bl = Some (existsb (named badge_name) bl).
Proof.
  induction bl as [|b bl IH]; simpl; [reflexivity|].
  intros Hd. apply andb_prop in Hd as [Hb Hd].
  rewrite (py_get_dict b "name" Hb). simpl. unfold named at 1.
  destruct (eq_str (field b "name") badge_name); [reflexivity | exact (IH Hd)].
Qed.

Lemma notifications_ok_users (store : dict) (l : list json) (v : json) :
  notifications_ok store l -> notifications_ok (dict_set store "users" v) l.
Proof.
  unfold notifications_ok. rewrite dict_get_set_other by reflexivity. auto.
Qed.

(** What a first [award_badge] does on a well-formed store.  The record it
    writes last is the one it read at its start with the badge appended:
    the xp that the nested [award_xp] persisted is not in it. *)
Lemma award_badge_run (user_id : json) (badge_name badge_icon : string)
    (description : option string) (w : world)
    (store : dict) (users : list json) (ud gb gx : dict) (bl : list json)
    (xp old_level : Z) (l : list json) :
  current_doc w = JDict store ->
  store_list (JDict store) "users" = Some users ->
  all_dicts users = true ->
  find (has_id "userId" user_id) users = Some (JDict ud) ->
  ud <> [] ->
  field (with_gamification (JDict ud) new_gamification_badge) "gamification" = JDict gb ->
  badges_ok gb bl ->
  all_dicts bl = true ->
  existsb (named badge_name) bl = false ->
  field (with_gamification (JDict ud) new_gamification_xp) "gamification" = JDict gx ->
  num_field gx "xp" 0 = Some xp ->
  num_field gx "level" 1 = Some old_level ->
  notifications_ok store l ->
  exists w' user' badge,
    award_badge E user_id badge_name badge_icon description w = Some (true, w') /\
    disk w' = Stored (JDict (dict_set store "users"
                               (JList (users_with users user_id user')))) /\
    field user' "gamification" = JDict (dict_set gb "badges" (JList (bl ++ [badge]))) /\
    field badge "name" = JStr badge_name /\
    is_dict badge = true /\
    has_id "userId" user_id user' = true /\
    is_dict user' = true.
Proof.
  intros Hs Hc Hd Hf Hne Hgb Hbl Hbd Hnew Hgx Hxp Hlv Hn.
  destruct (user_of_found users user_id (JDict ud) Hf) as (Hu & Hid & _).
  destruct (with_gamification_dict ud new_gamification_badge) as (ud1 & Hud1 & Hsame).
  assert (Hcol : collection w "users" = Some users).
  { unfold collection. rewrite Hs. exact Hc. }
  assert (Hgi : dict_get ud1 "gamification" = Some (JDict gb)).
  { rewrite Hud1 in Hgb. simpl in Hgb.
    destruct (dict_get ud1 "gamification") as [v|]; [|discriminate].
    rewrite Hgb. reflexivity. }
  assert (Hbadges : py_get_or (JDict gb) "badges" (JList []) = Some (JList bl)).
  { unfold badges_ok in Hbl. simpl.
    destruct (dict_get gb "badges"); subst; reflexivity. }
  set (badge := JDict [("name", JStr badge_name); ("icon", JStr badge_icon);
           ("description",
            JStr (match description with
                  | Some d => if String.eqb d "" then ("Achievement: " ++ badge_name)%string else d
                  | None => ("Achievement: " ++ badge_name)%string
                  end));
           ("earnedAt", JStr (utcnow E (tick w)))]).
  set (user' := JDict (dict_set (dict_set ud1 "gamification"
                                   (JDict (dict_set gb "badges" (JList (bl ++ [badge])))))
                                "updatedAt" (JStr (utcnow E (S (tick w)))))).
  set (w2 := mkWorld (disk w) (S (S (tick w))) (trace w)).
  destruct (award_xp_run user_id 50 w2 store users ud gx xp old_level l
              Hs Hc Hd Hf Hne Hgx Hxp Hlv Hn)
    as (w3 & ux & Hxprun & Hdisk3 & _).
  destruct (create_notification_run user_id "achievement"
              ("New Badge Earned! " ++ badge_icon)%string
              ("You earned the " ++ dquote ++ badge_name ++ dquote ++ " badge!")%string
              "/dashboard"
              (dict_set store "users" (JList (users_with users user_id ux))) l w3)
    as (w4 & n & Hnrun & _).
  { unfold current_doc. rewrite Hdisk3. reflexivity. }
  { apply notifications_ok_users. exact Hn. }
  exists (mkWorld (Stored (JDict (dict_set store "users"
                                    (JList (users_with users user_id user')))))
                  (tick w4)
                  (Wrote (JDict (dict_set store "users"
                                   (JList (users_with users user_id user'))))
                   :: trace w4)),
         user', badge.
  split.
  { unfold award_badge. unfold bind at 1. rewrite read_store_current, Hs.
    unfold bind at 1. rewrite (get_user_run user_id users w Hcol Hd), Hu.
    replace (truthy (JDict ud)) with true by (destruct ud; [congruence | reflexivity]).
    cbn [negb].
    unfold bind at 1, lift at 1. rewrite ensure_gamification_run, Hud1.
    unfold bind at 1, lift at 1. cbn [py_item]. rewrite Hgi.
    unfold bind at 1, lift at 1. rewrite Hbadges.
    unfold bind at 1, lift at 1. cbn [py_iter obind].
    rewrite (any_named_dicts badge_name bl Hbd), Hnew.
    unfold bind at 1, fresh at 1.
    unfold bind at 1, lift at 1. cbn [py_append].
    unfold bind at 1, lift at 1. cbn [py_setitem].
    unfold bind at 1, lift at 1. cbn [py_setitem].
    unfold bind at 1, fresh at 1.
    unfold bind at 1, lift at 1. cbn [py_setitem tick disk trace].
    fold badge user' w2.
    unfold bind at 1. rewrite Hxprun.
    unfold bind at 1. rewrite Hnrun.
    unfold bind at 1. rewrite (put_user_run store users user_id user' _ Hc Hd).
    reflexivity. }
  split; [reflexivity|].
  split.
  { unfold user'. rewrite field_set_other by discriminate. apply field_set_same. }
  split; [reflexivity|]. split; [reflexivity|].
  split; [|reflexivity].
  unfold has_id in *. unfold user'.
  rewrite !field_set_other by discriminate. rewrite Hsame. exact Hid.
Qed.

(** A second [award_badge] of a badge already held returns False and
    leaves the world as it is. *)
Lemma award_badge_again (user_id : json) (badge_name badge_icon : string)
    (description : option string) (w : world)
    (users : list json) (ud gb : dict) (bl : list json) :
  collection w "users" = Some users ->
  all_dicts users = true ->
  find (has_id "userId" user_id) users = Some (JDict ud) ->
  ud <> [] ->
  dict_get ud "gamification" = Some (JDict gb) ->
  dict_get gb "badges" = Some (JList bl) ->
  all_dicts bl = true ->
  existsb (named badge_name) bl = true ->
  award_badge E user_id badge_name badge_icon description w = Some (false, w).
Proof.
  intros Hc Hd Hf Hne Hg Hb Hbd Hex.
  destruct (user_of_found users user_id (JDict ud) Hf) as (Hu & _ & _).
  unfold award_badge. unfold bind at 1. rewrite read_store_current.
  unfold bind at 1. rewrite (get_user_run user_id users w Hc Hd), Hu.
  replace (truthy (JDict ud)) with true by (destruct ud; [congruence | reflexivity]).
  cbn [negb].
  unfold bind at 1, lift at 1. rewrite ensure_gamification_run.
  unfold with_gamification, dict_has. rewrite Hg.
  unfold bind at 1, lift at 1. cbn [py_item]. rewrite Hg.
  unfold bind at 1, lift at 1. cbn [py_get_or]. rewrite Hb.
  unfold bind at 1, lift at 1. cbn [py_iter obind].
  rewrite (any_named_dicts badge_name bl Hbd), Hex. reflexivity.
Qed.

(** *** The login streak *)

Lemma with_gamification_fields (ud : dict) (fresh_record : json) (k : string) :
  k <> "gamification" ->
  field (with_gamification (JDict ud) fresh_record) k = field (JDict ud) k.
Proof.
  intros Hk. unfold with_gamification.
  destruct (dict_has ud "gamification"); [reflexivity|].
  apply field_set_other. congruence.
Qed.

(** Whatever the nested awards do, [store_streak] ends by writing the
    document and the record it was given. *)
Lemma store_streak_final (user_id : json) (store : dict) (users : list json)
    (ud1 g : dict) (today : string) (n : Z) (w w' : world) (r : json) :
  store_list (JDict store) "users" = Some users ->
  all_dicts users = true ->
  store_streak E (JDict store) (JDict ud1) (JDict g) today user_id n w = Some (r, w') ->
  r = JDict (dict_set (dict_set g "streak" (JInt n)) "lastLoginDate" (JStr today)) /\
  disk w' = Stored (JDict (dict_set store "users"
              (JList (users_with users user_id
                 (JDict (dict_set
                    (dict_set ud1 "gamification"
                       (JDict (dict_set (dict_set g "streak" (JInt n))
                                        "lastLoginDate" (JStr today))))
                    "updatedAt" (JStr (utcnow E (tick w))))))))).
Proof.
  intros Hc Hd. unfold store_streak.
  unfold bind at 1, lift at 1. cbn [py_setitem].
  unfold bind at 1, lift at 1. cbn [py_setitem].
  unfold bind at 1, lift at 1. cbn [py_setitem].
  unfold bind at 1, fresh at 1.
  unfold bind at 1, lift at 1. cbn [py_setitem].
  unfold bind at 1.
  destruct (award_xp E user_id 10 _) as [[r1 w1]|]; [|discriminate].
  unfold bind at 1.
  lazymatch goal with
  | |- match ?x with _ => _ end = _ -> _ => destruct x as [[r2 w2]|]; [|discriminate]
  end.
  unfold bind at 1. rewrite (put_user_run store users user_id _ w2 Hc Hd).
  unfold ret. intros [= <- <-]. split; reflexivity.
Qed.

Lemma streak_stored_intro (user_id : json) (store : dict) (users : list json)
    (ud ud1 g : dict) (today : string) (n : Z) (w w' : world) (r : json) :
  store_list (JDict store) "users" = Some users ->
  all_dicts users = true ->
  with_gamification (JDict ud) new_gamification_streak = JDict ud1 ->
  store_streak E (JDict store) (JDict ud1) (JDict g) today user_id n w = Some (r, w') ->
  streak_stored w' r store users user_id ud g today n.
Proof.
  intros Hc Hd Hud1 Hrun.
  destruct (store_streak_final _ _ _ _ _ _ _ _ _ _ Hc Hd Hrun) as [Hr Hdisk].
  split; [exact Hr|]. eexists. split; [exact Hdisk|]. split.
  - rewrite field_set_other by discriminate. apply field_set_same.
  - intros k Hk1 Hk2. rewrite !field_set_other by congruence.
    rewrite <- Hud1. apply with_gamification_fields. exact Hk1.
Qed.

(** Whenever [update_streak] stores a streak, a milestone or not, the
    badges and the xp of the persisted record are those read at the start
    of the call: what the nested [award_xp] and [award_badge] persisted is
    not in the record written last. *)
Lemma streak_stored_keeps_badges_and_xp (w' : world) (r : json) (store : dict)
    (users : list json) (user_id : json) (ud g : dict) (today : string) (n : Z) :
  streak_stored w' r store users user_id ud g today n ->
  exists user',
    disk w' = Stored (JDict (dict_set store "users"
                               (JList (users_with users user_id user')))) /\
    field (field user' "gamification") "streak" = JInt n /\
    field (field user' "gamification") "badges" = field (JDict g) "badges" /\
    field (field user' "gamification") "xp" = field (JDict g) "xp".
Proof.
  intros (_ & user' & Hdisk & Hgam & _).
  exists user'. split; [exact Hdisk|]. rewrite Hgam.
  split; [|split].
  - rewrite field_set_other by discriminate. apply field_set_same.
  - rewrite !field_set_other by discriminate. reflexivity.
  - rewrite !field_set_other by discriminate. reflexivity.
Qed.


Section Streak.

Variables (user_id : json) (w : world) (store : dict) (users : list json)
          (ud g : dict).
Hypothesis Hs : current_doc w = JDict store.
Hypothesis Hc : store_list (JDict store) "users" = Some users.
Hypothesis Hd : all_dicts users = true.
Hypothesis Hf : find (has_id "userId" user_id) users = Some (JDict ud).
Hypothesis Hne : ud <> [].
Hypothesis Hg :
  field (with_gamification (JDict ud) new_gamification_streak) "gamification" = JDict g.

Let today : string := utc_today E (tick w).
Let last_login : json := field (JDict g) "lastLoginDate".

(** The lines of [update_streak] down to the comparison with today. *)
Lemma update_streak_start :
  exists ud1,
    with_gamification (JDict ud) new_gamification_streak = JDict ud1 /\
    update_streak E user_id w
    = (if eq_str last_login today then ret (JDict g) else
       step <- (if truthy last_login then
                  last_date <- lift (obind (as_str last_login) (fromisoformat E)) ;;
                  today_date <- fresh E local_today ;;
                  let days := today_date - last_date in
                  if days =? 1 then
                    streak <- lift (obind (py_get_or (JDict g) "streak" (JInt 0)) as_int) ;;
                    ret (SetStreak (streak + 1))
                  else if 1 <? days then ret (SetStreak 1)
                  else ret Unchanged
                else ret (SetStreak 1)) ;;
       match step with
       | Unchanged => ret (JDict g)
       | SetStreak streak =>
           store_streak E (JDict store) (JDict ud1) (JDict g) today user_id streak
       end) (mkWorld (disk w) (S (tick w)) (trace w)).
Proof.
  destruct (user_of_found users user_id (JDict ud) Hf) as (Hu & _ & _).
  destruct (with_gamification_dict ud new_gamification_streak) as (ud1 & Hud1 & _).
  assert (Hcol : collection w "users" = Some users).
  { unfold collection. rewrite Hs. exact Hc. }
  assert (Hgi : dict_get ud1 "gamification" = Some (JDict g)).
  { pose proof Hg as Hg'. rewrite Hud1 in Hg'. simpl in Hg'.
    destruct (dict_get ud1 "gamification") as [v|]; [|discriminate].
    rewrite Hg'. reflexivity. }
  exists ud1. split; [exact Hud1|].
  unfold update_streak. unfold bind at 1. rewrite read_store_current, Hs.
  unfold bind at 1. rewrite (get_user_run user_id users w Hcol Hd), Hu.
  replace (truthy (JDict ud)) with true by (destruct ud; [congruence | reflexivity]).
  cbn [negb].
  unfold bind at 1, lift at 1. rewrite ensure_gamification_run, Hud1.
  unfold bind at 1, lift at 1. cbn [py_item]. rewrite Hgi.
  unfold bind at 1, fresh at 1.
  unfold bind at 1, lift at 1.
  rewrite (py_get_dict (JDict g) "lastLoginDate" eq_refl).
  reflexivity.
Qed.

(** A second call on the same day changes nothing: nothing is written and
    the record is returned as read. *)
Lemma update_streak_same_day :
  eq_str last_login today = true ->
  update_streak E user_id w
  = Some (JDict g, mkWorld (disk w) (S (tick w)) (trace w)).
Proof.
  intros Hsame. destruct update_streak_start as (ud1 & _ & ->).
  rewrite Hsame. reflexivity.
Qed.

(** A first-ever call (no stored date) stores streak 1. *)
Lemma update_streak_first_login (r : json) (w' : world) :
  eq_str last_login today = false ->
  truthy last_login = false ->
  update_streak E user_id w = Some (r, w') ->
  streak_stored w' r store users user_id ud g today 1.
Proof.
  intros Hdiff Hnone. destruct update_streak_start as (ud1 & Hud1 & ->).
  rewrite Hdiff, Hnone. unfold bind at 1, ret at 1.
  apply (streak_stored_intro _ _ _ _ _ _ _ _ _ _ _ Hc Hd Hud1).
Qed.

Variables (s : string) (d : Z).
Hypothesis Hlast : last_login = JStr s.
Hypothesis Hdated : s <> "".
Hypothesis Hdiff : String.eqb s today = false.
Hypothesis Hdate : fromisoformat E s = Some d.

Let gap : Z := local_today E (S (tick w)) - d.

Lemma update_streak_dated :
  exists ud1,
    with_gamification (JDict ud) new_gamification_streak = JDict ud1 /\
    update_streak E user_id w
    = (if gap =? 1 then
         streak <- lift (obind (py_get_or (JDict g) "streak" (JInt 0)) as_int) ;;
         store_streak E (JDict store) (JDict ud1) (JDict g) today user_id (streak + 1)
       else if 1 <? gap then
         store_streak E (JDict store) (JDict ud1) (JDict g) today user_id 1
       else ret (JDict g)) (mkWorld (disk w) (S (S (tick w))) (trace w)).
Proof.
  destruct update_streak_start as (ud1 & Hud1 & ->).
  exists ud1. split; [exact Hud1|].
  rewrite Hlast. cbn [eq_str]. rewrite Hdiff.
  replace (truthy (JStr s)) with true.
  2:{ simpl. destruct s; [congruence | reflexivity]. }
  unfold bind at 1. unfold bind at 1, lift at 1. cbn [as_str obind].
  rewrite Hdate. unfold bind at 1, fresh at 1. cbn [tick disk trace].
  fold gap.
  destruct (gap =? 1).
  - unfold bind, lift, ret.
    destruct (obind (py_get_or (JDict g) "streak" (JInt 0)) as_int); reflexivity.
  - destruct (1 <? gap); reflexivity.
Qed.

(** A call exactly one day after the stored date stores the streak plus 1. *)
Lemma update_streak_next_day (k : Z) (r : json) (w' : world) :
  gap = 1 ->
  num_field g "streak" 0 = Some k ->
  update_streak E user_id w = Some (r, w') ->
  streak_stored w' r store users user_id ud g today (k + 1).
Proof.
  intros Hgap Hk. destruct update_streak_dated as (ud1 & Hud1 & ->).
  rewrite Hgap. cbn [Z.eqb Pos.eqb].
  unfold bind at 1, lift at 1. cbn [py_get_or]. unfold num_field in Hk.
  cbn [obind]. rewrite Hk.
  apply (streak_stored_intro _ _ _ _ _ _ _ _ _ _ _ Hc Hd Hud1).
Qed.

(** A call after a gap of more than one day stores streak 1. *)
Lemma update_streak_after_gap (r : json) (w' : world) :
  1 < gap ->
  update_streak E user_id w = Some (r, w') ->
  streak_stored w' r store users user_id ud g today 1.
Proof.
  intros Hgap. destruct update_streak_dated as (ud1 & Hud1 & ->).
  replace (gap =? 1) with false by (symmetry; apply Z.eqb_neq; lia).
  replace (1 <? gap) with true by (symmetry; apply Z.ltb_lt; lia).
  apply (streak_stored_intro _ _ _ _ _ _ _ _ _ _ _ Hc Hd Hud1).
Qed.

(** A stored date that is not before the local day changes nothing. *)
Lemma update_streak_not_later :
  gap < 1 ->
  update_streak E user_id w
  = Some (JDict g, mkWorld (disk w) (S (S (tick w))) (trace w)).
Proof.
  intros Hgap. destruct update_streak_dated as (ud1 & Hud1 & ->).
  replace (gap =? 1) with false by (symmetry; apply Z.eqb_neq; lia).
  replace (1 <? gap) with false by (symmetry; apply Z.ltb_ge; lia).
  reflexivity.
Qed.

End Streak.

(** *** Referrals *)

Lemma find_referrer_unknown (store new_user_id : json) (code : string)
    (before rest : list json) (w : world) :
  Forall (fun u => holds_code code u = Some false) rest ->
  find_referrer E store new_user_id code before rest w = Some (false, w).
Proof.
  intros Hall. revert before.
  induction Hall as [|u rest Hu _ IH]; intros before; [reflexivity|].
  cbn [find_referrer]. unfold holds_code in Hu.
  unfold bind at 1, lift at 1.
  destruct (py_get_or u "referrals" (JDict [])) as [r|]; [|discriminate].
  cbn [obind] in Hu. unfold bind at 1, lift at 1.
  destruct (py_get r "code") as [c|]; [|discriminate].
  injection Hu as ->. apply IH.
Qed.

(** With a code that no user holds [use_referral_code] returns False and
    leaves the world untouched: nothing is written. *)
Lemma use_referral_code_unknown (new_user_id : json) (referral_code : string)
    (users : list json) (w : world) :
  collection w "users" = Some users ->
  Forall (fun u => holds_code (upper referral_code) u = Some false) users ->
  use_referral_code E new_user_id referral_code w = Some (false, w).
Proof.
  intros Hc Hall. unfold use_referral_code.
  unfold bind at 1. rewrite read_store_current.
  unfold bind at 1, lift at 1. unfold collection in Hc. rewrite Hc.
  apply find_referrer_unknown. exact Hall.
Qed.

(** Whatever the nested awards do, rewarding the referrer ends by writing
    the document read at the start with the referrer's record changed in
    its referrals only: no xp of either user is in what is written. *)
Lemma reward_referrer_final (store : dict) (new_user_id : json)
    (before rest : list json) (ud : dict) (w w' : world) (r : bool) :
  all_dicts (before ++ JDict ud :: rest) = true ->
  reward_referrer E (JDict store) new_user_id before (JDict ud) rest w = Some (r, w') ->
  exists user',
    r = true /\
    is_dict user' = true /\
    (forall k, k <> "referrals" -> field user' k = field (JDict ud) k) /\
    disk w' = Stored (JDict (dict_set store "users"
                (JList (users_with (before ++ user' :: rest)
                                   (field (JDict ud) "userId") user')))).
Proof.
  intros Hd. unfold reward_referrer.
  unfold bind at 1, lift at 1. cbn [py_item].
  destruct (dict_get ud "referrals") as [referrals|]; [|discriminate].
  unfold bind at 1, lift at 1.
  destruct (obind (py_get_or referrals "count" (JInt 0)) as_int) as [count|];
    [|discriminate].
  unfold bind at 1, lift at 1.
  destruct (py_setitem referrals "count" (JInt (count + 1))) as [ref1|]; [|discriminate].
  unfold bind at 1, fresh at 1.
  unfold bind at 1, lift at 1.
  destruct (obind (py_item ref1 "rewards") _) as [rewards|]; [|discriminate].
  unfold bind at 1, lift at 1.
  destruct (py_setitem ref1 "rewards" rewards) as [ref2|]; [|discriminate].
  unfold bind at 1, lift at 1. cbn [py_setitem].
  unfold bind at 1, lift at 1.
  rewrite (py_get_dict (JDict (dict_set ud "referrals" ref2)) "userId" eq_refl).
  rewrite field_set_other by discriminate.
  unfold bind at 1.
  destruct (award_xp E (field (JDict ud) "userId") 100 _) as [[r1 w1]|]; [|discriminate].
  unfold bind at 1.
  destruct (award_xp E new_user_id 50 w1) as [[r2 w2]|]; [|discriminate].
  unfold bind at 1.
  lazymatch goal with
  | |- match ?x with _ => _ end = _ -> _ => destruct x as [[r3 w3]|]; [|discriminate]
  end.
  unfold bind at 1, lift at 1. cbn [py_setitem].
  unfold bind at 1.
  rewrite (put_user_run _ (before ++ JDict (dict_set ud "referrals" ref2) :: rest)
             (field (JDict ud) "userId") (JDict (dict_set ud "referrals" ref2)) w3).
  - unfold ret. intros [= <- <-].
    exists (JDict (dict_set ud "referrals" ref2)).
    split; [reflexivity|]. split; [reflexivity|]. split.
    + intros k Hk. apply field_set_other. congruence.
    + cbn [disk]. rewrite dict_set_set. reflexivity.
  - apply store_list_set.
  - rewrite all_dicts_app in *. apply andb_prop in Hd as [H1 H2].
    rewrite H1. simpl in *. exact H2.
Qed.

Lemma find_users_with (users : list json) (user_id user : json) :
  has_id "userId" user_id user = true ->
  find (has_id "userId" user_id) (users_with users user_id user) = Some user.
Proof.
  intros Hid. unfold users_with.
  induction users as [|x xs IH]; simpl.
  - rewrite Hid. reflexivity.
  - destruct (has_id "userId" user_id x) eqn:Hx; simpl; [exact IH|].
    rewrite Hx. exact IH.
Qed.

(** Awarding the same badge twice: the first call returns True and the
    second False without changing anything; the persisted record then
    holds exactly one badge of that name, and its xp is the xp from before
    the first call: the +50 that the nested [award_xp] wrote is not in the
    record [award_badge] writes last. *)
Lemma award_badge_twice (uid badge_name badge_icon : string)
    (description : option string) (w : world)
    (store : dict) (users : list json) (ud gb gx : dict) (bl : list json)
    (xp old_level : Z) (l : list json) :
  current_doc w = JDict store ->
  store_list (JDict store) "users" = Some users ->
  all_dicts users = true ->
  find (has_id "userId" (JStr uid)) users = Some (JDict ud) ->
  field (with_gamification (JDict ud) new_gamification_badge) "gamification" = JDict gb ->
  badges_ok gb bl ->
  all_dicts bl = true ->
  existsb (named badge_name) bl = false ->
  field (with_gamification (JDict ud) new_gamification_xp) "gamification" = JDict gx ->
  num_field gx "xp" 0 = Some xp ->
  num_field gx "level" 1 = Some old_level ->
  notifications_ok store l ->
  exists w1 g1 bl1,
    award_badge E (JStr uid) badge_name badge_icon description w = Some (true, w1) /\
    award_badge E (JStr uid) badge_name badge_icon description w1 = Some (false, w1) /\
    get_gamification_stats (JStr uid) w1 = Some (JDict g1, w1) /\
    dict_get g1 "badges" = Some (JList bl1) /\
    List.length (filter (named badge_name) bl1) = 1%nat /\
    num_field g1 "xp" 0 = num_field gb "xp" 0.
Proof.
  intros Hs Hc Hd Hf Hgb Hbl Hbd Hnew Hgx Hxp Hlv Hn.
  pose proof (find_some _ _ Hf) as [_ Hid].
  destruct (award_badge_run (JStr uid) badge_name badge_icon description w
              store users ud gb gx bl xp old_level l
              Hs Hc Hd Hf (str_id_not_empty uid ud Hid) Hgb Hbl Hbd Hnew Hgx Hxp Hlv Hn)
    as (w1 & user' & badge & Hrun & Hdisk & Hgam & Hname & Hbdict & Hid' & Hdict).
  destruct user' as [| | | | |ud']; try discriminate.
  set (g1 := dict_set gb "badges" (JList (bl ++ [badge]))) in *.
  assert (Hc1 : collection w1 "users" = Some (users_with users (JStr uid) (JDict ud'))).
  { unfold collection, current_doc. rewrite Hdisk. apply store_list_set. }
  assert (Hd1 : all_dicts (users_with users (JStr uid) (JDict ud')) = true).
  { unfold users_with. rewrite all_dicts_app, (all_dicts_filter _ users Hd). reflexivity. }
  assert (Hg1 : dict_get ud' "gamification" = Some (JDict g1)).
  { simpl in Hgam. destruct (dict_get ud' "gamification"); [|discriminate].
    rewrite Hgam. reflexivity. }
  assert (Hnowhere : filter (named badge_name) bl = []).
  { clear -Hnew. induction bl as [|b bl' IH]; simpl in *; [reflexivity|].
    apply orb_false_iff in Hnew as [-> H]. exact (IH H). }
  exists w1, g1, (bl ++ [badge]).
  split; [exact Hrun|].
  split.
  { apply (award_badge_again (JStr uid) badge_name badge_icon description w1
             _ ud' g1 (bl ++ [badge]) Hc1 Hd1).
    - apply find_users_with. exact Hid'.
    - apply (str_id_not_empty uid). exact Hid'.
    - exact Hg1.
    - apply dict_get_set_same.
    - rewrite all_dicts_app, Hbd. simpl. rewrite Hbdict. reflexivity.
    - rewrite existsb_app. simpl. unfold named at 2. rewrite Hname. simpl.
      rewrite String.eqb_refl. apply orb_true_r. }
  split.
  { apply (get_gamification_stats_run (JStr uid) _ (JDict ud') g1 w1 Hc1 Hd1).
    - apply user_of_users_with. exact Hid'.
    - pose proof (str_id_not_empty uid ud' Hid').
      destruct ud'; [congruence | reflexivity].
    - reflexivity.
    - exact Hgam.
    - apply dict_set_not_empty. }
  split; [apply dict_get_set_same|].
  split.
  - rewrite filter_app, Hnowhere. simpl. unfold named. rewrite Hname. simpl.
    rewrite String.eqb_refl. reflexivity.
  - unfold num_field, g1. rewrite dict_get_set_other by reflexivity. reflexivity.
Qed.

End Properties.

(* ===================================================================== *)
(** ** Runs of the code on concrete stores                               *)
(* ===================================================================== *)


(* ===================================================================== *)
(** ** Runs of the code on concrete stores                               *)
(* ===================================================================== *)

(** *** Quiz grading (C1) *)



(** *** Gamification (C2, C3) *)

(** [award_xp] has no guard on the sign of the amount: a negative amount,
    which no caller in the repository passes, lowers the persisted xp,
    150 before, 50 after. *)
Lemma award_xp_negative_amount_lowers_xp :
  let w0 := world0 (demo_store [demo_user "u1" 150 2 0 JNull []]) in
  exists g w',
    award_xp demo_oracle (JStr "u1") (-100) w0 = Some (g, w') /\
    persisted_xp w0 "u1" = Some (JInt 150) /\
    persisted_xp w' "u1" = Some (JInt 50) /\
    ~ (50 >= 150).
Proof.
  eexists _, _. split; [vm_compute; reflexivity|].
  split; [reflexivity|]. split; [reflexivity|]. lia.
Qed.

Lemma award_xp_level_formula_witness :
  exists g' w',
    award_xp demo_oracle (JStr "u1") 25
      (world0 (demo_store [demo_user "u2" 0 1 0 JNull []; demo_user "u1" 90 1 0 JNull []]))
    = Some (JDict g', w') /\
    get_gamification_stats (JStr "u1") w' = Some (JDict g', w') /\
    num_field g' "xp" 0 = Some (90 + 25) /\
    num_field g' "level" 1 = Some ((90 + 25) / 100 + 1) /\
    (0 <= 25 -> 90 <= 90 + 25) /\
    (1 < (90 + 25) / 100 + 1 ->
       exists n,
         In (Wrote (JDict (dict_set
                             [("users", JList [demo_user "u2" 0 1 0 JNull [];
                                               demo_user "u1" 90 1 0 JNull []]);
                              ("roadmaps", JList [])]
                             "notifications" (JList ([] ++ [n])))))
            (trace w') /\
         field n "userId" = JStr "u1" /\ field n "type" = JStr "achievement" /\
         field n "title" = JStr "Level Up! ").
Proof.
  apply (award_xp_level_formula demo_oracle "u1" 25 _
           [("users", JList [demo_user "u2" 0 1 0 JNull []; demo_user "u1" 90 1 0 JNull []]);
            ("roadmaps", JList [])]
           [demo_user "u2" 0 1 0 JNull []; demo_user "u1" 90 1 0 JNull []]
           [("userId", JStr "u1"); ("email", JStr "u1@example.org");
            ("gamification",
             JDict [("xp", JInt 90); ("level", JInt 1); ("badges", JList []);
                    ("streak", JInt 0); ("lastLoginDate", JNull);
                    ("achievements", JList [])])]
           [("xp", JInt 90); ("level", JInt 1); ("badges", JList []);
            ("streak", JInt 0); ("lastLoginDate", JNull); ("achievements", JList [])]
           90 1 []);
    reflexivity.
Defined.

(** C3.  A user holding 90 xp at level 1 is awarded 25 xp, which crosses
    the level boundary.  [award_xp] persists xp 115 >= 90 and level
    2 = floor(115 / 100) + 1, and [create_notification] writes a document
    holding the "Level Up! " achievement notification for the user.
    [award_xp] then writes the document it read before that call: of the
    two documents written the last one holds no notification, so the file
    the call leaves has none and [get_notifications] returns an empty
    list for the user. *)
Theorem award_xp_level_up_notification_not_persisted :
  let w0 := world0 (demo_store [demo_user "u1" 90 1 0 JNull []]) in
  exists g w1 n,
    award_xp demo_oracle (JStr "u1") 25 w0 = Some (JDict g, w1) /\
    get_gamification_stats (JStr "u1") w1 = Some (JDict g, w1) /\
    persisted_xp w0 "u1" = Some (JInt 90) /\
    field (JDict g) "xp" = JInt 115 /\
    field (JDict g) "level" = JInt (115 / 100 + 1) /\
    map (fun doc => field doc "notifications") (written w1) = [JList [n]; JNull] /\
    field n "userId" = JStr "u1" /\
    field n "type" = JStr "achievement" /\
    field n "title" = JStr "Level Up! " /\
    field (current_doc w1) "notifications" = JNull /\
    get_notifications (JStr "u1") false w1 = Some ([], w1).
Proof.
  eexists _, _, _. split; [vm_compute; reflexivity|].
  repeat split; vm_compute; reflexivity.
Qed.

(** C2.  The badge is awarded to a user holding 50 xp, twice.  The first
    call returns True, the second False and changes nothing, and the
    persisted record holds the badge once: so far the claim.  But the
    persisted xp is still 50, not 100: the documents written in turn hold
    xp 50 (level-up notification), 100 (the nested award_xp), 100 (badge
    notification) and 50 (award_badge writing back the record it read at
    its start). *)
Theorem award_badge_xp_grant_not_persisted :
  let w0 := world0 (demo_store [demo_user "u1" 50 1 0 JNull []]) in
  exists w1 b,
    award_badge demo_oracle (JStr "u1") "Getting Started" ""
      (Some "Created your account!") w0 = Some (true, w1) /\
    award_badge demo_oracle (JStr "u1") "Getting Started" ""
      (Some "Created your account!") w1 = Some (false, w1) /\
    persisted_badges w1 "u1" = Some (JList [b]) /\
    field b "name" = JStr "Getting Started" /\
    persisted_xp w0 "u1" = Some (JInt 50) /\
    persisted_xp w1 "u1" = Some (JInt 50) /\
    map (doc_xp "u1") (written w1) = [JInt 50; JInt 100; JInt 100; JInt 50] /\
    field (current_doc w1) "notifications" = JNull.
Proof.
  eexists _, _. split; [vm_compute; reflexivity|].
  repeat split; vm_compute; reflexivity.
Qed.

(** *** Login streak (C4) *)

(** The four cases of the streak on the demonstration day 2024-06-08. *)
Example update_streak_cases :
  let on last := world0 (demo_store [demo_user "u1" 60 1 3 last []]) in
  let after last :=
    match update_streak demo_oracle (JStr "u1") (on last) with
    | Some (_, w') => persisted_streak w' "u1"
    | None => None
    end in
  after (JStr "2024-06-08") = Some (JInt 3) /\
  after (JStr "2024-06-07") = Some (JInt 4) /\
  after (JStr "2024-06-05") = Some (JInt 1) /\
  after JNull = Some (JInt 1).
Proof. repeat split; vm_compute; reflexivity. Qed.

(** C4.  A user with streak 6 who logged in the day before logs in: the
    streak becomes 7 and [award_badge] is called, which writes a document
    where the user holds the "7 Day Streak" badge (the fifth write).  The
    last write is [update_streak]'s own, of the record it read at its
    start: the persisted user has streak 7, no badge, and the xp from
    before the call. *)
Theorem update_streak_milestone_badge_not_persisted :
  let w0 := world0 (demo_store [demo_user "u1" 60 1 6 (JStr "2024-06-07") []]) in
  exists g w1,
    update_streak demo_oracle (JStr "u1") w0 = Some (g, w1) /\
    persisted_streak w1 "u1" = Some (JInt 7) /\
    map (doc_has_badge "u1" "7 Day Streak") (written w1)
    = [false; false; false; false; true; false] /\
    persisted_badges w1 "u1" = Some (JList []) /\
    persisted_xp w1 "u1" = Some (JInt 60).
Proof.
  eexists _, _. split; [vm_compute; reflexivity|].
  repeat split; vm_compute; reflexivity.
Qed.

(** *** Referrals (C7) *)

(** C7.  User u2 signs up with the code of user u1 (who holds 20 xp).  The
    call returns True and the referrer's count goes from 0 to 1, but
    neither grant is persisted: awards of 100 and 50 are written on the
    way (xp 120 for u1, 50 for u2) and the last write, of the document read
    at the start, puts back 20 and 0. *)
Theorem use_referral_code_xp_not_persisted :
  let w0 := world0 demo_referral_store in
  exists w1,
    use_referral_code demo_oracle (JStr "u2") "abcd1234" w0 = Some (true, w1) /\
    field (field (user_of (match collection w1 "users" with Some us => us | None => [] end)
                          (JStr "u1")) "referrals") "count" = JInt 1 /\
    persisted_xp w0 "u1" = Some (JInt 20) /\
    persisted_xp w0 "u2" = Some (JInt 0) /\
    persisted_xp w1 "u1" = Some (JInt 20) /\
    persisted_xp w1 "u2" = Some (JInt 0) /\
    map (doc_xp "u1") (written w1) = [JInt 20; JInt 120; JInt 120; JInt 20] /\
    map (doc_xp "u2") (written w1) = [JInt 0; JInt 0; JInt 50; JInt 0].
Proof.
  eexists. split; [vm_compute; reflexivity|].
  repeat split; vm_compute; reflexivity.
Qed.

(** A code that no user holds: False, and the world is as before. *)
Example use_referral_code_unknown_run :
  use_referral_code demo_oracle (JStr "u2") "nosuchcode" (world0 demo_referral_store)
  = Some (false, world0 demo_referral_store).
Proof. vm_compute. reflexivity. Qed.

(** *** Users and profiles (C5, C6) *)

Lemma create_user_replaces_same_email_witness :
  exists user w' users',
    create_user demo_oracle "u1@example.org" "hash" JNull
      (world0 (demo_store [demo_user "u1" 0 1 0 JNull []; demo_user "u2" 0 1 0 JNull []]))
    = Some (user, w') /\
    field user "email" = JStr "u1@example.org" /\
    collection w' "users" = Some users' /\
    users' = filter (fun u => negb (has_email "u1@example.org" u))
                    [demo_user "u1" 0 1 0 JNull []; demo_user "u2" 0 1 0 JNull []]
             ++ [user] /\
    List.length (filter (has_email "u1@example.org") users') = 1%nat.
Proof.
  apply (create_user_replaces_same_email demo_oracle "u1@example.org" "hash" JNull _
           [demo_user "u1" 0 1 0 JNull []; demo_user "u2" 0 1 0 JNull []]);
    reflexivity.
Defined.

(** A partial update of a nested profile mapping replaces that mapping:
    the stored theme is gone, where a deep merge keeps it. *)
Lemma save_user_profile_replaces_nested_mapping :
  exists w' u,
    save_user_profile demo_oracle (JDict demo_profile_item)
      (world0 (demo_store [JDict demo_profile_user])) = Some (true, w') /\
    collection w' "users" = Some [u] /\
    field u "profile"
    = JDict [("name", JStr "Ann"); ("prefs", JDict [("lang", JStr "fr")])] /\
    field (field (field u "profile") "prefs") "theme" = JNull /\
    spec_deep_merge (JDict demo_profile) (JDict demo_profile_update)
    = JDict [("name", JStr "Ann");
             ("prefs", JDict [("theme", JStr "dark"); ("lang", JStr "fr")])] /\
    field u "profile" <> spec_deep_merge (JDict demo_profile) (JDict demo_profile_update).
Proof.
  eexists _, _. split; [vm_compute; reflexivity|].
  split; [reflexivity|]. split; [reflexivity|]. split; [reflexivity|].
  split; [reflexivity|]. vm_compute. discriminate.
Qed.

Lemma save_user_profile_merges_profile_keys_witness :
  exists w' merged profile',
    save_user_profile demo_oracle (JDict demo_profile_item)
      (world0 (demo_store [JDict demo_profile_user])) = Some (true, w') /\
    collection w' "users"
    = Some (filter (fun u => negb (has_id "userId"
                                     (field (JDict demo_profile_item) "userId") u))
                   [JDict demo_profile_user]
            ++ [JDict merged]) /\
    dict_get merged "profile" = Some (JDict profile') /\
    (forall k v, dict_get demo_profile_update k = Some v -> dict_get profile' k = Some v) /\
    (forall k, dict_get demo_profile_update k = None ->
               dict_get profile' k = dict_get demo_profile k).
Proof.
  apply (save_user_profile_merges_profile_keys demo_oracle demo_profile_item
           demo_profile_user demo_profile demo_profile_update
           [JDict demo_profile_user]);
    try reflexivity.
  - repeat constructor; simpl; intuition discriminate.
  - repeat constructor; simpl; intuition discriminate.
Defined.

(** *** Activities (C9, C10) *)

Lemma complete_activity_atomic_on_not_found_witness :
  complete_activity demo_oracle (JStr "u1") (JStr "a2") (world0 demo_quiz_store)
  = Some (false, world0 demo_quiz_store) /\
  exists w' acts',
    complete_activity demo_oracle (JStr "u1") (JStr "a1") (world0 demo_quiz_store)
    = Some (true, w') /\
    collection w' "activities" = Some acts' /\
    Forall2 (fun a a' => if is_target (JStr "u1") (JStr "a1") a
                         then marked_completed a a' else a' = a)
            [demo_activity] acts' /\
    forall key, key <> "activities" ->
                field (current_doc w') key = field (current_doc (world0 demo_quiz_store)) key.
Proof.
  split.
  - apply (complete_activity_atomic_on_not_found demo_oracle (JStr "u1") (JStr "a2")
             (world0 demo_quiz_store) [demo_activity]); reflexivity.
  - apply (complete_activity_atomic_on_not_found demo_oracle (JStr "u1") (JStr "a1")
             (world0 demo_quiz_store) [demo_activity]); reflexivity.
Defined.

Lemma create_activities_for_role_regenerates_witness :
  exists mine w' acts' created,
    create_activities_for_role demo_oracle (JStr "u1") (JStr "Data Analyst")
      (world0 demo_quiz_store) = Some (mine, w') /\
    collection w' "activities" = Some acts' /\
    acts' = filter (fun a => negb (owned "u1" a && pending a)) [demo_activity] ++ created /\
    List.length created = 15%nat /\
    Forall (fun a => owned "u1" a = true /\ pending a = true) created /\
    map (fun a => (field a "level", field a "quizVariant")) created
    = map (fun lv => (JStr (fst lv), JInt (snd lv)))
          (list_prod levels [1; 2; 3; 4; 5]) /\
    filter (fun a => owned "u1" a && pending a) acts' = created /\
    filter (fun a => owned "u1" a && completed a) acts'
    = filter (fun a => owned "u1" a && completed a) [demo_activity] /\
    filter (fun a => owned "u1" a && negb (pending a)) acts'
    = filter (fun a => owned "u1" a && negb (pending a)) [demo_activity] /\
    filter (fun a => negb (owned "u1" a)) acts'
    = filter (fun a => negb (owned "u1" a)) [demo_activity] /\
    mine = filter (owned "u1") acts'.
Proof.
  apply (create_activities_for_role_regenerates demo_oracle "u1" (JStr "Data Analyst")
           "Data Analyst" (world0 demo_quiz_store) [demo_activity]);
    reflexivity.
Defined.

(* ===================================================================== *)
(** ** Further properties of the client                                  *)
(* ===================================================================== *)

Section Lookups.

Variable E : oracle.

Lemma lookup_run (coll key : string) (val : json) (xs : list json) (w : world) :
  collection w coll = Some xs ->
  all_dicts xs = true ->
  lookup coll key val w = Some (found xs key val, w).
Proof.
  intros Hc Hd. unfold lookup, bind, lift. rewrite read_store_current.
  unfold collection in Hc. rewrite Hc, (first_with_find _ _ _ Hd). reflexivity.
Qed.

Lemma records_with_run (coll key : string) (val : json) (xs : list json) (w : world) :
  collection w coll = Some xs ->
  all_dicts xs = true ->
  records_with coll key val w = Some (filter (has_id key val) xs, w).
Proof.
  intros Hc Hd. unfold records_with, bind, lift. rewrite read_store_current.
  unfold collection in Hc. rewrite Hc. cbn [obind].
  rewrite (filterM_dicts _ (has_id key val) xs Hd); [reflexivity|].
  intros r Hr. rewrite (py_get_dict r key Hr). reflexivity.
Qed.

Lemma find_filter_implied {A} (p q : A -> bool) (xs : list A) :
  (forall x, p x = true -> q x = true) ->
  find p (filter q xs) = find p xs.
Proof.
  intros Himp. induction xs as [|x xs IH]; simpl; [reflexivity|].
  destruct (q x) eqn:Hq; simpl.
  - destruct (p x); [reflexivity | exact IH].
  - destruct (p x) eqn:Hp; [|exact IH].
    rewrite (Himp x Hp) in Hq. discriminate.
Qed.

Lemma find_app_none {A} (p : A -> bool) (xs ys : list A) :
  find p xs = None -> find p (xs ++ ys) = find p ys.
Proof.
  induction xs as [|x xs IH]; simpl; [reflexivity|].
  destruct (p x); [discriminate | exact IH].
Qed.

Lemma find_app_last {A} (p : A -> bool) (xs : list A) (y : A) :
  p y = false -> find p (xs ++ [y]) = find p xs.
Proof.
  intros Hy. induction xs as [|x xs IH]; simpl; [rewrite Hy; reflexivity|].
  destruct (p x); [reflexivity | exact IH].
Qed.

Lemma find_removed {A} (p : A -> bool) (xs : list A) :
  find p (filter (fun x => negb (p x)) xs) = None.
Proof.
  induction xs as [|x xs IH]; simpl; [reflexivity|].
  destruct (p x) eqn:Hp; simpl; [exact IH|]. rewrite Hp. exact IH.
Qed.

Lemma has_id_str (key s : string) (u : json) :
  has_id key (JStr s) u = eq_str (field u key) s.
Proof. unfold has_id. apply py_eq_str. Qed.

(** What [create_user] writes on a store of dict records. *)
Lemma create_user_run (email password : string) (profile : json)
    (store : dict) (users : list json) (w : world) :
  current_doc w = JDict store ->
  store_list (JDict store) "users" = Some users ->
  all_dicts users = true ->
  exists user,
    create_user E email password profile w
    = Some (user,
            mkWorld (Stored (JDict (dict_set store "users"
                       (JList (filter (fun u => negb (has_email email u)) users ++ [user])))))
                    (S (S (tick w)))
                    (Wrote (JDict (dict_set store "users"
                       (JList (filter (fun u => negb (has_email email u)) users ++ [user]))))
                     :: trace w)) /\
    is_dict user = true /\
    field user "email" = JStr email.
Proof.
  intros Hs Hc Hd. eexists. split; [|split].
  unfold create_user. unfold bind at 1, fresh at 1. unfold bind at 1, fresh at 1.
  unfold bind at 1, _read_store. cbn [disk tick trace].
  unfold current_doc in Hs.
  replace (match disk w with Stored doc => Some (doc, _) | _ => _ end)
    with (Some (JDict store,
                mkWorld (disk w) (S (S (tick w))) (trace w)))
    by (destruct (disk w); rewrite <- Hs; reflexivity).
  unfold store_list in Hc. cbn [py_get_or obind] in Hc.
  unfold bind at 1, lift at 1. cbn [py_get_or].
  unfold bind at 1, lift at 1. rewrite Hc. cbn [obind].
  rewrite (filterM_dicts _ (fun u => negb (has_email email u)) users Hd).
  2:{ intros u Hu. rewrite (py_get_dict u "email" Hu). reflexivity. }
  reflexivity.
  - reflexivity.
  - reflexivity.
Qed.

(** X1.  Sign-up and login meet: after [create_user], looking the email up
    with [get_user_by_email] returns the record just created, and the
    lookup of every other email returns what it returned before. *)
Theorem create_user_found_by_email
    (email password : string) (profile : json) (w : world) (users : list json) :
  collection w "users" = Some users ->
  all_dicts users = true ->
  exists user w',
    create_user E email password profile w = Some (user, w') /\
    get_user_by_email email w' = Some (user, w') /\
    forall other, other <> email ->
      exists u, get_user_by_email other w = Some (u, w) /\
                get_user_by_email other w' = Some (u, w').
Proof.
  intros Hc Hd.
  destruct (store_list_is_dict _ _ _ Hc) as [store Hs].
  unfold collection in Hc. rewrite Hs in Hc.
  destruct (create_user_run email password profile store users w Hs Hc Hd)
    as (user & Hrun & Hdict & Hemail).
  set (kept := filter (fun u => negb (has_email email u)) users) in *.
  eexists _, _. split; [exact Hrun|].
  assert (Hc' : forall t tr,
            collection (mkWorld (Stored (JDict (dict_set store "users"
                                                  (JList (kept ++ [user]))))) t tr)
                       "users" = Some (kept ++ [user])).
  { intros t tr. unfold collection, current_doc. cbn [disk]. apply store_list_set. }
  assert (Hd' : all_dicts (kept ++ [user]) = true).
  { rewrite all_dicts_app. unfold kept. rewrite (all_dicts_filter _ users Hd).
    simpl. rewrite Hdict. reflexivity. }
  split.
  - unfold get_user_by_email. rewrite (lookup_run _ _ _ _ _ (Hc' _ _) Hd').
    unfold found. rewrite find_app_none.
    + simpl. rewrite has_id_str, Hemail. simpl. rewrite String.eqb_refl. reflexivity.
    + unfold kept. rewrite <- (find_removed (has_id "email" (JStr email)) users).
      f_equal. apply filter_ext. intros u. rewrite has_id_str. reflexivity.
  - intros other Hne. exists (found users "email" (JStr other)).
    unfold get_user_by_email. split.
    + apply lookup_run; [unfold collection; rewrite Hs; exact Hc | exact Hd].
    + rewrite (lookup_run _ _ _ _ _ (Hc' _ _) Hd'). unfold found.
      rewrite find_app_last.
      * unfold kept. rewrite find_filter_implied; [reflexivity|].
        intros u Hu. rewrite has_id_str in Hu. unfold has_email.
        destruct (field u "email"); simpl in *; try reflexivity.
        apply String.eqb_eq in Hu. subst s.
        apply negb_true_iff. apply String.eqb_neq. exact Hne.
      * rewrite has_id_str, Hemail. simpl. apply String.eqb_neq. congruence.
Qed.

End Lookups.

Section Events.

Variable E : oracle.

Lemma holds_list_get (d : dict) (key : string) (xs : list json) :
  holds_list d key xs ->
  py_get_or (JDict d) key (JList []) = Some (JList xs) /\
  store_list (JDict d) key = Some xs.
Proof.
  unfold holds_list, store_list. simpl.
  destruct (dict_get d key); intros ->; split; reflexivity.
Qed.

Lemma holds_list_set (d : dict) (key : string) (xs : list json) :
  holds_list (dict_set d key (JList xs)) key xs.
Proof. unfold holds_list. rewrite dict_get_set_same. reflexivity. Qed.

Lemma holds_list_other (d : dict) (key other : string) (v : json) (xs : list json) :
  other <> key ->
  holds_list d key xs -> holds_list (dict_set d other v) key xs.
Proof.
  intros Hne. unfold holds_list. rewrite dict_get_set_other; [auto|].
  apply String.eqb_neq. exact Hne.
Qed.

Lemma record_activity_run (user_id : json) (event_type : string) (metadata : json)
    (store : dict) (evs : list json) (w : world) :
  current_doc w = JDict store ->
  holds_list store "events" evs ->
  record_activity E user_id event_type metadata w
  = Some (true,
          mkWorld (Stored (JDict (dict_set store "events"
                     (JList (evs ++ [JDict [("userId", user_id);
                                            ("eventType", JStr event_type);
                                            ("metadata", py_or metadata (JDict []));
                                            ("timestamp", JStr (utcnow E (tick w)))]])))))
                  (S (tick w))
                  (Wrote (JDict (dict_set store "events"
                     (JList (evs ++ [JDict [("userId", user_id);
                                            ("eventType", JStr event_type);
                                            ("metadata", py_or metadata (JDict []));
                                            ("timestamp", JStr (utcnow E (tick w)))]]))))
                   :: trace w)).
Proof.
  intros Hs Hev. destruct (holds_list_get _ _ _ Hev) as [Hget _].
  unfold record_activity. unfold bind at 1. rewrite read_store_current, Hs.
  unfold bind at 1, lift at 1. rewrite Hget. reflexivity.
Qed.

(** X2.  An event recorded with [record_activity] is the last entry that
    [list_activities] returns for its user, after the user's earlier
    events in their order; the list of any other user is as before. *)
Theorem record_activity_listed
    (user_id : json) (event_type : string) (metadata : json)
    (store : dict) (evs : list json) (w : world) :
  current_doc w = JDict store ->
  holds_list store "events" evs ->
  all_dicts evs = true ->
  exists ev w',
    record_activity E user_id event_type metadata w = Some (true, w') /\
    field ev "userId" = user_id /\
    field ev "eventType" = JStr event_type /\
    forall who,
      list_activities who w = Some (filter (has_id "userId" who) evs, w) /\
      list_activities who w'
      = Some (filter (has_id "userId" who) evs ++ (if py_eq user_id who then [ev] else []),
              w').
Proof.
  intros Hs Hev Hd.
  destruct (holds_list_get _ _ _ Hev) as [_ Hlist].
  exists (JDict [("userId", user_id); ("eventType", JStr event_type);
                 ("metadata", py_or metadata (JDict []));
                 ("timestamp", JStr (utcnow E (tick w)))]).
  eexists. split; [apply (record_activity_run _ _ _ store evs w Hs Hev)|].
  split; [reflexivity|]. split; [reflexivity|].
  intros who. split.
  - apply records_with_run; [unfold collection; rewrite Hs; exact Hlist | exact Hd].
  - unfold list_activities.
    rewrite (records_with_run "events" "userId" who
               (evs ++ [JDict [("userId", user_id); ("eventType", JStr event_type);
                               ("metadata", py_or metadata (JDict []));
                               ("timestamp", JStr (utcnow E (tick w)))]])).
    + rewrite filter_app. cbn [filter]. unfold has_id at 2. cbn [field dict_get].
      cbn [String.eqb Ascii.eqb Bool.eqb andb].
      destruct (py_eq user_id who); reflexivity.
    + unfold collection, current_doc. cbn [disk]. apply store_list_set.
    + rewrite all_dicts_app, Hd. reflexivity.
Qed.

End Events.

Section Admins.

Variable E : oracle.

(** What a successful [create_admin] leaves on disk. *)
Lemma create_admin_disk (email password : string) (name : json) (w w' : world) (a : json) :
  create_admin E email password name w = Some (a, w') ->
  exists store kept,
    disk w' = Stored (JDict (dict_set store "admins" (JList (kept ++ [a])))).
Proof.
  unfold create_admin. unfold bind at 1, fresh at 1. unfold bind at 1, fresh at 1.
  unfold bind at 1. rewrite read_store_current.
  cbn [disk tick trace].
  match goal with |- context [current_doc ?x] => generalize (current_doc x) end.
  intros doc.
  unfold bind at 1, lift at 1.
  destruct (py_get_or doc "admins" (JList [])) as [admins|] eqn:Hget; [|discriminate].
  unfold bind at 1, lift at 1.
  destruct (obind (py_iter admins) _) as [kept|]; [|discriminate].
  unfold bind at 1, lift at 1.
  destruct doc as [| | | | |store]; try discriminate.
  cbn [py_setitem]. unfold bind, _write_store, ret. intros [= <- <-]. cbn [disk].
  eauto.
Qed.

(** X3.  [ensure_default_admin] never fails and is idempotent on every
    store: a second run right after the first changes nothing. *)
Theorem ensure_default_admin_idempotent (password_hash : string) (w : world) :
  exists w1,
    ensure_default_admin E password_hash w = Some (tt, w1) /\
    ensure_default_admin E password_hash w1 = Some (tt, w1).
Proof.
  unfold ensure_default_admin, try_except.
  match goal with
  | |- context [match ?m w with _ => _ end] => set (inner := m)
  end.
  destruct (inner w) as [[[] w1]|] eqn:Hrun.
  2:{ exists w. rewrite Hrun. split; reflexivity. }
  exists w1. split; [reflexivity|].
  assert (Hsame : inner w1 = Some (tt, w1) \/ w1 = w).
  { revert Hrun. unfold inner. unfold bind at 1. rewrite read_store_current.
    unfold bind at 1, lift at 1.
    destruct (py_get_or (current_doc w) "admins" (JList [])) as [existing|]; [|discriminate].
    destruct (truthy existing) eqn:Ht; cbn [negb].
    - unfold ret. intros [= <-]. right. reflexivity.
    - unfold bind at 1.
      destruct (create_admin E _ password_hash _ w) as [[a w2]|] eqn:Hc; [|discriminate].
      unfold ret. intros [= <-]. left.
      destruct (create_admin_disk _ _ _ _ _ _ Hc) as (store & kept & Hdisk).
      unfold bind at 1. rewrite read_store_current.
      unfold current_doc. rewrite Hdisk.
      unfold bind at 1, lift at 1. cbn [py_get_or]. rewrite dict_get_set_same.
      replace (truthy (JList (kept ++ [a]))) with true
        by (destruct kept; reflexivity).
      reflexivity. }
  destruct Hsame as [-> | ->]; [reflexivity|]. rewrite Hrun. reflexivity.
Qed.

(** X4.  On a store without admins (the key absent or an empty list, a
    missing file among them) [ensure_default_admin] creates the default
    admin, who is then the only admin and is found by email; on a store
    with an admin it touches nothing. *)
Theorem ensure_default_admin_bootstraps
    (password_hash : string) (store : dict) (admins : list json) (w : world) :
  current_doc w = JDict store ->
  holds_list store "admins" admins ->
  all_dicts admins = true ->
  (admins = [] ->
     exists admin w',
       ensure_default_admin E password_hash w = Some (tt, w') /\
       collection w' "admins" = Some [admin] /\
       get_admin_by_email "admin@virtualcareercounselor.com" w' = Some (admin, w') /\
       field admin "passwordHash" = JStr password_hash /\
       field admin "role" = JStr "admin") /\
  (admins <> [] -> ensure_default_admin E password_hash w = Some (tt, w)).
Proof.
  intros Hs Hl Hd. destruct (holds_list_get _ _ _ Hl) as [Hget Hlist].
  split.
  - intros ->.
    set (admin := JDict [("adminId", JStr (uuid4 E (tick w)));
                         ("email", JStr "admin@virtualcareercounselor.com");
                         ("passwordHash", JStr password_hash);
                         ("name", JStr "System Administrator");
                         ("role", JStr "admin");
                         ("createdAt", JStr (utcnow E (S (tick w))))]).
    exists admin,
           (mkWorld (Stored (JDict (dict_set store "admins" (JList [admin]))))
                    (S (S (tick w)))
                    (Wrote (JDict (dict_set store "admins" (JList [admin]))) :: trace w)).
    split.
    + unfold ensure_default_admin, try_except.
      unfold bind at 1. rewrite read_store_current, Hs.
      unfold bind at 1, lift at 1. rewrite Hget. cbn [truthy negb].
      unfold bind at 1. unfold create_admin.
      unfold bind at 1, fresh at 1. unfold bind at 1, fresh at 1.
      unfold bind at 1, _read_store. cbn [disk tick trace].
      unfold current_doc in Hs.
      replace (match disk w with Stored doc => Some (doc, _) | _ => _ end)
        with (Some (JDict store, mkWorld (disk w) (S (S (tick w))) (trace w)))
        by (destruct (disk w); rewrite <- Hs; reflexivity).
      unfold bind at 1, lift at 1. rewrite Hget. reflexivity.
    + assert (Hc : forall t tr,
                collection (mkWorld (Stored (JDict (dict_set store "admins" (JList [admin]))))
                                    t tr) "admins" = Some [admin]).
      { intros t tr. unfold collection, current_doc. cbn [disk]. apply store_list_set. }
      split; [apply Hc|].
      split; [|split; reflexivity].
      unfold get_admin_by_email.
      rewrite (lookup_run "admins" "email" _ [admin] _ (Hc _ _) eq_refl).
      reflexivity.
  - intros Hne. unfold ensure_default_admin, try_except.
    unfold bind at 1. rewrite read_store_current, Hs.
    unfold bind at 1, lift at 1. rewrite Hget.
    destruct admins; [congruence | reflexivity].
Qed.

End Admins.

Section Jobs.

Variable E : oracle.
Variable str_lower : string -> string.

(** *** Sorting newest first *)

Lemma string_ltb_asym (s t : string) : String.ltb s t = true -> String.ltb t s = false.
Proof.
  unfold String.ltb. rewrite (String.compare_antisym s t).
  destruct (String.compare t s); simpl; congruence.
Qed.

Lemma insert_desc_text (kx x : json) (l : list (json * json)) :
  text_key (kx, x) ->
  Forall text_key l ->
  Sorted key_not_below l ->
  exists l',
    insert_desc kx x l = Some l' /\
    Permutation ((kx, x) :: l) l' /\
    Forall text_key l' /\
    Sorted key_not_below l'.
Proof.
  intros [s Hs]. simpl in Hs. subst kx.
  induction l as [|[ky y] l IH]; intros Ht Hsorted.
  - exists [(JStr s, x)]. repeat split; auto.
    constructor; [exists s; reflexivity | constructor].
  - inversion Ht as [|? ? [t Hy] Ht']; subst. simpl in Hy. subst ky.
    inversion Hsorted as [|? ? Hs' Hhd]; subst.
    cbn [insert_desc py_lt obind].
    destruct (String.ltb s t) eqn:Hlt.
    + destruct (IH Ht' Hs') as (l' & Hins & Hperm & Htext & Hsort).
      rewrite Hins. cbn [option_map].
      exists ((JStr t, y) :: l'). split; [reflexivity|].
      split; [rewrite perm_swap; apply perm_skip; exact Hperm|].
      split; [constructor; [exists t; reflexivity | exact Htext]|].
      constructor; [exact Hsort|].
      (* the head of l' is x or the old head of l *)
      destruct l' as [|[kz z] l'']; [constructor|]. constructor.
      destruct l as [|[ku u] l0].
      * cbn [insert_desc] in Hins. injection Hins as <- <- <-.
        unfold key_not_below. cbn [fst py_lt]. rewrite (string_ltb_asym s t Hlt).
        reflexivity.
      * cbn [insert_desc] in Hins.
        destruct (py_lt (JStr s) ku) as [[|]|]; cbn [obind] in Hins; try discriminate.
        -- destruct (insert_desc (JStr s) x l0); [|discriminate].
           injection Hins as <- <- <-. inversion Hhd; subst. assumption.
        -- injection Hins as <- <- <-.
           unfold key_not_below. cbn [fst py_lt]. rewrite (string_ltb_asym s t Hlt).
           reflexivity.
    + exists ((JStr s, x) :: (JStr t, y) :: l). split; [reflexivity|].
      split; [apply Permutation_refl|].
      split; [constructor; [exists s; reflexivity | exact Ht]|].
      constructor; [exact Hsorted|]. constructor.
      unfold key_not_below. cbn [fst py_lt]. rewrite Hlt. reflexivity.
Qed.

Lemma sort_desc_text (l : list (json * json)) :
  Forall text_key l ->
  exists l',
    sort_desc l = Some l' /\ Permutation l l' /\
    Forall text_key l' /\ Sorted key_not_below l'.
Proof.
  induction l as [|[k x] l IH]; intros Ht.
  - exists []. repeat split; auto.
  - inversion Ht as [|? ? Hk Ht']; subst.
    destruct (IH Ht') as (l1 & Hsort & Hperm & Htext & Hs).
    destruct (insert_desc_text k x l1 Hk Htext Hs) as (l2 & Hins & Hperm2 & Htext2 & Hs2).
    exists l2. cbn [sort_desc]. rewrite Hsort. cbn [obind]. rewrite Hins.
    split; [reflexivity|]. split; [|auto].
    eapply Permutation_trans; [apply perm_skip; exact Hperm | exact Hperm2].
Qed.

Lemma keyed_created (xs : list json) :
  all_dicts xs = true ->
  keyed created_at xs = Some (map (fun x => (created_key x, x)) xs).
Proof.
  induction xs as [|x xs IH]; intros Hd; [reflexivity|].
  simpl in Hd. apply andb_prop in Hd as [Hx Hd].
  cbn [keyed map]. rewrite (IH Hd).
  destruct x; try discriminate. reflexivity.
Qed.

Lemma sorted_map_snd (l : list (json * json)) :
  Forall (fun p => fst p = created_key (snd p)) l ->
  Sorted key_not_below l -> Sorted not_older (map snd l).
Proof.
  induction l as [|p l IH]; intros Hk Hs; [constructor|].
  inversion Hk as [|? ? Hp Hk']; subst. inversion Hs as [|? ? Hs' Hhd]; subst.
  cbn [map]. constructor; [apply IH; assumption|].
  destruct l as [|q l]; [constructor|]. constructor.
  inversion Hhd as [|? ? Hpq]; subst. inversion Hk' as [|? ? Hq _]; subst.
  unfold not_older. rewrite <- Hp, <- Hq. exact Hpq.
Qed.

(** [sorted(xs, key=lambda x: x.get('createdAt', ''), reverse=True)] on
    dict records with text dates: a rearrangement with no record standing
    before a newer one. *)
Lemma py_sorted_desc_created (xs : list json) :
  all_dicts xs = true ->
  forallb dated xs = true ->
  exists ys,
    py_sorted_desc created_at xs = Some ys /\
    Permutation xs ys /\ Sorted not_older ys.
Proof.
  intros Hd Hdated. unfold py_sorted_desc. rewrite (keyed_created xs Hd). cbn [obind].
  destruct (sort_desc_text (map (fun x => (created_key x, x)) xs))
    as (l & Hsort & Hperm & _ & Hs).
  { rewrite forallb_forall in Hdated. apply Forall_forall.
    intros p Hin. apply in_map_iff in Hin as (x & <- & Hx).
    specialize (Hdated x Hx). unfold dated in Hdated. unfold text_key. cbn [fst].
    destruct (created_key x); try discriminate. eauto. }
  exists (map snd l). rewrite Hsort. split; [reflexivity|]. split.
  - apply (Permutation_map snd) in Hperm. rewrite map_map in Hperm. cbn [snd] in Hperm.
    rewrite map_id in Hperm. exact Hperm.
  - apply sorted_map_snd; [|exact Hs].
    eapply Permutation_Forall; [exact Hperm|].
    apply Forall_forall. intros p Hin. apply in_map_iff in Hin as (x & <- & _).
    reflexivity.
Qed.

(** X5.  Whatever [str.lower] makes of text, [list_jobs] returns exactly
    the jobs with the requested status (and, when a career field is given,
    those whose field is equal to it once [str.lower] has lowered both),
    each once, arranged so that no job stands before a newer one; the
    store is not changed. *)
Theorem list_jobs_newest_first
    (career_field : json) (status : string) (jobs : list json) (w : world) :
  collection w "jobs" = Some jobs ->
  all_dicts jobs = true ->
  forallb dated jobs = true ->
  forallb field_is_text jobs = true ->
  career_field = JNull \/ (exists c, career_field = JStr c) ->
  exists listed,
    list_jobs str_lower career_field status w = Some (listed, w) /\
    Permutation (filter (job_listed str_lower career_field status) jobs) listed /\
    Sorted not_older listed /\
    Forall (fun j => field j "status" = JStr status) listed.
Proof.
  intros Hc Hd Hdated Htext Hfield.
  set (kept := filter (job_listed str_lower career_field status) jobs).
  assert (Hfilter :
    (if truthy career_field
     then filterM (job_in_field str_lower career_field status) jobs
     else filterM (fun j => option_map (fun s => eq_str s status) (py_get j "status")) jobs)
    = Some kept).
  { unfold kept. destruct (truthy career_field) eqn:Ht.
    - destruct Hfield as [-> | [c ->]]; [discriminate|].
      clear Hdated Hc kept. induction jobs as [|j jobs IH]; [reflexivity|].
      simpl in Hd, Htext. apply andb_prop in Hd as [Hj Hd].
      apply andb_prop in Htext as [Hf Htext].
      cbn [filterM filter]. rewrite (IH Hd Htext). clear IH.
      unfold job_in_field, job_listed, field_is_text in *. rewrite Ht.
      destruct (py_get_or j "career_field" (JStr "")) as [[| | |f| |]|]; try discriminate.
      cbn [obind as_str]. rewrite (py_get_dict j "status" Hj).
      destruct (String.eqb (str_lower f) (str_lower c)); cbn [option_map obind andb];
        [destruct (eq_str (field j "status") status)|]; reflexivity.
    - apply filterM_dicts; [exact Hd|]. intros j Hj.
      rewrite (py_get_dict j "status" Hj). unfold job_listed. rewrite Ht. reflexivity. }
  destruct (py_sorted_desc_created kept) as (listed & Hsort & Hperm & Hsorted).
  { apply all_dicts_filter. exact Hd. }
  { unfold kept. clear -Hdated. induction jobs as [|j jobs IH]; [reflexivity|].
    simpl in *. apply andb_prop in Hdated as [Hj Hdated].
    destruct (job_listed str_lower career_field status j); simpl; [rewrite Hj|]; auto. }
  exists listed. split.
  { unfold list_jobs. unfold bind at 1. rewrite read_store_current.
    unfold collection in Hc. unfold bind at 1, lift at 1. rewrite Hc.
    unfold bind at 1, lift at 1. rewrite Hfilter. unfold lift. rewrite Hsort.
    reflexivity. }
  split; [exact Hperm|]. split; [exact Hsorted|].
  eapply Permutation_Forall; [exact Hperm|].
  apply Forall_forall. intros j Hin. unfold kept in Hin.
  apply filter_In in Hin as [_ Hl]. unfold job_listed in Hl.
  assert (Hst : eq_str (field j "status") status = true).
  { destruct (truthy career_field); [|exact Hl].
    destruct career_field; try discriminate.
    destruct (py_get_or j "career_field" (JStr "")) as [[| | |f| |]|]; try discriminate.
    apply andb_prop in Hl as [_ Hl]. exact Hl. }
  destruct (field j "status"); try discriminate.
  simpl in Hst. apply String.eqb_eq in Hst. subst. reflexivity.
Qed.

End Jobs.

Section JobUpdates.

Variable E : oracle.

Lemma update_first_miss (store : json) (coll key : string) (val : json)
    (change : json -> M json) (before rest : list json) (w : world) :
  all_dicts rest = true ->
  existsb (has_id key val) rest = false ->
  update_first store coll key val change before rest w = Some (false, w).
Proof.
  revert before. induction rest as [|r rest IH]; intros before Hd Hno; [reflexivity|].
  simpl in Hd, Hno. apply andb_prop in Hd as [Hr Hd].
  apply orb_false_iff in Hno as [Hr' Hno].
  cbn [update_first]. unfold bind at 1, lift at 1. rewrite (py_get_dict r key Hr).
  unfold has_id in Hr'. rewrite Hr'. apply IH; assumption.
Qed.

Lemma update_first_hit (store : dict) (coll key : string) (val : json)
    (change : json -> M json) (before mid : list json) (r r' : json)
    (rest : list json) (w w1 : world) :
  all_dicts mid = true ->
  existsb (has_id key val) mid = false ->
  is_dict r = true ->
  has_id key val r = true ->
  change r w = Some (r', w1) ->
  update_first (JDict store) coll key val change before (mid ++ r :: rest) w
  = Some (true,
          mkWorld (Stored (JDict (dict_set store coll
                                    (JList ((before ++ mid) ++ r' :: rest)))))
                  (tick w1)
                  (Wrote (JDict (dict_set store coll
                                   (JList ((before ++ mid) ++ r' :: rest))))
                   :: trace w1)).
Proof.
  revert before. induction mid as [|m mid IH]; intros before Hd Hno Hr Hid Hch.
  - cbn [app update_first]. unfold bind at 1, lift at 1. rewrite (py_get_dict r key Hr).
    unfold has_id in Hid. rewrite Hid. unfold bind at 1. rewrite Hch.
    rewrite app_nil_r. reflexivity.
  - simpl in Hd, Hno. apply andb_prop in Hd as [Hm Hd].
    apply orb_false_iff in Hno as [Hm' Hno].
    cbn [app update_first]. unfold bind at 1, lift at 1. rewrite (py_get_dict m key Hm).
    unfold has_id in Hm'. rewrite Hm'.
    rewrite (IH (before ++ [m]) Hd Hno Hr Hid Hch).
    rewrite <- !app_assoc. reflexivity.
Qed.

(** X6.  [update_job_status] changes the first job with the id and no
    other: the jobs before it and after it, a later job with the same id
    among them, are written back as they were; the changed job keeps every
    key but status and updatedAt, and [get_job] then returns it.  With no
    job of that id the call returns False and nothing is written. *)
Theorem update_job_status_first_match
    (job_id status : json) (before : list json) (j : json) (rest : list json)
    (w : world) :
  collection w "jobs" = Some (before ++ j :: rest) ->
  all_dicts (before ++ j :: rest) = true ->
  existsb (has_id "jobId" job_id) before = false ->
  has_id "jobId" job_id j = true ->
  exists j' w',
    update_job_status E job_id status w = Some (true, w') /\
    collection w' "jobs" = Some (before ++ j' :: rest) /\
    status_set status j j' /\
    get_job job_id w' = Some (j', w').
Proof.
  intros Hc Hd Hno Hid.
  destruct (store_list_is_dict _ _ _ Hc) as [store Hs].
  rewrite all_dicts_app in Hd. apply andb_prop in Hd as [Hdb Hdr].
  simpl in Hdr. apply andb_prop in Hdr as [Hj Hdr].
  destruct j as [| | | | |jd]; try discriminate.
  set (j' := JDict (dict_set (dict_set jd "status" status)
                             "updatedAt" (JStr (utcnow E (tick w))))).
  assert (Hc' : forall t tr,
    collection (mkWorld (Stored (JDict (dict_set store "jobs"
                                          (JList (([] ++ before) ++ j' :: rest))))) t tr)
               "jobs" = Some (before ++ j' :: rest)).
  { intros t tr. unfold collection, current_doc. cbn [disk]. apply store_list_set. }
  exists j'. eexists. split.
  { unfold update_job_status. unfold bind at 1. rewrite read_store_current.
    unfold collection in Hc. unfold bind at 1, lift at 1. rewrite Hc, Hs.
    apply (update_first_hit store "jobs" "jobId" job_id _ [] before (JDict jd) j' rest w
             (mkWorld (disk w) (S (tick w)) (trace w)) Hdb Hno eq_refl Hid).
    reflexivity. }
  split; [apply Hc'|].
  split.
  { split.
    - unfold j'. rewrite field_set_other by discriminate. apply field_set_same.
    - intros k H1 H2. unfold j'. rewrite !field_set_other by congruence. reflexivity. }
  unfold get_job. rewrite (lookup_run "jobs" "jobId" job_id _ _ (Hc' _ _)).
  - unfold found. rewrite find_app_none.
    + cbn [find]. unfold has_id in *. unfold j'.
      rewrite !field_set_other by discriminate. rewrite Hid. reflexivity.
    + clear -Hno. induction before as [|b before IH]; [reflexivity|].
      simpl in *. apply orb_false_iff in Hno as [-> Hno]. exact (IH Hno).
  - rewrite all_dicts_app, Hdb. simpl. exact Hdr.
Qed.

(** X7.  [update_job_status] for an id no job carries returns False and
    leaves the world untouched, while [delete_job] always returns True and
    always writes: it removes every job with the id (none, when there is
    none) and keeps the others in order, after which [get_job] finds no job
    of that id. *)
Theorem delete_job_removes_all
    (job_id : json) (jobs : list json) (w : world) :
  collection w "jobs" = Some jobs ->
  all_dicts jobs = true ->
  (existsb (has_id "jobId" job_id) jobs = false ->
     forall status, update_job_status E job_id status w = Some (false, w)) /\
  exists w',
    delete_job job_id w = Some (true, w') /\
    collection w' "jobs" = Some (filter (fun j => negb (has_id "jobId" job_id j)) jobs) /\
    (exists doc, trace w' = Wrote doc :: trace w) /\
    get_job job_id w' = Some (JNull, w').
Proof.
  intros Hc Hd.
  destruct (store_list_is_dict _ _ _ Hc) as [store Hs].
  split.
  - intros Hno status. unfold update_job_status.
    unfold bind at 1. rewrite read_store_current.
    unfold collection in Hc. unfold bind at 1, lift at 1. rewrite Hc.
    apply update_first_miss; assumption.
  - set (kept := filter (fun j => negb (has_id "jobId" job_id j)) jobs).
    assert (Hc' : forall t tr,
      collection (mkWorld (Stored (JDict (dict_set store "jobs" (JList kept)))) t tr)
                 "jobs" = Some kept).
    { intros t tr. unfold collection, current_doc. cbn [disk]. apply store_list_set. }
    eexists. split.
    { unfold delete_job. unfold bind at 1. rewrite read_store_current.
      unfold collection in Hc. unfold bind at 1, lift at 1. rewrite Hc. cbn [obind].
      rewrite (without_dicts "jobId" job_id jobs Hd). rewrite Hs. reflexivity. }
    split; [apply Hc'|]. split; [eexists; reflexivity|].
    unfold get_job. rewrite (lookup_run "jobs" "jobId" job_id _ _ (Hc' _ _)).
    + unfold found, kept. rewrite find_removed. reflexivity.
    + apply all_dicts_filter. exact Hd.
Qed.

End JobUpdates.
Section SavedItems.

Variable E : oracle.

Lemma py_eq_str_l (s : string) (x : json) : py_eq (JStr s) x = eq_str x s.
Proof. destruct x; simpl; try reflexivity. apply String.eqb_sym. Qed.

Lemma py_remove_appended (j : string) (saved : list json) :
  py_in_list (JStr j) saved = false ->
  py_remove (JStr j) (saved ++ [JStr j]) = Some saved.
Proof.
  unfold py_in_list. induction saved as [|x xs IH]; cbn [py_remove existsb app].
  - rewrite py_eq_str. cbn [eq_str]. rewrite String.eqb_refl. reflexivity.
  - intros H. apply orb_false_elim in H as [Hx Hxs].
    rewrite py_eq_str_l in Hx. rewrite py_eq_str, Hx, (IH Hxs). reflexivity.
Qed.

Lemma py_in_list_appended (j : string) (saved : list json) :
  py_in_list (JStr j) (saved ++ [JStr j]) = true.
Proof.
  unfold py_in_list. rewrite existsb_app. simpl. rewrite String.eqb_refl.
  rewrite orb_true_r. reflexivity.
Qed.

Lemma add_favourite_run (key uid j : string) (store : dict) (users : list json)
    (ud : dict) (saved : list json) (w : world) :
  current_doc w = JDict store ->
  collection w "users" = Some users ->
  all_dicts users = true ->
  find (has_id "userId" (JStr uid)) users = Some (JDict ud) ->
  holds_list ud key saved ->
  add_favourite E key (JStr uid) (JStr j) w
  = if py_in_list (JStr j) saved then Some (false, w)
    else
      let user := JDict (dict_set (dict_set ud key (JList (saved ++ [JStr j])))
                                  "updatedAt" (JStr (utcnow E (tick w)))) in
      let doc := JDict (dict_set store "users"
                          (JList (users_with users (JStr uid) user))) in
      Some (true, mkWorld (Stored doc) (S (tick w)) (Wrote doc :: trace w)).
Proof.
  intros Hs Hc Hd Hf Hl.
  destruct (user_of_found _ _ _ Hf) as (Hu & Hid & _).
  pose proof (str_id_not_empty _ _ Hid) as Hne.
  assert (Hc' : store_list (JDict store) "users" = Some users).
  { unfold collection in Hc. rewrite Hs in Hc. exact Hc. }
  unfold add_favourite. unfold bind at 1. rewrite read_store_current, Hs.
  unfold bind at 1. rewrite (get_user_run _ _ _ Hc Hd), Hu.
  assert (Ht : truthy (JDict ud) = true) by (destruct ud; [congruence | reflexivity]).
  rewrite Ht. cbn [negb].
  unfold bind at 1, lift at 1, ensure_list. cbn [py_in obind].
  unfold holds_list in Hl. unfold dict_has.
  destruct (dict_get ud key) as [v|] eqn:Hv.
  - subst v. unfold bind at 1, lift at 1. cbn [py_item]. rewrite Hv.
    unfold bind at 1, lift at 1. cbn [py_member].
    fold (py_in_list (JStr j) saved).
    destruct (py_in_list (JStr j) saved); [reflexivity|].
    unfold bind at 1, lift at 1. cbn [py_append].
    unfold bind at 1, lift at 1. cbn [py_setitem].
    unfold bind at 1, fresh at 1.
    unfold bind at 1, lift at 1. cbn [py_setitem].
    unfold bind at 1. rewrite (put_user_run _ _ _ _ _ Hc' Hd). reflexivity.
  - subst saved. cbn [py_setitem]. unfold bind at 1, lift at 1. cbn [py_item].
    rewrite dict_get_set_same.
    unfold bind at 1, lift at 1. cbn [py_member existsb py_in_list].
    unfold bind at 1, lift at 1. cbn [py_append].
    unfold bind at 1, lift at 1. cbn [py_setitem]. rewrite dict_set_set.
    unfold bind at 1, fresh at 1.
    unfold bind at 1, lift at 1. cbn [py_setitem].
    unfold bind at 1. rewrite (put_user_run _ _ _ _ _ Hc' Hd). reflexivity.
Qed.


Lemma unsave_job_run (uid j : string) (store : dict) (users : list json)
    (ud : dict) (saved : list json) (w : world) :
  current_doc w = JDict store ->
  collection w "users" = Some users ->
  all_dicts users = true ->
  find (has_id "userId" (JStr uid)) users = Some (JDict ud) ->
  holds_list ud "savedJobs" saved ->
  unsave_job E (JStr uid) (JStr j) w
  = if py_in_list (JStr j) saved then
      option_map (fun rest =>
        let user := JDict (dict_set (dict_set ud "savedJobs" (JList rest))
                                    "updatedAt" (JStr (utcnow E (tick w)))) in
        let doc := JDict (dict_set store "users"
                            (JList (users_with users (JStr uid) user))) in
        (true, mkWorld (Stored doc) (S (tick w)) (Wrote doc :: trace w)))
        (py_remove (JStr j) saved)
    else Some (false, w).
Proof.
  intros Hs Hc Hd Hf Hl.
  destruct (user_of_found _ _ _ Hf) as (Hu & Hid & _).
  pose proof (str_id_not_empty _ _ Hid) as Hne.
  assert (Hc' : store_list (JDict store) "users" = Some users).
  { unfold collection in Hc. rewrite Hs in Hc. exact Hc. }
  unfold unsave_job. unfold bind at 1. rewrite read_store_current, Hs.
  unfold bind at 1. rewrite (get_user_run _ _ _ Hc Hd), Hu.
  assert (Ht : truthy (JDict ud) = true) by (destruct ud; [congruence | reflexivity]).
  rewrite Ht. cbn [negb].
  unfold bind at 1, lift at 1. cbn [py_in].
  unfold holds_list in Hl. unfold dict_has.
  destruct (dict_get ud "savedJobs") as [v|] eqn:Hv.
  - subst v. unfold bind at 1. unfold bind at 1, lift at 1. cbn [py_item]. rewrite Hv.
    unfold lift at 1. cbn [py_member]. fold (py_in_list (JStr j) saved).
    destruct (py_in_list (JStr j) saved); [|reflexivity].
    unfold bind at 1, lift at 1. cbn [obind as_list].
    unfold bind at 1, lift at 1.
    destruct (py_remove (JStr j) saved) as [rest|]; [|reflexivity].
    cbn [option_map].
    unfold bind at 1, lift at 1. cbn [py_setitem].
    unfold bind at 1, fresh at 1.
    unfold bind at 1, lift at 1. cbn [py_setitem].
    unfold bind at 1. rewrite (put_user_run _ _ _ _ _ Hc' Hd). reflexivity.
  - subst saved. reflexivity.
Qed.

Lemma user_list_run (key uid : string) (users : list json) (ud : dict)
    (saved : list json) (w : world) :
  collection w "users" = Some users ->
  all_dicts users = true ->
  find (has_id "userId" (JStr uid)) users = Some (JDict ud) ->
  holds_list ud key saved ->
  user_list key (JStr uid) w = Some (JList saved, w).
Proof.
  intros Hc Hd Hf Hl.
  destruct (user_of_found _ _ _ Hf) as (Hu & Hid & _).
  pose proof (str_id_not_empty _ _ Hid) as Hne.
  unfold user_list. unfold bind at 1. rewrite (get_user_run _ _ _ Hc Hd), Hu.
  assert (Ht : truthy (JDict ud) = true) by (destruct ud; [congruence | reflexivity]).
  rewrite Ht. unfold bind, lift, py_get. cbn [py_get_or py_item].
  unfold holds_list in Hl.
  destruct (dict_get ud key) as [v|]; subst; [|reflexivity].
  destruct saved; reflexivity.
Qed.

(** The world a method leaves when it has put one user's record back. *)
Lemma users_with_dicts (users : list json) (user_id : json) (ud : dict) :
  all_dicts users = true ->
  all_dicts (users_with users user_id (JDict ud)) = true.
Proof.
  intros Hd. unfold users_with. rewrite all_dicts_app, (all_dicts_filter _ _ Hd).
  reflexivity.
Qed.

Lemma user_of_other (users : list json) (uid other : string) (user : json) :
  other <> uid ->
  has_id "userId" (JStr uid) user = true ->
  user_of (users_with users (JStr uid) user) (JStr other) = user_of users (JStr other).
Proof.
  intros Hne Hid. unfold user_of, users_with.
  assert (Hu : has_id "userId" (JStr other) user = false).
  { rewrite has_id_str in *. destruct (field user "userId"); try discriminate.
    simpl in *. apply String.eqb_eq in Hid. subst s.
    apply String.eqb_neq. congruence. }
  rewrite (find_app_last _ _ _ Hu).
  rewrite find_filter_implied; [reflexivity|].
  intros x Hx. rewrite has_id_str in *. destruct (field x "userId"); try discriminate.
  simpl in *. apply String.eqb_eq in Hx. subst s.
  apply negb_true_iff, String.eqb_neq. exact Hne.
Qed.


Lemma put_user_state (store : dict) (users : list json) (uid : string) (ud' : dict)
    (t : nat) (tr : list effect) :
  all_dicts users = true ->
  has_id "userId" (JStr uid) (JDict ud') = true ->
  let users' := users_with users (JStr uid) (JDict ud') in
  let w1 := mkWorld (Stored (JDict (dict_set store "users" (JList users')))) t tr in
  current_doc w1 = JDict (dict_set store "users" (JList users')) /\
  collection w1 "users" = Some users' /\
  all_dicts users' = true /\
  find (has_id "userId" (JStr uid)) users' = Some (JDict ud').
Proof.
  intros Hd Hid. cbv zeta. split; [reflexivity|].
  split; [unfold collection, current_doc; cbn [disk]; apply store_list_set|].
  split; [apply users_with_dicts; exact Hd|].
  apply find_users_with. exact Hid.
Qed.

Lemma has_id_kept (uid key key' : string) (ud : dict) (v v' : json) :
  key <> "userId" -> key' <> "userId" ->
  has_id "userId" (JStr uid) (JDict ud) = true ->
  has_id "userId" (JStr uid) (JDict (dict_set (dict_set ud key v) key' v')) = true.
Proof.
  intros H1 H2 Hid. unfold has_id in *.
  rewrite field_set_other by exact H2. rewrite field_set_other by exact H1. exact Hid.
Qed.

(** X8.  [save_job] for a job the user has not saved returns True; the job
    is then the last entry of the list [get_saved_jobs] returns, after the
    entries saved before; the record of every other user reads as before;
    and saving the same job again returns False and changes nothing. *)
Theorem save_job_saves_once (uid j : string) (users : list json) (ud : dict)
    (saved : list json) (w : world) :
  collection w "users" = Some users ->
  all_dicts users = true ->
  find (has_id "userId" (JStr uid)) users = Some (JDict ud) ->
  holds_list ud "savedJobs" saved ->
  py_in_list (JStr j) saved = false ->
  exists w1,
    save_job E (JStr uid) (JStr j) w = Some (true, w1) /\
    get_saved_jobs (JStr uid) w1 = Some (JList (saved ++ [JStr j]), w1) /\
    (forall other, other <> uid ->
       get_user (JStr other) w1 = Some (user_of users (JStr other), w1)) /\
    save_job E (JStr uid) (JStr j) w1 = Some (false, w1).
Proof.
  intros Hc Hd Hf Hl Hnew.
  destruct (store_list_is_dict _ _ _ Hc) as [store Hs].
  destruct (user_of_found _ _ _ Hf) as (_ & Hid & _).
  unfold save_job. rewrite (add_favourite_run _ _ _ _ _ _ _ _ Hs Hc Hd Hf Hl), Hnew.
  cbv zeta.
  set (ud' := dict_set (dict_set ud "savedJobs" (JList (saved ++ [JStr j])))
                       "updatedAt" (JStr (utcnow E (tick w)))).
  assert (Hid' : has_id "userId" (JStr uid) (JDict ud') = true)
    by (apply has_id_kept; [discriminate | discriminate | exact Hid]).
  destruct (put_user_state store users uid ud' (S (tick w))
              (Wrote (JDict (dict_set store "users"
                        (JList (users_with users (JStr uid) (JDict ud'))))) :: trace w)
              Hd Hid') as (Hs1 & Hc1 & Hd1 & Hf1).
  assert (Hl1 : holds_list ud' "savedJobs" (saved ++ [JStr j])).
  { apply holds_list_other; [discriminate | apply holds_list_set]. }
  eexists. split; [reflexivity|].
  split; [exact (user_list_run _ _ _ _ _ _ Hc1 Hd1 Hf1 Hl1)|].
  split.
  - intros other Hne. rewrite (get_user_run _ _ _ Hc1 Hd1).
    rewrite (user_of_other _ _ _ _ Hne Hid'). reflexivity.
  - rewrite (add_favourite_run _ _ _ _ _ _ _ _ Hs1 Hc1 Hd1 Hf1 Hl1).
    rewrite py_in_list_appended. reflexivity.
Qed.

(** X9.  [unsave_job] undoes [save_job]: after saving a job that was not
    saved and removing it again, [get_saved_jobs] returns the list from
    before, and a further [unsave_job] returns False and changes nothing. *)
Theorem unsave_job_undoes_save_job (uid j : string) (users : list json) (ud : dict)
    (saved : list json) (w : world) :
  collection w "users" = Some users ->
  all_dicts users = true ->
  find (has_id "userId" (JStr uid)) users = Some (JDict ud) ->
  holds_list ud "savedJobs" saved ->
  py_in_list (JStr j) saved = false ->
  exists w1 w2,
    save_job E (JStr uid) (JStr j) w = Some (true, w1) /\
    unsave_job E (JStr uid) (JStr j) w1 = Some (true, w2) /\
    get_saved_jobs (JStr uid) w2 = Some (JList saved, w2) /\
    unsave_job E (JStr uid) (JStr j) w2 = Some (false, w2).
Proof.
  intros Hc Hd Hf Hl Hnew.
  destruct (store_list_is_dict _ _ _ Hc) as [store Hs].
  destruct (user_of_found _ _ _ Hf) as (_ & Hid & _).
  unfold save_job. rewrite (add_favourite_run _ _ _ _ _ _ _ _ Hs Hc Hd Hf Hl), Hnew.
  cbv zeta.
  set (ud1 := dict_set (dict_set ud "savedJobs" (JList (saved ++ [JStr j])))
                       "updatedAt" (JStr (utcnow E (tick w)))).
  assert (Hid1 : has_id "userId" (JStr uid) (JDict ud1) = true)
    by (apply has_id_kept; [discriminate | discriminate | exact Hid]).
  set (users1 := users_with users (JStr uid) (JDict ud1)).
  set (store1 := dict_set store "users" (JList users1)).
  destruct (put_user_state store users uid ud1 (S (tick w))
              (Wrote (JDict store1) :: trace w) Hd Hid1) as (Hs1 & Hc1 & Hd1 & Hf1).
  fold users1 in Hs1, Hc1, Hd1, Hf1. fold store1 in Hs1, Hc1.
  assert (Hl1 : holds_list ud1 "savedJobs" (saved ++ [JStr j])).
  { apply holds_list_other; [discriminate | apply holds_list_set]. }
  set (w1 := mkWorld (Stored (JDict store1)) (S (tick w)) (Wrote (JDict store1) :: trace w))
    in *.
  set (ud2 := dict_set (dict_set ud1 "savedJobs" (JList saved))
                       "updatedAt" (JStr (utcnow E (tick w1)))).
  assert (Hid2 : has_id "userId" (JStr uid) (JDict ud2) = true)
    by (apply has_id_kept; [discriminate | discriminate | exact Hid1]).
  set (users2 := users_with users1 (JStr uid) (JDict ud2)).
  set (store2 := dict_set store1 "users" (JList users2)).
  destruct (put_user_state store1 users1 uid ud2 (S (tick w1))
              (Wrote (JDict store2) :: trace w1) Hd1 Hid2) as (Hs2 & Hc2 & Hd2 & Hf2).
  fold users2 in Hs2, Hc2, Hd2, Hf2. fold store2 in Hs2, Hc2.
  assert (Hl2 : holds_list ud2 "savedJobs" saved).
  { apply holds_list_other; [discriminate | apply holds_list_set]. }
  exists w1, (mkWorld (Stored (JDict store2)) (S (tick w1)) (Wrote (JDict store2) :: trace w1)).
  split; [reflexivity|].
  split.
  { rewrite (unsave_job_run _ _ _ _ _ _ _ Hs1 Hc1 Hd1 Hf1 Hl1).
    rewrite py_in_list_appended, (py_remove_appended _ _ Hnew). reflexivity. }
  split; [exact (user_list_run _ _ _ _ _ _ Hc2 Hd2 Hf2 Hl2)|].
  rewrite (unsave_job_run _ _ _ _ _ _ _ Hs2 Hc2 Hd2 Hf2 Hl2), Hnew. reflexivity.
Qed.

Lemma store_list_other (store : dict) (key other : string) (v : json) :
  other <> key ->
  store_list (JDict (dict_set store other v)) key = store_list (JDict store) key.
Proof.
  intros Hne. unfold store_list. cbn [py_get_or].
  rewrite dict_get_set_other; [reflexivity|]. apply String.eqb_neq. exact Hne.
Qed.

(** X10.  The [save_roadmap] the class ends up with (the second of its two
    definitions, which replaces the first) notes the id in the user's
    savedRoadmaps, where [get_saved_roadmaps] finds it, and stores no
    roadmap: the roadmaps collection, and so what [list_roadmaps_for_user]
    returns for anyone, is as before the call. *)
Theorem save_roadmap_stores_no_roadmap (uid r : string) (users roadmaps : list json)
    (ud : dict) (saved : list json) (w : world) :
  collection w "users" = Some users ->
  all_dicts users = true ->
  collection w "roadmaps" = Some roadmaps ->
  all_dicts roadmaps = true ->
  find (has_id "userId" (JStr uid)) users = Some (JDict ud) ->
  holds_list ud "savedRoadmaps" saved ->
  py_in_list (JStr r) saved = false ->
  exists w1,
    save_roadmap E (JStr uid) (JStr r) w = Some (true, w1) /\
    get_saved_roadmaps (JStr uid) w1 = Some (JList (saved ++ [JStr r]), w1) /\
    collection w1 "roadmaps" = Some roadmaps /\
    forall who,
      list_roadmaps_for_user who w = Some (filter (has_id "userId" who) roadmaps, w) /\
      list_roadmaps_for_user who w1 = Some (filter (has_id "userId" who) roadmaps, w1).
Proof.
  intros Hc Hd Hr Hrd Hf Hl Hnew.
  destruct (store_list_is_dict _ _ _ Hc) as [store Hs].
  destruct (user_of_found _ _ _ Hf) as (_ & Hid & _).
  unfold save_roadmap. rewrite (add_favourite_run _ _ _ _ _ _ _ _ Hs Hc Hd Hf Hl), Hnew.
  cbv zeta.
  set (ud' := dict_set (dict_set ud "savedRoadmaps" (JList (saved ++ [JStr r])))
                       "updatedAt" (JStr (utcnow E (tick w)))).
  assert (Hid' : has_id "userId" (JStr uid) (JDict ud') = true)
    by (apply has_id_kept; [discriminate | discriminate | exact Hid]).
  destruct (put_user_state store users uid ud' (S (tick w))
              (Wrote (JDict (dict_set store "users"
                        (JList (users_with users (JStr uid) (JDict ud'))))) :: trace w)
              Hd Hid') as (Hs1 & Hc1 & Hd1 & Hf1).
  assert (Hl1 : holds_list ud' "savedRoadmaps" (saved ++ [JStr r])).
  { apply holds_list_other; [discriminate | apply holds_list_set]. }
  assert (Hr1 : collection
                  (mkWorld (Stored (JDict (dict_set store "users"
                              (JList (users_with users (JStr uid) (JDict ud'))))))
                           (S (tick w))
                           (Wrote (JDict (dict_set store "users"
                              (JList (users_with users (JStr uid) (JDict ud'))))) :: trace w))
                  "roadmaps" = Some roadmaps).
  { unfold collection, current_doc. cbn [disk].
    rewrite store_list_other by discriminate.
    unfold collection in Hr. rewrite Hs in Hr. exact Hr. }
  eexists. split; [reflexivity|].
  split; [exact (user_list_run _ _ _ _ _ _ Hc1 Hd1 Hf1 Hl1)|].
  split; [exact Hr1|].
  intros who. unfold list_roadmaps_for_user. split.
  - exact (records_with_run _ _ _ _ _ Hr Hrd).
  - exact (records_with_run _ _ _ _ _ Hr1 Hrd).
Qed.

End SavedItems.
Section Notifications.

Variable E : oracle.

Lemma mark_read_if_skip (test : json -> option bool) (n : json) (w : world) :
  test n = Some false ->
  mark_read_if E test n w = Some ((n, false), w).
Proof. intros Ht. unfold mark_read_if, bind, lift. rewrite Ht. reflexivity. Qed.

Lemma mark_read_if_hit (test : json -> option bool) (n : json) (w : world) :
  is_dict n = true ->
  test n = Some true ->
  exists n',
    mark_read_if E test n w = Some ((n', true), mkWorld (disk w) (S (tick w)) (trace w)) /\
    marked_read n n'.
Proof.
  intros Hn Ht. unfold mark_read_if. unfold bind at 1, lift at 1. rewrite Ht.
  destruct n as [| | | | |d]; try discriminate.
  unfold bind, lift, fresh, ret. cbn [py_setitem].
  eexists. split; [reflexivity|]. split.
  - rewrite field_set_other by discriminate. apply field_set_same.
  - intros k Hk1 Hk2.
    rewrite field_set_other by congruence.
    rewrite field_set_other by congruence. reflexivity.
Qed.

(** The loop shared by the two marking methods, on a list of dicts: it
    never writes, marks exactly the records the test selects, and leaves
    the world as it is when the test selects none. *)
Lemma mark_loop (test : json -> option bool) (q : json -> bool) (ns : list json)
    (w : world) :
  (forall n, is_dict n = true -> test n = Some (q n)) ->
  all_dicts ns = true ->
  exists marked w',
    mapM (mark_read_if E test) ns w = Some (marked, w') /\
    disk w' = disk w /\ trace w' = trace w /\
    existsb snd marked = existsb q ns /\
    Forall2 (fun n n' => if q n then marked_read n n' else n' = n) ns (map fst marked) /\
    (existsb q ns = false -> w' = w).
Proof.
  intros Hq. revert w. induction ns as [|n ns IH]; intros w Hd.
  - exists [], w. simpl. repeat split; auto.
  - simpl in Hd. apply andb_prop in Hd as [Hn Hd].
    pose proof (Hq n Hn) as Ht.
    destruct (q n) eqn:Hqn.
    + destruct (mark_read_if_hit test n w Hn Ht) as (n' & Hrun & Hm).
      destruct (IH (mkWorld (disk w) (S (tick w)) (trace w)) Hd)
        as (marked & w' & Hloop & Hdk & Htr & Hex & Hall & _).
      exists ((n', true) :: marked), w'. cbn [mapM].
      unfold bind at 1. rewrite Hrun. unfold bind at 1. rewrite Hloop.
      simpl. rewrite Hqn. simpl. repeat split; auto; try discriminate.
      constructor; [rewrite Hqn; exact Hm | exact Hall].
    + destruct (IH w Hd) as (marked & w' & Hloop & Hdk & Htr & Hex & Hall & Hsame).
      exists ((n, false) :: marked), w'. cbn [mapM].
      unfold bind at 1. rewrite (mark_read_if_skip test n w Ht).
      unfold bind at 1. rewrite Hloop. simpl. rewrite Hqn. simpl.
      repeat split; auto.
      constructor; [rewrite Hqn; reflexivity | exact Hall].
Qed.

Lemma mark_notifications_run (test : json -> option bool) (q : json -> bool)
    (ns : list json) (w : world) :
  (forall n, is_dict n = true -> test n = Some (q n)) ->
  collection w "notifications" = Some ns ->
  all_dicts ns = true ->
  (existsb q ns = false -> mark_notifications E test w = Some (false, w)) /\
  (existsb q ns = true ->
     exists w' ns',
       mark_notifications E test w = Some (true, w') /\
       collection w' "notifications" = Some ns' /\
       Forall2 (fun n n' => if q n then marked_read n n' else n' = n) ns ns' /\
       forall key, key <> "notifications" ->
                   field (current_doc w') key = field (current_doc w) key).
Proof.
  intros Hq Hc Hd.
  destruct (store_list_is_dict _ _ _ Hc) as [store Hs].
  destruct (mark_loop test q ns w Hq Hd)
    as (marked & w1 & Hloop & Hdk & Htr & Hex & Hall & Hsame).
  unfold collection in Hc.
  assert (Hrun :
    mark_notifications E test w
    = (if existsb snd marked
       then bind (lift (py_setitem (current_doc w) "notifications" (JList (map fst marked))))
              (fun store => bind (_write_store store) (fun _ => ret true))
       else ret false) w1).
  { unfold mark_notifications. unfold bind at 1.
    rewrite read_store_current. unfold bind at 1, lift at 1. rewrite Hc.
    unfold bind at 1. rewrite Hloop. reflexivity. }
  split; intros Hany; rewrite Hrun, Hex, Hany.
  - rewrite (Hsame Hany). reflexivity.
  - rewrite Hs. unfold bind, lift, ret, _write_store. simpl.
    eexists _, _. split; [reflexivity|].
    split; [unfold collection, current_doc; simpl; apply store_list_set|].
    split; [exact Hall|].
    intros key Hk.
    change (field (JDict (dict_set store "notifications" (JList (map fst marked)))) key
            = field (JDict store) key).
    apply field_set_other. congruence.
Qed.

Lemma is_unread_of_dict (user_id n : json) :
  is_dict n = true -> is_unread_of user_id n = Some (unread_of user_id n).
Proof.
  intros Hn. unfold is_unread_of, unread_of, has_id, unread.
  rewrite (py_get_dict n "userId" Hn). cbn [obind].
  destruct n as [| | | | |d]; try discriminate.
  destruct (py_eq (field (JDict d) "userId") user_id); [|reflexivity].
  cbn [py_get_or field option_map andb].
  destruct (dict_get d "read"); reflexivity.
Qed.

Lemma is_notification_dict (notification_id user_id n : json) :
  is_dict n = true ->
  is_notification notification_id user_id n
  = Some (notification_of notification_id user_id n).
Proof.
  intros Hn. unfold is_notification, notification_of, has_id.
  rewrite (py_get_dict n "notificationId" Hn). cbn [obind].
  destruct (py_eq (field n "notificationId") notification_id); [|reflexivity].
  rewrite (py_get_dict n "userId" Hn). reflexivity.
Qed.


Lemma unread_dict (n : json) :
  is_dict n = true -> unread n = Some (negb (truthy (field n "read"))).
Proof.
  destruct n as [| | | | |d]; try discriminate. intros _.
  unfold unread. cbn [py_get_or field option_map].
  destruct (dict_get d "read"); reflexivity.
Qed.

Lemma get_notifications_run (user_id : json) (unread_only : bool) (ns : list json)
    (w : world) :
  collection w "notifications" = Some ns ->
  all_dicts ns = true ->
  get_notifications user_id unread_only w
  = option_map (fun l => (l, w))
      (py_sorted_desc created_at
         (filter (fun n => if unread_only then negb (truthy (field n "read")) else true)
                 (filter (has_id "userId" user_id) ns))).
Proof.
  intros Hc Hd. unfold get_notifications. unfold bind at 1.
  rewrite (records_with_run _ _ _ _ _ Hc Hd).
  unfold bind at 1, lift at 1.
  destruct unread_only.
  - rewrite (filterM_dicts unread (fun n => negb (truthy (field n "read")))).
    + unfold lift. destruct (py_sorted_desc created_at _); reflexivity.
    + apply all_dicts_filter. exact Hd.
    + intros r Hr. apply unread_dict. exact Hr.
  - assert (Hall : forall l : list json, filter (fun _ => true) l = l)
      by (induction l as [|x l IH]; simpl; congruence).
    rewrite Hall. unfold lift. destruct (py_sorted_desc created_at _); reflexivity.
Qed.

Lemma marked_read_dict (n n' : json) : marked_read n n' -> is_dict n' = true.
Proof. intros [Hr _]. destruct n'; try discriminate. reflexivity. Qed.

Lemma marked_dicts (q : json -> bool) (ns ns' : list json) :
  all_dicts ns = true ->
  Forall2 (fun n n' => if q n then marked_read n n' else n' = n) ns ns' ->
  all_dicts ns' = true.
Proof.
  intros Hd Hall. induction Hall as [|n n' ns ns' H Hall IH]; [reflexivity|].
  simpl in Hd. apply andb_prop in Hd as [Hn Hd]. simpl. rewrite (IH Hd).
  destruct (q n); [rewrite (marked_read_dict _ _ H) | subst n'; rewrite Hn]; reflexivity.
Qed.

(** After the marking of the unread notifications of a user, none of the
    user's notifications is unread. *)
Lemma none_unread_after (user_id : json) (ns ns' : list json) :
  Forall2 (fun n n' => if unread_of user_id n then marked_read n n' else n' = n) ns ns' ->
  existsb (unread_of user_id) ns' = false /\
  filter (fun n => negb (truthy (field n "read"))) (filter (has_id "userId" user_id) ns') = [].
Proof.
  intros Hall. induction Hall as [|n n' ns ns' H Hall [IH1 IH2]]; [split; reflexivity|].
  assert (Hn' : unread_of user_id n' = false).
  { destruct (unread_of user_id n) eqn:Hu; [|subst n'; exact Hu].
    destruct H as [Hr _]. unfold unread_of. rewrite Hr. apply andb_false_r. }
  split.
  - simpl. rewrite Hn', IH1. reflexivity.
  - simpl. unfold unread_of in Hn'.
    destruct (has_id "userId" user_id n'); [|exact IH2].
    simpl in *. rewrite Hn'. exact IH2.
Qed.

(** The marking of one user's notifications leaves the notifications of a
    user with another id as they were. *)
Lemma others_kept (q : json -> bool) (u o : string) (ns ns' : list json) :
  o <> u ->
  (forall n, q n = true -> has_id "userId" (JStr u) n = true) ->
  Forall2 (fun n n' => if q n then marked_read n n' else n' = n) ns ns' ->
  filter (has_id "userId" (JStr o)) ns' = filter (has_id "userId" (JStr o)) ns.
Proof.
  intros Hne Hq Hall. induction Hall as [|n n' ns ns' H Hall IH]; [reflexivity|].
  simpl. rewrite IH.
  destruct (q n) eqn:Hqn; [|subst n'; reflexivity].
  destruct H as [_ Hk].
  assert (Hsame : has_id "userId" (JStr o) n' = has_id "userId" (JStr o) n).
  { unfold has_id. rewrite Hk by discriminate. reflexivity. }
  rewrite Hsame.
  assert (Ho : has_id "userId" (JStr o) n = false).
  { pose proof (Hq n Hqn) as Hu. rewrite has_id_str in *.
    destruct (field n "userId"); try discriminate. simpl in *.
    apply String.eqb_eq in Hu. subst s. apply String.eqb_neq. congruence. }
  rewrite Ho. reflexivity.
Qed.

(** X11.  [mark_notification_read] acts only for the owner: when no
    notification of the store has both the notification id and the user id
    (the id is unknown, or the notification is another user's) it returns
    False and leaves the world untouched; otherwise it returns True and
    writes the document with exactly these records marked read and all
    else as it was. *)
Theorem mark_notification_read_owner_only
    (notification_id user_id : json) (ns : list json) (w : world) :
  collection w "notifications" = Some ns ->
  all_dicts ns = true ->
  (existsb (notification_of notification_id user_id) ns = false ->
     mark_notification_read E notification_id user_id w = Some (false, w)) /\
  (existsb (notification_of notification_id user_id) ns = true ->
     exists w' ns',
       mark_notification_read E notification_id user_id w = Some (true, w') /\
       collection w' "notifications" = Some ns' /\
       Forall2 (fun n n' => if notification_of notification_id user_id n
                            then marked_read n n' else n' = n) ns ns' /\
       forall key, key <> "notifications" ->
                   field (current_doc w') key = field (current_doc w) key).
Proof.
  intros Hc Hd. unfold mark_notification_read.
  apply (mark_notifications_run _ (notification_of notification_id user_id) ns w);
    [|exact Hc | exact Hd].
  intros n Hn. apply is_notification_dict. exact Hn.
Qed.

(** X12.  [mark_all_notifications_read] returns whether the user had an
    unread notification; afterwards the user has none ([get_notifications]
    with unread_only finds nothing, a second call returns False and writes
    nothing), and what [get_notifications] returns for a user with another
    id is what it returned before. *)
Theorem mark_all_notifications_read_clears_unread
    (u : string) (ns : list json) (w : world) :
  collection w "notifications" = Some ns ->
  all_dicts ns = true ->
  exists w',
    mark_all_notifications_read E (JStr u) w
    = Some (existsb (unread_of (JStr u)) ns, w') /\
    (existsb (unread_of (JStr u)) ns = false -> w' = w) /\
    get_notifications (JStr u) true w' = Some ([], w') /\
    mark_all_notifications_read E (JStr u) w' = Some (false, w') /\
    forall o unread_only, o <> u ->
      option_map fst (get_notifications (JStr o) unread_only w')
      = option_map fst (get_notifications (JStr o) unread_only w).
Proof.
  intros Hc Hd.
  assert (Hq : forall n, is_dict n = true ->
                         is_unread_of (JStr u) n = Some (unread_of (JStr u) n))
    by (intros n Hn; apply is_unread_of_dict; exact Hn).
  destruct (mark_notifications_run (is_unread_of (JStr u)) (unread_of (JStr u)) ns w
              Hq Hc Hd) as [Hnone Hsome].
  unfold mark_all_notifications_read.
  assert (Hstate : exists w' ns',
            mark_notifications E (is_unread_of (JStr u)) w
            = Some (existsb (unread_of (JStr u)) ns, w') /\
            (existsb (unread_of (JStr u)) ns = false -> w' = w) /\
            collection w' "notifications" = Some ns' /\
            Forall2 (fun n n' => if unread_of (JStr u) n then marked_read n n' else n' = n)
                    ns ns').
  { destruct (existsb (unread_of (JStr u)) ns) eqn:Hany.
    - destruct (Hsome eq_refl) as (w' & ns' & Hrun & Hc' & Hall & _).
      exists w', ns'. repeat split; auto. discriminate.
    - exists w, ns. split; [exact (Hnone eq_refl)|]. split; [reflexivity|].
      split; [exact Hc|].
      clear -Hany. induction ns as [|n ns IH]; constructor.
      + simpl in Hany. apply orb_false_elim in Hany as [Hn _]. rewrite Hn. reflexivity.
      + apply IH. simpl in Hany. apply orb_false_elim in Hany as [_ Hns]. exact Hns. }
  destruct Hstate as (w' & ns' & Hrun & Hsame & Hc' & Hall).
  pose proof (marked_dicts _ _ _ Hd Hall) as Hd'.
  destruct (none_unread_after _ _ _ Hall) as [Hex' Hfil'].
  exists w'. split; [exact Hrun|]. split; [exact Hsame|].
  split.
  { rewrite (get_notifications_run _ _ _ _ Hc' Hd'), Hfil'. reflexivity. }
  split.
  { destruct (mark_notifications_run (is_unread_of (JStr u)) (unread_of (JStr u)) ns' w'
                Hq Hc' Hd') as [Hnone' _].
    exact (Hnone' Hex'). }
  intros o unread_only Hne.
  rewrite (get_notifications_run _ _ _ _ Hc' Hd'), (get_notifications_run _ _ _ _ Hc Hd).
  rewrite (others_kept (unread_of (JStr u)) u o ns ns' Hne); [|  | exact Hall].
  - destruct (py_sorted_desc created_at _); reflexivity.
  - intros n Hn. unfold unread_of in Hn. apply andb_prop in Hn as [Hn _]. exact Hn.
Qed.

End Notifications.
Section Resumes.

Variable E : oracle.

Lemma save_resume_run (uid : string) (rd : dict) (store : dict) (users : list json)
    (ud : dict) (rs : list json) (w : world) :
  current_doc w = JDict store ->
  collection w "users" = Some users ->
  all_dicts users = true ->
  find (has_id "userId" (JStr uid)) users = Some (JDict ud) ->
  holds_list ud "resumes" rs ->
  let t := tick w in
  let resume :=
    JDict [("resumeId", JStr (uuid4 E t));
           ("name", match dict_get rd "name" with Some v => v | None => JStr "My Resume" end);
           ("template", match dict_get rd "template" with Some v => v | None => JStr "modern" end);
           ("sections", match dict_get rd "sections" with Some v => v | None => JDict [] end);
           ("createdAt", JStr (utcnow E (S t)));
           ("updatedAt", JStr (utcnow E (S (S t))))] in
  let user := JDict (dict_set (dict_set ud "resumes" (JList (rs ++ [resume])))
                              "updatedAt" (JStr (utcnow E (S (S (S t)))))) in
  let doc := JDict (dict_set store "users" (JList (users_with users (JStr uid) user))) in
  save_resume E (JStr uid) (JDict rd) w
  = Some (resume, mkWorld (Stored doc) (S (S (S (S t)))) (Wrote doc :: trace w)).
Proof.
  intros Hs Hc Hd Hf Hl.
  destruct (user_of_found _ _ _ Hf) as (Hu & Hid & _).
  pose proof (str_id_not_empty _ _ Hid) as Hne.
  assert (Hc' : store_list (JDict store) "users" = Some users).
  { unfold collection in Hc. rewrite Hs in Hc. exact Hc. }
  cbv zeta.
  unfold save_resume. unfold bind at 1. rewrite read_store_current, Hs.
  unfold bind at 1. rewrite (get_user_run _ _ _ Hc Hd), Hu.
  assert (Ht : truthy (JDict ud) = true) by (destruct ud; [congruence | reflexivity]).
  rewrite Ht. cbn [negb].
  unfold bind at 1, lift at 1, ensure_list. cbn [py_in obind].
  unfold holds_list in Hl. unfold dict_has.
  destruct (dict_get ud "resumes") as [v|] eqn:Hv.
  - subst v. unfold bind at 1, fresh at 1.
    unfold bind at 1, lift at 1. cbn [py_get_or].
    unfold bind at 1, lift at 1. cbn [py_get_or].
    unfold bind at 1, lift at 1. cbn [py_get_or].
    unfold bind at 1, fresh at 1. unfold bind at 1, fresh at 1.
    cbn [tick disk trace].
    unfold bind at 1, lift at 1. cbn [py_item]. rewrite Hv. cbn [obind py_append].
    unfold bind at 1, lift at 1. cbn [py_setitem].
    unfold bind at 1, fresh at 1. cbn [tick disk trace].
    unfold bind at 1, lift at 1. cbn [py_setitem].
    unfold bind at 1. rewrite (put_user_run _ _ _ _ _ Hc' Hd). reflexivity.
  - subst rs. cbn [py_setitem]. unfold bind at 1, fresh at 1.
    unfold bind at 1, lift at 1. cbn [py_get_or].
    unfold bind at 1, lift at 1. cbn [py_get_or].
    unfold bind at 1, lift at 1. cbn [py_get_or].
    unfold bind at 1, fresh at 1. unfold bind at 1, fresh at 1.
    cbn [tick disk trace].
    unfold bind at 1, lift at 1. cbn [py_item]. rewrite dict_get_set_same.
    cbn [obind py_append].
    unfold bind at 1, lift at 1. cbn [py_setitem]. rewrite dict_set_set.
    unfold bind at 1, fresh at 1. cbn [tick disk trace].
    unfold bind at 1, lift at 1. cbn [py_setitem].
    unfold bind at 1. rewrite (put_user_run _ _ _ _ _ Hc' Hd). reflexivity.
Qed.

Lemma get_resume_run (uid : string) (resume_id : json) (users : list json) (ud : dict)
    (rs : list json) (w : world) :
  collection w "users" = Some users ->
  all_dicts users = true ->
  find (has_id "userId" (JStr uid)) users = Some (JDict ud) ->
  holds_list ud "resumes" rs ->
  all_dicts rs = true ->
  get_resume (JStr uid) resume_id w = Some (found rs "resumeId" resume_id, w).
Proof.
  intros Hc Hd Hf Hl Hrd. unfold get_resume, get_resumes. unfold bind at 1.
  rewrite (user_list_run _ _ _ _ _ _ Hc Hd Hf Hl).
  unfold lift. cbn [py_iter obind]. rewrite (first_with_find _ _ _ Hrd). reflexivity.
Qed.

Lemma delete_resume_run (uid : string) (resume_id : json) (store : dict)
    (users : list json) (ud : dict) (rs : list json) (w : world) :
  current_doc w = JDict store ->
  collection w "users" = Some users ->
  all_dicts users = true ->
  find (has_id "userId" (JStr uid)) users = Some (JDict ud) ->
  holds_list ud "resumes" rs ->
  all_dicts rs = true ->
  delete_resume E (JStr uid) resume_id w
  = match rs with
    | [] => Some (false, w)
    | _ :: _ =>
        let user := JDict (dict_set (dict_set ud "resumes"
                             (JList (filter (fun r => negb (has_id "resumeId" resume_id r)) rs)))
                             "updatedAt" (JStr (utcnow E (tick w)))) in
        let doc := JDict (dict_set store "users"
                            (JList (users_with users (JStr uid) user))) in
        Some (true, mkWorld (Stored doc) (S (tick w)) (Wrote doc :: trace w))
    end.
Proof.
  intros Hs Hc Hd Hf Hl Hrd.
  destruct (user_of_found _ _ _ Hf) as (Hu & Hid & _).
  pose proof (str_id_not_empty _ _ Hid) as Hne.
  assert (Hc' : store_list (JDict store) "users" = Some users).
  { unfold collection in Hc. rewrite Hs in Hc. exact Hc. }
  unfold delete_resume. unfold bind at 1. rewrite read_store_current, Hs.
  unfold bind at 1. rewrite (get_user_run _ _ _ Hc Hd), Hu.
  assert (Ht : truthy (JDict ud) = true) by (destruct ud; [congruence | reflexivity]).
  rewrite Ht. cbn [negb].
  unfold bind at 1, lift at 1, py_get. cbn [py_get_or].
  unfold holds_list in Hl.
  destruct (dict_get ud "resumes") as [v|] eqn:Hv; [|subst rs; reflexivity].
  subst v. destruct rs as [|r rs]; [reflexivity|].
  cbn [truthy negb].
  unfold bind at 1, lift at 1. cbn [py_item]. rewrite Hv. cbn [obind py_iter].
  rewrite (without_dicts _ _ _ Hrd).
  unfold bind at 1, lift at 1. cbn [py_setitem].
  unfold bind at 1, fresh at 1.
  unfold bind at 1, lift at 1. cbn [py_setitem].
  unfold bind at 1. rewrite (put_user_run _ _ _ _ _ Hc' Hd). reflexivity.
Qed.

Lemma found_app_new (rs : list json) (key : string) (val r : json) :
  existsb (has_id key val) rs = false ->
  has_id key val r = true ->
  found (rs ++ [r]) key val = r.
Proof.
  intros Hno Hr. unfold found.
  assert (Hnone : find (has_id key val) rs = None).
  { induction rs as [|x xs IH]; [reflexivity|]. simpl in *.
    apply orb_false_elim in Hno as [Hx Hxs]. rewrite Hx. exact (IH Hxs). }
  rewrite (find_app_none _ _ _ Hnone). simpl. rewrite Hr. reflexivity.
Qed.

Lemma found_app_other (rs : list json) (key : string) (val r : json) :
  has_id key val r = false ->
  found (rs ++ [r]) key val = found rs key val.
Proof. intros Hr. unfold found. rewrite (find_app_last _ _ _ Hr). reflexivity. Qed.

Lemma found_removed (rs : list json) (key : string) (val : json) :
  found (filter (fun r => negb (has_id key val r)) rs) key val = JNull.
Proof. unfold found. rewrite find_removed. reflexivity. Qed.

(** X13.  A resume saved with [save_resume] is what [get_resume] returns
    for its id (an id that no stored resume of the user carries), the
    resumes saved before are found as before, and after [delete_resume] of
    that id [get_resume] returns None for it. *)
Theorem save_resume_round_trip (uid : string) (rd : dict) (users : list json)
    (ud : dict) (rs : list json) (w : world) :
  collection w "users" = Some users ->
  all_dicts users = true ->
  find (has_id "userId" (JStr uid)) users = Some (JDict ud) ->
  holds_list ud "resumes" rs ->
  all_dicts rs = true ->
  existsb (has_id "resumeId" (JStr (uuid4 E (tick w)))) rs = false ->
  exists resume w1 w2,
    save_resume E (JStr uid) (JDict rd) w = Some (resume, w1) /\
    field resume "resumeId" = JStr (uuid4 E (tick w)) /\
    get_resume (JStr uid) (JStr (uuid4 E (tick w))) w1 = Some (resume, w1) /\
    (forall rid, rid <> uuid4 E (tick w) ->
       get_resume (JStr uid) (JStr rid) w1 = Some (found rs "resumeId" (JStr rid), w1)) /\
    delete_resume E (JStr uid) (JStr (uuid4 E (tick w))) w1 = Some (true, w2) /\
    get_resume (JStr uid) (JStr (uuid4 E (tick w))) w2 = Some (JNull, w2).
Proof.
  intros Hc Hd Hf Hl Hrd Hnew.
  destruct (store_list_is_dict _ _ _ Hc) as [store Hs].
  destruct (user_of_found _ _ _ Hf) as (_ & Hid & _).
  pose proof (save_resume_run uid rd store users ud rs w Hs Hc Hd Hf Hl) as Hrun.
  cbv zeta in Hrun.
  set (resume := JDict [("resumeId", JStr (uuid4 E (tick w)));
           ("name", match dict_get rd "name" with Some v => v | None => JStr "My Resume" end);
           ("template", match dict_get rd "template" with Some v => v | None => JStr "modern" end);
           ("sections", match dict_get rd "sections" with Some v => v | None => JDict [] end);
           ("createdAt", JStr (utcnow E (S (tick w))));
           ("updatedAt", JStr (utcnow E (S (S (tick w)))))]) in *.
  set (ud1 := dict_set (dict_set ud "resumes" (JList (rs ++ [resume])))
                       "updatedAt" (JStr (utcnow E (S (S (S (tick w))))))) in *.
  assert (Hid1 : has_id "userId" (JStr uid) (JDict ud1) = true)
    by (apply has_id_kept; [discriminate | discriminate | exact Hid]).
  set (users1 := users_with users (JStr uid) (JDict ud1)) in *.
  set (store1 := dict_set store "users" (JList users1)) in *.
  set (w1 := mkWorld (Stored (JDict store1)) (S (S (S (S (tick w)))))
                     (Wrote (JDict store1) :: trace w)) in *.
  destruct (put_user_state store users uid ud1 (S (S (S (S (tick w)))))
              (Wrote (JDict store1) :: trace w) Hd Hid1) as (Hs1 & Hc1 & Hd1 & Hf1).
  fold users1 in Hs1, Hc1, Hd1, Hf1. fold store1 in Hs1, Hc1. fold w1 in Hs1, Hc1.
  assert (Hl1 : holds_list ud1 "resumes" (rs ++ [resume])).
  { apply holds_list_other; [discriminate | apply holds_list_set]. }
  assert (Hrd1 : all_dicts (rs ++ [resume]) = true)
    by (rewrite all_dicts_app, Hrd; reflexivity).
  assert (Hrid : has_id "resumeId" (JStr (uuid4 E (tick w))) resume = true).
  { rewrite has_id_str. cbn [resume field dict_get String.eqb Ascii.eqb Bool.eqb andb eq_str].
    apply String.eqb_refl. }
  set (kept := filter (fun r => negb (has_id "resumeId" (JStr (uuid4 E (tick w))) r))
                      (rs ++ [resume])).
  set (ud2 := dict_set (dict_set ud1 "resumes" (JList kept))
                       "updatedAt" (JStr (utcnow E (tick w1)))).
  assert (Hid2 : has_id "userId" (JStr uid) (JDict ud2) = true)
    by (apply has_id_kept; [discriminate | discriminate | exact Hid1]).
  set (users2 := users_with users1 (JStr uid) (JDict ud2)).
  set (store2 := dict_set store1 "users" (JList users2)).
  destruct (put_user_state store1 users1 uid ud2 (S (tick w1))
              (Wrote (JDict store2) :: trace w1) Hd1 Hid2) as (Hs2 & Hc2 & Hd2 & Hf2).
  fold users2 in Hs2, Hc2, Hd2, Hf2. fold store2 in Hs2, Hc2.
  assert (Hl2 : holds_list ud2 "resumes" kept).
  { apply holds_list_other; [discriminate | apply holds_list_set]. }
  exists resume, w1,
    (mkWorld (Stored (JDict store2)) (S (tick w1)) (Wrote (JDict store2) :: trace w1)).
  split; [exact Hrun|]. split; [reflexivity|].
  split.
  { rewrite (get_resume_run _ _ _ _ _ _ Hc1 Hd1 Hf1 Hl1 Hrd1).
    rewrite (found_app_new _ _ _ _ Hnew Hrid). reflexivity. }
  split.
  { intros rid Hne. rewrite (get_resume_run _ _ _ _ _ _ Hc1 Hd1 Hf1 Hl1 Hrd1).
    rewrite found_app_other; [reflexivity|].
    rewrite has_id_str.
    cbn [resume field dict_get String.eqb Ascii.eqb Bool.eqb andb eq_str].
    apply String.eqb_neq. congruence. }
  split.
  { rewrite (delete_resume_run _ _ _ _ _ _ _ Hs1 Hc1 Hd1 Hf1 Hl1 Hrd1).
    destruct (rs ++ [resume]) eqn:Happ; [destruct rs; discriminate|].
    reflexivity. }
  rewrite (get_resume_run _ _ _ _ _ _ Hc2 Hd2 Hf2 Hl2).
  - unfold kept. rewrite found_removed. reflexivity.
  - unfold kept. apply all_dicts_filter. exact Hrd1.
Qed.


(** X14.  The result of [delete_resume] tells whether the user holds any
    resume, not whether one was deleted: for an id that no resume of the
    user carries it returns True as soon as the user has a resume, writes
    the record back with the resumes it had, and returns False (writing
    nothing) only when the user has none. *)
Theorem delete_resume_true_without_match (uid : string) (resume_id : json)
    (users : list json) (ud : dict) (rs : list json) (w : world) :
  collection w "users" = Some users ->
  all_dicts users = true ->
  find (has_id "userId" (JStr uid)) users = Some (JDict ud) ->
  holds_list ud "resumes" rs ->
  all_dicts rs = true ->
  existsb (has_id "resumeId" resume_id) rs = false ->
  (rs = [] -> delete_resume E (JStr uid) resume_id w = Some (false, w)) /\
  (rs <> [] ->
     exists w', delete_resume E (JStr uid) resume_id w = Some (true, w') /\
                trace w' <> trace w /\
                get_resumes (JStr uid) w' = Some (JList rs, w')).
Proof.
  intros Hc Hd Hf Hl Hrd Hno.
  destruct (store_list_is_dict _ _ _ Hc) as [store Hs].
  destruct (user_of_found _ _ _ Hf) as (_ & Hid & _).
  rewrite (delete_resume_run _ _ _ _ _ _ _ Hs Hc Hd Hf Hl Hrd).
  split; [intros ->; reflexivity|].
  intros Hne. destruct rs as [|r0 rs0] eqn:Hrs; [congruence|]. rewrite <- Hrs in *.
  assert (Hkeep : filter (fun r => negb (has_id "resumeId" resume_id r)) rs = rs).
  { clear -Hno. induction rs as [|x xs IH]; [reflexivity|]. simpl in *.
    apply orb_false_elim in Hno as [Hx Hxs]. rewrite Hx, (IH Hxs). reflexivity. }
  cbv zeta. rewrite Hkeep.
  set (ud1 := dict_set (dict_set ud "resumes" (JList rs))
                       "updatedAt" (JStr (utcnow E (tick w)))).
  assert (Hid1 : has_id "userId" (JStr uid) (JDict ud1) = true)
    by (apply has_id_kept; [discriminate | discriminate | exact Hid]).
  destruct (put_user_state store users uid ud1 (S (tick w))
              (Wrote (JDict (dict_set store "users"
                        (JList (users_with users (JStr uid) (JDict ud1))))) :: trace w)
              Hd Hid1) as (Hs1 & Hc1 & Hd1 & Hf1).
  assert (Hl1 : holds_list ud1 "resumes" rs).
  { apply holds_list_other; [discriminate | apply holds_list_set]. }
  eexists. split; [reflexivity|]. split.
  - cbn [trace]. intros Heq.
    assert (Hlen : List.length (Wrote (JDict (dict_set store "users"
                        (JList (users_with users (JStr uid) (JDict ud1))))) :: trace w)
                   = List.length (trace w)) by (rewrite Heq; reflexivity).
    simpl in Hlen. lia.
  - exact (user_list_run _ _ _ _ _ _ Hc1 Hd1 Hf1 Hl1).
Qed.

End Resumes.
Section Connections.

Variable E : oracle.

Lemma links_dict (a b c : json) :
  is_dict c = true -> links a b c = Some (linked a b c).
Proof.
  intros Hc. unfold links, linked, has_id.
  rewrite (py_get_dict c "fromUserId" Hc). cbn [obind].
  rewrite (py_get_dict c "toUserId" Hc). cbn [option_map].
  destruct (py_eq (field c "fromUserId") a); cbn [obind andb orb].
  - destruct (py_eq (field c "toUserId") b); cbn [orb]; [reflexivity|].
    destruct (py_eq (field c "fromUserId") b); reflexivity.
  - destruct (py_eq (field c "fromUserId") b); reflexivity.
Qed.

Lemma filter_nil_existsb {A} (p : A -> bool) (xs : list A) :
  filter p xs = [] <-> existsb p xs = false.
Proof.
  induction xs as [|x xs IH]; simpl; [tauto|].
  destruct (p x); simpl; [split; discriminate | exact IH].
Qed.

Lemma send_connection_request_linked (a b message : json) (store : dict)
    (cs : list json) (w : world) :
  current_doc w = JDict store ->
  holds_list store "connections" cs ->
  all_dicts cs = true ->
  existsb (linked a b) cs = true ->
  send_connection_request E a b message w = Some (JNull, w).
Proof.
  intros Hs Hl Hd Hex.
  unfold send_connection_request. unfold bind at 1. rewrite read_store_current, Hs.
  unfold bind at 1, lift at 1. cbn [py_in].
  unfold holds_list in Hl. unfold dict_has.
  destruct (dict_get store "connections") as [v|] eqn:Hv;
    [|subst cs; discriminate].
  subst v. unfold bind at 1, ret at 1.
  unfold bind at 1, lift at 1. cbn [py_item]. rewrite Hv.
  unfold bind at 1, lift at 1. cbn [py_iter obind].
  rewrite (filterM_dicts _ (linked a b) cs Hd)
    by (intros c Hc; apply links_dict; exact Hc).
  destruct (filter (linked a b) cs) eqn:Hf; [|reflexivity].
  apply filter_nil_existsb in Hf. congruence.
Qed.

Lemma send_connection_request_new (a b message : json) (store : dict)
    (cs : list json) (w : world) :
  current_doc w = JDict store ->
  holds_list store "connections" cs ->
  all_dicts cs = true ->
  existsb (linked a b) cs = false ->
  let conn := JDict [("connectionId", JStr (uuid4 E (tick w))); ("fromUserId", a);
                     ("toUserId", b); ("message", message);
                     ("status", JStr "pending");
                     ("createdAt", JStr (utcnow E (S (tick w))))] in
  let doc := JDict (dict_set store "connections" (JList (cs ++ [conn]))) in
  send_connection_request E a b message w
  = (create_notification E b "connection_request" "New Connection Request"
       "You have a new connection request" "/connections" ;;; ret conn)
      (mkWorld (Stored doc) (S (S (tick w))) (Wrote doc :: trace w)).
Proof.
  intros Hs Hl Hd Hex. cbv zeta.
  apply filter_nil_existsb in Hex.
  unfold send_connection_request. unfold bind at 1. rewrite read_store_current, Hs.
  unfold bind at 1, lift at 1. cbn [py_in].
  unfold holds_list in Hl. unfold dict_has.
  destruct (dict_get store "connections") as [v|] eqn:Hv.
  - subst v. unfold bind at 1, ret at 1.
    unfold bind at 1, lift at 1. cbn [py_item]. rewrite Hv.
    unfold bind at 1, lift at 1. cbn [py_iter obind].
    rewrite (filterM_dicts _ (linked a b) cs Hd)
      by (intros c Hc; apply links_dict; exact Hc).
    rewrite Hex.
    unfold bind at 1, fresh at 1. unfold bind at 1, fresh at 1. cbn [tick disk trace].
    unfold bind at 1, lift at 1. cbn [py_append].
    unfold bind at 1, lift at 1. cbn [py_setitem].
    unfold bind at 1, _write_store at 1. cbn [tick disk trace]. reflexivity.
  - subst cs. unfold bind at 1, lift at 1. cbn [py_setitem].
    unfold bind at 1, lift at 1. cbn [py_item]. rewrite dict_get_set_same.
    unfold bind at 1, lift at 1. cbn [py_iter obind filterM].
    unfold bind at 1, fresh at 1. unfold bind at 1, fresh at 1. cbn [tick disk trace].
    unfold bind at 1, lift at 1. cbn [py_append].
    unfold bind at 1, lift at 1. cbn [py_setitem]. rewrite dict_set_set.
    unfold bind at 1, _write_store at 1. cbn [tick disk trace]. reflexivity.
Qed.

(** X15.  [send_connection_request] between two users who are not linked
    stores a pending connection and, after it, a notification for the
    recipient, and both are on disk when it returns; any further request
    between the two, in either direction, returns None and changes
    nothing. *)
Theorem send_connection_request_once_per_pair (a b : string) (message : json)
    (store : dict) (cs l : list json) (w : world) :
  current_doc w = JDict store ->
  holds_list store "connections" cs ->
  all_dicts cs = true ->
  holds_list store "notifications" l ->
  existsb (linked (JStr a) (JStr b)) cs = false ->
  exists conn n w1,
    send_connection_request E (JStr a) (JStr b) message w = Some (conn, w1) /\
    field conn "fromUserId" = JStr a /\ field conn "toUserId" = JStr b /\
    field conn "status" = JStr "pending" /\
    collection w1 "connections" = Some (cs ++ [conn]) /\
    collection w1 "notifications" = Some (l ++ [n]) /\
    field n "userId" = JStr b /\ field n "type" = JStr "connection_request" /\
    forall message',
      send_connection_request E (JStr a) (JStr b) message' w1 = Some (JNull, w1) /\
      send_connection_request E (JStr b) (JStr a) message' w1 = Some (JNull, w1).
Proof.
  intros Hs Hl Hd Hn Hex.
  pose proof (send_connection_request_new (JStr a) (JStr b) message store cs w
                Hs Hl Hd Hex) as Hrun.
  cbv zeta in Hrun.
  set (conn := JDict [("connectionId", JStr (uuid4 E (tick w))); ("fromUserId", JStr a);
                      ("toUserId", JStr b); ("message", message);
                      ("status", JStr "pending");
                      ("createdAt", JStr (utcnow E (S (tick w))))]) in *.
  set (store1 := dict_set store "connections" (JList (cs ++ [conn]))) in *.
  set (w0 := mkWorld (Stored (JDict store1)) (S (S (tick w)))
                     (Wrote (JDict store1) :: trace w)) in *.
  assert (Hn1 : notifications_ok store1 l).
  { change (holds_list store1 "notifications" l).
    apply holds_list_other; [discriminate | exact Hn]. }
  destruct (create_notification_run E (JStr b) "connection_request"
              "New Connection Request" "You have a new connection request"
              "/connections" store1 l w0 eq_refl Hn1)
    as (w1 & n & Hcn & _ & Hdisk & Hnu & Hnt & _).
  assert (Hs1 : current_doc w1 = JDict (dict_set store1 "notifications" (JList (l ++ [n]))))
    by (unfold current_doc; rewrite Hdisk; reflexivity).
  assert (Hl1 : holds_list (dict_set store1 "notifications" (JList (l ++ [n])))
                           "connections" (cs ++ [conn])).
  { apply holds_list_other; [discriminate | apply holds_list_set]. }
  assert (Hd1 : all_dicts (cs ++ [conn]) = true)
    by (rewrite all_dicts_app, Hd; reflexivity).
  assert (Hself : linked (JStr a) (JStr b) conn = true).
  { unfold linked. rewrite !has_id_str.
    cbn [conn field dict_get String.eqb Ascii.eqb Bool.eqb andb eq_str].
    rewrite !String.eqb_refl. reflexivity. }
  exists conn, n, w1.
  split; [rewrite Hrun; unfold bind at 1; rewrite Hcn; reflexivity|].
  split; [reflexivity|]. split; [reflexivity|]. split; [reflexivity|].
  split.
  { unfold collection. rewrite Hs1. exact (proj2 (holds_list_get _ _ _ Hl1)). }
  split; [unfold collection; rewrite Hs1; apply store_list_set|].
  split; [exact Hnu|]. split; [exact Hnt|].
  intros message'. split.
  - apply (send_connection_request_linked _ _ _ _ _ _ Hs1 Hl1 Hd1).
    rewrite existsb_app. cbn [existsb]. rewrite Hself. rewrite !orb_true_r. reflexivity.
  - apply (send_connection_request_linked _ _ _ _ _ _ Hs1 Hl1 Hd1).
    rewrite existsb_app. cbn [existsb].
    assert (Hback : linked (JStr b) (JStr a) conn = true).
    { unfold linked in *. rewrite orb_comm. exact Hself. }
    rewrite Hback. rewrite !orb_true_r. reflexivity.
Qed.


Lemma accept_first_miss (store connection_id user_id : json)
    (before rest : list json) (w : world) :
  all_dicts rest = true ->
  existsb (addressed connection_id user_id) rest = false ->
  accept_first E store connection_id user_id before rest w = Some (false, w).
Proof.
  revert before. induction rest as [|c rest IH]; intros before Hd Hno; [reflexivity|].
  simpl in Hd, Hno. apply andb_prop in Hd as [Hc Hd].
  apply orb_false_iff in Hno as [Hc' Hno].
  cbn [accept_first]. unfold bind at 1, lift at 1.
  rewrite (py_get_dict c "connectionId" Hc).
  unfold addressed, has_id in Hc'.
  destruct (py_eq (field c "connectionId") connection_id).
  - unfold bind at 1. unfold bind at 1, lift at 1.
    rewrite (py_get_dict c "toUserId" Hc). unfold ret at 1.
    simpl in Hc'. rewrite Hc'. apply IH; assumption.
  - unfold bind at 1, ret at 1. apply IH; assumption.
Qed.

Lemma accept_first_hit (store : dict) (connection_id user_id : json)
    (before mid : list json) (cd : dict) (rest : list json) (w : world) :
  all_dicts mid = true ->
  existsb (addressed connection_id user_id) mid = false ->
  addressed connection_id user_id (JDict cd) = true ->
  let c' := JDict (dict_set (dict_set cd "status" (JStr "accepted"))
                            "acceptedAt" (JStr (utcnow E (tick w)))) in
  let doc := JDict (dict_set store "connections"
                      (JList ((before ++ mid) ++ c' :: rest))) in
  accept_first E (JDict store) connection_id user_id before (mid ++ JDict cd :: rest) w
  = (create_notification E (field (JDict cd) "fromUserId") "connection_accepted"
       "Connection Accepted" "Your connection request was accepted!" "/connections" ;;;
     ret true)
      (mkWorld (Stored doc) (S (tick w)) (Wrote doc :: trace w)).
Proof.
  cbv zeta. revert before. induction mid as [|m mid IH]; intros before Hd Hno Hid.
  - cbn [app accept_first]. unfold bind at 1, lift at 1. cbn [py_get py_get_or].
    unfold addressed, has_id in Hid. apply andb_prop in Hid as [H1 H2].
    cbn [field] in H1, H2.
    destruct (dict_get cd "connectionId") as [i|] eqn:Hi; rewrite H1;
    (unfold bind at 1; unfold bind at 1, lift at 1;
     destruct (dict_get cd "toUserId") as [t|] eqn:Ht; unfold ret at 1; rewrite H2;
     unfold bind at 1, lift at 1; cbn [py_setitem];
     unfold bind at 1, fresh at 1;
     unfold bind at 1, lift at 1; cbn [py_setitem];
     unfold bind at 1, lift at 1; cbn [py_setitem];
     unfold bind at 1, _write_store at 1; cbn [tick disk trace];
     unfold bind at 1, lift at 1; cbn [py_get py_get_or field];
     rewrite !dict_get_set_other by reflexivity;
     rewrite app_nil_r; reflexivity).
  - simpl in Hd, Hno. apply andb_prop in Hd as [Hm Hd].
    apply orb_false_iff in Hno as [Hm' Hno].
    cbn [app accept_first]. unfold bind at 1, lift at 1.
    rewrite (py_get_dict m "connectionId" Hm).
    unfold addressed, has_id in Hm'.
    destruct (py_eq (field m "connectionId") connection_id).
    + unfold bind at 1. unfold bind at 1, lift at 1.
      rewrite (py_get_dict m "toUserId" Hm). unfold ret at 1.
      simpl in Hm'. rewrite Hm'.
      rewrite (IH (before ++ [m]) Hd Hno Hid). rewrite <- !app_assoc. reflexivity.
    + unfold bind at 1, ret at 1.
      rewrite (IH (before ++ [m]) Hd Hno Hid). rewrite <- !app_assoc. reflexivity.
Qed.


(** X16.  [accept_connection] acts only for the recipient: when no
    connection has both the id and the user as its toUserId (the requester
    or a third user is asking, or the id is unknown) it returns False and
    leaves the world untouched; otherwise the first such connection, and no
    other, is stored as accepted, and a notification for its requester is
    stored after it. *)
Theorem accept_connection_recipient_only (connection_id user_id : json)
    (store : dict) (cs l : list json) (w : world) :
  current_doc w = JDict store ->
  holds_list store "connections" cs ->
  all_dicts cs = true ->
  holds_list store "notifications" l ->
  (existsb (addressed connection_id user_id) cs = false ->
     accept_connection E connection_id user_id w = Some (false, w)) /\
  (forall before c rest,
     cs = before ++ c :: rest ->
     existsb (addressed connection_id user_id) before = false ->
     addressed connection_id user_id c = true ->
     exists c' n w',
       accept_connection E connection_id user_id w = Some (true, w') /\
       accepted c c' /\
       collection w' "connections" = Some (before ++ c' :: rest) /\
       collection w' "notifications" = Some (l ++ [n]) /\
       field n "userId" = field c "fromUserId" /\
       field n "type" = JStr "connection_accepted").
Proof.
  intros Hs Hl Hd Hn.
  destruct (holds_list_get _ _ _ Hl) as [_ Hlist].
  assert (Hstart : accept_connection E connection_id user_id w
                   = accept_first E (JDict store) connection_id user_id [] cs w).
  { unfold accept_connection. unfold bind at 1. rewrite read_store_current, Hs.
    unfold bind at 1, lift at 1. rewrite Hlist. reflexivity. }
  split.
  - intros Hno. rewrite Hstart. apply accept_first_miss; assumption.
  - intros before c rest -> Hno Hc.
    rewrite all_dicts_app in Hd. apply andb_prop in Hd as [Hdb Hdr].
    simpl in Hdr. apply andb_prop in Hdr as [Hcd Hdr].
    destruct c as [| | | | |cd]; try discriminate.
    rewrite Hstart.
    rewrite (accept_first_hit store connection_id user_id [] before cd rest w Hdb Hno Hc).
    cbn [app].
    set (c' := JDict (dict_set (dict_set cd "status" (JStr "accepted"))
                               "acceptedAt" (JStr (utcnow E (tick w))))).
    set (store1 := dict_set store "connections" (JList (before ++ c' :: rest))).
    set (w0 := mkWorld (Stored (JDict store1)) (S (tick w))
                       (Wrote (JDict store1) :: trace w)).
    assert (Hn1 : notifications_ok store1 l).
    { change (holds_list store1 "notifications" l).
      apply holds_list_other; [discriminate | exact Hn]. }
    destruct (create_notification_run E (field (JDict cd) "fromUserId")
                "connection_accepted" "Connection Accepted"
                "Your connection request was accepted!" "/connections"
                store1 l w0 eq_refl Hn1)
      as (w1 & n & Hcn & _ & Hdisk & Hnu & Hnt & _).
    assert (Hs1 : current_doc w1
                  = JDict (dict_set store1 "notifications" (JList (l ++ [n]))))
      by (unfold current_doc; rewrite Hdisk; reflexivity).
    exists c', n, w1.
    split; [unfold bind at 1; rewrite Hcn; reflexivity|].
    split.
    { split.
      - unfold c'. rewrite field_set_other by discriminate. apply field_set_same.
      - intros k H1 H2. unfold c'. rewrite !field_set_other by congruence. reflexivity. }
    split.
    { unfold collection. rewrite Hs1.
      rewrite store_list_other by discriminate. apply store_list_set. }
    split; [unfold collection; rewrite Hs1; apply store_list_set|].
    split; [exact Hnu | exact Hnt].
Qed.

End Connections.
Section Applications.

Variable E : oracle.

(** X17.  [create_job_application] stores the application, pending and
    last in the applications, and then records a job_application event
    naming it; the event is written on a fresh read, so both are on disk
    when the call returns. *)
Theorem create_job_application_recorded (user_id job_id : json) (ad : dict)
    (store : dict) (apps evs : list json) (w : world) :
  current_doc w = JDict store ->
  holds_list store "applications" apps ->
  holds_list store "events" evs ->
  exists app ev w',
    create_job_application E user_id job_id (JDict ad) w = Some (app, w') /\
    field app "userId" = user_id /\ field app "jobId" = job_id /\
    field app "status" = JStr "pending" /\
    collection w' "applications" = Some (apps ++ [app]) /\
    collection w' "events" = Some (evs ++ [ev]) /\
    field ev "userId" = user_id /\
    field ev "eventType" = JStr "job_application" /\
    field (field ev "metadata") "applicationId" = field app "applicationId".
Proof.
  intros Hs Ha He.
  destruct (holds_list_get _ _ _ Ha) as [Hget _].
  set (app := JDict [("applicationId", JStr (uuid4 E (tick w))); ("userId", user_id);
           ("jobId", job_id);
           ("fullName", match dict_get ad "fullName" with Some v => v | None => JStr "" end);
           ("email", match dict_get ad "email" with Some v => v | None => JStr "" end);
           ("phone", match dict_get ad "phone" with Some v => v | None => JStr "" end);
           ("experience", match dict_get ad "experience" with Some v => v | None => JStr "" end);
           ("skills", match dict_get ad "skills" with Some v => v | None => JList [] end);
           ("education", match dict_get ad "education" with Some v => v | None => JStr "" end);
           ("coverLetter", match dict_get ad "coverLetter" with Some v => v | None => JStr "" end);
           ("status", JStr "pending"); ("createdAt", JStr (utcnow E (S (tick w))))]).
  set (store1 := dict_set store "applications" (JList (apps ++ [app]))).
  set (w1 := mkWorld (Stored (JDict store1)) (S (S (tick w)))
                     (Wrote (JDict store1) :: trace w)).
  assert (He1 : holds_list store1 "events" evs).
  { apply holds_list_other; [discriminate | exact He]. }
  pose proof (record_activity_run E user_id "job_application"
                (JDict [("jobId", job_id); ("applicationId", JStr (uuid4 E (tick w)))])
                store1 evs w1 eq_refl He1) as Hev.
  set (ev := JDict [("userId", user_id); ("eventType", JStr "job_application");
                    ("metadata", py_or (JDict [("jobId", job_id);
                                               ("applicationId", JStr (uuid4 E (tick w)))])
                                       (JDict []));
                    ("timestamp", JStr (utcnow E (tick w1)))]) in *.
  exists app, ev. eexists. split.
  { unfold create_job_application. unfold bind at 1, fresh at 1.
    do 7 (unfold bind at 1, lift at 1; cbn [py_get_or]).
    unfold bind at 1, fresh at 1. cbn [tick disk trace].
    unfold bind at 1. rewrite read_store_current.
    change (current_doc (mkWorld (disk w) (S (S (tick w))) (trace w)))
      with (current_doc w).
    rewrite Hs.
    unfold bind at 1, lift at 1. rewrite Hget.
    unfold bind at 1, lift at 1. cbn [py_append].
    unfold bind at 1, lift at 1. cbn [py_setitem].
    unfold bind at 1, _write_store at 1. cbn [tick disk trace].
    unfold bind at 1. fold app store1 w1. rewrite Hev. reflexivity. }
  split; [reflexivity|]. split; [reflexivity|]. split; [reflexivity|].
  split.
  { unfold collection, current_doc. cbn [disk].
    rewrite store_list_other by discriminate. apply store_list_set. }
  split; [unfold collection, current_doc; cbn [disk]; apply store_list_set|].
  split; [reflexivity|]. split; reflexivity.
Qed.

End Applications.
Section LearningPaths.

Variable E : oracle.
Variable py_str : json -> string.

Ltac step_in H :=
  lazymatch type of H with
  | bind (lift ?o) _ _ = _ =>
      unfold bind at 1, lift at 1 in H;
      let v := fresh "v" in
      destruct o as [v|] eqn:?; [|discriminate H]
  | bind (fresh _ _) _ _ = _ =>
      unfold bind at 1, fresh at 1 in H
  | bind ?m _ ?w = _ =>
      unfold bind at 1 in H;
      let r := fresh "r" in
      let w1 := fresh "w" in
      destruct (m w) as [[r w1]|] eqn:?; [|discriminate H]
  end.

(** Whatever the nested awards wrote, the document [complete_milestone]
    writes last is the one it read at its start with the path changed. *)
Lemma complete_in_path_final (store : dict) (user_id path : json) (index : Z)
    (before rest : list json) (w w' : world) (b : bool) :
  complete_in_path E py_str (JDict store) user_id path index before rest w = Some (b, w') ->
  b = true /\
  exists path',
    disk w' = Stored (JDict (dict_set store "learning_paths"
                               (JList (before ++ path' :: rest)))) /\
    (exists p, field path' "progress" = JInt p) /\
    forall k, k <> "milestones" -> k <> "progress" -> k <> "currentMilestone" ->
              field path' k = field path k.
Proof.
  intros H. unfold complete_in_path in H.
  do 4 step_in H. step_in H. do 6 step_in H.
  step_in H.
  step_in H.
  destruct path as [| | | | |pd]; try discriminate.
  repeat (cbn [py_setitem] in *;
          match goal with
          | Heq : Some (JDict _) = Some _ |- _ => injection Heq as Heq; subst
          end).
  unfold bind, lift, ret, _write_store in H. cbn [py_setitem] in H.
  injection H as Hb Hw. subst b w'. split; [reflexivity|].
  eexists. split; [reflexivity|]. split.
  - eexists. rewrite field_set_other by discriminate. apply field_set_same.
  - intros k H1 H2 H3. rewrite !field_set_other by congruence. reflexivity.
Qed.


Lemma complete_milestone_loop_final (store : dict)
    (user_id path_id milestone_index : json) (rest before : list json)
    (w w' : world) (b : bool) :
  complete_milestone_loop E py_str (JDict store) user_id path_id milestone_index
    before rest w = Some (b, w') ->
  (b = false -> w' = w) /\
  (b = true ->
     exists mid path path' rest',
       rest = mid ++ path :: rest' /\
       has_id "pathId" path_id path = true /\
       has_id "userId" user_id path = true /\
       disk w' = Stored (JDict (dict_set store "learning_paths"
                                  (JList ((before ++ mid) ++ path' :: rest')))) /\
       (exists p, field path' "progress" = JInt p) /\
       forall k, k <> "milestones" -> k <> "progress" -> k <> "currentMilestone" ->
                 field path' k = field path k).
Proof.
  revert before w. induction rest as [|path rest IH]; intros before w H.
  - cbn [complete_milestone_loop] in H. unfold ret in H. injection H as <- <-.
    split; [reflexivity | discriminate].
  - cbn [complete_milestone_loop] in H.
    unfold bind at 1, lift at 1 in H.
    destruct (py_get path "pathId") as [pid|] eqn:Hpid; [|discriminate].
    assert (Hdict : is_dict path = true) by (destruct path; try discriminate; reflexivity).
    rewrite (py_get_dict path "pathId" Hdict) in Hpid. injection Hpid as <-.
    assert (Hnext : forall w0,
              complete_milestone_loop E py_str (JDict store) user_id path_id
                milestone_index (before ++ [path]) rest w0 = Some (b, w') ->
              (b = false -> w' = w0) /\
              (b = true ->
                 exists mid path0 path' rest',
                   path :: rest = mid ++ path0 :: rest' /\
                   has_id "pathId" path_id path0 = true /\
                   has_id "userId" user_id path0 = true /\
                   disk w' = Stored (JDict (dict_set store "learning_paths"
                                  (JList ((before ++ mid) ++ path' :: rest')))) /\
                   (exists p, field path' "progress" = JInt p) /\
                   forall k, k <> "milestones" -> k <> "progress" ->
                             k <> "currentMilestone" -> field path' k = field path0 k)).
    { intros w0 Hrun. destruct (IH _ _ Hrun) as [Hf Ht]. split; [exact Hf|].
      intros Hb. destruct (Ht Hb) as (mid & p0 & p' & rest' & -> & H1 & H2 & Hd & Hp & Hk).
      exists (path :: mid), p0, p', rest'. split; [reflexivity|].
      split; [exact H1|]. split; [exact H2|].
      split; [|split; [exact Hp | exact Hk]].
      rewrite Hd. rewrite <- !app_assoc. reflexivity. }
    destruct (py_eq (field path "pathId") path_id) eqn:H1.
    + unfold bind at 1 in H. unfold bind at 1, lift at 1 in H.
      rewrite (py_get_dict path "userId" Hdict) in H. unfold ret at 1 in H.
      destruct (py_eq (field path "userId") user_id) eqn:H2.
      * unfold bind at 1 in H. unfold bind at 1, lift at 1 in H.
        destruct (py_get_or path "milestones" (JList [])) as [ms|]; [|discriminate].
        unfold bind at 1, lift at 1 in H.
        destruct (py_len ms) as [n|]; [|discriminate].
        unfold bind at 1, lift at 1 in H.
        destruct (as_int milestone_index) as [index|]; [|discriminate].
        unfold ret at 1 in H.
        destruct (index <? n).
        -- destruct (complete_in_path_final _ _ _ _ _ _ _ _ _ H)
             as (-> & path' & Hd & Hp & Hk).
           split; [discriminate|]. intros _.
           exists [], path, path', rest. rewrite app_nil_r.
           repeat split; auto.
        -- apply Hnext. exact H.
      * unfold bind at 1, ret at 1 in H. apply Hnext. exact H.
    + unfold bind at 1, ret at 1 in H. unfold bind at 1, ret at 1 in H.
      apply Hnext. exact H.
Qed.

(** X18.  [complete_milestone] writes last the document it read at its
    start, with the one path changed: when it returns True every other
    collection of the store, the users among them, is on disk as it was
    before the call, so the 50 XP of [award_xp], the Path Master badge of
    [award_badge] and their notifications, which these calls wrote in
    between, are not in the stored document.  When it returns False it has
    changed nothing. *)
Theorem complete_milestone_overwrites_awards
    (user_id path_id milestone_index : json) (w w' : world) (b : bool) :
  complete_milestone E py_str user_id path_id milestone_index w = Some (b, w') ->
  (b = false -> w' = w) /\
  (b = true ->
     (forall key, key <> "learning_paths" ->
                  field (current_doc w') key = field (current_doc w) key) /\
     exists before path path' rest,
       collection w "learning_paths" = Some (before ++ path :: rest) /\
       collection w' "learning_paths" = Some (before ++ path' :: rest) /\
       has_id "pathId" path_id path = true /\
       has_id "userId" user_id path = true /\
       (exists p, field path' "progress" = JInt p) /\
       forall k, k <> "milestones" -> k <> "progress" -> k <> "currentMilestone" ->
                 field path' k = field path k).
Proof.
  intros H. unfold complete_milestone in H.
  unfold bind at 1 in H. rewrite read_store_current in H.
  unfold bind at 1, lift at 1 in H.
  destruct (store_list (current_doc w) "learning_paths") as [paths|] eqn:Hc;
    [|discriminate].
  destruct (store_list_is_dict _ _ _ Hc) as [store Hs]. rewrite Hs in H.
  destruct (complete_milestone_loop_final _ _ _ _ _ _ _ _ _ H) as [Hf Ht].
  split; [exact Hf|]. intros Hb.
  destruct (Ht Hb) as (mid & path & path' & rest & -> & H1 & H2 & Hd & Hp & Hk).
  cbn [app] in Hd.
  assert (Hs' : current_doc w'
                = JDict (dict_set store "learning_paths" (JList (mid ++ path' :: rest))))
    by (unfold current_doc; rewrite Hd; reflexivity).
  split.
  - intros key Hkey. rewrite Hs', Hs. apply field_set_other. congruence.
  - exists mid, path, path', rest.
    split; [exact Hc|].
    split; [unfold collection; rewrite Hs'; apply store_list_set|].
    repeat split; auto.
Qed.

(** X19.  [complete_milestone] with an index at or beyond the number of
    milestones of every path returns False and writes nothing, also for a
    path that has both ids. *)
Theorem complete_milestone_index_beyond_end
    (user_id path_id : json) (index : Z) (paths : list json) (w : world) :
  collection w "learning_paths" = Some paths ->
  all_dicts paths = true ->
  Forall (fun p => exists n, obind (py_get_or p "milestones" (JList [])) py_len = Some n /\
                             n <= index) paths ->
  complete_milestone E py_str user_id path_id (JInt index) w = Some (false, w).
Proof.
  intros Hc Hd Hall.
  unfold complete_milestone. unfold bind at 1. rewrite read_store_current.
  unfold collection in Hc. unfold bind at 1, lift at 1. rewrite Hc.
  generalize (@nil json) as before. generalize (current_doc w) as store.
  clear Hc. induction Hall as [|p ps (n & Hn & Hle) Hall IH]; intros store before;
    [reflexivity|].
  simpl in Hd. apply andb_prop in Hd as [Hp Hd].
  cbn [complete_milestone_loop].
  unfold bind at 1, lift at 1. rewrite (py_get_dict p "pathId" Hp).
  destruct (py_eq (field p "pathId") path_id).
  - unfold bind at 1. unfold bind at 1, lift at 1.
    rewrite (py_get_dict p "userId" Hp). unfold ret at 1.
    destruct (py_eq (field p "userId") user_id).
    + unfold bind at 1. unfold bind at 1, lift at 1.
      destruct (py_get_or p "milestones" (JList [])) as [ms|]; [|discriminate].
      cbn [obind] in Hn. unfold bind at 1, lift at 1. rewrite Hn.
      unfold bind at 1, lift at 1. cbn [as_int]. unfold ret at 1.
      apply Z.ltb_ge in Hle. rewrite Hle. apply (IH Hd).
    + unfold bind at 1, ret at 1. apply (IH Hd).
  - unfold bind at 1, ret at 1. unfold bind at 1, ret at 1. apply (IH Hd).
Qed.

End LearningPaths.
Section ActivityHandlers.

Variable E : oracle.











End ActivityHandlers.
Section QuizHandlers.

Variable E : oracle.

(** For every quiz of the table and every answer sheet, max(10, int(score / 10))
    is 10 whatever the score, and the score is 100 or below 90. *)
Lemma quiz_award_is_flat (q : quiz) (answers_map : json) (correct score : Z) :
  In q all_quizzes ->
  count_correct E answers_map q = Some correct ->
  py_score correct (List.length q) = Some score ->
  quiz_xp score = Some 10 /\ (score = 100 \/ score < 90).
Proof.
  intros Hq Hc Hs.
  assert (Hall : forallb (fun q => Nat.leb 4 (List.length q) && Nat.leb (List.length q) 6)
                         all_quizzes = true) by (vm_compute; reflexivity).
  rewrite forallb_forall in Hall. specialize (Hall q Hq).
  apply andb_prop in Hall as [H1 H2].
  apply Nat.leb_le in H1. apply Nat.leb_le in H2.
  pose proof (count_correct_bounds E _ _ _ Hc) as Hb.
  assert (Hlen : List.length q = 4%nat \/ List.length q = 5%nat \/ List.length q = 6%nat)
    by lia.
  rewrite (py_score_floor correct (List.length q) Hlen Hb) in Hs.
  injection Hs as <-.
  assert (Hcases : correct = 0 \/ correct = 1 \/ correct = 2 \/ correct = 3 \/
                   correct = 4 \/ correct = 5 \/ correct = 6) by lia.
  destruct Hlen as [Hl | [Hl | Hl]]; rewrite Hl in *;
    repeat (destruct Hcases as [-> | Hcases]); try subst correct;
    try (split; [vm_compute; reflexivity | vm_compute; lia]);
    try (simpl in Hb; lia).
  all: split; [vm_compute; reflexivity|].
  all: try (left; reflexivity).
  all: right; vm_compute; reflexivity.
Qed.


Lemma bind_same_start {A B} (m : M A) (f g : A -> M B) (w : world) :
  (forall a w1, m w = Some (a, w1) -> f a w1 = g a w1) ->
  bind m f w = bind m g w.
Proof.
  intros H. unfold bind. destruct (m w) as [[a w1]|]; [apply H|]; reflexivity.
Qed.

Lemma bind_returns {A B} (m : M A) (f : A -> M B) (w w' : world) (b : B) :
  bind m f w = Some (b, w') ->
  exists a w1, m w = Some (a, w1) /\ f a w1 = Some (b, w').
Proof.
  unfold bind. destruct (m w) as [[a w1]|]; [|discriminate].
  intros H. exists a, w1. split; [reflexivity | exact H].
Qed.

Lemma lift_returns {A} (o : option A) (a : A) (w w' : world) :
  lift o w = Some (a, w') -> o = Some a.
Proof.
  unfold lift. destruct o; [|discriminate]. intros [= -> _]. reflexivity.
Qed.

(** The quiz [get_quiz_for_activity] finds is a quiz of the table. *)
Lemma find_quiz_from_table (activity_id : json) (acts : list json) (a : json) (q : quiz) :
  find_quiz activity_id acts = Some (Some (a, q)) -> In q all_quizzes.
Proof.
  induction acts as [|x acts IH]; cbn [find_quiz]; [discriminate|].
  destruct (py_get x "activityId") as [aid|]; cbn [obind]; [|discriminate].
  destruct (py_eq aid activity_id); [|exact IH].
  destruct (py_get x "role") as [role|]; cbn [obind]; [|discriminate].
  destruct (py_get x "level") as [level|]; cbn [obind]; [|discriminate].
  destruct (py_get_or x "quizVariant" (JInt 1)) as [variant|]; cbn [obind]; [|discriminate].
  destruct (_sample_quiz _ _ variant) as [q'|] eqn:Hq; cbn [obind]; [|discriminate].
  intros [= _ <-]. exact (sample_quiz_from_table _ _ _ _ Hq).
Qed.

(** What [grade_quiz] returns: None, or the score of a quiz of the table. *)
Lemma grade_quiz_result (activity_id answers_map r : json) (w w' : world) :
  grade_quiz E activity_id answers_map w = Some (r, w') ->
  r = JNull \/
  exists q correct score,
    In q all_quizzes /\
    count_correct E answers_map q = Some correct /\
    py_score correct (List.length q) = Some score /\
    r = JDict [("score", JInt score); ("total", JInt (Z.of_nat (List.length q)))].
Proof.
  unfold grade_quiz. intros H.
  apply bind_returns in H as (qa & w1 & Hqa & H).
  destruct qa as [[a q]|]; [|injection H as <- _; left; reflexivity].
  right.
  unfold get_quiz_for_activity in Hqa.
  apply bind_returns in Hqa as (store & w2 & _ & Hqa).
  apply bind_returns in Hqa as (acts & w3 & _ & Hqa).
  apply lift_returns in Hqa. apply find_quiz_from_table in Hqa.
  apply bind_returns in H as (correct & w4 & Hc & H). apply lift_returns in Hc.
  apply bind_returns in H as (score & w5 & Hs & H). apply lift_returns in Hs.
  apply bind_returns in H as (store1 & w6 & _ & H).
  apply bind_returns in H as (activities & w7 & _ & H).
  apply bind_returns in H as (items & w8 & _ & H).
  apply bind_returns in H as (graded & w9 & _ & H).
  apply bind_returns in H as (store' & w10 & _ & H).
  apply bind_returns in H as (u & w11 & _ & H).
  injection H as <- _.
  exists q, correct, score. repeat split; assumption.
Qed.


(** X21.  On every payload and every store [api_submit_quiz] runs as the
    handler written out here, which differs from it in two places: it
    awards [award_xp user_id 10] where the code awards
    max(10, int(score / 10)), and it has no branch for the Excellent badge.
    The score [grade_quiz] returns is that of a quiz of the table, for
    which the amount is 10 whatever the answers and the score is 100 or
    below 90: the amount never exceeds 10 and the branch
    [elif score >= 90] is never taken. *)
Theorem api_submit_quiz_awards_ten (user_id payload : json) (w : world) :
  api_submit_quiz E user_id payload w
  = (let payload := py_or payload (JDict []) in
     activity_id <- lift (py_get payload "activityId") ;;
     answers <- lift (py_get_or payload "answers" (JDict [])) ;;
     if negb (truthy activity_id) then
       ret (Response 400 (JDict [("error", JStr "missing activityId")]))
     else
       activity <- verify_activity_ownership activity_id user_id ;;
       if negb (truthy activity) then
         ret (Response 403 (JDict [("error", JStr "access denied")]))
       else
         result <- grade_quiz E activity_id answers ;;
         match result with
         | JNull => ret (Response 404 (JDict [("error", JStr "not found")]))
         | _ =>
             score <- lift (py_get_or result "score" (JInt 0)) ;;
             record_activity E user_id "quiz_completed"
               (JDict [("activityId", activity_id); ("score", score)]) ;;;
             score <- lift (as_int score) ;;
             award_xp E user_id 10 ;;;
             (if score =? 100 then
                award_badge E user_id "Perfect Score" perfect_score_icon
                  (Some "Scored 100% on a quiz!") ;;; ret tt
              else ret tt) ;;;
             ret (Response 200 (JDict [("result", result)]))
         end) w.
Proof.
  unfold api_submit_quiz. cbv zeta.
  apply bind_same_start. intros activity_id w1 _.
  apply bind_same_start. intros answers w2 _.
  destruct (negb (truthy activity_id)); [reflexivity|].
  apply bind_same_start. intros activity w3 _.
  destruct (negb (truthy activity)); [reflexivity|].
  apply bind_same_start. intros result w4 Hgraded.
  apply grade_quiz_result in Hgraded
    as [-> | (q & correct & s & Hq & Hc & Hs & ->)]; [reflexivity|].
  destruct (quiz_award_is_flat q answers correct s Hq Hc Hs) as [Hxp Hbranch].
  apply bind_same_start. intros score0 w5 Hscore.
  apply lift_returns in Hscore. cbn in Hscore. injection Hscore as <-.
  apply bind_same_start. intros u w6 _.
  apply bind_same_start. intros score w7 Hscore.
  apply lift_returns in Hscore. cbn in Hscore. injection Hscore as <-.
  unfold bind at 1, lift at 1. rewrite Hxp.
  apply bind_same_start. intros g w8 _.
  destruct (s =? 100) eqn:Hperfect; [reflexivity|].
  apply Z.eqb_neq in Hperfect.
  assert (Hlow : (90 <=? s) = false) by (apply Z.leb_gt; lia).
  rewrite Hlow. reflexivity.
Qed.

Lemma py_or_dict (pd : dict) : py_or (JDict pd) (JDict []) = JDict pd.
Proof. destruct pd; reflexivity. Qed.

Lemma verify_activity_ownership_run (activity_id user_id : json) (acts : list json)
    (w : world) :
  collection w "activities" = Some acts ->
  all_dicts acts = true ->
  verify_activity_ownership activity_id user_id w
  = Some (found (filter (has_id "userId" user_id) acts) "activityId" activity_id, w).
Proof.
  intros Hc Hd. unfold verify_activity_ownership, list_user_activities.
  unfold bind at 1. rewrite (records_with_run _ _ _ _ _ Hc Hd).
  unfold lift. rewrite first_with_find by (apply all_dicts_filter; exact Hd).
  reflexivity.
Qed.

Lemma find_none_existsb {A} (p : A -> bool) (xs : list A) :
  existsb p xs = false -> find p xs = None.
Proof.
  induction xs as [|x xs IH]; [reflexivity|]. simpl.
  destruct (p x); [discriminate | exact IH].
Qed.

(** X22.  [api_submit_quiz] grades only for the owner: when the payload
    names no activity it answers 400, and when no activity has both the
    user's id and the id of the payload (the activity is another user's, or
    unknown) it answers 403; in both cases nothing is graded, recorded or
    awarded: the world is as it was. *)
Theorem api_submit_quiz_owner_only (user_id : json) (pd : dict) (acts : list json)
    (w : world) :
  collection w "activities" = Some acts ->
  all_dicts acts = true ->
  (truthy (field (JDict pd) "activityId") = false ->
     api_submit_quiz E user_id (JDict pd) w
     = Some (Response 400 (JDict [("error", JStr "missing activityId")]), w)) /\
  (truthy (field (JDict pd) "activityId") = true ->
   existsb (is_target user_id (field (JDict pd) "activityId")) acts = false ->
     api_submit_quiz E user_id (JDict pd) w
     = Some (Response 403 (JDict [("error", JStr "access denied")]), w)).
Proof.
  intros Hc Hd.
  split.
  - intros Hno. unfold api_submit_quiz. rewrite py_or_dict.
    unfold bind at 1, lift at 1. rewrite (py_get_dict (JDict pd) "activityId" eq_refl).
    unfold bind at 1, lift at 1. cbn [py_get_or].
    rewrite Hno. reflexivity.
  - intros Hyes Hnone. unfold api_submit_quiz. rewrite py_or_dict.
    unfold bind at 1, lift at 1. rewrite (py_get_dict (JDict pd) "activityId" eq_refl).
    unfold bind at 1, lift at 1. cbn [py_get_or].
    rewrite Hyes. cbn [negb].
    unfold bind at 1. rewrite (verify_activity_ownership_run _ _ _ _ Hc Hd).
    unfold found. rewrite find_none_existsb; [reflexivity|].
    clear -Hnone. induction acts as [|a acts IH]; [reflexivity|].
    simpl in *. apply orb_false_elim in Hnone as [Ha Hacts].
    unfold is_target in Ha.
    destruct (has_id "userId" user_id a); simpl in *; [|exact (IH Hacts)].
    rewrite Ha. exact (IH Hacts).
Qed.

Lemma complete_activity_run (user_id activity_id : json) (store : dict)
    (acts : list json) (w : world) :
  current_doc w = JDict store ->
  store_list (JDict store) "activities" = Some acts ->
  all_dicts acts = true ->
  (existsb (is_target user_id activity_id) acts = false ->
     complete_activity E user_id activity_id w = Some (false, w)) /\
  (existsb (is_target user_id activity_id) acts = true ->
     exists acts' t,
       complete_activity E user_id activity_id w
       = Some (true,
               mkWorld (Stored (JDict (dict_set store "activities" (JList acts'))))
                       t
                       (Wrote (JDict (dict_set store "activities" (JList acts')))
                        :: trace w)) /\
       Forall2 (fun a a' => if is_target user_id activity_id a
                            then marked_completed a a' else a' = a) acts acts').
Proof.
  intros Hs Hc Hd.
  destruct (complete_loop E user_id activity_id acts w Hd)
    as (marked & w1 & Hloop & Hdk & Htr & Hex & Hall & Hsame).
  assert (Hrun :
    complete_activity E user_id activity_id w
    = (if existsb snd marked
       then bind (lift (py_setitem (JDict store) "activities" (JList (map fst marked))))
              (fun store => bind (_write_store store) (fun _ => ret true))
       else ret false) w1).
  { unfold complete_activity. unfold bind at 1.
    rewrite read_store_current, Hs. unfold bind at 1, lift at 1. rewrite Hc.
    unfold bind at 1. rewrite Hloop. reflexivity. }
  split; intros Hany; rewrite Hrun, Hex, Hany.
  - rewrite (Hsame Hany). reflexivity.
  - unfold bind, lift, ret, _write_store. cbn [py_setitem]. rewrite Htr.
    eexists _, _. split; [reflexivity | exact Hall].
Qed.

(** X23.  [api_complete_activity] answers 404 and changes nothing when no
    activity has both the user's id and the id of the payload; otherwise it
    marks these activities completed and then records a complete_activity
    event, and both changes are on disk when it answers 200. *)
Theorem api_complete_activity_records (user_id : json) (pd : dict) (store : dict)
    (acts evs : list json) (w : world) :
  current_doc w = JDict store ->
  collection w "activities" = Some acts ->
  all_dicts acts = true ->
  holds_list store "events" evs ->
  truthy (field (JDict pd) "activityId") = true ->
  (existsb (is_target user_id (field (JDict pd) "activityId")) acts = false ->
     api_complete_activity E user_id (JDict pd) w
     = Some (Response 404 (JDict [("error", JStr "not found")]), w)) /\
  (existsb (is_target user_id (field (JDict pd) "activityId")) acts = true ->
     exists acts' ev w',
       api_complete_activity E user_id (JDict pd) w
       = Some (Response 200 (JDict [("status", JStr "completed")]), w') /\
       collection w' "activities" = Some acts' /\
       Forall2 (fun a a' => if is_target user_id (field (JDict pd) "activityId") a
                            then marked_completed a a' else a' = a) acts acts' /\
       collection w' "events" = Some (evs ++ [ev]) /\
       field ev "userId" = user_id /\
       field ev "eventType" = JStr "complete_activity" /\
       field (field ev "metadata") "activityId" = field (JDict pd) "activityId").
Proof.
  intros Hs Hc Hd Hev Hid.
  assert (Hc0 : store_list (JDict store) "activities" = Some acts)
    by (unfold collection in Hc; rewrite Hs in Hc; exact Hc).
  destruct (complete_activity_run user_id (field (JDict pd) "activityId") store acts w
              Hs Hc0 Hd) as [Hnone Hsome].
  assert (Hstart : api_complete_activity E user_id (JDict pd) w
                   = (ok <- complete_activity E user_id (field (JDict pd) "activityId") ;;
                      if (ok : bool) then
                        record_activity E user_id "complete_activity"
                          (JDict [("activityId", field (JDict pd) "activityId")]) ;;;
                        ret (Response 200 (JDict [("status", JStr "completed")]))
                      else ret (Response 404 (JDict [("error", JStr "not found")]))) w).
  { unfold api_complete_activity. rewrite py_or_dict.
    unfold bind at 1, lift at 1. rewrite (py_get_dict (JDict pd) "activityId" eq_refl).
    rewrite Hid. reflexivity. }
  split; intros Hany; rewrite Hstart.
  - unfold bind at 1. rewrite (Hnone Hany). reflexivity.
  - destruct (Hsome Hany) as (acts' & t & Hrun & Hall).
    unfold bind at 1. rewrite Hrun.
    set (store1 := dict_set store "activities" (JList acts')).
    set (w1 := mkWorld (Stored (JDict store1)) t (Wrote (JDict store1) :: trace w)).
    assert (Hev1 : holds_list store1 "events" evs).
    { apply holds_list_other; [discriminate | exact Hev]. }
    pose proof (record_activity_run E user_id "complete_activity"
                  (JDict [("activityId", field (JDict pd) "activityId")])
                  store1 evs w1 eq_refl Hev1) as Hrec.
    unfold bind at 1. rewrite Hrec.
    eexists acts', _, _. split; [reflexivity|].
    split.
    { unfold collection, current_doc. cbn [disk].
      rewrite store_list_other by discriminate. apply store_list_set. }
    split; [exact Hall|].
    split; [unfold collection, current_doc; cbn [disk]; apply store_list_set|].
    split; [reflexivity|]. split; reflexivity.
Qed.

End QuizHandlers.
(* ===================================================================== *)
(** ** Runs of the further properties on a concrete store                *)
(* ===================================================================== *)

Lemma create_user_found_by_email_witness :
  exists user w',
    create_user demo_oracle "new@example.org" "hash" JNull (world0 demo_site)
    = Some (user, w') /\
    get_user_by_email "new@example.org" w' = Some (user, w') /\
    forall other, other <> "new@example.org" ->
      exists u, get_user_by_email other (world0 demo_site) = Some (u, world0 demo_site) /\
                get_user_by_email other w' = Some (u, w').
Proof.
  apply (create_user_found_by_email demo_oracle "new@example.org" "hash" JNull
           (world0 demo_site) demo_members); reflexivity.
Defined.

Lemma record_activity_listed_witness :
  exists ev w',
    record_activity demo_oracle (JStr "u1") "login" JNull (world0 demo_site)
    = Some (true, w') /\
    field ev "userId" = JStr "u1" /\
    field ev "eventType" = JStr "login" /\
    forall who,
      list_activities who (world0 demo_site)
      = Some (filter (has_id "userId" who) [demo_event], world0 demo_site) /\
      list_activities who w'
      = Some (filter (has_id "userId" who) [demo_event]
              ++ (if py_eq (JStr "u1") who then [ev] else []), w').
Proof.
  apply (record_activity_listed demo_oracle (JStr "u1") "login" JNull
           demo_site_record [demo_event] (world0 demo_site)); reflexivity.
Defined.

Lemma ensure_default_admin_bootstraps_witness :
  exists admin w',
    ensure_default_admin demo_oracle "hash" (world0 demo_site) = Some (tt, w') /\
    collection w' "admins" = Some [admin] /\
    get_admin_by_email "admin@virtualcareercounselor.com" w' = Some (admin, w') /\
    field admin "passwordHash" = JStr "hash" /\
    field admin "role" = JStr "admin".
Proof.
  apply (ensure_default_admin_bootstraps demo_oracle "hash" demo_site_record []
           (world0 demo_site)); reflexivity.
Defined.

Lemma list_jobs_newest_first_witness :
  exists listed,
    list_jobs lower (JStr "DATA") "active" (world0 demo_site)
    = Some (listed, world0 demo_site) /\
    Permutation (filter (job_listed lower (JStr "DATA") "active") demo_jobs) listed /\
    Sorted not_older listed /\
    Forall (fun j => field j "status" = JStr "active") listed.
Proof.
  apply (list_jobs_newest_first lower (JStr "DATA") "active" demo_jobs (world0 demo_site));
    try reflexivity.
  right. exists "DATA". reflexivity.
Defined.

Lemma update_job_status_first_match_witness :
  exists j' w',
    update_job_status demo_oracle (JStr "j2") (JStr "closed") (world0 demo_site)
    = Some (true, w') /\
    collection w' "jobs"
    = Some ([demo_job "j1" "Data" "active" "2024-06-01"] ++ j'
            :: [demo_job "j3" "Design" "closed" "2024-06-07"]) /\
    status_set (JStr "closed") (demo_job "j2" "data" "active" "2024-06-05") j' /\
    get_job (JStr "j2") w' = Some (j', w').
Proof.
  apply (update_job_status_first_match demo_oracle (JStr "j2") (JStr "closed")
           [demo_job "j1" "Data" "active" "2024-06-01"]
           (demo_job "j2" "data" "active" "2024-06-05")
           [demo_job "j3" "Design" "closed" "2024-06-07"] (world0 demo_site));
    reflexivity.
Defined.

Lemma delete_job_removes_all_witness :
  (forall status,
     update_job_status demo_oracle (JStr "j9") status (world0 demo_site)
     = Some (false, world0 demo_site)) /\
  exists w',
    delete_job (JStr "j1") (world0 demo_site) = Some (true, w') /\
    collection w' "jobs"
    = Some (filter (fun j => negb (has_id "jobId" (JStr "j1") j)) demo_jobs) /\
    (exists doc, trace w' = Wrote doc :: trace (world0 demo_site)) /\
    get_job (JStr "j1") w' = Some (JNull, w').
Proof.
  split.
  - apply (delete_job_removes_all demo_oracle (JStr "j9") demo_jobs (world0 demo_site));
      reflexivity.
  - apply (delete_job_removes_all demo_oracle (JStr "j1") demo_jobs (world0 demo_site));
      reflexivity.
Defined.

Lemma save_job_saves_once_witness :
  exists w1,
    save_job demo_oracle (JStr "u1") (JStr "j2") (world0 demo_site) = Some (true, w1) /\
    get_saved_jobs (JStr "u1") w1 = Some (JList ([JStr "j1"] ++ [JStr "j2"]), w1) /\
    (forall other, other <> "u1" ->
       get_user (JStr other) w1 = Some (user_of demo_members (JStr other), w1)) /\
    save_job demo_oracle (JStr "u1") (JStr "j2") w1 = Some (false, w1).
Proof.
  apply (save_job_saves_once demo_oracle "u1" "j2" demo_members demo_member_record
           [JStr "j1"] (world0 demo_site)); reflexivity.
Defined.

Lemma unsave_job_undoes_save_job_witness :
  exists w1 w2,
    save_job demo_oracle (JStr "u1") (JStr "j2") (world0 demo_site) = Some (true, w1) /\
    unsave_job demo_oracle (JStr "u1") (JStr "j2") w1 = Some (true, w2) /\
    get_saved_jobs (JStr "u1") w2 = Some (JList [JStr "j1"], w2) /\
    unsave_job demo_oracle (JStr "u1") (JStr "j2") w2 = Some (false, w2).
Proof.
  apply (unsave_job_undoes_save_job demo_oracle "u1" "j2" demo_members demo_member_record
           [JStr "j1"] (world0 demo_site)); reflexivity.
Defined.

Lemma save_roadmap_stores_no_roadmap_witness :
  exists w1,
    save_roadmap demo_oracle (JStr "u1") (JStr "r9") (world0 demo_site) = Some (true, w1) /\
    get_saved_roadmaps (JStr "u1") w1 = Some (JList ([] ++ [JStr "r9"]), w1) /\
    collection w1 "roadmaps" = Some [] /\
    forall who,
      list_roadmaps_for_user who (world0 demo_site)
      = Some (filter (has_id "userId" who) [], world0 demo_site) /\
      list_roadmaps_for_user who w1 = Some (filter (has_id "userId" who) [], w1).
Proof.
  apply (save_roadmap_stores_no_roadmap demo_oracle "u1" "r9" demo_members []
           demo_member_record [] (world0 demo_site)); reflexivity.
Defined.

Lemma mark_notification_read_owner_only_witness :
  mark_notification_read demo_oracle (JStr "n2") (JStr "u1") (world0 demo_site)
  = Some (false, world0 demo_site) /\
  exists w' ns',
    mark_notification_read demo_oracle (JStr "n1") (JStr "u1") (world0 demo_site)
    = Some (true, w') /\
    collection w' "notifications" = Some ns' /\
    Forall2 (fun n n' => if notification_of (JStr "n1") (JStr "u1") n
                         then marked_read n n' else n' = n) demo_notifications ns' /\
    forall key, key <> "notifications" ->
                field (current_doc w') key = field (current_doc (world0 demo_site)) key.
Proof.
  split.
  - apply (mark_notification_read_owner_only demo_oracle (JStr "n2") (JStr "u1")
             demo_notifications (world0 demo_site)); reflexivity.
  - apply (mark_notification_read_owner_only demo_oracle (JStr "n1") (JStr "u1")
             demo_notifications (world0 demo_site)); reflexivity.
Defined.

Lemma mark_all_notifications_read_clears_unread_witness :
  exists w',
    mark_all_notifications_read demo_oracle (JStr "u1") (world0 demo_site)
    = Some (existsb (unread_of (JStr "u1")) demo_notifications, w') /\
    (existsb (unread_of (JStr "u1")) demo_notifications = false -> w' = world0 demo_site) /\
    get_notifications (JStr "u1") true w' = Some ([], w') /\
    mark_all_notifications_read demo_oracle (JStr "u1") w' = Some (false, w') /\
    forall o unread_only, o <> "u1" ->
      option_map fst (get_notifications (JStr o) unread_only w')
      = option_map fst (get_notifications (JStr o) unread_only (world0 demo_site)).
Proof.
  apply (mark_all_notifications_read_clears_unread demo_oracle "u1" demo_notifications
           (world0 demo_site)); reflexivity.
Defined.

Lemma save_resume_round_trip_witness :
  exists resume w1 w2,
    save_resume demo_oracle (JStr "u1") (JDict [("name", JStr "CV")]) (world0 demo_site)
    = Some (resume, w1) /\
    field resume "resumeId" = JStr (uuid4 demo_oracle 0) /\
    get_resume (JStr "u1") (JStr (uuid4 demo_oracle 0)) w1 = Some (resume, w1) /\
    (forall rid, rid <> uuid4 demo_oracle 0 ->
       get_resume (JStr "u1") (JStr rid) w1
       = Some (found [demo_resume] "resumeId" (JStr rid), w1)) /\
    delete_resume demo_oracle (JStr "u1") (JStr (uuid4 demo_oracle 0)) w1 = Some (true, w2) /\
    get_resume (JStr "u1") (JStr (uuid4 demo_oracle 0)) w2 = Some (JNull, w2).
Proof.
  apply (save_resume_round_trip demo_oracle "u1" [("name", JStr "CV")] demo_members
           demo_member_record [demo_resume] (world0 demo_site)); reflexivity.
Defined.

Lemma delete_resume_true_without_match_witness :
  exists w',
    delete_resume demo_oracle (JStr "u1") (JStr "r9") (world0 demo_site) = Some (true, w') /\
    trace w' <> trace (world0 demo_site) /\
    get_resumes (JStr "u1") w' = Some (JList [demo_resume], w').
Proof.
  apply (delete_resume_true_without_match demo_oracle "u1" (JStr "r9") demo_members
           demo_member_record [demo_resume] (world0 demo_site));
    try reflexivity.
  discriminate.
Defined.

Lemma send_connection_request_once_per_pair_witness :
  exists conn n w1,
    send_connection_request demo_oracle (JStr "u2") (JStr "u3") JNull (world0 demo_site)
    = Some (conn, w1) /\
    field conn "fromUserId" = JStr "u2" /\ field conn "toUserId" = JStr "u3" /\
    field conn "status" = JStr "pending" /\
    collection w1 "connections" = Some ([demo_connection] ++ [conn]) /\
    collection w1 "notifications" = Some (demo_notifications ++ [n]) /\
    field n "userId" = JStr "u3" /\ field n "type" = JStr "connection_request" /\
    forall message',
      send_connection_request demo_oracle (JStr "u2") (JStr "u3") message' w1
      = Some (JNull, w1) /\
      send_connection_request demo_oracle (JStr "u3") (JStr "u2") message' w1
      = Some (JNull, w1).
Proof.
  apply (send_connection_request_once_per_pair demo_oracle "u2" "u3" JNull
           demo_site_record [demo_connection] demo_notifications (world0 demo_site));
    reflexivity.
Defined.

Lemma accept_connection_recipient_only_witness :
  accept_connection demo_oracle (JStr "c1") (JStr "u1") (world0 demo_site)
  = Some (false, world0 demo_site) /\
  exists c' n w',
    accept_connection demo_oracle (JStr "c1") (JStr "u2") (world0 demo_site)
    = Some (true, w') /\
    accepted demo_connection c' /\
    collection w' "connections" = Some ([] ++ c' :: []) /\
    collection w' "notifications" = Some (demo_notifications ++ [n]) /\
    field n "userId" = field demo_connection "fromUserId" /\
    field n "type" = JStr "connection_accepted".
Proof.
  split.
  - apply (accept_connection_recipient_only demo_oracle (JStr "c1") (JStr "u1")
             demo_site_record [demo_connection] demo_notifications (world0 demo_site));
      reflexivity.
  - apply (proj2 (accept_connection_recipient_only demo_oracle (JStr "c1") (JStr "u2")
                    demo_site_record [demo_connection] demo_notifications
                    (world0 demo_site) eq_refl eq_refl eq_refl eq_refl)
                 [] demo_connection []); reflexivity.
Defined.

Lemma create_job_application_recorded_witness :
  exists app ev w',
    create_job_application demo_oracle (JStr "u1") (JStr "j1")
      (JDict [("fullName", JStr "Ann")]) (world0 demo_site) = Some (app, w') /\
    field app "userId" = JStr "u1" /\ field app "jobId" = JStr "j1" /\
    field app "status" = JStr "pending" /\
    collection w' "applications" = Some ([] ++ [app]) /\
    collection w' "events" = Some ([demo_event] ++ [ev]) /\
    field ev "userId" = JStr "u1" /\
    field ev "eventType" = JStr "job_application" /\
    field (field ev "metadata") "applicationId" = field app "applicationId".
Proof.
  apply (create_job_application_recorded demo_oracle (JStr "u1") (JStr "j1")
           [("fullName", JStr "Ann")] demo_site_record [] [demo_event] (world0 demo_site));
    reflexivity.
Defined.

Lemma complete_milestone_overwrites_awards_witness :
  exists w',
    complete_milestone demo_oracle demo_str (JStr "u1") (JStr "p1") (JInt 0)
      (world0 demo_site) = Some (true, w') /\
    existsb (fun doc => py_eq (doc_xp "u1" doc) (JInt 50)) (written w') = true /\
    persisted_xp w' "u1" = Some (JInt 0) /\
    (forall key, key <> "learning_paths" ->
                 field (current_doc w') key = field (current_doc (world0 demo_site)) key) /\
    exists before path path' rest,
      collection (world0 demo_site) "learning_paths" = Some (before ++ path :: rest) /\
      collection w' "learning_paths" = Some (before ++ path' :: rest) /\
      has_id "pathId" (JStr "p1") path = true /\
      has_id "userId" (JStr "u1") path = true /\
      (exists p, field path' "progress" = JInt p) /\
      forall k, k <> "milestones" -> k <> "progress" -> k <> "currentMilestone" ->
                field path' k = field path k.
Proof.
  eexists. split; [vm_compute; reflexivity|].
  split; [vm_compute; reflexivity|].
  split; [vm_compute; reflexivity|].
  refine (proj2 (complete_milestone_overwrites_awards demo_oracle demo_str
                   (JStr "u1") (JStr "p1") (JInt 0) (world0 demo_site) _ true _) eq_refl).
  vm_compute. reflexivity.
Defined.

Lemma complete_milestone_index_beyond_end_witness :
  complete_milestone demo_oracle demo_str (JStr "u1") (JStr "p1") (JInt 2)
    (world0 demo_site) = Some (false, world0 demo_site).
Proof.
  apply (complete_milestone_index_beyond_end demo_oracle demo_str (JStr "u1") (JStr "p1") 2
           [demo_path] (world0 demo_site)); try reflexivity.
  repeat constructor. exists 2. split; [reflexivity | lia].
Defined.


Lemma api_submit_quiz_awards_ten_witness :
  let w0 := world0 (JDict [("users", JList [demo_user "u1" 40 1 0 JNull []]);
                           ("roadmaps", JList []);
                           ("activities", JList [demo_activity])]) in
  exists body w',
    api_submit_quiz demo_oracle (JStr "u1")
      (JDict [("activityId", JStr "a1");
              ("answers", JDict [("q1", JInt 0); ("q2", JInt 1); ("q3", JInt 0);
                                 ("q4", JInt 1); ("q5", JInt 1)])]) w0
    = Some (Response 200 body, w') /\
    field (field body "result") "score" = JInt 83 /\
    persisted_xp w0 "u1" = Some (JInt 40) /\
    persisted_xp w' "u1" = Some (JInt 50) /\
    persisted_badges w' "u1" = Some (JList []).
Proof.
  eexists _, _. split.
  - rewrite api_submit_quiz_awards_ten. vm_compute. reflexivity.
  - repeat split; vm_compute; reflexivity.
Defined.

Lemma api_submit_quiz_owner_only_witness :
  api_submit_quiz demo_oracle (JStr "u1") (JDict [("answers", JDict [])]) (world0 demo_site)
  = Some (Response 400 (JDict [("error", JStr "missing activityId")]), world0 demo_site) /\
  api_submit_quiz demo_oracle (JStr "u2") (JDict [("activityId", JStr "a1")])
    (world0 demo_site)
  = Some (Response 403 (JDict [("error", JStr "access denied")]), world0 demo_site).
Proof.
  split.
  - apply (api_submit_quiz_owner_only demo_oracle (JStr "u1") [("answers", JDict [])]
             [demo_activity] (world0 demo_site)); reflexivity.
  - apply (api_submit_quiz_owner_only demo_oracle (JStr "u2") [("activityId", JStr "a1")]
             [demo_activity] (world0 demo_site)); reflexivity.
Defined.

Lemma api_complete_activity_records_witness :
  api_complete_activity demo_oracle (JStr "u2") (JDict [("activityId", JStr "a1")])
    (world0 demo_site)
  = Some (Response 404 (JDict [("error", JStr "not found")]), world0 demo_site) /\
  exists acts' ev w',
    api_complete_activity demo_oracle (JStr "u1") (JDict [("activityId", JStr "a1")])
      (world0 demo_site)
    = Some (Response 200 (JDict [("status", JStr "completed")]), w') /\
    collection w' "activities" = Some acts' /\
    Forall2 (fun a a' => if is_target (JStr "u1") (field (JDict [("activityId", JStr "a1")])
                                                          "activityId") a
                         then marked_completed a a' else a' = a) [demo_activity] acts' /\
    collection w' "events" = Some ([demo_event] ++ [ev]) /\
    field ev "userId" = JStr "u1" /\
    field ev "eventType" = JStr "complete_activity" /\
    field (field ev "metadata") "activityId"
    = field (JDict [("activityId", JStr "a1")]) "activityId".
Proof.
  split.
  - apply (api_complete_activity_records demo_oracle (JStr "u2") [("activityId", JStr "a1")]
             demo_site_record [demo_activity] [demo_event] (world0 demo_site));
      reflexivity.
  - apply (api_complete_activity_records demo_oracle (JStr "u1") [("activityId", JStr "a1")]
             demo_site_record [demo_activity] [demo_event] (world0 demo_site));
      reflexivity.
Defined.
Section AdminScript.

Variable E : oracle.
Variable generate_password_hash : string -> string.

Lemma has_text_not_empty (key s : string) (d : dict) :
  has_id key (JStr s) (JDict d) = true -> d <> [].
Proof. intros H ->. discriminate H. Qed.

Lemma find_none_of_existsb {A} (p : A -> bool) (xs : list A) :
  existsb p xs = false -> find p xs = None.
Proof.
  induction xs as [|x xs IH]; [reflexivity|]. simpl.
  destruct (p x); [discriminate | exact IH].
Qed.

Lemma filter_keeps_all {A} (p : A -> bool) (xs : list A) :
  existsb p xs = false -> filter (fun x => negb (p x)) xs = xs.
Proof.
  induction xs as [|x xs IH]; [reflexivity|]. simpl.
  destruct (p x); [discriminate|]. intros H. simpl. rewrite (IH H). reflexivity.
Qed.

Lemma create_admin_run (email password : string) (name : json) (store : dict)
    (admins : list json) (w : world) :
  current_doc w = JDict store ->
  holds_list store "admins" admins ->
  all_dicts admins = true ->
  let admin := JDict [("adminId", JStr (uuid4 E (tick w))); ("email", JStr email);
                      ("passwordHash", JStr password);
                      ("name", py_or name (JStr "Admin"));
                      ("role", JStr "admin");
                      ("createdAt", JStr (utcnow E (S (tick w))))] in
  let doc := JDict (dict_set store "admins"
                      (JList (filter (fun a => negb (has_id "email" (JStr email) a)) admins
                              ++ [admin]))) in
  create_admin E email password name w
  = Some (admin, mkWorld (Stored doc) (S (S (tick w))) (Wrote doc :: trace w)).
Proof.
  intros Hs Hl Hd. cbv zeta.
  destruct (holds_list_get _ _ _ Hl) as [Hget _].
  unfold create_admin. unfold bind at 1, fresh at 1. unfold bind at 1, fresh at 1.
  cbn [tick disk trace].
  unfold bind at 1. rewrite read_store_current.
  change (current_doc (mkWorld (disk w) (S (S (tick w))) (trace w))) with (current_doc w).
  rewrite Hs. unfold bind at 1, lift at 1. rewrite Hget.
  unfold bind at 1, lift at 1. cbn [py_iter obind].
  rewrite (filterM_dicts _ (fun a => negb (has_id "email" (JStr email) a)) admins Hd).
  - reflexivity.
  - intros a Ha. rewrite (py_get_dict a "email" Ha). cbn [option_map].
    rewrite has_id_str. reflexivity.
Qed.

Lemma replace_first_hit (key : string) (val new : json) (before : list json) (a : json)
    (rest : list json) :
  all_dicts before = true ->
  existsb (has_id key val) before = false ->
  is_dict a = true ->
  has_id key val a = true ->
  replace_first key val new (before ++ a :: rest) = Some (before ++ new :: rest).
Proof.
  intros Hd Hno Ha Hid. induction before as [|b before IH].
  - cbn [app replace_first]. rewrite (py_get_dict a key Ha). cbn [obind].
    unfold has_id in Hid. rewrite Hid. reflexivity.
  - simpl in Hd, Hno. apply andb_prop in Hd as [Hb Hd].
    apply orb_false_elim in Hno as [Hb' Hno].
    cbn [app replace_first]. rewrite (py_get_dict b key Hb). cbn [obind].
    unfold has_id in Hb'. rewrite Hb'. rewrite (IH Hd Hno). reflexivity.
Qed.

(** X24.  The script create_admin.py keeps one admin per email.  Once it
    has its email, password and name: with no admin of that email it
    stores a new one after the others, under the name typed, or Admin when
    none was typed; with an admin of that email it changes the first such
    record in place when the answer to the second question is y, and
    changes nothing otherwise.  The changed record has the new password
    hash, the name typed, or its old name when none was typed, and its
    adminId and every other key as before. *)
Theorem create_admin_script_one_admin_per_email
    (answers rest : list string) (email password name : string)
    (store : dict) (admins : list json) (w : world) :
  credentials answers = Some (Some (email, password, name), rest) ->
  current_doc w = JDict store ->
  holds_list store "admins" admins ->
  all_dicts admins = true ->
  (existsb (has_id "email" (JStr email)) admins = false ->
     exists admin w',
       create_admin_script E generate_password_hash answers w = Some (tt, w') /\
       collection w' "admins" = Some (admins ++ [admin]) /\
       field admin "email" = JStr email /\
       field admin "passwordHash" = JStr (generate_password_hash password) /\
       field admin "name" = (if String.eqb name "" then JStr "Admin" else JStr name)) /\
  (forall before a after answer rest',
     admins = before ++ a :: after ->
     existsb (has_id "email" (JStr email)) before = false ->
     has_id "email" (JStr email) a = true ->
     ask rest = Some (answer, rest') ->
     (lower answer <> "y" ->
        create_admin_script E generate_password_hash answers w = Some (tt, w)) /\
     (lower answer = "y" ->
        exists a' w',
          create_admin_script E generate_password_hash answers w = Some (tt, w') /\
          collection w' "admins" = Some (before ++ a' :: after) /\
          field a' "passwordHash" = JStr (generate_password_hash password) /\
          (name <> "" -> field a' "name" = JStr name) /\
          (name = "" -> field a' "name" = field a "name") /\
          forall k, k <> "passwordHash" -> k <> "name" -> field a' k = field a k)).
Proof.
  intros Hcred Hs Hl Hd.
  destruct (holds_list_get _ _ _ Hl) as [Hget Hlist].
  assert (Hc : collection w "admins" = Some admins)
    by (unfold collection; rewrite Hs; exact Hlist).
  assert (Hstart : forall k : option (string * string * string) * list string -> M unit,
            (asked <- lift (credentials answers) ;; k asked) w
            = k (Some (email, password, name), rest) w).
  { intros k. unfold bind, lift. rewrite Hcred. reflexivity. }
  split.
  - intros Hno.
    pose proof (create_admin_run email (generate_password_hash password)
                  (py_or (JStr name) (JStr "Admin")) store admins w Hs Hl Hd) as Hrun.
    cbv zeta in Hrun. rewrite (filter_keeps_all _ _ Hno) in Hrun.
    eexists _, _. split.
    { unfold create_admin_script. rewrite Hstart. cbn [fst snd].
      unfold bind at 1. unfold get_admin_by_email.
      rewrite (lookup_run _ _ _ _ _ Hc Hd). unfold found.
      rewrite (find_none_of_existsb _ _ Hno). cbn [truthy].
      unfold bind at 1. rewrite Hrun. reflexivity. }
    split; [unfold collection, current_doc; cbn [disk]; apply store_list_set|].
    split; [reflexivity|]. split; [reflexivity|].
    destruct name; reflexivity.
  - intros before a after answer rest' -> Hno Hid Hask.
    rewrite all_dicts_app in Hd. apply andb_prop in Hd as [Hdb Hda].
    simpl in Hda. apply andb_prop in Hda as [Ha Hda].
    destruct a as [| | | | |ad]; try discriminate.
    pose proof (has_text_not_empty _ _ _ Hid) as Hne.
    assert (Hfound : found (before ++ JDict ad :: after) "email" (JStr email) = JDict ad).
    { unfold found. rewrite (find_app_none _ _ _ (find_none_of_existsb _ _ Hno)).
      cbn [find]. rewrite Hid. reflexivity. }
    assert (Hdall : all_dicts (before ++ JDict ad :: after) = true)
      by (rewrite all_dicts_app, Hdb; simpl; exact Hda).
    assert (Hrun : create_admin_script E generate_password_hash answers w
                   = (overwrite <- lift (ask rest) ;;
                      if String.eqb (lower (fst overwrite)) "y" then
                        existing <- lift (py_setitem (JDict ad) "passwordHash"
                                            (JStr (generate_password_hash password))) ;;
                        existing <- (if String.eqb name "" then ret existing
                                     else lift (py_setitem existing "name" (JStr name))) ;;
                        store <- _read_store ;;
                        admins <- lift (obind (py_get_or store "admins" (JList [])) as_list) ;;
                        admins <- lift (replace_first "email" (JStr email) existing admins) ;;
                        store <- lift (py_setitem store "admins" (JList admins)) ;;
                        _write_store store
                      else ret tt) w).
    { unfold create_admin_script. rewrite Hstart. cbn [fst snd].
      unfold bind at 1. unfold get_admin_by_email.
      rewrite (lookup_run _ _ _ _ _ Hc Hdall), Hfound.
      assert (Ht : truthy (JDict ad) = true) by (destruct ad; [congruence | reflexivity]).
      rewrite Ht. reflexivity. }
    rewrite Hrun.
    split; intros Hy; unfold bind at 1, lift at 1; rewrite Hask; cbn [fst].
    + apply String.eqb_neq in Hy. rewrite Hy. reflexivity.
    + rewrite Hy. cbn [String.eqb Ascii.eqb Bool.eqb].
      unfold bind at 1, lift at 1. cbn [py_setitem].
      set (a1 := dict_set ad "passwordHash" (JStr (generate_password_hash password))).
      assert (Hstep : exists ad',
                (if String.eqb name "" then ret (JDict a1)
                 else lift (Some (JDict (dict_set a1 "name" (JStr name))))) w
                = Some (JDict ad', w) /\
                field (JDict ad') "passwordHash" = JStr (generate_password_hash password) /\
                (name <> "" -> field (JDict ad') "name" = JStr name) /\
                (name = "" -> field (JDict ad') "name" = field (JDict ad) "name") /\
                forall k, k <> "passwordHash" -> k <> "name" ->
                          field (JDict ad') k = field (JDict ad) k).
      { destruct (String.eqb name "") eqn:Hname.
        - apply String.eqb_eq in Hname.
          exists a1. split; [reflexivity|]. split; [apply field_set_same|].
          split; [intros Hn; contradiction|].
          split; [intros _; unfold a1; apply field_set_other; discriminate|].
          intros k H1 _. unfold a1. apply field_set_other. congruence.
        - apply String.eqb_neq in Hname.
          exists (dict_set a1 "name" (JStr name)). split; [reflexivity|]. split.
          + rewrite field_set_other by discriminate. apply field_set_same.
          + split; [intros _; apply field_set_same|].
            split; [intros Hn; contradiction|].
            intros k H1 H2. rewrite field_set_other by congruence.
            unfold a1. apply field_set_other. congruence. }
      destruct Hstep as (ad' & Hnm & Hpw & Htyped & Hkept & Hkeep).
      unfold bind at 1. rewrite Hnm.
      unfold bind at 1. rewrite read_store_current, Hs.
      unfold bind at 1, lift at 1. rewrite Hget. cbn [obind as_list].
      unfold bind at 1, lift at 1.
      rewrite (replace_first_hit "email" (JStr email) (JDict ad') before (JDict ad) after
                 Hdb Hno eq_refl Hid).
      unfold bind at 1, lift at 1. cbn [py_setitem].
      exists (JDict ad'). eexists. split; [reflexivity|].
      split; [unfold collection, current_doc; cbn [disk]; apply store_list_set|].
      split; [exact Hpw|]. split; [exact Htyped|]. split; [exact Hkept | exact Hkeep].
Qed.

End AdminScript.
Section Portfolio.

Variable E : oracle.

(** X25.  [update_portfolio] merges the submitted mapping into the stored
    portfolio key by key (a key of the update takes the update's value, a
    key it omits keeps the stored value), creating the profile and the
    portfolio when the user has none; it returns the merged portfolio,
    which is also what [get_portfolio] returns afterwards, and keeps the
    other keys of the profile. *)
Theorem update_portfolio_merges (uid : string) (portfolio_data : dict)
    (users : list json) (ud pd old : dict) (w : world) :
  collection w "users" = Some users ->
  all_dicts users = true ->
  find (has_id "userId" (JStr uid)) users = Some (JDict ud) ->
  holds_dict ud "profile" pd ->
  holds_dict pd "portfolio" old ->
  NoDup (map fst portfolio_data) ->
  exists w' user',
    update_portfolio E (JStr uid) portfolio_data w
    = Some (JDict (dict_update old portfolio_data), w') /\
    get_portfolio (JStr uid) w' = Some (JDict (dict_update old portfolio_data), w') /\
    get_user (JStr uid) w' = Some (user', w') /\
    (forall k, k <> "portfolio" ->
               field (field user' "profile") k = field (JDict pd) k) /\
    forall k, dict_get (dict_update old portfolio_data) k
              = match dict_get portfolio_data k with
                | Some v => Some v
                | None => dict_get old k
                end.
Proof.
  intros Hc Hd Hf Hp Ho Hnd.
  destruct (store_list_is_dict _ _ _ Hc) as [store Hs].
  destruct (user_of_found _ _ _ Hf) as (Hu & Hid & _).
  pose proof (str_id_not_empty _ _ Hid) as Hne.
  assert (Hc' : store_list (JDict store) "users" = Some users).
  { unfold collection in Hc. rewrite Hs in Hc. exact Hc. }
  set (merged := dict_update old portfolio_data).
  set (pd1 := dict_set pd "portfolio" (JDict merged)).
  set (ud1 := dict_set (dict_set ud "profile" (JDict pd1))
                       "updatedAt" (JStr (utcnow E (tick w)))).
  set (doc := JDict (dict_set store "users"
                       (JList (users_with users (JStr uid) (JDict ud1))))).
  assert (Hrun : update_portfolio E (JStr uid) portfolio_data w
                 = Some (JDict merged,
                         mkWorld (Stored doc) (S (tick w)) (Wrote doc :: trace w))).
  { unfold update_portfolio. unfold bind at 1. rewrite read_store_current, Hs.
    unfold bind at 1. rewrite (get_user_run _ _ _ Hc Hd), Hu.
    assert (Ht : truthy (JDict ud) = true) by (destruct ud; [congruence | reflexivity]).
    rewrite Ht. cbn [negb].
    unfold bind at 1, lift at 1. cbn [py_in].
    unfold holds_dict in Hp, Ho. unfold dict_has.
    assert (Hfinish : forall pd0 : dict,
              dict_set pd0 "portfolio" (JDict merged) = pd1 ->
              forall ud0 : dict,
              dict_set ud0 "profile" (JDict pd1) = dict_set ud "profile" (JDict pd1) ->
              (profile <- lift (py_setitem (JDict pd0) "portfolio" (JDict merged)) ;;
               user <- lift (py_setitem (JDict ud0) "profile" profile) ;;
               now <- fresh E utcnow ;;
               user <- lift (py_setitem user "updatedAt" (JStr now)) ;;
               put_user (JDict store) (JStr uid) user ;;;
               lift (obind (py_item user "profile") (fun p => py_item p "portfolio"))) w
              = Some (JDict merged,
                      mkWorld (Stored doc) (S (tick w)) (Wrote doc :: trace w))).
    { intros pd0 Hpd0 ud0 Hud0.
      unfold bind at 1, lift at 1. cbn [py_setitem]. rewrite Hpd0.
      unfold bind at 1, lift at 1. cbn [py_setitem]. rewrite Hud0.
      unfold bind at 1, fresh at 1.
      unfold bind at 1, lift at 1. cbn [py_setitem].
      unfold bind at 1. rewrite (put_user_run _ _ _ _ _ Hc' Hd).
      unfold lift. cbn [py_item]. fold ud1.
      assert (H1 : dict_get ud1 "profile" = Some (JDict pd1)).
      { unfold ud1. rewrite dict_get_set_other by reflexivity.
        apply dict_get_set_same. }
      rewrite H1. cbn [obind py_item]. unfold pd1. rewrite dict_get_set_same.
      reflexivity. }
    destruct (dict_get ud "profile") as [p|] eqn:Hprof.
    - subst p. unfold bind at 1, ret at 1.
      unfold bind at 1, lift at 1. cbn [py_item]. rewrite Hprof.
      unfold bind at 1, lift at 1. cbn [py_member]. unfold dict_has.
      destruct (dict_get pd "portfolio") as [v|] eqn:Hport.
      + subst v. unfold bind at 1, ret at 1.
        unfold bind at 1, lift at 1. cbn [py_item]. rewrite Hport.
        unfold bind at 1, lift at 1.
        apply Hfinish; reflexivity.
      + subst old. unfold bind at 1, lift at 1. cbn [py_setitem].
        unfold bind at 1, lift at 1. cbn [py_item]. rewrite dict_get_set_same.
        unfold bind at 1, lift at 1.
        apply Hfinish; [apply dict_set_set | reflexivity].
    - subst pd. cbn [dict_get] in Ho. subst old.
      unfold bind at 1, lift at 1. cbn [py_setitem].
      unfold bind at 1, lift at 1. cbn [py_item]. rewrite dict_get_set_same.
      unfold bind at 1, lift at 1. cbn [py_member dict_has dict_get].
      unfold bind at 1, lift at 1. cbn [py_setitem dict_set].
      unfold bind at 1, lift at 1. cbn [py_item dict_get String.eqb Ascii.eqb Bool.eqb].
      unfold bind at 1, lift at 1.
      apply (Hfinish [("portfolio", JDict [])]); [reflexivity | apply dict_set_set]. }
  assert (Hid1 : has_id "userId" (JStr uid) (JDict ud1) = true)
    by (apply has_id_kept; [discriminate | discriminate | exact Hid]).
  destruct (put_user_state store users uid ud1 (S (tick w)) (Wrote doc :: trace w) Hd Hid1)
    as (Hs1 & Hc1 & Hd1 & Hf1).
  fold doc in Hs1, Hc1.
  destruct (user_of_found _ _ _ Hf1) as (Hu1 & _ & _).
  assert (Hprof1 : dict_get ud1 "profile" = Some (JDict pd1)).
  { unfold ud1. rewrite dict_get_set_other by reflexivity. apply dict_get_set_same. }
  eexists _, (JDict ud1). split; [exact Hrun|].
  split.
  { unfold get_portfolio. unfold bind at 1. rewrite (get_user_run _ _ _ Hc1 Hd1), Hu1.
    assert (Ht : truthy (JDict ud1) = true).
    { pose proof (str_id_not_empty _ _ Hid1). destruct ud1; [congruence | reflexivity]. }
    rewrite Ht. unfold bind at 1, lift at 1, py_get. cbn [py_get_or]. rewrite Hprof1.
    assert (Htp : truthy (JDict pd1) = true).
    { unfold pd1. pose proof (dict_set_not_empty pd "portfolio" (JDict merged)).
      destruct (dict_set pd "portfolio" (JDict merged)); [congruence | reflexivity]. }
    rewrite Htp. unfold bind at 1, lift at 1. cbn [py_get_or].
    unfold pd1 at 1. rewrite dict_get_set_same.
    destruct (truthy (JDict merged)) eqn:Htm.
    - unfold lift. cbn [py_item]. rewrite Hprof1. cbn [obind py_item].
      unfold pd1. rewrite dict_get_set_same. reflexivity.
    - destruct merged; [reflexivity | discriminate]. }
  split; [rewrite (get_user_run _ _ _ Hc1 Hd1), Hu1; reflexivity|].
  split.
  { intros k Hk. unfold field at 2. rewrite Hprof1. unfold pd1.
    apply field_set_other. congruence. }
  intros k. apply dict_get_update_nodup. exact Hnd.
Qed.

End Portfolio.
Section Ranking.

Variable E : oracle.
Variable str_lower : string -> string.

Lemma insert_desc_int (kx x : json) (l : list (json * json)) :
  int_key (kx, x) ->
  Forall int_key l ->
  Sorted key_not_below l ->
  exists l',
    insert_desc kx x l = Some l' /\
    Permutation ((kx, x) :: l) l' /\
    Forall int_key l' /\
    Sorted key_not_below l'.
Proof.
  intros [s Hs]. simpl in Hs. subst kx.
  induction l as [|[ky y] l IH]; intros Ht Hsorted.
  - exists [(JInt s, x)]. repeat split; auto.
    constructor; [exists s; reflexivity | constructor].
  - inversion Ht as [|? ? [t Hy] Ht']; subst. simpl in Hy. subst ky.
    inversion Hsorted as [|? ? Hs' Hhd]; subst.
    cbn [insert_desc py_lt as_int obind].
    destruct (s <? t) eqn:Hlt.
    + destruct (IH Ht' Hs') as (l' & Hins & Hperm & Htext & Hsort).
      rewrite Hins. cbn [option_map].
      assert (Hback : key_not_below (JInt t, y) (JInt s, x)).
      { unfold key_not_below. cbn [fst py_lt as_int].
        apply Z.ltb_lt in Hlt. f_equal. apply Z.ltb_ge. lia. }
      exists ((JInt t, y) :: l'). split; [reflexivity|].
      split; [rewrite perm_swap; apply perm_skip; exact Hperm|].
      split; [constructor; [exists t; reflexivity | exact Htext]|].
      constructor; [exact Hsort|].
      destruct l' as [|[kz z] l'']; [constructor|]. constructor.
      destruct l as [|[ku u] l0].
      * cbn [insert_desc] in Hins. injection Hins as <- <- <-. exact Hback.
      * cbn [insert_desc] in Hins.
        destruct (py_lt (JInt s) ku) as [[|]|]; cbn [obind] in Hins; try discriminate.
        -- destruct (insert_desc (JInt s) x l0); [|discriminate].
           injection Hins as <- <- <-. inversion Hhd; subst. assumption.
        -- injection Hins as <- <- <-. exact Hback.
    + exists ((JInt s, x) :: (JInt t, y) :: l). split; [reflexivity|].
      split; [apply Permutation_refl|].
      split; [constructor; [exists s; reflexivity | exact Ht]|].
      constructor; [exact Hsorted|]. constructor.
      unfold key_not_below. cbn [fst py_lt as_int]. rewrite Hlt. reflexivity.
Qed.

Lemma sort_desc_int (l : list (json * json)) :
  Forall int_key l ->
  exists l',
    sort_desc l = Some l' /\ Permutation l l' /\
    Forall int_key l' /\ Sorted key_not_below l'.
Proof.
  induction l as [|[k x] l IH]; intros Ht.
  - exists []. repeat split; auto.
  - inversion Ht as [|? ? Hk Ht']; subst.
    destruct (IH Ht') as (l1 & Hsort & Hperm & Htext & Hs).
    destruct (insert_desc_int k x l1 Hk Htext Hs) as (l2 & Hins & Hperm2 & Htext2 & Hs2).
    exists l2. cbn [sort_desc]. rewrite Hsort. cbn [obind]. rewrite Hins.
    split; [reflexivity|]. split; [|auto].
    eapply Permutation_trans; [apply perm_skip; exact Hperm | exact Hperm2].
Qed.

(** [sorted(rows, key=lambda r: r[key], reverse=True)] on rows that hold a
    number under the key: a rearrangement, highest first. *)
Lemma py_sorted_desc_ranked (key : string) (rows : list json) :
  Forall (fun r => exists n, py_item r key = Some (JInt n) /\ field r key = JInt n) rows ->
  exists ranked,
    py_sorted_desc (fun r => py_item r key) rows = Some ranked /\
    Permutation rows ranked /\ Sorted (ranks_before key) ranked.
Proof.
  intros Hrows.
  assert (Hkeyed : keyed (fun r => py_item r key) rows
                   = Some (map (fun r => (field r key, r)) rows)).
  { induction Hrows as [|r rows (n & Hi & Hf) _ IH]; [reflexivity|].
    cbn [keyed map]. rewrite Hi, IH, Hf. reflexivity. }
  unfold py_sorted_desc. rewrite Hkeyed. cbn [obind].
  destruct (sort_desc_int (map (fun r => (field r key, r)) rows))
    as (l & Hsort & Hperm & _ & Hs).
  { apply Forall_forall. intros p Hin. apply in_map_iff in Hin as (r & <- & Hr).
    rewrite Forall_forall in Hrows. destruct (Hrows r Hr) as (n & _ & Hf).
    exists n. exact Hf. }
  exists (map snd l). rewrite Hsort. split; [reflexivity|]. split.
  - apply (Permutation_map snd) in Hperm. rewrite map_map in Hperm. cbn [snd] in Hperm.
    rewrite map_id in Hperm. exact Hperm.
  - assert (Hk : Forall (fun p => fst p = field (snd p) key) l).
    { eapply Permutation_Forall; [exact Hperm|].
      apply Forall_forall. intros p Hin. apply in_map_iff in Hin as (x & <- & _).
      reflexivity. }
    clear -Hk Hs. induction l as [|p l IH]; [constructor|].
    inversion Hk as [|? ? Hp Hk']; subst. inversion Hs as [|? ? Hs' Hhd]; subst.
    cbn [map]. constructor; [apply IH; assumption|].
    destruct l as [|q l]; [constructor|]. constructor.
    inversion Hhd as [|? ? Hpq]; subst. inversion Hk' as [|? ? Hq _]; subst.
    unfold ranks_before. rewrite <- Hp, <- Hq. exact Hpq.
Qed.

Lemma contains_empty (s : string) : contains "" s = true.
Proof. destruct s; reflexivity. Qed.

Lemma completed_by_run (store : dict) (acts : list json) (u : json) :
  store_list (JDict store) "activities" = Some acts ->
  all_dicts acts = true ->
  is_dict u = true ->
  completed_by (JDict store) u = Some (completed_of acts u).
Proof.
  intros Hc Hd Hu. unfold completed_by, completed_of. rewrite Hc. cbn [obind].
  rewrite (py_get_dict u "userId" Hu). cbn [obind].
  rewrite (filterM_dicts _ (has_id "userId" (field u "userId")) acts Hd)
    by (intros a Ha; rewrite (py_get_dict a "userId" Ha); reflexivity).
  cbn [obind]. apply filterM_dicts; [apply all_dicts_filter; exact Hd|].
  intros a Ha. rewrite (py_get_dict a "status" Ha). reflexivity.
Qed.

Lemma mentor_rows_run (store : dict) (user_id : json) (target_role : string)
    (acts users : list json) :
  store_list (JDict store) "activities" = Some acts ->
  all_dicts acts = true ->
  all_dicts users = true ->
  Forall (fun u => mentor_role str_lower u <> None) users ->
  mentor_rows str_lower (JDict store) user_id target_role users
  = Some (map (mentor_row acts)
              (filter (mentor_candidate str_lower user_id target_role acts) users)).
Proof.
  intros Hc Hd Hud Hroles. induction Hroles as [|u users Hr _ IH]; [reflexivity|].
  simpl in Hud. apply andb_prop in Hud as [Hu Hud]. specialize (IH Hud).
  cbn [mentor_rows filter]. rewrite (py_get_dict u "userId" Hu). cbn [obind].
  unfold mentor_candidate at 1. unfold has_id at 1.
  destruct (py_eq (field u "userId") user_id); cbn [negb andb]; [exact IH|].
  destruct (mentor_role str_lower u) as [r|]; [|congruence]. cbn [obind].
  destruct (role_matches target_role r); cbn [andb]; [|exact IH].
  rewrite (completed_by_run store acts u Hc Hd Hu). cbn [obind]. rewrite IH.
  cbn [option_map].
  destruct (5 <? Z.of_nat (List.length (completed_of acts u))); reflexivity.
Qed.

(** X26.  Whatever [str.lower] makes of text, [find_mentors] ranks exactly
    the other users whose lowered role matches the seeker's lowered target
    role and who completed more than five activities, highest number
    first, and returns the first ten; the store is not changed.  As Python
    groups the test, (a and b) or c, a user whose lowered role is empty
    matches every seeker: with more than five completed activities such a
    user is always ranked. *)
Theorem find_mentors_ranks_candidates (uid : string) (career_field : json)
    (target : string) (users acts : list json) (ud : dict) (w : world) :
  collection w "users" = Some users ->
  all_dicts users = true ->
  find (has_id "userId" (JStr uid)) users = Some (JDict ud) ->
  Forall (fun u => mentor_role str_lower u <> None) users ->
  option_map str_lower
    (as_str (py_or (py_or (field (field (JDict ud) "profile") "targetRole") career_field)
                   (JStr ""))) = Some target ->
  collection w "activities" = Some acts ->
  all_dicts acts = true ->
  exists ranked,
    find_mentors str_lower (JStr uid) career_field w = Some (firstn 10 ranked, w) /\
    Permutation (map (mentor_row acts)
                     (filter (mentor_candidate str_lower (JStr uid) target acts) users))
                ranked /\
    Sorted (ranks_before "matchScore") ranked /\
    forall u, In u users ->
              has_id "userId" (JStr uid) u = false ->
              mentor_role str_lower u = Some "" ->
              5 < Z.of_nat (List.length (completed_of acts u)) ->
              In (mentor_row acts u) ranked.
Proof.
  intros Hc Hd Hf Hroles Htarget Ha Had.
  destruct (store_list_is_dict _ _ _ Hc) as [store Hs].
  destruct (user_of_found _ _ _ Hf) as (Hu & Hid & Hin).
  pose proof (str_id_not_empty _ _ Hid) as Hne.
  assert (Hc0 : store_list (JDict store) "users" = Some users)
    by (unfold collection in Hc; rewrite Hs in Hc; exact Hc).
  assert (Ha0 : store_list (JDict store) "activities" = Some acts)
    by (unfold collection in Ha; rewrite Hs in Ha; exact Ha).
  set (rows := map (mentor_row acts)
                   (filter (mentor_candidate str_lower (JStr uid) target acts) users)).
  destruct (py_sorted_desc_ranked "matchScore" rows) as (ranked & Hsort & Hperm & Hsorted).
  { apply Forall_forall. intros r Hr. apply in_map_iff in Hr as (u & <- & _).
    eexists. split; reflexivity. }
  exists ranked. split.
  { unfold find_mentors. unfold bind at 1. rewrite (get_user_run _ _ _ Hc Hd), Hu.
    assert (Ht : truthy (JDict ud) = true) by (destruct ud; [congruence | reflexivity]).
    rewrite Ht. cbn [negb].
    rewrite Forall_forall in Hroles. pose proof (Hroles _ Hin) as Hseeker.
    unfold mentor_role in Hseeker. cbn [py_get_or] in Hseeker.
    unfold bind at 1, lift at 1. cbn [py_get_or].
    cbn [field] in Htarget.
    destruct (dict_get ud "profile") as [p|] eqn:Hp.
    - destruct p as [| | | | |pd]; try (exfalso; apply Hseeker; reflexivity).
      unfold bind at 1, lift at 1, py_get. cbn [py_get_or].
      cbn [field] in Htarget.
      unfold bind at 1, lift at 1. rewrite Htarget.
      unfold bind at 1. rewrite read_store_current, Hs.
      unfold bind at 1, lift at 1. rewrite Hc0.
      unfold bind at 1, lift at 1.
      rewrite (mentor_rows_run store (JStr uid) target acts users Ha0 Had Hd).
      + fold rows. unfold bind at 1, lift at 1. rewrite Hsort. reflexivity.
      + apply Forall_forall. exact Hroles.
    - unfold bind at 1, lift at 1, py_get. cbn [py_get_or dict_get].
      cbn [field] in Htarget.
      unfold bind at 1, lift at 1. rewrite Htarget.
      unfold bind at 1. rewrite read_store_current, Hs.
      unfold bind at 1, lift at 1. rewrite Hc0.
      unfold bind at 1, lift at 1.
      rewrite (mentor_rows_run store (JStr uid) target acts users Ha0 Had Hd).
      + fold rows. unfold bind at 1, lift at 1. rewrite Hsort. reflexivity.
      + apply Forall_forall. exact Hroles. }
  split; [exact Hperm|]. split; [exact Hsorted|].
  intros u Hu_in Hother Hrole Hmany.
  eapply Permutation_in; [exact Hperm|].
  unfold rows. apply in_map. apply filter_In. split; [exact Hu_in|].
  unfold mentor_candidate. rewrite Hother, Hrole. cbn [negb andb].
  unfold role_matches. rewrite contains_empty, orb_true_r. cbn [andb].
  apply Z.ltb_lt. exact Hmany.
Qed.

End Ranking.
Section Leaderboard.

Variable E : oracle.

Lemma py_eq_refl_hashable (x : json) : hashable x = true -> py_eq x x = true.
Proof.
  destruct x; try discriminate; intros _; simpl.
  - reflexivity.
  - destruct b; reflexivity.
  - apply Z.eqb_refl.
  - apply String.eqb_refl.
Qed.

Lemma agg_add_keys (uid : json) (score : Z) (agg : list (json * (Z * Z))) :
  map fst (agg_add uid score agg)
  = if existsb (fun p => py_eq (fst p) uid) agg then map fst agg
    else map fst agg ++ [uid].
Proof.
  induction agg as [|[k [total count]] agg IH]; [reflexivity|].
  cbn [agg_add existsb fst]. destruct (py_eq k uid); [reflexivity|].
  cbn [map fst orb]. rewrite IH.
  destruct (existsb (fun p => py_eq (fst p) uid) agg); reflexivity.
Qed.

Lemma agg_add_ok (uid : json) (score : Z) (agg : list (json * (Z * Z))) :
  hashable uid = true -> agg_ok agg -> agg_ok (agg_add uid score agg).
Proof.
  intros Hh [Hall Hpairs]. induction agg as [|[k [total count]] agg IH].
  - split; [constructor; [split; [exact Hh | cbn; lia] | constructor]|].
    constructor; constructor.
  - inversion Hall as [|? ? [Hk Hcount] Hall']; subst.
    inversion Hpairs as [|? ? Hfirst Hpairs']; subst.
    cbn [agg_add]. destruct (py_eq k uid) eqn:Hku.
    + split.
      * constructor; [split; [exact Hk | cbn in *; lia] | exact Hall'].
      * constructor; [|exact Hpairs'].
        eapply Forall_impl; [|exact Hfirst]. intros q Hq. exact Hq.
    + destruct (IH Hall' Hpairs') as [Hall2 Hpairs2].
      split; [constructor; [split; assumption | exact Hall2]|].
      constructor; [|exact Hpairs2].
      (* the keys after the head are the old ones, and maybe uid *)
      apply Forall_forall. intros q Hq.
      assert (Hkey : In (fst q) (map fst (agg_add uid score agg)))
        by (apply in_map; exact Hq).
      rewrite agg_add_keys in Hkey.
      assert (Hold : forall key, In key (map fst agg) -> py_eq k key = false).
      { intros key Hin. apply in_map_iff in Hin as (p & <- & Hp).
        rewrite Forall_forall in Hfirst. exact (Hfirst p Hp). }
      destruct (existsb (fun p => py_eq (fst p) uid) agg).
      * exact (Hold _ Hkey).
      * apply in_app_or in Hkey as [Hkey | [<- | []]]; [exact (Hold _ Hkey) | exact Hku].
Qed.

Lemma aggregate_ok (acts : list json) (agg agg' : list (json * (Z * Z))) :
  aggregate E acts agg = Some agg' -> agg_ok agg -> agg_ok agg'.
Proof.
  revert agg. induction acts as [|a acts IH]; intros agg H Hok.
  - injection H as <-. exact Hok.
  - cbn [aggregate] in H.
    destruct (py_get a "userId") as [uid|]; [|discriminate]. cbn [obind] in H.
    destruct (hashable uid) eqn:Hh; [|discriminate].
    destruct (obind (py_get_or a "lastScore" (JInt 0)) (py_int E)) as [score|];
      [|discriminate].
    cbn [obind] in H. apply (IH _ H). apply agg_add_ok; assumption.
Qed.

Lemma agg_keys_nodup (agg : list (json * (Z * Z))) :
  agg_ok agg -> NoDup (map fst agg).
Proof.
  intros [Hall Hpairs]. induction agg as [|p agg IH]; [constructor|].
  inversion Hall as [|? ? [Hp _] Hall']; subst.
  inversion Hpairs as [|? ? Hfirst Hpairs']; subst.
  cbn [map]. constructor; [|exact (IH Hall' Hpairs')].
  intros Hin. apply in_map_iff in Hin as (q & Heq & Hq).
  rewrite Forall_forall in Hfirst. specialize (Hfirst q Hq).
  rewrite Heq, (py_eq_refl_hashable _ Hp) in Hfirst. discriminate.
Qed.

(** What the rows hold: the key of [agg] as userId, a number as avgScore,
    the count as completed. *)
Lemma leaderboard_rows_fields (store : json) (agg : list (json * (Z * Z)))
    (rows : list json) :
  leaderboard_rows store agg = Some rows ->
  map (fun r => field r "userId") rows = map fst agg /\
  map (fun r => field r "completed") rows = map (fun p => JInt (snd (snd p))) agg /\
  Forall (fun r => exists n, py_item r "avgScore" = Some (JInt n) /\
                             field r "avgScore" = JInt n) rows.
Proof.
  revert rows. induction agg as [|[uid [total count]] agg IH]; intros rows H.
  - injection H as <-. repeat split; constructor.
  - cbn [leaderboard_rows] in H.
    destruct (py_avg total count) as [avg|]; [|discriminate]. cbn [obind] in H.
    destruct (obind (store_list store "users") (first_with "userId" uid)) as [user|];
      [|discriminate].
    cbn [obind] in H.
    destruct (display_of user uid) as [display|]; [|discriminate]. cbn [obind] in H.
    destruct (leaderboard_rows store agg) as [rest|]; [|discriminate].
    injection H as <-. destruct (IH rest eq_refl) as (H1 & H2 & H3).
    split; [cbn [map]; rewrite H1; reflexivity|].
    split; [cbn [map]; rewrite H2; reflexivity|].
    constructor; [exists avg; split; reflexivity | exact H3].
Qed.

Lemma sorted_firstn {A} (R : A -> A -> Prop) (n : nat) (l : list A) :
  Sorted R l -> Sorted R (firstn n l).
Proof.
  revert n. induction l as [|x l IH]; intros n Hs; [rewrite firstn_nil; constructor|].
  destruct n as [|n]; [constructor|].
  inversion Hs as [|? ? Hs' Hhd]; subst. cbn [firstn]. constructor; [apply IH; exact Hs'|].
  destruct l as [|y l]; [rewrite firstn_nil; constructor|].
  destruct n as [|n]; [constructor|]. cbn [firstn]. constructor.
  inversion Hhd; subst. assumption.
Qed.

Lemma nodup_firstn {A} (n : nat) (l : list A) : NoDup l -> NoDup (firstn n l).
Proof.
  revert n. induction l as [|x l IH]; intros n Hn; [rewrite firstn_nil; constructor|].
  destruct n as [|n]; [constructor|].
  inversion Hn as [|? ? Hx Hn']; subst. cbn [firstn]. constructor; [|apply IH; exact Hn'].
  intros Hin. apply Hx. revert Hin. clear. revert n.
  induction l as [|y l IHl]; intros n Hin; [rewrite firstn_nil in Hin; exact Hin|].
  destruct n as [|n]; [destruct Hin|]. cbn [firstn] in Hin.
  destruct Hin as [-> | Hin]; [left; reflexivity | right; exact (IHl _ Hin)].
Qed.

Lemma py_take_firstn (n : Z) (xs : list json) : exists k, py_take n xs = firstn k xs.
Proof. unfold py_take. destruct (0 <=? n); eauto. Qed.

(** X27.  Whenever [get_leaderboard] returns, it has left the store as it
    was, and its rows are ranked by avgScore, highest first, hold at most
    top_n rows when top_n is not negative, carry every user id at most
    once, and count at least one completed activity each. *)
Theorem get_leaderboard_ranked (top_n : Z) (w w' : world) (rows : list json) :
  get_leaderboard E top_n w = Some (rows, w') ->
  w' = w /\
  (0 <= top_n -> Z.of_nat (List.length rows) <= top_n) /\
  Sorted (ranks_before "avgScore") rows /\
  NoDup (map (fun r => field r "userId") rows) /\
  Forall (fun r => exists n, field r "completed" = JInt n /\ 1 <= n) rows.
Proof.
  intros H. unfold get_leaderboard in H.
  unfold bind at 1 in H. rewrite read_store_current in H.
  unfold bind at 1, lift at 1 in H.
  destruct (obind (store_list (current_doc w) "activities") (filterM scored))
    as [acts|]; [|discriminate].
  unfold bind at 1, lift at 1 in H.
  destruct (aggregate E acts []) as [agg|] eqn:Hagg; [|discriminate].
  unfold bind at 1, lift at 1 in H.
  destruct (leaderboard_rows (current_doc w) agg) as [all_rows|] eqn:Hrows; [|discriminate].
  assert (Hok : agg_ok agg).
  { apply (aggregate_ok _ _ _ Hagg). split; constructor. }
  destruct (leaderboard_rows_fields _ _ _ Hrows) as (Hids & Hcounts & Havg).
  destruct (py_sorted_desc_ranked "avgScore" all_rows Havg)
    as (ranked & Hsort & Hperm & Hsorted).
  unfold bind at 1, lift at 1 in H. rewrite Hsort in H.
  unfold ret in H. injection H as <- <-.
  split; [reflexivity|].
  assert (Hnodup : NoDup (map (fun r => field r "userId") ranked)).
  { eapply Permutation_NoDup; [apply Permutation_map; exact Hperm|].
    rewrite Hids. apply agg_keys_nodup. exact Hok. }
  assert (Hcompleted : Forall (fun r => exists n, field r "completed" = JInt n /\ 1 <= n)
                              ranked).
  { eapply Permutation_Forall; [exact Hperm|].
    destruct Hok as [Hall _]. clear -Hcounts Hall.
    revert all_rows Hcounts. induction agg as [|p agg IH]; intros all_rows Hcounts.
    - destruct all_rows; [constructor | discriminate].
    - destruct all_rows as [|r all_rows]; [discriminate|].
      cbn [map] in Hcounts. injection Hcounts as Hr Hrest.
      inversion Hall as [|? ? [_ Hc] Hall']; subst.
      constructor; [eexists; split; [exact Hr | exact Hc] | exact (IH Hall' _ Hrest)]. }
  split.
  { intros Hn. unfold py_take. apply Z.leb_le in Hn. rewrite Hn.
    pose proof (firstn_le_length (Z.to_nat top_n) ranked). apply Z.leb_le in Hn. lia. }
  destruct (py_take_firstn top_n ranked) as [k ->].
  split; [apply sorted_firstn; exact Hsorted|].
  split.
  { rewrite <- firstn_map. apply nodup_firstn. exact Hnodup. }
  apply Forall_forall. intros r Hr.
  rewrite Forall_forall in Hcompleted. apply Hcompleted.
  clear -Hr. revert k Hr. induction ranked as [|x l IH]; intros k Hr;
    [rewrite firstn_nil in Hr; exact Hr|].
  destruct k as [|k]; [destruct Hr|]. cbn [firstn] in Hr.
  destruct Hr as [-> | Hr]; [left; reflexivity | right; exact (IH _ Hr)].
Qed.

End Leaderboard.
Section NewPaths.

Variable E : oracle.

(** X28.  [create_learning_path] stores the path, with progress 0 and
    current milestone 0 and the milestones as given, after the paths
    there are; [get_learning_paths] then returns for the path's user that
    user's earlier paths followed by the new one, and for any other user
    what it returned before. *)
Theorem create_learning_path_listed (user_id career_field milestones : json)
    (store : dict) (paths : list json) (w : world) :
  current_doc w = JDict store ->
  holds_list store "learning_paths" paths ->
  all_dicts paths = true ->
  exists path w',
    create_learning_path E user_id career_field milestones w = Some (path, w') /\
    field path "userId" = user_id /\
    field path "milestones" = milestones /\
    field path "progress" = JInt 0 /\
    field path "currentMilestone" = JInt 0 /\
    collection w' "learning_paths" = Some (paths ++ [path]) /\
    forall who,
      get_learning_paths who w = Some (filter (has_id "userId" who) paths, w) /\
      get_learning_paths who w'
      = Some (filter (has_id "userId" who) paths
              ++ (if py_eq user_id who then [path] else []), w').
Proof.
  intros Hs Hl Hd.
  destruct (holds_list_get _ _ _ Hl) as [_ Hlist].
  set (path := JDict [("pathId", JStr (uuid4 E (tick w))); ("userId", user_id);
                      ("careerField", career_field); ("milestones", milestones);
                      ("progress", JInt 0); ("currentMilestone", JInt 0);
                      ("createdAt", JStr (utcnow E (S (tick w))))]).
  set (doc := JDict (dict_set store "learning_paths" (JList (paths ++ [path])))).
  assert (Hrun : create_learning_path E user_id career_field milestones w
                 = Some (path, mkWorld (Stored doc) (S (S (tick w))) (Wrote doc :: trace w))).
  { unfold create_learning_path. unfold bind at 1. rewrite read_store_current, Hs.
    unfold bind at 1, lift at 1. cbn [py_in].
    unfold holds_list in Hl. unfold dict_has.
    destruct (dict_get store "learning_paths") as [v|] eqn:Hv.
    - subst v. unfold bind at 1, ret at 1.
      unfold bind at 1, fresh at 1. unfold bind at 1, fresh at 1. cbn [tick disk trace].
      unfold bind at 1, lift at 1. cbn [py_item]. rewrite Hv. cbn [obind py_append].
      unfold bind at 1, lift at 1. cbn [py_setitem]. reflexivity.
    - subst paths. unfold bind at 1, lift at 1. cbn [py_setitem].
      unfold bind at 1, fresh at 1. unfold bind at 1, fresh at 1. cbn [tick disk trace].
      unfold bind at 1, lift at 1. cbn [py_item]. rewrite dict_get_set_same.
      cbn [obind py_append].
      unfold bind at 1, lift at 1. cbn [py_setitem]. rewrite dict_set_set. reflexivity. }
  assert (Hc' : collection (mkWorld (Stored doc) (S (S (tick w))) (Wrote doc :: trace w))
                           "learning_paths" = Some (paths ++ [path]))
    by (unfold collection, current_doc; cbn [disk]; apply store_list_set).
  exists path. eexists. split; [exact Hrun|].
  do 4 (split; [reflexivity|]).
  split; [exact Hc'|].
  intros who. unfold get_learning_paths. split.
  - apply records_with_run; [unfold collection; rewrite Hs; exact Hlist | exact Hd].
  - rewrite (records_with_run _ _ _ _ _ Hc') by (rewrite all_dicts_app, Hd; reflexivity).
    rewrite filter_app. cbn [filter]. unfold has_id at 2. cbn [path field dict_get].
    cbn [String.eqb Ascii.eqb Bool.eqb andb].
    destruct (py_eq user_id who); reflexivity.
Qed.

End NewPaths.

Lemma create_learning_path_listed_witness :
  exists path w',
    create_learning_path demo_oracle (JStr "u2") (JStr "Design")
      (JList [JDict [("title", JStr "Sketch")]]) (world0 demo_site) = Some (path, w') /\
    field path "userId" = JStr "u2" /\
    field path "milestones" = JList [JDict [("title", JStr "Sketch")]] /\
    field path "progress" = JInt 0 /\
    field path "currentMilestone" = JInt 0 /\
    collection w' "learning_paths" = Some ([demo_path] ++ [path]) /\
    forall who,
      get_learning_paths who (world0 demo_site)
      = Some (filter (has_id "userId" who) [demo_path], world0 demo_site) /\
      get_learning_paths who w'
      = Some (filter (has_id "userId" who) [demo_path]
              ++ (if py_eq (JStr "u2") who then [path] else []), w').
Proof.
  apply (create_learning_path_listed demo_oracle (JStr "u2") (JStr "Design")
           (JList [JDict [("title", JStr "Sketch")]]) demo_site_record [demo_path]
           (world0 demo_site)); reflexivity.
Defined.

Lemma create_admin_script_one_admin_per_email_witness :
  (exists admin w',
     create_admin_script demo_oracle demo_hash ["y"] (world0 demo_site) = Some (tt, w') /\
     collection w' "admins" = Some ([] ++ [admin]) /\
     field admin "email" = JStr "admin@virtualcareercounselor.com" /\
     field admin "passwordHash" = JStr (demo_hash "admin123") /\
     field admin "name" = JStr "System Administrator") /\
  create_admin_script demo_oracle demo_hash ["n"; "ops@example.org"; "secret"; "Ops"; "n"]
    (world0 demo_board) = Some (tt, world0 demo_board) /\
  exists a' w',
    create_admin_script demo_oracle demo_hash ["n"; "ops@example.org"; "secret"; "Ops"; "Y"]
      (world0 demo_board) = Some (tt, w') /\
    collection w' "admins" = Some ([demo_admin "ad1" "root@example.org"] ++ a' :: []) /\
    field a' "passwordHash" = JStr (demo_hash "secret") /\
    ("Ops" <> "" -> field a' "name" = JStr "Ops") /\
    ("Ops" = "" -> field a' "name" = field (demo_admin "ad2" "ops@example.org") "name") /\
    forall k, k <> "passwordHash" -> k <> "name" ->
              field a' k = field (demo_admin "ad2" "ops@example.org") k.
Proof.
  split; [|split].
  - apply (create_admin_script_one_admin_per_email demo_oracle demo_hash ["y"] []
             "admin@virtualcareercounselor.com" "admin123" "System Administrator"
             demo_site_record [] (world0 demo_site)); reflexivity.
  - apply (proj2 (create_admin_script_one_admin_per_email demo_oracle demo_hash
                    ["n"; "ops@example.org"; "secret"; "Ops"; "n"] ["n"]
                    "ops@example.org" "secret" "Ops" demo_board_record demo_admins
                    (world0 demo_board) eq_refl eq_refl eq_refl eq_refl)
                 [demo_admin "ad1" "root@example.org"]
                 (demo_admin "ad2" "ops@example.org") [] "n" []);
      try reflexivity.
    discriminate.
  - apply (proj2 (create_admin_script_one_admin_per_email demo_oracle demo_hash
                    ["n"; "ops@example.org"; "secret"; "Ops"; "Y"] ["Y"]
                    "ops@example.org" "secret" "Ops" demo_board_record demo_admins
                    (world0 demo_board) eq_refl eq_refl eq_refl eq_refl)
                 [demo_admin "ad1" "root@example.org"]
                 (demo_admin "ad2" "ops@example.org") [] "Y" []);
      reflexivity.
Defined.

Lemma update_portfolio_merges_witness :
  exists w' user',
    update_portfolio demo_oracle (JStr "u1") [("projects", JList [JStr "blog"])]
      (world0 demo_site)
    = Some (JDict (dict_update [] [("projects", JList [JStr "blog"])]), w') /\
    get_portfolio (JStr "u1") w'
    = Some (JDict (dict_update [] [("projects", JList [JStr "blog"])]), w') /\
    get_user (JStr "u1") w' = Some (user', w') /\
    (forall k, k <> "portfolio" ->
               field (field user' "profile") k
               = field (JDict [("targetRole", JStr "Math Teacher")]) k) /\
    forall k, dict_get (dict_update [] [("projects", JList [JStr "blog"])]) k
              = match dict_get [("projects", JList [JStr "blog"])] k with
                | Some v => Some v
                | None => dict_get [] k
                end.
Proof.
  apply (update_portfolio_merges demo_oracle "u1" [("projects", JList [JStr "blog"])]
           demo_members demo_member_record [("targetRole", JStr "Math Teacher")] []
           (world0 demo_site)); try reflexivity.
  constructor; [intros [] | constructor].
Defined.

Lemma find_mentors_ranks_candidates_witness :
  exists ranked,
    find_mentors lower (JStr "u1") JNull (world0 demo_board)
    = Some (firstn 10 ranked, world0 demo_board) /\
    Permutation (map (mentor_row demo_done_activities)
                     (filter (mentor_candidate lower (JStr "u1") "math teacher"
                                               demo_done_activities) demo_members))
                ranked /\
    Sorted (ranks_before "matchScore") ranked /\
    forall u, In u demo_members ->
              has_id "userId" (JStr "u1") u = false ->
              mentor_role lower u = Some "" ->
              5 < Z.of_nat (List.length (completed_of demo_done_activities u)) ->
              In (mentor_row demo_done_activities u) ranked.
Proof.
  apply (find_mentors_ranks_candidates lower "u1" JNull "math teacher" demo_members
           demo_done_activities demo_member_record (world0 demo_board));
    try reflexivity.
  repeat constructor; discriminate.
Defined.

Lemma get_leaderboard_ranked_witness :
  exists rows,
    get_leaderboard demo_oracle 1 (world0 demo_board) = Some (rows, world0 demo_board) /\
    map (fun r => field r "userId") rows = [JStr "u1"] /\
    (0 <= 1 -> Z.of_nat (List.length rows) <= 1) /\
    Sorted (ranks_before "avgScore") rows /\
    NoDup (map (fun r => field r "userId") rows) /\
    Forall (fun r => exists n, field r "completed" = JInt n /\ 1 <= n) rows.
Proof.
  eexists. split; [vm_compute; reflexivity|].
  split; [reflexivity|].
  refine (proj2 (get_leaderboard_ranked demo_oracle 1 (world0 demo_board)
                   (world0 demo_board) _ _)).
  vm_compute. reflexivity.
Defined.
